(** * Finansista: market-data resilience layer and performance series

    A shallow embedding of the backend services of the portfolio tracker
    (provider chain, quote / history / FX / symbol caches and the daily
    performance series builder) together with the properties the
    specification states about them.

    Conventions of the embedding.
    - JavaScript strings are modelled by [string], which holds the UTF-8
      bytes of the text; the text the services compare and order
      (tickers, market codes, ISO dates, SQL datetimes) is ASCII, for
      which JavaScript's code-unit order, SQLite's BINARY collation and
      [String.compare] agree.
    - JavaScript numbers that carry prices, rates and quantities are IEEE
      binary64 values ([float]); time values are integers ([Z],
      milliseconds since the epoch).
    - An [async] function is a state transformer that either completes
      normally or throws; the state is the SQLite database, the outside
      world reached by the providers, and a trace of provider calls. *)

From Stdlib Require Import String Ascii List ZArith Bool Lia Floats.
Import ListNotations.
Local Open Scope string_scope.
Local Open Scope list_scope.

Set Implicit Arguments.

(* ===================================================================== *)
(** * JavaScript values, errors and completions *)
(* ===================================================================== *)

(** Classes of [Error] objects the services distinguish. *)
Inductive ErrorClass : Type :=
| ProviderErrorClass   (* class ProviderError extends Error (providers/base.ts) *)
| RangeErrorClass      (* thrown by Date.prototype.toISOString on an invalid date *)
| OtherErrorClass.     (* any other Error: TypeError of fetch, SyntaxError of JSON, ... *)

(** What a [throw] (or a rejected promise) carries: the catch variable is
    typed [unknown], so it is either an [Error] instance or any other value. *)
Inductive JsThrown : Type :=
| ErrorObject (cls : ErrorClass) (message : string)
| NonErrorValue (v : string).

Definition instanceofError (e : JsThrown) : bool :=
  match e with ErrorObject _ _ => true | NonErrorValue _ => false end.

Definition instanceofProviderError (e : JsThrown) : bool :=
  match e with ErrorObject ProviderErrorClass _ => true | _ => false end.

(** [new ProviderError(message)] *)
Definition newProviderError (message : string) : JsThrown :=
  ErrorObject ProviderErrorClass message.

Inductive Completion (A : Type) : Type :=
| Normal (a : A)
| Throw (e : JsThrown).
Arguments Normal {A} a.
Arguments Throw {A} e.

(** An asynchronous computation over a state [S]. *)
Definition Async (S A : Type) : Type := S -> Completion A * S.

Definition ret {S A} (a : A) : Async S A := fun s => (Normal a, s).
Definition throw {S A} (e : JsThrown) : Async S A := fun s => (Throw e, s).
Definition bind {S A B} (m : Async S A) (k : A -> Async S B) : Async S B :=
  fun s => match m s with
           | (Normal a, s') => k a s'
           | (Throw e, s') => (Throw e, s')
           end.
(** [try { m } catch (error) { handler error }] *)
Definition tryCatch {S A} (m : Async S A) (handler : JsThrown -> Async S A) : Async S A :=
  fun s => match m s with
           | (Normal a, s') => (Normal a, s')
           | (Throw e, s') => handler e s'
           end.
Definition gets {S A} (f : S -> A) : Async S A := fun s => (Normal (f s), s).
Definition modify {S} (f : S -> S) : Async S unit := fun s => (Normal tt, f s).

Declare Scope async_scope.
Delimit Scope async_scope with async.
Notation "x <- m ;; k" := (bind m (fun x => k))
  (at level 100, m at next level, right associativity) : async_scope.
Notation "m ;;; k" := (bind m (fun _ => k))
  (at level 100, right associativity) : async_scope.
Local Open Scope async_scope.

(** [await Promise.all(xs.map(f))], the callbacks run in list order. *)
Fixpoint mapAsync {S A B} (f : A -> Async S B) (xs : list A) : Async S (list B) :=
  match xs with
  | [] => ret []
  | x :: rest => y <- f x ;; ys <- mapAsync f rest ;; ret (y :: ys)
  end.

(** JavaScript [a || b] on strings: the empty string is falsy. *)
Definition orElse (a b : string) : string := if a =? "" then b else a.
(** [a || b] when [a] may be [undefined] or [null]. *)
Definition optOrElse (a : option string) (b : string) : string :=
  match a with Some s => orElse s b | None => b end.

(** The upper-case form of an ASCII letter. *)
Definition upperAscii (c : ascii) : ascii :=
  let n := nat_of_ascii c in
  if andb (Nat.leb 97 n) (Nat.leb n 122) then ascii_of_nat (n - 32) else c.

(** The text whose UTF-8 bytes are [codes]. *)
Definition utf8 (codes : list nat) : string :=
  fold_right (fun n s => String (ascii_of_nat n) s) EmptyString codes.

(** The characters outside ASCII whose upper-case form is ASCII text:
    U+00DF (sharp s), U+0131 (dotless i), U+017F (long s) and the
    ligatures U+FB00 to U+FB06, each with its upper-case form. *)
Definition upperCasedToAscii : list (string * string) :=
  [ (utf8 [195; 159], "SS"); (utf8 [196; 177], "I"); (utf8 [197; 191], "S");
    (utf8 [239; 172; 128], "FF"); (utf8 [239; 172; 129], "FI");
    (utf8 [239; 172; 130], "FL"); (utf8 [239; 172; 131], "FFI");
    (utf8 [239; 172; 132], "FFL"); (utf8 [239; 172; 133], "ST");
    (utf8 [239; 172; 134], "ST") ].

(** [s.startsWith(p)] *)
Fixpoint startsWith (p s : string) : bool :=
  match p, s with
  | EmptyString, _ => true
  | String a p', String b s' => Ascii.eqb a b && startsWith p' s'
  | String _ _, EmptyString => false
  end.

(** The character of [upperCasedToAscii] that [s] starts with, if any: the
    number of its bytes and its upper-case form. *)
Definition upperCasedAt (s : string) : option (nat * string) :=
  option_map (fun entry => (String.length (fst entry), snd entry))
             (find (fun entry => startsWith (fst entry) s) upperCasedToAscii).

(** [String.prototype.toUpperCase].  The letters a to z become A to Z, and
    a character outside ASCII whose upper-case form is ASCII text becomes
    that text, so that comparing an upper-cased string with ASCII text (a
    market code, a provider name) comes out as in JavaScript.  The other
    characters outside ASCII, whose upper-case forms lie outside ASCII as
    well, are left as they are.  [skip] counts the bytes still to pass
    over of a character that has been replaced. *)
Fixpoint toUpperCase_from (skip : nat) (s : string) : string :=
  match s with
  | EmptyString => EmptyString
  | String c rest =>
      match skip with
      | S more => toUpperCase_from more rest
      | O =>
          match upperCasedAt s with
          | Some (bytes, upper) => upper ++ toUpperCase_from (bytes - 1) rest
          | None => String (upperAscii c) (toUpperCase_from 0 rest)
          end
      end
  end.

Definition toUpperCase (s : string) : string := toUpperCase_from 0 s.

(** [s.includes(c)] for a one-character needle. *)
Fixpoint includesChar (c : ascii) (s : string) : bool :=
  match s with
  | EmptyString => false
  | String d rest => if Ascii.eqb c d then true else includesChar c rest
  end.

(** [new Set([...]).has(x)] *)
Definition setHas (xs : list string) (x : string) : bool :=
  existsb (String.eqb x) xs.

(* ===================================================================== *)
(** * providers/base.ts *)
(* ===================================================================== *)

Record SymbolSearchParams := {
  ssp_ticker : string;
  ssp_market : string
}.

Record SymbolSearchResult := {
  ssr_ticker : string;
  ssr_market : string;
  ssr_name : option string;
  ssr_currency : option string;
  ssr_exchange : option string
}.

Record QuoteResult := {
  qr_price : float;
  qr_currency : option string;
  qr_asOf : string
}.

Record HistoryPoint := {
  hp_date : string;
  hp_price : float;
  hp_currency : option string
}.

Record ExchangeRateParams := {
  erp_base : string;
  erp_quote : string
}.

Record ExchangeRateResult := {
  err_rate : float
}.

Record HistoryParams := {
  hpar_ticker : string;
  hpar_market : string;
  hpar_from : string;
  hpar_to : string;
  hpar_interval : string
}.

(** A provider method is a network call: it acts on the outside world [W]
    only and either returns or rejects. *)
Definition Remote (W A : Type) : Type := W -> Completion A * W.

(** [abstract class MarketDataProvider] *)
Record MarketDataProvider (W : Type) := {
  name : string;
  searchSymbol : SymbolSearchParams -> Remote W (option SymbolSearchResult);
  getQuote : SymbolSearchParams -> Remote W QuoteResult;
  getHistory_ : HistoryParams -> Remote W (list HistoryPoint);
  getExchangeRate : ExchangeRateParams -> Remote W ExchangeRateResult
}.

(* ===================================================================== *)
(** * services/marketDataService.ts: the provider chain *)
(* ===================================================================== *)

Section FetchWithProviders.
Context {W S T : Type}.
Variable task : MarketDataProvider W -> Async S T.

(** The [for] loop of [fetchWithProviders] with its [lastError] variable,
    followed by the two [throw] statements after the loop. *)
Fixpoint fetchWithProviders_from (lastError : option JsThrown)
         (providers : list (MarketDataProvider W))
  : Async S (MarketDataProvider W * T) :=
  match providers with
  | [] =>
      match lastError with
      | Some (ErrorObject cls message) => throw (ErrorObject cls message)
      | _ => throw (newProviderError "No providers configured")
      end
  | provider :: rest =>
      fun s => match task provider s with
               | (Normal result, s') => (Normal (provider, result), s')
               | (Throw error, s') => fetchWithProviders_from (Some error) rest s'
               end
  end.
End FetchWithProviders.

Definition fetchWithProviders {W S T} (providers : list (MarketDataProvider W))
           (task : MarketDataProvider W -> Async S T)
  : Async S (MarketDataProvider W * T) :=
  fetchWithProviders_from task None providers.

(** A spy around a task: it appends the provider to a log each time the
    task is invoked on it, and otherwise behaves like the task. *)
Definition spied {W S T} (task : MarketDataProvider W -> Async S T)
  : MarketDataProvider W -> Async (S * list (MarketDataProvider W)) T :=
  fun provider sl =>
    let (r, s') := task provider (fst sl) in (r, (s', snd sl ++ [provider])).

(** [AllThrow task ps s e0 s' e]: starting in [s] with [lastError = e0], the
    task throws on every provider of [ps] in turn, ending in [s'] with
    [lastError = e]. *)
Inductive AllThrow {W S T} (task : MarketDataProvider W -> Async S T)
  : list (MarketDataProvider W) -> S -> option JsThrown -> S -> option JsThrown -> Prop :=
| AllThrow_nil : forall s e, AllThrow task [] s e s e
| AllThrow_cons : forall p ps s s1 s2 e0 e1 e2,
    task p s = (Throw e1, s1) ->
    AllThrow task ps s1 (Some e1) s2 e2 ->
    AllThrow task (p :: ps) s e0 s2 e2.

(** What [fetchWithProviders] throws once the chain is exhausted. *)
Definition raisedAfter (lastError : option JsThrown) : JsThrown :=
  match lastError with
  | Some e => if instanceofError e then e else newProviderError "No providers configured"
  | None => newProviderError "No providers configured"
  end.

(* ===================================================================== *)
(** * JavaScript [Map] and SQL row selection *)
(* ===================================================================== *)

Section JsMap.
Context {K V : Type}.
Variable keyEqb : K -> K -> bool.

(** A [Map<K, V>] as its entries; [set] overwrites the entry of an
    existing key in place and appends a new key. *)
Definition JsMap : Type := list (K * V).

Fixpoint mapSet (k : K) (v : V) (m : JsMap) : JsMap :=
  match m with
  | [] => [(k, v)]
  | (k', v') :: rest =>
      if keyEqb k' k then (k, v) :: rest else (k', v') :: mapSet k v rest
  end.

Fixpoint mapGet (k : K) (m : JsMap) : option V :=
  match m with
  | [] => None
  | (k', v') :: rest => if keyEqb k' k then Some v' else mapGet k rest
  end.

Definition mapHas (k : K) (m : JsMap) : bool :=
  match mapGet k m with Some _ => true | None => false end.

(** [new Map(entries)] *)
Definition mapOfEntries (entries : list (K * V)) : JsMap :=
  fold_left (fun m kv => mapSet (fst kv) (snd kv) m) entries [].
End JsMap.

Section RowSelection.
Context {A : Type}.
(** [le a b]: the sort key of [a] is at most the sort key of [b]. *)
Variable le : A -> A -> bool.

(** [ORDER BY key DESC LIMIT 1] over rows that SQLite sorts itself (USE
    TEMP B-TREE FOR ORDER BY): a row whose key is greatest, and of
    several such rows the one met first.  [rows] are the rows in the order
    in which the scan meets them. *)
Fixpoint greatest_from (best : A) (rows : list A) : A :=
  match rows with
  | [] => best
  | r :: rest => greatest_from (if le r best then best else r) rest
  end.

Definition greatest (rows : list A) : option A :=
  match rows with
  | [] => None
  | r :: rest => Some (greatest_from r rest)
  end.

(** [ORDER BY key DESC LIMIT 1] answered by walking an index on the key
    backwards: index entries of equal key are in rowid order, so of
    several rows with the greatest key the one of greatest rowid, the one
    inserted last, is returned.  [rows] are the rows in rowid order. *)
Definition greatestLast (rows : list A) : option A := greatest (rev rows).

(** [ORDER BY key] (ascending), and the order in which an index on the key
    is scanned, rows of equal key staying in rowid order: a stable
    insertion sort. *)
Fixpoint insertRow (x : A) (sorted : list A) : list A :=
  match sorted with
  | [] => [x]
  | y :: rest => if le x y then x :: sorted else y :: insertRow x rest
  end.

Definition orderBy (rows : list A) : list A := fold_right insertRow [] rows.

(** [INSERT OR REPLACE]: rows that collide with the new row on the
    table's UNIQUE key are deleted, the new row is added with a fresh
    rowid (every table has an AUTOINCREMENT id). *)
Definition insertOrReplace (sameKey : A -> A -> bool) (row : A) (table : list A) : list A :=
  filter (fun r => negb (sameKey r row)) table ++ [row].
End RowSelection.

(** JavaScript [rows[rows.length - 1]] *)
Definition lastRow {A} (rows : list A) : option A := List.last (map Some rows) None.

(* ===================================================================== *)
(** * config/markets.ts *)
(* ===================================================================== *)

Inductive MarketRegion : Type := US | UK | EU | CRYPTO.
Inductive AssetType : Type := equity | crypto.

Record MarketDefinition := {
  code : string;
  label : string;
  region : MarketRegion;
  assetType : AssetType;
  providerExchange : string;
  currency : string;
  defaultQuote : option string;
  aliases : option (list string);
  notes : option string
}.

Definition isCrypto (t : AssetType) : bool :=
  match t with crypto => true | equity => false end.

Definition equityMarket (c l : string) (r : MarketRegion) (cur : string)
           (al : option (list string)) : MarketDefinition :=
  {| code := c; label := l; region := r; assetType := equity;
     providerExchange := c; currency := cur;
     defaultQuote := None; aliases := al; notes := None |}.

Definition SUPPORTED_MARKETS : list MarketDefinition :=
  [ equityMarket "NASDAQ" "NASDAQ (US)" US "USD" None;
    equityMarket "NYSE" "NYSE (US)" US "USD" None;
    equityMarket "AMEX" "NYSE American (AMEX)" US "USD" None;
    equityMarket "XLON" "London Stock Exchange (XLON)" UK "GBP" (Some ["LSE"]);
    equityMarket "XWAR" "Warsaw Stock Exchange (XWAR/GPW)" EU "PLN" (Some ["GPW"]);
    equityMarket "XETR" "XETRA (Germany)" EU "EUR" None;
    equityMarket "XPAR" "Euronext Paris (XPAR)" EU "EUR" None;
    equityMarket "XAMS" "Euronext Amsterdam (XAMS)" EU "EUR" None;
    equityMarket "XBRU" "Euronext Brussels (XBRU)" EU "EUR" None;
    equityMarket "XMIL" "Euronext Milan (XMIL)" EU "EUR" None;
    equityMarket "XMAD" "Bolsa de Madrid (XMAD)" EU "EUR" None;
    equityMarket "XLIS" "Euronext Lisbon (XLIS)" EU "EUR" None;
    {| code := "BINANCE"; label := "Binance (Crypto)"; region := CRYPTO;
       assetType := crypto; providerExchange := "Binance"; currency := "USD";
       defaultQuote := Some "USDT"; aliases := None;
       notes := Some "Use pairs like BTC/USDT; BTC will default to BTC/USDT." |} ].

(** The module-level loop that fills [marketIndex] from a market table. *)
Definition indexMarkets (markets : list MarketDefinition) : JsMap (K := string) (V := MarketDefinition) :=
  fold_left
    (fun index market =>
       fold_left
         (fun index alias => mapSet String.eqb (toUpperCase alias) market index)
         (match aliases market with Some al => al | None => [] end)
         (mapSet String.eqb (toUpperCase (code market)) market index))
    markets [].

Definition marketIndex : JsMap (K := string) (V := MarketDefinition) :=
  indexMarkets SUPPORTED_MARKETS.

Definition getMarketDefinition (marketCode : string) : option MarketDefinition :=
  mapGet String.eqb (toUpperCase marketCode) marketIndex.

Definition getSupportedMarkets : list MarketDefinition := SUPPORTED_MARKETS.

(** [getMarketDefinition(market)?.currency || 'USD'] *)
Definition marketCurrencyOf (market : string) : string :=
  match getMarketDefinition market with
  | Some definition => orElse (currency definition) "USD"
  | None => "USD"
  end.

(* ===================================================================== *)
(** * db/schema.sql: the tables *)
(* ===================================================================== *)

Record HoldingRow := {
  h_id : Z;
  h_portfolio_id : Z;
  h_ticker : string;
  h_market : string;
  h_buy_date : string;
  h_buy_price : float;
  h_quantity : float;
  h_created_at : string
}.

Record SymbolRow := {
  ms_ticker : string;
  ms_market : string;
  ms_name : option string;
  ms_currency : option string;
  ms_exchange : option string;
  ms_provider : string;
  ms_last_verified_at : string
}.

Record QuoteRow := {
  qc_ticker : string;
  qc_market : string;
  qc_price : float;
  qc_currency : option string;
  qc_as_of : string;
  qc_source : string;
  qc_fetched_at : string;
  qc_expires_at : string
}.

Record HistoryRow := {
  ph_ticker : string;
  ph_market : string;
  ph_interval : string;
  ph_price : float;
  ph_currency : option string;
  ph_date : string;
  ph_source : string;
  ph_fetched_at : string
}.

Record FxRow := {
  fx_base : string;
  fx_quote : string;
  fx_rate : float;
  fx_source : string;
  fx_fetched_at : string;
  fx_expires_at : string
}.

(** The database: every table in rowid order. *)
Record Db := {
  holdings : list HoldingRow;
  market_symbols : list SymbolRow;
  quote_cache : list QuoteRow;
  price_history : list HistoryRow;
  fx_rates : list FxRow
}.

Definition emptyDb : Db :=
  {| holdings := []; market_symbols := []; quote_cache := [];
     price_history := []; fx_rates := [] |}.

Definition withMarketSymbols (rows : list SymbolRow) (d : Db) : Db :=
  {| holdings := holdings d; market_symbols := rows; quote_cache := quote_cache d;
     price_history := price_history d; fx_rates := fx_rates d |}.
Definition withQuoteCache (rows : list QuoteRow) (d : Db) : Db :=
  {| holdings := holdings d; market_symbols := market_symbols d; quote_cache := rows;
     price_history := price_history d; fx_rates := fx_rates d |}.
Definition withPriceHistory (rows : list HistoryRow) (d : Db) : Db :=
  {| holdings := holdings d; market_symbols := market_symbols d; quote_cache := quote_cache d;
     price_history := rows; fx_rates := fx_rates d |}.
Definition withFxRates (rows : list FxRow) (d : Db) : Db :=
  {| holdings := holdings d; market_symbols := market_symbols d; quote_cache := quote_cache d;
     price_history := price_history d; fx_rates := rows |}.

(** A JavaScript number bound to a REAL column: [NaN] is bound as NULL
    ([None]), and SQLite keeps [-0] as [0]. *)
Definition sqlReal (x : float) : option float :=
  if PrimFloat.is_nan x then None
  else if PrimFloat.is_zero x then Some 0%float
  else Some x.

(** The [SqliteError] of a statement that puts NULL in a NOT NULL column
    without a default; [INSERT OR REPLACE] aborts on it. *)
Definition notNullFailed (column : string) : JsThrown :=
  ErrorObject OtherErrorClass ("NOT NULL constraint failed: " ++ column).

(** UNIQUE constraints of the schema. *)
Definition sameSymbolKey (a b : SymbolRow) : bool :=
  (ms_ticker a =? ms_ticker b) && (ms_market a =? ms_market b)
  && (ms_provider a =? ms_provider b).
Definition sameQuoteKey (a b : QuoteRow) : bool :=
  (qc_ticker a =? qc_ticker b) && (qc_market a =? qc_market b)
  && (qc_source a =? qc_source b) && (qc_as_of a =? qc_as_of b).
Definition sameHistoryKey (a b : HistoryRow) : bool :=
  (ph_ticker a =? ph_ticker b) && (ph_market a =? ph_market b)
  && (ph_source a =? ph_source b) && (ph_interval a =? ph_interval b)
  && (ph_date a =? ph_date b).
Definition sameFxKey (a b : FxRow) : bool :=
  (fx_base a =? fx_base b) && (fx_quote a =? fx_quote b)
  && (fx_source a =? fx_source b).

(* ===================================================================== *)
(** * The runtime outside the repository, and the service state *)
(* ===================================================================== *)

(** What the services read from their environment: SQLite's clock, the
    JavaScript clock and date parser, the process environment, and the
    network behind the currency-only provider. *)
Class Runtime (W : Type) := {
  (** SQLite [datetime('now')] *)
  datetime_now : W -> string;
  (** SQLite [datetime('now', modifier)]; [None] is NULL, the value of a
      modifier SQLite does not accept (['+NaN seconds']) or of a date out
      of its range *)
  datetime_now_modified : W -> string -> option string;
  (** the time value of [new Date()] *)
  Date_now : W -> Z;
  (** [Date.parse] on strings outside the ECMAScript date-only format,
      where the engine falls back to its own heuristics; [None] is [NaN] *)
  Date_parse_fallback : string -> option Z;
  (** [new Date(last_verified_at) < cutoff] in [getCachedValidation], where
      [cutoff] is the local-time [new Date()] moved back by
      VALIDATION_TTL_DAYS days *)
  validationExpired : W -> string -> bool;
  (** the decimal text of [Number(process.env.QUOTE_TTL_SECONDS || 60)] *)
  quoteTtlSeconds : string;
  (** the decimal text of [Number(process.env.FX_TTL_SECONDS || 3600)] *)
  fxTtlSeconds : string;
  (** [FrankfurterProvider.getExchangeRate], a [fetch] of api.frankfurter.dev *)
  frankfurterExchangeRate : ExchangeRateParams -> Remote W ExchangeRateResult
}.

(** A provider method invocation, as recorded in the trace. *)
Inductive ProviderCall : Type :=
| CallSearchSymbol (provider : string) (params : SymbolSearchParams)
| CallGetQuote (provider : string) (params : SymbolSearchParams)
| CallGetHistory (provider : string) (params : HistoryParams)
| CallGetExchangeRate (provider : string) (params : ExchangeRateParams).

Record State (W : Type) := {
  db : Db;
  world : W;
  calls : list ProviderCall
}.

Section StateOps.
Context {W : Type}.

(** Awaiting a provider method: the call is recorded, the world moves. *)
Definition invoke {A} (call : ProviderCall) (method : Remote W A) : Async (State W) A :=
  fun s =>
    let (r, w') := method (world s) in
    (r, {| db := db s; world := w'; calls := calls s ++ [call] |}).

(** A synchronous database read. *)
Definition query {A} (q : Db -> W -> A) : Async (State W) A :=
  fun s => (Normal (q (db s) (world s)), s).

(** A synchronous database write. *)
Definition execute (stmt : Db -> W -> Db) : Async (State W) unit :=
  fun s => (Normal tt, {| db := stmt (db s) (world s); world := world s; calls := calls s |}).

(** A synchronous database write that a constraint can abort: the
    statement throws and leaves the database as it was, or it completes
    with the new database. *)
Definition executeOrThrow (stmt : Db -> W -> Completion Db) : Async (State W) unit :=
  fun s =>
    match stmt (db s) (world s) with
    | Normal d => (Normal tt, {| db := d; world := world s; calls := calls s |})
    | Throw e => (Throw e, s)
    end.
End StateOps.
(* ===================================================================== *)
(** * services/marketDataService.ts: quote and history caches *)
(* ===================================================================== *)

(** The object [getLatestQuote] resolves to.  The fresh-cache branch
    spreads the whole row ([{ ...cached, cached: true }]), so only it
    carries [fetched_at] and [expires_at]. *)
Record LatestQuote := {
  lq_price : float;
  lq_currency : option string;
  lq_as_of : string;
  lq_source : string;
  lq_fetched_at : option string;
  lq_expires_at : option string;
  lq_cached : bool
}.

Record HistoryResult := {
  hr_rows : list HistoryPoint;
  hr_source : string
}.

(** The object [getLatestHistoryPrice] returns. *)
Record HistoryPrice := {
  lhp_price : float;
  lhp_currency : option string;
  lhp_as_of : string;
  lhp_source : string
}.

Definition quoteOfRow (row : QuoteRow) : LatestQuote :=
  {| lq_price := qc_price row; lq_currency := qc_currency row;
     lq_as_of := qc_as_of row; lq_source := qc_source row;
     lq_fetched_at := Some (qc_fetched_at row);
     lq_expires_at := Some (qc_expires_at row);
     lq_cached := true |}.

Definition pointOfRow (row : HistoryRow) : HistoryPoint :=
  {| hp_date := ph_date row; hp_price := ph_price row; hp_currency := ph_currency row |}.

Definition STOOQ : string := "STOOQ".

Definition resolveExchange (market : string) : string :=
  match getMarketDefinition market with
  | Some definition => orElse (providerExchange definition) market
  | None => market
  end.

Definition stooqMarkets : list string :=
  ["NASDAQ"; "NYSE"; "AMEX"; "XWAR"; "GPW"; "XLON"; "XETR"].
Definition preferStooq : list string := ["XWAR"; "GPW"; "XLON"; "XETR"].

Section ProviderOrder.
Context {W : Type}.

Definition isStooq (p : MarketDataProvider W) : bool := name p =? STOOQ.

(** [[...ps].sort((a, b) => a.name === 'STOOQ' ? -1 : b.name === 'STOOQ' ? 1 : 0)]:
    the sort is stable and the comparator puts STOOQ before every other
    provider and leaves the others unordered, so STOOQ moves to the
    front and the rest keeps its order.  This is the sorted array when at
    most one provider is named STOOQ.  With two of them the comparator
    answers -1 both ways, it is not a consistent comparator and the
    language leaves the order of the array to the implementation; the
    function below then stands for one such order only, and the
    properties that depend on the order assume a single STOOQ. *)
Definition stooqFirst (ps : list (MarketDataProvider W)) : list (MarketDataProvider W) :=
  filter isStooq ps ++ filter (fun p => negb (isStooq p)) ps.

Definition filterProvidersForMarket (providers : list (MarketDataProvider W))
           (market : string) : list (MarketDataProvider W) :=
  let normalized := toUpperCase market in
  let filtered :=
    filter (fun provider =>
              if name provider =? STOOQ then setHas stooqMarkets normalized else true)
           providers in
  if setHas preferStooq normalized then stooqFirst filtered else filtered.
End ProviderOrder.

(** ** Queries *)

Definition quoteKeyIs (ticker market : string) (r : QuoteRow) : bool :=
  (qc_ticker r =? ticker) && (qc_market r =? market).

Definition byExpiresAt (a b : QuoteRow) : bool :=
  String.leb (qc_expires_at a) (qc_expires_at b).

(** [ORDER BY as_of DESC, fetched_at DESC] *)
Definition byAsOfThenFetchedAt (a b : QuoteRow) : bool :=
  String.ltb (qc_as_of a) (qc_as_of b)
  || ((qc_as_of a =? qc_as_of b) && String.leb (qc_fetched_at a) (qc_fetched_at b)).

(** [WHERE ticker = ? AND market = ? AND expires_at > datetime('now')
     ORDER BY expires_at DESC LIMIT 1], answered by walking
    [quote_cache_lookup_idx (ticker, market, expires_at)] backwards. *)
Definition selectCachedQuote (ticker market now : string) (table : list QuoteRow)
  : option QuoteRow :=
  greatestLast byExpiresAt
    (filter (fun r => quoteKeyIs ticker market r && String.ltb now (qc_expires_at r)) table).

(** [WHERE ticker = ? AND market = ? ORDER BY as_of DESC, fetched_at DESC LIMIT 1].
    The rows of the key are found through
    [quote_cache_lookup_idx (ticker, market, expires_at)], hence met by
    ascending [expires_at] and then rowid, and sorted by SQLite. *)
Definition selectStaleQuote (ticker market : string) (table : list QuoteRow)
  : option QuoteRow :=
  greatest byAsOfThenFetchedAt
    (orderBy byExpiresAt (filter (quoteKeyIs ticker market) table)).

Definition byDate (a b : HistoryRow) : bool := String.leb (ph_date a) (ph_date b).

Definition historyKeyIs (ticker market interval : string) (r : HistoryRow) : bool :=
  (ph_ticker r =? ticker) && (ph_market r =? market) && (ph_interval r =? interval).

(** [x BETWEEN a AND b] on TEXT *)
Definition between (a b x : string) : bool := String.leb a x && String.leb x b.

(** [WHERE ticker = ? AND market = ? AND interval = ? AND date BETWEEN ? AND ?
     ORDER BY date], read off
    [price_history_lookup_idx (ticker, market, interval, date)]. *)
Definition selectHistoryRows (ticker market interval from to : string)
           (table : list HistoryRow) : list HistoryRow :=
  orderBy byDate
    (filter (fun r => historyKeyIs ticker market interval r && between from to (ph_date r))
            table).

(** [WHERE ticker = ? AND market = ? AND interval = '1d' ORDER BY date DESC LIMIT 1],
    answered by walking [price_history_lookup_idx] backwards. *)
Definition selectLatestHistory (ticker market : string) (table : list HistoryRow)
  : option HistoryRow :=
  greatestLast byDate (filter (historyKeyIs ticker market "1d") table).

Definition getHistoryRows_db (ticker market interval from to : string) (d : Db)
  : list HistoryPoint :=
  map pointOfRow (selectHistoryRows ticker market interval from to (price_history d)).

(** [getCachedHistory] on a database: the rows of the range, or [null]. *)
Definition getCachedHistory_db (ticker market interval from to : string) (d : Db)
  : option (list HistoryPoint) :=
  let rows := getHistoryRows_db ticker market interval from to d in
  match rows with
  | [] => None
  | first :: _ =>
      let earliest := hp_date first in
      match lastRow rows with
      | None => None
      | Some final =>
          let latest := hp_date final in
          if String.leb earliest from && String.leb to latest then Some rows else None
      end
  end.

Definition getLatestHistoryPrice_db (ticker market : string) (d : Db)
  : option HistoryPrice :=
  match selectLatestHistory ticker market (price_history d) with
  | None => None
  | Some row =>
      Some {| lhp_price := ph_price row; lhp_currency := ph_currency row;
              lhp_as_of := ph_date row; lhp_source := ph_source row |}
  end.

(** One [insertMany] transaction on the [price_history] table, one
    statement per record, [now] being [datetime('now')]: the table after
    the transaction, or [None] when a statement fails (a price that is
    [NaN]) and the transaction is rolled back. *)
Fixpoint cacheHistoryRows_db (ticker market interval : string)
         (rows : list HistoryPoint) (source now : string) (table : list HistoryRow)
  : option (list HistoryRow) :=
  match rows with
  | [] => Some table
  | row :: rest =>
      match sqlReal (hp_price row) with
      | None => None
      | Some price =>
          cacheHistoryRows_db ticker market interval rest source now
            (insertOrReplace sameHistoryKey
               {| ph_ticker := ticker; ph_market := market; ph_interval := interval;
                  ph_price := price; ph_currency := hp_currency row;
                  ph_date := hp_date row; ph_source := source; ph_fetched_at := now |}
               table)
      end
  end.

Section MarketDataService.
Context {W : Type} `{Runtime W}.

Definition getCachedQuote (ticker market : string) : Async (State W) (option QuoteRow) :=
  query (fun d w => selectCachedQuote ticker market (datetime_now w) (quote_cache d)).

Definition getStaleQuote (ticker market : string) : Async (State W) (option QuoteRow) :=
  query (fun d _ => selectStaleQuote ticker market (quote_cache d)).

Definition cacheQuote (ticker market : string) (price : float)
           (currency_ : option string) (asOf source : string) : Async (State W) unit :=
  executeOrThrow (fun d w =>
    match sqlReal price with
    | None => Throw (notNullFailed "quote_cache.price")
    | Some stored =>
        match datetime_now_modified w ("+" ++ quoteTtlSeconds ++ " seconds") with
        | None => Throw (notNullFailed "quote_cache.expires_at")
        | Some expires =>
            Normal
              (withQuoteCache
                 (insertOrReplace sameQuoteKey
                    {| qc_ticker := ticker; qc_market := market; qc_price := stored;
                       qc_currency := currency_; qc_as_of := asOf; qc_source := source;
                       qc_fetched_at := datetime_now w; qc_expires_at := expires |}
                    (quote_cache d))
                 d)
        end
    end).

Definition getHistoryRows (ticker market interval from to : string)
  : Async (State W) (list HistoryPoint) :=
  query (fun d _ => getHistoryRows_db ticker market interval from to d).

Definition getCachedHistory (ticker market interval from to : string)
  : Async (State W) (option (list HistoryPoint)) :=
  query (fun d _ => getCachedHistory_db ticker market interval from to d).

Definition getLatestHistoryPrice (ticker market : string)
  : Async (State W) (option HistoryPrice) :=
  query (fun d _ => getLatestHistoryPrice_db ticker market d).

Definition cacheHistoryRows (ticker market interval : string)
           (rows : list HistoryPoint) (source : string) : Async (State W) unit :=
  executeOrThrow (fun d w =>
    match cacheHistoryRows_db ticker market interval rows source (datetime_now w)
                              (price_history d) with
    | Some table => Normal (withPriceHistory table d)
    | None => Throw (notNullFailed "price_history.price")
    end).

(** The task [getLatestQuote] hands to the chain. *)
Definition quoteTask (ticker exchange : string) (p : MarketDataProvider W)
  : Async (State W) QuoteResult :=
  let params := {| ssp_ticker := ticker; ssp_market := exchange |} in
  invoke (CallGetQuote (name p) params) (getQuote p params).

Definition getLatestQuote (ticker market : string)
           (providers : list (MarketDataProvider W)) (forceRefresh : bool)
  : Async (State W) LatestQuote :=
  cached <- (if forceRefresh then ret None else getCachedQuote ticker market) ;;
  match cached with
  | Some row => ret (quoteOfRow row)
  | None =>
      let marketProviders := filterProvidersForMarket providers market in
      let exchange := resolveExchange market in
      tryCatch
        (pr <- fetchWithProviders marketProviders (quoteTask ticker exchange) ;;
         let (provider, result) := pr in
         cacheQuote ticker market (qr_price result) (qr_currency result)
                    (qr_asOf result) (name provider) ;;;
         ret {| lq_price := qr_price result; lq_currency := qr_currency result;
                lq_as_of := qr_asOf result; lq_source := name provider;
                lq_fetched_at := None; lq_expires_at := None;
                lq_cached := false |})
        (fun error =>
           stale <- getStaleQuote ticker market ;;
           match stale with
           | Some row =>
               ret {| lq_price := qc_price row; lq_currency := qc_currency row;
                      lq_as_of := qc_as_of row; lq_source := qc_source row;
                      lq_fetched_at := None; lq_expires_at := None;
                      lq_cached := true |}
           | None =>
               history <- getLatestHistoryPrice ticker market ;;
               match history with
               | Some h =>
                   ret {| lq_price := lhp_price h; lq_currency := lhp_currency h;
                          lq_as_of := lhp_as_of h;
                          lq_source := orElse (lhp_source h) "HISTORY";
                          lq_fetched_at := None; lq_expires_at := None;
                          lq_cached := true |}
               | None => throw error
               end
           end)
  end.

(** The task [getHistory] hands to the chain. *)
Definition historyTask (ticker exchange from to interval : string)
           (p : MarketDataProvider W) : Async (State W) (list HistoryPoint) :=
  let params := {| hpar_ticker := ticker; hpar_market := exchange;
                   hpar_from := from; hpar_to := to; hpar_interval := interval |} in
  invoke (CallGetHistory (name p) params) (getHistory_ p params).

Definition getHistory (ticker market from to interval : string)
           (providers : list (MarketDataProvider W)) (forceRefresh : bool)
  : Async (State W) HistoryResult :=
  cached <- (if forceRefresh then ret None
             else getCachedHistory ticker market interval from to) ;;
  match cached with
  | Some rows => ret {| hr_rows := rows; hr_source := "CACHE" |}
  | None =>
      let marketProviders := filterProvidersForMarket providers market in
      let exchange := resolveExchange market in
      pr <- fetchWithProviders marketProviders
              (historyTask ticker exchange from to interval) ;;
      let (provider, result) := pr in
      cacheHistoryRows ticker market interval result (name provider) ;;;
      reread <- getCachedHistory ticker market interval from to ;;
      let rows := match reread with Some rows => rows | None => result end in
      ret {| hr_rows := rows; hr_source := name provider |}
  end.
End MarketDataService.
(* ===================================================================== *)
(** * services/validationService.ts *)
(* ===================================================================== *)

(** The [symbol] member of a validation result: a cached row, or the
    provider's result with ticker and market normalized. *)
Record SymbolInfo := {
  si_ticker : string;
  si_market : string;
  si_name : option string;
  si_currency : option string;
  si_exchange : option string;
  si_provider : option string;
  si_last_verified_at : option string
}.

(** The object [validateSymbol] resolves to; absent members are [None]. *)
Record ValidationResult := {
  valid : bool;
  source : string;
  reason : option string;
  supported_markets : option (list MarketDefinition);
  symbol : option SymbolInfo;
  normalized : option (string * string)
}.

Definition symbolKeyIs (ticker market : string) (r : SymbolRow) : bool :=
  (ms_ticker r =? ticker) && (ms_market r =? market).

Definition byLastVerifiedAt (a b : SymbolRow) : bool :=
  String.leb (ms_last_verified_at a) (ms_last_verified_at b).

(** [WHERE ticker = ? AND market = ? ORDER BY last_verified_at DESC LIMIT 1].
    The rows of the key are found through
    [market_symbols_lookup_idx (ticker, market)], hence met in rowid order,
    and sorted by SQLite. *)
Definition selectSymbol (ticker market : string) (table : list SymbolRow)
  : option SymbolRow :=
  greatest byLastVerifiedAt (filter (symbolKeyIs ticker market) table).

(** [existing?.name ?? name] *)
Definition nameToStore (existing : option SymbolRow) (name_ : option string)
  : option string :=
  match existing with
  | Some row => match ms_name row with Some n => Some n | None => name_ end
  | None => name_
  end.

(** [cacheValidation] on the [market_symbols] table, [now] being
    [datetime('now')]. *)
Definition cacheValidation_db (ticker market : string) (name_ currency_ exchange : option string)
           (provider now : string) (table : list SymbolRow) : list SymbolRow :=
  let existing := selectSymbol ticker market table in
  insertOrReplace sameSymbolKey
    {| ms_ticker := ticker; ms_market := market;
       ms_name := nameToStore existing name_;
       ms_currency := currency_; ms_exchange := exchange;
       ms_provider := provider; ms_last_verified_at := now |}
    table.

Definition normalizeTicker (ticker market : string) : string :=
  match getMarketDefinition market with
  | Some marketDefinition =>
      if isCrypto (assetType marketDefinition) && negb (includesChar "/"%char ticker)
      then ticker ++ "/" ++ optOrElse (defaultQuote marketDefinition) "USD"
      else ticker
  | None => ticker
  end.

Definition infoOfRow (row : SymbolRow) : SymbolInfo :=
  {| si_ticker := ms_ticker row; si_market := ms_market row; si_name := ms_name row;
     si_currency := ms_currency row; si_exchange := ms_exchange row;
     si_provider := Some (ms_provider row);
     si_last_verified_at := Some (ms_last_verified_at row) |}.

Section ValidationService.
Context {W : Type} `{Runtime W}.

Definition getCachedValidation (ticker market : string)
  : Async (State W) (option SymbolRow) :=
  query (fun d w =>
    match selectSymbol ticker market (market_symbols d) with
    | None => None
    | Some row =>
        if validationExpired w (ms_last_verified_at row) then None else Some row
    end).

Definition cacheValidation (ticker market : string) (name_ currency_ exchange : option string)
           (provider : string) : Async (State W) unit :=
  execute (fun d w =>
    withMarketSymbols
      (cacheValidation_db ticker market name_ currency_ exchange provider
         (datetime_now w) (market_symbols d))
      d).

Definition orderProvidersForMarket (providers : list (MarketDataProvider W))
           (market : string) : list (MarketDataProvider W) :=
  let normalized := toUpperCase market in
  if negb (setHas preferStooq normalized) then providers else stooqFirst providers.

(** The [for] loop of [validateSymbol] with its [lastProvider] variable
    and the [return] after the loop. *)
Fixpoint validateSymbol_from (normalizedTicker normalizedMarket exchange : string)
         (lastProvider : string) (providers : list (MarketDataProvider W))
  : Async (State W) ValidationResult :=
  match providers with
  | [] =>
      ret {| valid := false; source := lastProvider; reason := Some "not_found";
             supported_markets := None; symbol := None;
             normalized := Some (normalizedTicker, normalizedMarket) |}
  | provider :: rest =>
      let params := {| ssp_ticker := normalizedTicker; ssp_market := exchange |} in
      fun s =>
        match invoke (CallSearchSymbol (name provider) params)
                     (searchSymbol provider params) s with
        | (Normal None, s') =>
            validateSymbol_from normalizedTicker normalizedMarket exchange
                                (name provider) rest s'
        | (Normal (Some result), s') =>
            (cacheValidation (toUpperCase (ssr_ticker result)) normalizedMarket
                             (ssr_name result) (ssr_currency result)
                             (ssr_exchange result) (name provider) ;;;
             ret {| valid := true; source := name provider; reason := None;
                    supported_markets := None;
                    symbol := Some {| si_ticker := toUpperCase (ssr_ticker result);
                                      si_market := normalizedMarket;
                                      si_name := ssr_name result;
                                      si_currency := ssr_currency result;
                                      si_exchange := ssr_exchange result;
                                      si_provider := None;
                                      si_last_verified_at := None |};
                    normalized := Some (normalizedTicker, normalizedMarket) |}) s'
        | (Throw error, s') =>
            if instanceofProviderError error
            then validateSymbol_from normalizedTicker normalizedMarket exchange
                                     (name provider) rest s'
            else (Throw error, s')
        end
  end.

Definition validateSymbol (ticker market : string)
           (providers : list (MarketDataProvider W))
  : Async (State W) ValidationResult :=
  match getMarketDefinition market with
  | None =>
      ret {| valid := false; source := "LOCAL"; reason := Some "unsupported_market";
             supported_markets := Some getSupportedMarkets; symbol := None;
             normalized := None |}
  | Some marketDefinition =>
      let normalizedMarket := toUpperCase (code marketDefinition) in
      let normalizedTicker := normalizeTicker (toUpperCase ticker) normalizedMarket in
      cached <- getCachedValidation normalizedTicker normalizedMarket ;;
      match cached with
      | Some row =>
          ret {| valid := true; source := "CACHE"; reason := None;
                 supported_markets := None; symbol := Some (infoOfRow row);
                 normalized := None |}
      | None =>
          validateSymbol_from normalizedTicker normalizedMarket
            (providerExchange marketDefinition) "UNKNOWN"
            (orderProvidersForMarket providers normalizedMarket)
      end
  end.
End ValidationService.

(* ===================================================================== *)
(** * services/fxService.ts and providers/frankfurter.ts *)
(* ===================================================================== *)

Definition fxKeyIs (base quote : string) (r : FxRow) : bool :=
  (fx_base r =? base) && (fx_quote r =? quote).

Definition byFxExpiresAt (a b : FxRow) : bool :=
  String.leb (fx_expires_at a) (fx_expires_at b).
Definition byFxFetchedAt (a b : FxRow) : bool :=
  String.leb (fx_fetched_at a) (fx_fetched_at b).

Section FxService.
Context {W : Type} `{Runtime W}.

Definition frankfurterOnlyFx {A} : Remote W A :=
  fun w => (Throw (newProviderError "Frankfurter only supports FX rates"), w).

(** [new FrankfurterProvider()] *)
Definition FrankfurterProvider : MarketDataProvider W :=
  {| name := "FRANKFURTER";
     searchSymbol := fun _ => frankfurterOnlyFx;
     getQuote := fun _ => frankfurterOnlyFx;
     getHistory_ := fun _ => frankfurterOnlyFx;
     getExchangeRate := frankfurterExchangeRate |}.

(** [WHERE base = ? AND quote = ? AND expires_at > datetime('now')
     ORDER BY expires_at DESC LIMIT 1], answered by walking
    [fx_rates_lookup_idx (base, quote, expires_at)] backwards. *)
Definition getCachedFxRate (base quote : string) : Async (State W) (option FxRow) :=
  query (fun d w =>
    greatestLast byFxExpiresAt
      (filter (fun r => fxKeyIs base quote r
                        && String.ltb (datetime_now w) (fx_expires_at r))
              (fx_rates d))).

(** [WHERE base = ? AND quote = ? ORDER BY fetched_at DESC LIMIT 1].  The
    rows of the pair are found through [fx_rates_lookup_idx], hence met by
    ascending [expires_at] and then rowid, and sorted by SQLite. *)
Definition getStaleFxRate (base quote : string) : Async (State W) (option FxRow) :=
  query (fun d _ =>
    greatest byFxFetchedAt (orderBy byFxExpiresAt (filter (fxKeyIs base quote) (fx_rates d)))).

Definition cacheFxRate (base quote : string) (rate : float) (source_ : string)
  : Async (State W) unit :=
  executeOrThrow (fun d w =>
    match sqlReal rate with
    | None => Throw (notNullFailed "fx_rates.rate")
    | Some stored =>
        match datetime_now_modified w ("+" ++ fxTtlSeconds ++ " seconds") with
        | None => Throw (notNullFailed "fx_rates.expires_at")
        | Some expires =>
            Normal
              (withFxRates
                 (insertOrReplace sameFxKey
                    {| fx_base := base; fx_quote := quote; fx_rate := stored;
                       fx_source := source_; fx_fetched_at := datetime_now w;
                       fx_expires_at := expires |}
                    (fx_rates d))
                 d)
        end
    end).

Definition fxTask (base quote : string) (p : MarketDataProvider W)
  : Async (State W) ExchangeRateResult :=
  let params := {| erp_base := base; erp_quote := quote |} in
  invoke (CallGetExchangeRate (name p) params) (getExchangeRate p params).

Definition getFxRate (base quote : string) (providers : list (MarketDataProvider W))
  : Async (State W) float :=
  if base =? quote then ret 1%float
  else
    cached <- getCachedFxRate base quote ;;
    match cached with
    | Some row => ret (fx_rate row)
    | None =>
        let fxProviders :=
          filter (fun p => negb (name p =? STOOQ)) providers ++ [FrankfurterProvider] in
        tryCatch
          (pr <- fetchWithProviders fxProviders (fxTask base quote) ;;
           let (provider, result) := pr in
           cacheFxRate base quote (err_rate result) (name provider) ;;;
           ret (err_rate result))
          (fun error =>
             stale <- getStaleFxRate base quote ;;
             match stale with
             | Some row => ret (fx_rate row)
             | None => throw error
             end)
    end.
End FxService.
(* ===================================================================== *)
(** * The JavaScript [Date] operations the services use *)
(* ===================================================================== *)

Local Open Scope Z_scope.

Definition msPerDay : Z := 86400000.

(** ECMAScript [Day(t)] and [TimeWithinDay(t)] *)
Definition Day (t : Z) : Z := t / msPerDay.
Definition TimeWithinDay (t : Z) : Z := t mod msPerDay.

(** ECMAScript [TimeClip]: a time value beyond 8.64e15 ms is [NaN]. *)
Definition TimeClip (t : Z) : option Z :=
  if Z.abs t <=? 8640000000000000 then Some t else None.

(** The proleptic Gregorian calendar: day number (days since 1970-01-01)
    to (year, month 1..12, day of month) and back. *)
Definition civil_from_days (z : Z) : Z * Z * Z :=
  let z := z + 719468 in
  let era := z / 146097 in
  let doe := z - era * 146097 in
  let yoe := (doe - doe / 1460 + doe / 36524 - doe / 146096) / 365 in
  let y := yoe + era * 400 in
  let doy := doe - (365 * yoe + yoe / 4 - yoe / 100) in
  let mp := (5 * doy + 2) / 153 in
  let d := doy - (153 * mp + 2) / 5 + 1 in
  let m := if mp <? 10 then mp + 3 else mp - 9 in
  (if m <=? 2 then y + 1 else y, m, d).

Definition days_from_civil (y m d : Z) : Z :=
  let y := if m <=? 2 then y - 1 else y in
  let era := y / 400 in
  let yoe := y - era * 400 in
  let doy := (153 * (if 2 <? m then m - 3 else m + 9) + 2) / 5 + d - 1 in
  let doe := yoe * 365 + yoe / 4 - yoe / 100 + doy in
  era * 146097 + doe - 719468.

Definition isLeapYear (y : Z) : bool :=
  (y mod 4 =? 0) && (negb (y mod 100 =? 0) || (y mod 400 =? 0)).

Definition daysInMonth (y m : Z) : Z :=
  if m =? 2 then (if isLeapYear y then 29 else 28)
  else if (m =? 4) || (m =? 6) || (m =? 9) || (m =? 11) then 30
  else 31.

(** ECMAScript [MakeDay(year, month, date)] for a month in 1..12: the day
    number of the first of the month, plus [date - 1]. *)
Definition MakeDay (y m dt : Z) : Z := days_from_civil y m 1 + dt - 1.

Definition getUTCDate (t : Z) : Z :=
  let '(_, _, d) := civil_from_days (Day t) in d.

(** [date.setUTCDate(dt)]: the new time value, [None] when it is [NaN]. *)
Definition setUTCDate (t dt : Z) : option Z :=
  let '(y, m, _) := civil_from_days (Day t) in
  TimeClip (MakeDay y m dt * msPerDay + TimeWithinDay t).

(** ** Decimal digits *)

Definition digitChar (n : Z) : ascii := ascii_of_nat (48 + Z.to_nat n).

Definition digitVal (c : ascii) : option Z :=
  let n := nat_of_ascii c in
  if (Nat.leb 48 n && Nat.leb n 57)%bool then Some (Z.of_nat (n - 48)) else None.

Definition pad2 (n : Z) : string :=
  String (digitChar (n / 10)) (String (digitChar (n mod 10)) "").
Definition pad3 (n : Z) : string :=
  String (digitChar (n / 100)) (pad2 (n mod 100)).
Definition pad4 (n : Z) : string :=
  String (digitChar (n / 1000)) (pad3 (n mod 1000)).
Definition pad6 (n : Z) : string :=
  String (digitChar (n / 100000)) (String (digitChar (n / 10000 mod 10)) (pad4 (n mod 10000))).

(** The year of the ECMAScript date-time format: four digits, or a sign
    and six digits outside 0..9999. *)
Definition isoYear (y : Z) : string :=
  if (0 <=? y) && (y <=? 9999) then pad4 y
  else if y <? 0 then String "-"%char (pad6 (- y))
  else String "+"%char (pad6 y).

(** [Date.prototype.toISOString] on a valid time value. *)
Definition toISOString (t : Z) : string :=
  let '(y, m, d) := civil_from_days (Day t) in
  let ms := TimeWithinDay t in
  (isoYear y ++ "-" ++ pad2 m ++ "-" ++ pad2 d ++ "T"
   ++ pad2 (ms / 3600000) ++ ":" ++ pad2 (ms / 60000 mod 60) ++ ":"
   ++ pad2 (ms / 1000 mod 60) ++ "." ++ pad3 (ms mod 1000) ++ "Z")%string.

(** [s.slice(0, 10)] *)
Definition slice10 (s : string) : string := substring 0 10 s.

(** ** Parsing *)

Definition digits2 (a b : ascii) : option Z :=
  match digitVal a, digitVal b with
  | Some x, Some y => Some (10 * x + y)
  | _, _ => None
  end.

Definition digits4 (a b c d : ascii) : option Z :=
  match digits2 a b, digits2 c d with
  | Some x, Some y => Some (100 * x + y)
  | _, _ => None
  end.

Definition digits6 (a b c d e f : ascii) : option Z :=
  match digits2 a b, digits4 c d e f with
  | Some x, Some y => Some (10000 * x + y)
  | _, _ => None
  end.

(** The time value of a calendar date, [None] for an illegal month or day. *)
Definition utcMidnight (y m d : Z) : option Z :=
  if (1 <=? m) && (m <=? 12) && (1 <=? d) && (d <=? daysInMonth y m)
  then TimeClip (days_from_civil y m d * msPerDay)
  else None.

(** After the year: nothing, [-MM] or [-MM-DD]. *)
Definition parseMonthDay (y : Z) (rest : list ascii) : option Z :=
  match rest with
  | [] => utcMidnight y 1 1
  | [dash; m1; m2] =>
      if Ascii.eqb dash "-" then
        match digits2 m1 m2 with Some m => utcMidnight y m 1 | None => None end
      else None
  | [dash; m1; m2; dash'; d1; d2] =>
      if Ascii.eqb dash "-" && Ascii.eqb dash' "-" then
        match digits2 m1 m2, digits2 d1 d2 with
        | Some m, Some d => utcMidnight y m d
        | _, _ => None
        end
      else None
  | _ => None
  end.

(** The date-only forms of the ECMAScript date-time string format
    ([YYYY], [YYYY-MM], [YYYY-MM-DD], the year possibly expanded to a sign
    and six digits), which every engine reads as UTC midnight. *)
Definition parseIsoDateOnly (s : string) : option Z :=
  match list_ascii_of_string s with
  | c1 :: c2 :: c3 :: c4 :: rest =>
      match digits4 c1 c2 c3 c4 with
      | Some y => parseMonthDay y rest
      | None =>
          match rest with
          | c5 :: c6 :: c7 :: rest' =>
              match digits6 c2 c3 c4 c5 c6 c7 with
              | Some y =>
                  if Ascii.eqb c1 "+" then parseMonthDay y rest'
                  else if Ascii.eqb c1 "-" && negb (y =? 0) then parseMonthDay (- y) rest'
                  else None
              | None => None
              end
          | _ => None
          end
      end
  | _ => None
  end.

Section DateObjects.
Context {W : Type} `{Runtime W}.

(** The time value of [new Date(s)]; [None] is an Invalid Date. *)
Definition Date_parse (s : string) : option Z :=
  match parseIsoDateOnly s with
  | Some t => Some t
  | None => Date_parse_fallback s
  end.

(** [current <= end] on two [Date] objects *)
Definition dateLe (current end_ : option Z) : bool :=
  match current, end_ with
  | Some c, Some e => c <=? e
  | _, _ => false
  end.

Definition normalizeDate {S} (date : string) : Async S string :=
  match Date_parse date with
  | Some t => ret (slice10 (toISOString t))
  | None => throw (ErrorObject RangeErrorClass "Invalid time value")
  end.

Definition todayIso (w : W) : string := slice10 (toISOString (Date_now w)).

(** The [while] loop of [createDateRange], at most [fuel] iterations;
    [None] when the loop has not finished by then. *)
Fixpoint createDateRange_loop (fuel : nat) (current end_ : option Z)
  : option (list string) :=
  match current, end_ with
  | Some c, Some e =>
      if c <=? e then
        match fuel with
        | O => None
        | S fuel' =>
            match createDateRange_loop fuel' (setUTCDate c (getUTCDate c + 1)) end_ with
            | Some dates => Some (slice10 (toISOString c) :: dates)
            | None => None
            end
        end
      else Some []
  | _, _ => Some []
  end.

(** A number of iterations the loop cannot exceed: every iteration moves
    [current] one day closer to [end]. *)
Definition createDateRange_fuel (current end_ : option Z) : nat :=
  match current, end_ with
  | Some c, Some e => Z.to_nat ((e - c) / msPerDay + 1)
  | _, _ => O
  end.

Definition createDateRange (from to : string) : list string :=
  let current := Date_parse from in
  let end_ := Date_parse to in
  match createDateRange_loop (createDateRange_fuel current end_) current end_ with
  | Some dates => dates
  | None => []
  end.
End DateObjects.

Local Close Scope Z_scope.
(* ===================================================================== *)
(** * services/portfolioService.ts: the performance series *)
(* ===================================================================== *)

Record PerformancePoint := {
  pp_date : string;
  pp_value : float
}.

(** The object [getPerformanceSeries] resolves to; [from] and [to] are
    [None] when they are [undefined]. *)
Record PerformanceSeries := {
  series : list PerformancePoint;
  ps_from : option string;
  ps_to : option string
}.

Definition PriceByDate : Type := JsMap (K := string) (V := float).
Definition RateCache : Type := JsMap (K := string) (V := float).

Definition byCreatedAtDesc (a b : HoldingRow) : bool :=
  String.leb (h_created_at b) (h_created_at a).

(** [WHERE portfolio_id = ? ORDER BY created_at DESC] *)
Definition listHoldings_db (portfolioId : Z) (d : Db) : list HoldingRow :=
  orderBy byCreatedAtDesc
    (filter (fun h => Z.eqb (h_portfolio_id h) portfolioId) (holdings d)).

(** [holdings.reduce((min, h) => h.buy_date < min ? h.buy_date : min, first)] *)
Definition earliestBuyDate (hs : list HoldingRow) (first : string) : string :=
  fold_left (fun min h => if String.ltb (h_buy_date h) min then h_buy_date h else min)
            hs first.

(** [Array.from(new Set(xs))]: first occurrences, in order. *)
Fixpoint distinct (xs : list string) : list string :=
  match xs with
  | [] => []
  | x :: rest => x :: filter (fun y => negb (y =? x)) (distinct rest)
  end.

(** [holding.buy_date > startDate ? holding.buy_date : startDate] *)
Definition fallbackDateOf (holding : HoldingRow) (startDate : string) : string :=
  if String.ltb startDate (h_buy_date holding) then h_buy_date holding else startDate.

(** The price map of a holding whose history was fetched; the anchor is
    set when [!earliest || earliest > fallbackDate]. *)
Definition priceMapOfRows (holding : HoldingRow) (startDate : string) (fxRate : float)
           (rows : list HistoryPoint) : PriceByDate :=
  let priceByDate :=
    mapOfEntries String.eqb
      (map (fun row => (hp_date row, PrimFloat.mul (hp_price row) fxRate)) rows) in
  let fallbackDate := fallbackDateOf holding startDate in
  let needsAnchor :=
    match rows with
    | [] => true
    | first :: _ => (hp_date first =? "") || String.ltb fallbackDate (hp_date first)
    end in
  if needsAnchor
  then mapSet String.eqb fallbackDate (PrimFloat.mul (h_buy_price holding) fxRate) priceByDate
  else priceByDate.

(** The price map of a holding whose history fetch failed. *)
Definition fallbackPriceMap (holding : HoldingRow) (startDate : string) (fxRate : float)
  : PriceByDate :=
  mapOfEntries String.eqb
    [(fallbackDateOf holding startDate, PrimFloat.mul (h_buy_price holding) fxRate)].

Definition HistoryMap : Type := JsMap (K := Z) (V := PriceByDate).
Definition LastKnown : Type := JsMap (K := Z) (V := float).

(** The body of [holdings.forEach] for one date: the running total and the
    last known prices after the holding has been visited. *)
Definition addHoldingValue (historyMap : HistoryMap) (rateCache : RateCache)
           (date : string) (acc : float * LastKnown) (holding : HoldingRow)
  : float * LastKnown :=
  let (total, lastKnown) := acc in
  if String.ltb date (h_buy_date holding) then (total, lastKnown)
  else
    let lastKnown' :=
      match mapGet Z.eqb (h_id holding) historyMap with
      | Some priceMap =>
          match mapGet String.eqb date priceMap with
          | Some p => mapSet Z.eqb (h_id holding) p lastKnown
          | None => lastKnown
          end
      | None => lastKnown
      end in
    let marketCurrency := marketCurrencyOf (h_market holding) in
    let rate := match mapGet String.eqb marketCurrency rateCache with
                | Some r => r | None => 1%float end in
    let price := match mapGet Z.eqb (h_id holding) lastKnown' with
                 | Some p => p
                 | None => PrimFloat.mul (h_buy_price holding) rate
                 end in
    (PrimFloat.add total (PrimFloat.mul price (h_quantity holding)), lastKnown').

(** The [for (const date of dates)] loop. *)
Fixpoint buildSeries (hs : list HoldingRow) (historyMap : HistoryMap)
         (rateCache : RateCache) (lastKnown : LastKnown) (dates : list string)
  : list PerformancePoint :=
  match dates with
  | [] => []
  | date :: rest =>
      let (total, lastKnown') :=
        fold_left (addHoldingValue historyMap rateCache date) hs (0%float, lastKnown) in
      {| pp_date := date; pp_value := total |}
        :: buildSeries hs historyMap rateCache lastKnown' rest
  end.

Section PortfolioService.
Context {W : Type} `{Runtime W}.

Definition listHoldings (portfolioId : Z) : Async (State W) (list HoldingRow) :=
  query (fun d _ => listHoldings_db portfolioId d).

(** The closure [resolveRate] of [getPerformanceSeries]; the [rateCache]
    it captures is passed in and handed back. *)
Definition resolveRate (normalizedBase : string) (providers : list (MarketDataProvider W))
           (rateCache : RateCache) (fromCurrency : string)
  : Async (State W) (float * RateCache) :=
  let normalizedFrom := toUpperCase fromCurrency in
  if normalizedFrom =? normalizedBase then ret (1%float, rateCache)
  else
    match mapGet String.eqb normalizedFrom rateCache with
    | Some rate => ret (rate, rateCache)
    | None =>
        rate <- getFxRate normalizedFrom normalizedBase providers ;;
        ret (rate, mapSet String.eqb normalizedFrom rate rateCache)
    end.

(** [await Promise.all(currencies.map(resolveRate))] *)
Fixpoint resolveRates (normalizedBase : string) (providers : list (MarketDataProvider W))
         (rateCache : RateCache) (currencies : list string)
  : Async (State W) RateCache :=
  match currencies with
  | [] => ret rateCache
  | c :: rest =>
      r <- resolveRate normalizedBase providers rateCache c ;;
      resolveRates normalizedBase providers (snd r) rest
  end.

(** The callback of [holdings.map] for one holding: its entry of
    [historyMap]. *)
Definition holdingHistory (normalizedBase : string)
           (providers : list (MarketDataProvider W)) (forceRefresh : bool)
           (startDate endDate : string) (rateCache : RateCache) (holding : HoldingRow)
  : Async (State W) (PriceByDate * RateCache) :=
  let marketCurrency := marketCurrencyOf (h_market holding) in
  r <- resolveRate normalizedBase providers rateCache marketCurrency ;;
  let (fxRate, rateCache') := r in
  tryCatch
    (res <- getHistory (h_ticker holding) (h_market holding) startDate endDate "1d"
                       providers forceRefresh ;;
     ret (priceMapOfRows holding startDate fxRate (hr_rows res), rateCache'))
    (fun _ => ret (fallbackPriceMap holding startDate fxRate, rateCache')).

(** [await Promise.all(holdings.map(async (holding) => ...))] *)
Fixpoint collectHistories (normalizedBase : string)
         (providers : list (MarketDataProvider W)) (forceRefresh : bool)
         (startDate endDate : string) (rateCache : RateCache)
         (historyMap : HistoryMap) (hs : list HoldingRow)
  : Async (State W) (HistoryMap * RateCache) :=
  match hs with
  | [] => ret (historyMap, rateCache)
  | holding :: rest =>
      r <- holdingHistory normalizedBase providers forceRefresh startDate endDate
                          rateCache holding ;;
      let (priceByDate, rateCache') := r in
      collectHistories normalizedBase providers forceRefresh startDate endDate rateCache'
                       (mapSet Z.eqb (h_id holding) priceByDate historyMap) rest
  end.

Definition getPerformanceSeries (portfolioId : Z) (from to : option string)
           (providers : list (MarketDataProvider W)) (baseCurrency : string)
           (forceRefresh : bool)
  : Async (State W) PerformanceSeries :=
  hs <- listHoldings portfolioId ;;
  match hs with
  | [] => ret {| series := []; ps_from := from; ps_to := to |}
  | first :: _ =>
      let earliestBuy := earliestBuyDate hs (h_buy_date first) in
      startDate <- normalizeDate (optOrElse from earliestBuy) ;;
      today <- gets (fun s => todayIso (world s)) ;;
      endDate <- normalizeDate (optOrElse to today) ;;
      let dates := createDateRange startDate endDate in
      let normalizedBase := toUpperCase baseCurrency in
      let currencies := distinct (map (fun h => marketCurrencyOf (h_market h)) hs) in
      rateCache <- resolveRates normalizedBase providers [] currencies ;;
      hm <- collectHistories normalizedBase providers forceRefresh startDate endDate
                             rateCache [] hs ;;
      let (historyMap, rateCache') := hm in
      ret {| series := buildSeries hs historyMap rateCache' [] dates;
             ps_from := Some startDate; ps_to := Some endDate |}
  end.
End PortfolioService.
(* ===================================================================== *)
(** * config/nameOverrides.ts *)
(* ===================================================================== *)

(** The object literal [NAME_OVERRIDES], market by market.  Its keys are
    looked up upper-cased, and no property that an object inherits has an
    upper-case name, so only the listed entries can be found. *)
Definition NAME_OVERRIDES
  : JsMap (K := string) (V := JsMap (K := string) (V := string)) :=
  [ ("XWAR",
     [ ("ABE", "AB S.A.");
       ("BFT", "Benefit Systems S.A.");
       ("CBF", "Cyber_Folks S.A.");
       ("CDR", "CD Projekt S.A.");
       ("COG", "Cognor Holding S.A.");
       ("DIG", "Digital Network S.A.");
       ("ETFBS80TR", "Beta sWIG80TR Portfelowy FIZ ETF");
       ("GPW", "Gielda Papierow Wartosciowych w Warszawie S.A.");
       ("KGH", "KGHM Polska Miedz S.A.");
       ("LPP", "LPP S.A.");
       ("PAS", "Passus S.A.");
       ("PEO", "Bank Polska Kasa Opieki S.A.");
       ("PGE", "PGE Polska Grupa Energetyczna S.A.");
       ("PKN", "Orlen S.A.");
       ("PZU", "Powszechny Zaklad Ubezpieczen S.A.");
       ("SNT", "Synektik S.A.");
       ("XTB", "XTB S.A.") ]);
    ("XETR",
     [ ("P500", "Invesco S&P 500 UCITS ETF");
       ("SPYL", "SPDR S&P 500 UCITS ETF (Acc)");
       ("VUAA", "Vanguard S&P 500 UCITS ETF (USD) Accumulating") ]);
    ("XLON",
     [ ("EGLN", "iShares Physical Gold ETC") ]) ].

(** [value || null] on a string that may be missing. *)
Definition truthy (value : option string) : option string :=
  match value with
  | Some v => if v =? "" then None else Some v
  | None => None
  end.

Definition getNameOverride (market ticker : string) : option string :=
  match mapGet String.eqb (toUpperCase market) NAME_OVERRIDES with
  | None => None
  | Some marketMap => truthy (mapGet String.eqb (toUpperCase ticker) marketMap)
  end.

(* ===================================================================== *)
(** * services/portfolioService.ts: the holdings table and symbol names *)
(* ===================================================================== *)

Definition withHoldingRows (rows : list HoldingRow) (d : Db) : Db :=
  {| holdings := rows; market_symbols := market_symbols d; quote_cache := quote_cache d;
     price_history := price_history d; fx_rates := fx_rates d |}.

(** The row [getCachedSymbolName] writes for an override. *)
Definition overrideRow (normalizedTicker normalizedMarket overrideName : string)
           (marketDefinition : option MarketDefinition) (now : string) : SymbolRow :=
  {| ms_ticker := normalizedTicker; ms_market := normalizedMarket;
     ms_name := Some overrideName;
     ms_currency := option_map currency marketDefinition;
     ms_exchange := option_map providerExchange marketDefinition;
     ms_provider := "OVERRIDE"; ms_last_verified_at := now |}.

Section HoldingsStore.
Context {W : Type} `{Runtime W}.

Definition getCachedSymbolName (ticker market : string)
  : Async (State W) (option string) :=
  let marketDefinition := getMarketDefinition market in
  let normalizedMarket :=
    match marketDefinition with
    | Some definition => toUpperCase (code definition)
    | None => toUpperCase market
    end in
  let normalizedTicker := toUpperCase ticker in
  row <- query (fun d _ => selectSymbol normalizedTicker normalizedMarket (market_symbols d)) ;;
  match truthy (match row with Some r => ms_name r | None => None end) with
  | Some cachedName => ret (Some cachedName)
  | None =>
      match getNameOverride normalizedMarket normalizedTicker with
      | None => ret None
      | Some overrideName =>
          execute (fun d w =>
            withMarketSymbols
              (insertOrReplace sameSymbolKey
                 (overrideRow normalizedTicker normalizedMarket overrideName
                              marketDefinition (datetime_now w))
                 (market_symbols d))
              d) ;;;
          ret (Some overrideName)
      end
  end.

(** [DELETE FROM holdings WHERE id = ? AND portfolio_id = ?], answering
    [result.changes > 0]. *)
Definition deleteHolding (id portfolioId : Z) : Async (State W) bool :=
  let doomed := fun h : HoldingRow =>
    Z.eqb (h_id h) id && Z.eqb (h_portfolio_id h) portfolioId in
  changes <- query (fun d _ => length (filter doomed (holdings d))) ;;
  execute (fun d _ => withHoldingRows (filter (fun h => negb (doomed h)) (holdings d)) d) ;;;
  ret (Nat.ltb 0 changes).
End HoldingsStore.

(* ===================================================================== *)
(** * services/validationService.ts: names for the holdings list *)
(* ===================================================================== *)

Definition TWELVE_DATA : string := "TWELVE_DATA".

Section SymbolNames.
Context {W : Type} `{Runtime W}.

Definition isTwelveData (p : MarketDataProvider W) : bool := name p =? TWELVE_DATA.

(** [[...ps].sort(...)] with a comparator that ranks TWELVE_DATA before
    every other provider and STOOQ after every other provider, and leaves
    the rest unordered: the stable sort moves TWELVE_DATA to the front and
    STOOQ to the back.  (The comparator is consistent as long as neither
    name occurs twice, which [createProviderChain] ensures.) *)
Definition orderProvidersForNames (ps : list (MarketDataProvider W))
  : list (MarketDataProvider W) :=
  filter isTwelveData ps
  ++ filter (fun p => negb (isTwelveData p) && negb (isStooq p)) ps
  ++ filter (fun p => negb (isTwelveData p) && isStooq p) ps.

(** The [for] loop of [resolveSymbolName] and the [return null] after it. *)
Fixpoint resolveSymbolName_from (normalizedTicker normalizedMarket exchange : string)
         (providers : list (MarketDataProvider W))
  : Async (State W) (option string) :=
  match providers with
  | [] => ret None
  | provider :: rest =>
      let params := {| ssp_ticker := normalizedTicker; ssp_market := exchange |} in
      fun s =>
        match invoke (CallSearchSymbol (name provider) params)
                     (searchSymbol provider params) s with
        | (Normal None, s') =>
            resolveSymbolName_from normalizedTicker normalizedMarket exchange rest s'
        | (Normal (Some result), s') =>
            match truthy (ssr_name result) with
            | None =>
                resolveSymbolName_from normalizedTicker normalizedMarket exchange rest s'
            | Some resultName =>
                (cacheValidation (toUpperCase (ssr_ticker result)) normalizedMarket
                                 (ssr_name result) (ssr_currency result)
                                 (ssr_exchange result) (name provider) ;;;
                 ret (Some resultName)) s'
            end
        | (Throw error, s') =>
            if instanceofProviderError error
            then resolveSymbolName_from normalizedTicker normalizedMarket exchange rest s'
            else (Throw error, s')
        end
  end.

Definition resolveSymbolName (ticker market : string)
           (providers : list (MarketDataProvider W))
  : Async (State W) (option string) :=
  match getMarketDefinition market with
  | None => ret None
  | Some marketDefinition =>
      let normalizedMarket := toUpperCase (code marketDefinition) in
      let normalizedTicker := normalizeTicker (toUpperCase ticker) normalizedMarket in
      cached <- getCachedValidation normalizedTicker normalizedMarket ;;
      match truthy (match cached with Some row => ms_name row | None => None end) with
      | Some cachedName => ret (Some cachedName)
      | None =>
          resolveSymbolName_from normalizedTicker normalizedMarket
            (providerExchange marketDefinition) (orderProvidersForNames providers)
      end
  end.
End SymbolNames.

(* ===================================================================== *)
(** * providers/index.ts and providers/stooq.ts *)
(* ===================================================================== *)

(** The two environment variables [createProviderChain] reads. *)
Record ProviderEnv := {
  PROVIDER : option string;
  TWELVE_DATA_API_KEY : option string
}.

Section ProviderChain.
Context {W : Type}.
(** [new TwelveDataProvider({ apiKey })] and [new StooqProvider()]: their
    methods reach the network; the chain only reads their names. *)
Variable newTwelveDataProvider : string -> MarketDataProvider W.
Variable newStooqProvider : MarketDataProvider W.

(** The loop that deduplicates by provider name, [seen] being the set of
    names met so far. *)
Fixpoint uniqueByName (seen : list string) (providers : list (MarketDataProvider W))
  : list (MarketDataProvider W) :=
  match providers with
  | [] => []
  | provider :: rest =>
      if setHas seen (name provider) then uniqueByName seen rest
      else provider :: uniqueByName (name provider :: seen) rest
  end.

Definition createProviderChain (env : ProviderEnv) : list (MarketDataProvider W) :=
  let primaryName := toUpperCase (optOrElse (PROVIDER env) "TWELVE_DATA") in
  let primary :=
    if primaryName =? "TWELVE_DATA" then
      match truthy (TWELVE_DATA_API_KEY env) with
      | Some apiKey => [newTwelveDataProvider apiKey]
      | None => []
      end
    else [] in
  let stooq := if primaryName =? "STOOQ" then [newStooqProvider] else [] in
  uniqueByName [] (primary ++ stooq ++ [newStooqProvider]).
End ProviderChain.

(** What [resolveMarketConfig] of the Stooq provider returns. *)
Record StooqMarketConfig := {
  suffix : string;
  stooqCurrency : string;
  useSuffix : bool
}.

(** [[...].includes(x)] *)
Definition includes (xs : list string) (x : string) : bool :=
  existsb (fun y => y =? x) xs.

Definition resolveMarketConfig (market : option string) : option StooqMarketConfig :=
  match truthy market with
  | None => None
  | Some m =>
      let normalized := toUpperCase m in
      if includes ["US"; "NYSE"; "NASDAQ"; "AMEX"] normalized then
        Some {| suffix := "us"; stooqCurrency := "USD"; useSuffix := true |}
      else if includes ["XWAR"; "GPW"] normalized then
        Some {| suffix := ""; stooqCurrency := "PLN"; useSuffix := false |}
      else if includes ["XLON"; "LSE"] normalized then
        Some {| suffix := "uk"; stooqCurrency := "GBP"; useSuffix := true |}
      else if includes ["XETR"; "XETRA"] normalized then
        Some {| suffix := "de"; stooqCurrency := "EUR"; useSuffix := true |}
      else None
  end.
(* ===================================================================== *)
(** * Test doubles: a fixed runtime and scripted providers *)
(* ===================================================================== *)

Module Doubles.
(** A runtime whose clock stands at 2024-06-01 12:00:00 UTC, whose date
    parser knows the ISO date-only forms only, and whose currency
    endpoint is down. *)
#[export] Instance fixedRuntime : Runtime unit := {|
  datetime_now := fun _ => "2024-06-01 12:00:00";
  datetime_now_modified := fun _ _ => Some "2024-06-01 12:01:00";
  Date_now := fun _ => 1717243200000%Z;
  Date_parse_fallback := fun _ => None;
  validationExpired := fun _ _ => false;
  quoteTtlSeconds := "60";
  fxTtlSeconds := "3600";
  frankfurterExchangeRate :=
    fun _ w => (Throw (newProviderError "FX rate fetch failed"), w)
|}.

Definition unsupported {A} (message : string) : Remote unit A :=
  fun w => (Throw (newProviderError message), w).

(** A provider that fails every operation with a [ProviderError]. *)
Definition failing (n : string) : MarketDataProvider unit :=
  {| name := n;
     searchSymbol := fun _ => unsupported "down";
     getQuote := fun _ => unsupported "down";
     getHistory_ := fun _ => unsupported "down";
     getExchangeRate := fun _ => unsupported "down" |}.

(** A provider that answers history requests with the given rows and a
    quote request with the given price. *)
Definition scripted (n : string) (quote : float) (rows : list HistoryPoint)
  : MarketDataProvider unit :=
  {| name := n;
     searchSymbol := fun _ w => (Normal None, w);
     getQuote := fun _ w =>
       (Normal {| qr_price := quote; qr_currency := Some "USD"; qr_asOf := "2024-01-02" |}, w);
     getHistory_ := fun _ w => (Normal rows, w);
     getExchangeRate := fun _ => unsupported "no FX" |}.

Definition initial (d : Db) : State unit := {| db := d; world := tt; calls := [] |}.

Definition point (date : string) (price : float) : HistoryPoint :=
  {| hp_date := date; hp_price := price; hp_currency := Some "USD" |}.

Definition historyRow (ticker market date src : string) (price : float) : HistoryRow :=
  {| ph_ticker := ticker; ph_market := market; ph_interval := "1d"; ph_price := price;
     ph_currency := Some "USD"; ph_date := date; ph_source := src;
     ph_fetched_at := "2024-05-01 00:00:00" |}.

Definition holding (id : Z) (ticker market buy_date : string) (price qty : float)
  : HoldingRow :=
  {| h_id := id; h_portfolio_id := 1%Z; h_ticker := ticker; h_market := market;
     h_buy_date := buy_date; h_buy_price := price; h_quantity := qty;
     h_created_at := "2024-05-01 00:00:00" |}.

Definition withHoldings (hs : list HoldingRow) (d : Db) : Db :=
  {| holdings := hs; market_symbols := market_symbols d; quote_cache := quote_cache d;
     price_history := price_history d; fx_rates := fx_rates d |}.
End Doubles.

#[global] Existing Instance Doubles.fixedRuntime.
(* ===================================================================== *)
(** * Vocabulary of the properties, and the data of their examples *)
(* ===================================================================== *)

(** ** The provider chain *)

(** A task under which the provider named P1 is down and every other
    provider answers 7. *)
Definition firstDown : MarketDataProvider unit -> Async unit nat :=
  fun p s => if name p =? "P1"
             then (Throw (newProviderError "down"), s)
             else (Normal 7, s).

(** ** Text *)

(** A byte outside ASCII, and a letter from A to Z. *)
Definition highByte (c : ascii) : bool := Nat.leb 128 (nat_of_ascii c).

Definition capital (c : ascii) : bool :=
  Nat.leb 65 (nat_of_ascii c) && Nat.leb (nat_of_ascii c) 90.

(** Every byte of the text passes the test. *)
Fixpoint allChars (f : ascii -> bool) (s : string) : bool :=
  match s with
  | EmptyString => true
  | String c rest => f c && allChars f rest
  end.

(** The text without its first [n] bytes. *)
Fixpoint dropBytes (n : nat) (s : string) : string :=
  match n, s with
  | S k, String _ rest => dropBytes k rest
  | _, _ => s
  end.

(** What the proofs use of an entry of [upperCasedToAscii]: it has two or
    three bytes, all outside ASCII; its upper-case form is made of letters
    from A to Z; neither contains the pair separator. *)
Definition wellFormedEntry (entry : string * string) : bool :=
  match fst entry, snd entry with
  | String a (String b rest), String u _ =>
      highByte a && highByte b && allChars highByte rest
      && Nat.leb (String.length rest) 1
      && allChars capital (snd entry)
      && negb (includesChar "/" (fst entry)) && negb (includesChar "/" (snd entry))
  | _, _ => false
  end.

(** ** Row selection *)

(** Ascending: every row is at most every row after it. *)
Inductive Ascending {A : Type} (le : A -> A -> bool) : list A -> Prop :=
| Ascending_nil : Ascending le []
| Ascending_cons : forall x l,
    (forall y, In y l -> le x y = true) -> Ascending le l -> Ascending le (x :: l).

(** ** The market registry *)

(** The keys under which the registry files its markets: every code and
    every alias, upper-cased. *)
Definition registryKeys : list string :=
  flat_map (fun m => toUpperCase (code m)
                     :: map toUpperCase (match aliases m with Some al => al | None => [] end))
           SUPPORTED_MARKETS.

(** ** The quote cache *)

(** A quote of MSFT that expires after the fixed clock's now, and one
    that expired before it. *)
Definition freshQuote : QuoteRow :=
  {| qc_ticker := "MSFT"; qc_market := "NASDAQ"; qc_price := 100%float;
     qc_currency := Some "USD"; qc_as_of := "2024-01-02"; qc_source := "MOCK";
     qc_fetched_at := "2024-06-01 11:59:30"; qc_expires_at := "2024-06-01 12:00:30" |}.

Definition staleQuote : QuoteRow :=
  {| qc_ticker := "MSFT"; qc_market := "NASDAQ"; qc_price := 95%float;
     qc_currency := Some "USD"; qc_as_of := "2024-01-02"; qc_source := "MOCK";
     qc_fetched_at := "2024-06-01 10:59:00"; qc_expires_at := "2024-06-01 11:00:00" |}.

(** The state once the one provider MOCK has been asked for the quote. *)
Definition afterQuoteCall (d : Db) : State unit :=
  {| db := d; world := tt;
     calls := [CallGetQuote "MOCK" {| ssp_ticker := "MSFT"; ssp_market := "NASDAQ" |}] |}.

(** ** The history cache *)

(** The rows of the table inside the requested range, before sorting. *)
Definition rowsInRange (ticker market interval from to : string)
           (table : list HistoryRow) : list HistoryRow :=
  filter (fun r => historyKeyIs ticker market interval r && between from to (ph_date r))
         table.

(** Coverage of [from, to] by the rows of the range: some row is dated
    [from] or earlier and some row is dated [to] or later. *)
Definition covers (from to : string) (rows : list HistoryRow) : Prop :=
  (exists r, In r rows /\ String.leb (ph_date r) from = true)
  /\ (exists r, In r rows /\ String.leb to (ph_date r) = true).

(** The store of the example: one row a day from 2024-01-01 to 2024-01-10,
    fetched from provider A, the price being the day of the month. *)
Definition januaryRows : list HistoryRow :=
  map (fun dp => Doubles.historyRow "TSLA" "NASDAQ" (fst dp) "A" (snd dp))
      [("2024-01-01", 1%float); ("2024-01-02", 2%float); ("2024-01-03", 3%float);
       ("2024-01-04", 4%float); ("2024-01-05", 5%float); ("2024-01-06", 6%float);
       ("2024-01-07", 7%float); ("2024-01-08", 8%float); ("2024-01-09", 9%float);
       ("2024-01-10", 10%float)].

(** A database holding only those rows. *)
Definition januaryStore : State unit :=
  Doubles.initial (withPriceHistory januaryRows emptyDb).

(** Provider B answers the request for [2024-01-05, 2024-01-20] with the
    two rows it has. *)
Definition providerB : MarketDataProvider unit :=
  Doubles.scripted "B" 0%float
    [Doubles.point "2024-01-15" 150%float; Doubles.point "2024-01-20" 200%float].

(** ** The symbol-validation cache *)







(** Every row was verified before [now]. *)
Definition verifiedBefore (now : string) (table : list SymbolRow) : Prop :=
  forall r, In r table -> String.ltb (ms_last_verified_at r) now = true.


(** ** Calendar dates *)

Local Open Scope Z_scope.

(** The text [YYYY-MM-DD] of a day number. *)
Definition calendarDate (day : Z) : string :=
  let '(y, m, d) := civil_from_days day in
  (pad4 y ++ "-" ++ pad2 m ++ "-" ++ pad2 d)%string.

(** The days from 0000-01-01 to 9999-12-31. *)
Definition inFourDigitYears (day : Z) : Prop := -719528 <= day <= 2932896.

(** [n] consecutive day numbers from [day]. *)
Fixpoint daysFrom (day : Z) (n : nat) : list Z :=
  match n with
  | O => []
  | S k => day :: daysFrom (day + 1) k
  end.

(** The number of calendar days of the closed window [[first, last]]. *)
Definition daysInWindow (first last : Z) : nat := Z.to_nat (last - first + 1).

(** What [civil_from_days] computes from the day of the era. *)
Definition cycleDay (doe : Z) : Z * Z * Z * Z :=
  let yoe := (doe - doe / 1460 + doe / 36524 - doe / 146096) / 365 in
  let doy := doe - (365 * yoe + yoe / 4 - yoe / 100) in
  let mp := (5 * doy + 2) / 153 in
  let d := doy - (153 * mp + 2) / 5 + 1 in
  (yoe, doy, mp, d).

(** The facts about a day of the 400-year cycle that the calendar proofs
    need, as one test. *)
Definition cycleDayOk (doe : Z) : bool :=
  let '(yoe, doy, mp, d) := cycleDay doe in
  let m := if mp <? 10 then mp + 3 else mp - 9 in
  let y := if m <=? 2 then yoe + 1 else yoe in
  (0 <=? yoe) && (yoe <=? 399) && (0 <=? doy) && (0 <=? mp) && (mp <=? 11)
  && (1 <=? d) && (d <=? daysInMonth y m)
  && (if 146037 <=? doe then (yoe =? 399) && (m <=? 2) else y <=? 399).

(** [allFrom p f base]: [f] holds on the [p] integers from [base]. *)
Fixpoint allFrom (p : positive) (f : Z -> bool) (base : Z) : bool :=
  match p with
  | xH => f base
  | xO q => allFrom q f base && allFrom q f (base + Zpos q)
  | xI q => f base && allFrom q f (base + 1) && allFrom q f (base + 1 + Zpos q)
  end.

(** ** The performance series *)

(** The portfolio of the repository's test: two TSLA bought at 100 on
    2024-01-01, and the provider of that test. *)
Definition tesla : HoldingRow :=
  Doubles.holding 1 "TSLA" "NASDAQ" "2024-01-01" 100%float 2%float.

Definition teslaPortfolio : State unit :=
  Doubles.initial (Doubles.withHoldings [tesla] emptyDb).

Definition teslaFeed : MarketDataProvider unit :=
  Doubles.scripted "MOCK" 100%float
    [Doubles.point "2024-01-01" 90%float; Doubles.point "2024-01-02" 100%float].


(** The rate of a currency is at hand: it is the base currency, or the
    request's rate cache has it. *)
Definition rateKnown (normalizedBase : string) (rateCache : RateCache) (cur : string) : Prop :=
  toUpperCase cur = normalizedBase
  \/ mapGet String.eqb (toUpperCase cur) rateCache <> None.

(** [rateCache.get(marketCurrency) ?? 1] *)
Definition rateOr1 (rateCache : RateCache) (cur : string) : float :=
  match mapGet String.eqb cur rateCache with Some r => r | None => 1%float end.

(** The history map of a portfolio made of one holding whose history
    fetch failed, and the value of one unit of it. *)
Definition fallbackHistoryMap (holding : HoldingRow) (startDate : string) (fxRate : float)
  : HistoryMap :=
  mapSet Z.eqb (h_id holding) (fallbackPriceMap holding startDate fxRate) [].

Definition buyValueOf (holding : HoldingRow) (fxRate : float) : float :=
  PrimFloat.mul (h_buy_price holding) fxRate.

(** One holding on the London market, whose currency is GBP. *)
Definition vodafonePortfolio : State unit :=
  Doubles.initial
    (Doubles.withHoldings
       [Doubles.holding 1 "VOD" "XLON" "2024-01-01" 100%float 2%float] emptyDb).

Local Close Scope Z_scope.
(* ===================================================================== *)
(** * Vocabulary of the further properties, and the data of their examples *)
(* ===================================================================== *)
(** ** The FX service *)

(** The providers [getFxRate] may ask, in order: the given providers
    except STOOQ, then the currency-only endpoint. *)
Definition fxChain {W} `{Runtime W} (providers : list (MarketDataProvider W))
  : list (MarketDataProvider W) :=
  filter (fun p => negb (name p =? STOOQ)) providers ++ [FrankfurterProvider].

(** The call [getFxRate] makes on a provider. *)
Definition fxRequest {W} (base quote : string) (p : MarketDataProvider W) : ProviderCall :=
  CallGetExchangeRate (name p) {| erp_base := base; erp_quote := quote |}.

(** The rates of the pair that have not expired at [now]. *)
Definition freshFxRows (base quote now : string) (table : list FxRow) : list FxRow :=
  filter (fun r => fxKeyIs base quote r && String.ltb now (fx_expires_at r)) table.

(** What [getCachedFxRate] and [getStaleFxRate] select from the table. *)
Definition selectCachedFx (base quote now : string) (table : list FxRow) : option FxRow :=
  greatestLast byFxExpiresAt (freshFxRows base quote now table).

Definition selectStaleFx (base quote : string) (table : list FxRow) : option FxRow :=
  greatest byFxFetchedAt (orderBy byFxExpiresAt (filter (fxKeyIs base quote) table)).

(** Every stored rate of the pair has expired at [now]. *)
Definition fxExpired (base quote now : string) (table : list FxRow) : Prop :=
  forall row, In row table -> fx_base row = base -> fx_quote row = quote ->
              String.leb (fx_expires_at row) now = true.

(** The row [cacheFxRate] writes for a rate of provider [p] stored as
    [stored] when the clock reads [now] and the expiry is [expires]. *)
Definition fxRowOf {W} (base quote : string) (p : MarketDataProvider W)
           (stored : float) (now expires : string) : FxRow :=
  {| fx_base := base; fx_quote := quote; fx_rate := stored; fx_source := name p;
     fx_fetched_at := now; fx_expires_at := expires |}.

(** The tables [getFxRate] does not write. *)
Definition sameOutsideFx (d d' : Db) : Prop :=
  holdings d' = holdings d /\ market_symbols d' = market_symbols d
  /\ quote_cache d' = quote_cache d /\ price_history d' = price_history d.

(** A provider that answers every exchange-rate request with [rate] and
    fails everything else. *)
Definition fxFeed (n : string) (rate : float) : MarketDataProvider unit :=
  {| name := n;
     searchSymbol := fun _ => Doubles.unsupported "FX only";
     getQuote := fun _ => Doubles.unsupported "FX only";
     getHistory_ := fun _ => Doubles.unsupported "FX only";
     getExchangeRate := fun _ w => (Normal {| err_rate := rate |}, w) |}.

(** A GBP/USD rate fetched an hour before the fixed clock's now with the
    given expiry. *)
Definition poundRate (src : string) (rate : float) (expires : string) : FxRow :=
  {| fx_base := "GBP"; fx_quote := "USD"; fx_rate := rate; fx_source := src;
     fx_fetched_at := "2024-06-01 11:00:00"; fx_expires_at := expires |}.

Definition withFx (rows : list FxRow) : State unit :=
  Doubles.initial (withFxRates rows emptyDb).

(** ** The quote and history chains *)

(** The calls [getLatestQuote] and [getHistory] make on a provider. *)
Definition quoteRequest {W} (ticker market : string) (p : MarketDataProvider W)
  : ProviderCall :=
  CallGetQuote (name p) {| ssp_ticker := ticker; ssp_market := resolveExchange market |}.

Definition historyRequest {W} (ticker market from to interval : string)
           (p : MarketDataProvider W) : ProviderCall :=
  CallGetHistory (name p)
    {| hpar_ticker := ticker; hpar_market := resolveExchange market;
       hpar_from := from; hpar_to := to; hpar_interval := interval |}.

(** The row [cacheQuote] writes for a result of provider [p] when the
    price is stored as [stored], the clock reads [now] and the expiry is
    [expires]. *)
Definition quoteRowOf {W} (ticker market : string) (p : MarketDataProvider W)
           (result : QuoteResult) (stored : float) (now expires : string) : QuoteRow :=
  {| qc_ticker := ticker; qc_market := market; qc_price := stored;
     qc_currency := qr_currency result; qc_as_of := qr_asOf result;
     qc_source := name p; qc_fetched_at := now; qc_expires_at := expires |}.

(** Every cached quote of the key has expired at [now]. *)
Definition quotesExpired (ticker market now : string) (table : list QuoteRow) : Prop :=
  forall row, In row table -> qc_ticker row = ticker -> qc_market row = market ->
              String.leb (qc_expires_at row) now = true.

(** At most one of the providers is named STOOQ: the comparator of the
    sort in [filterProvidersForMarket] and [orderProvidersForMarket] is
    then consistent, and the order of the sorted array is the one the
    language defines. *)
Definition stooqOnce {W} (providers : list (MarketDataProvider W)) : Prop :=
  (length (filter isStooq providers) <= 1)%nat.

(** The provider of the repository's tests, and the state once it has been
    asked for a quote of MSFT and the quote has been stored. *)
Definition mockFeed : MarketDataProvider unit := Doubles.scripted "MOCK" 100%float [].

Definition afterFirstQuote : State unit :=
  {| db := withQuoteCache
             [ {| qc_ticker := "MSFT"; qc_market := "NASDAQ"; qc_price := 100%float;
                  qc_currency := Some "USD"; qc_as_of := "2024-01-02";
                  qc_source := "MOCK"; qc_fetched_at := "2024-06-01 12:00:00";
                  qc_expires_at := "2024-06-01 12:01:00" |} ] emptyDb;
     world := tt;
     calls := [CallGetQuote "MOCK" {| ssp_ticker := "MSFT"; ssp_market := "NASDAQ" |}] |}.

(** The tables [getLatestQuote] does not write, and those [getHistory]
    does not write. *)
Definition sameOutsideQuotes (d d' : Db) : Prop :=
  holdings d' = holdings d /\ market_symbols d' = market_symbols d
  /\ price_history d' = price_history d /\ fx_rates d' = fx_rates d.

Definition sameOutsideHistory (d d' : Db) : Prop :=
  holdings d' = holdings d /\ market_symbols d' = market_symbols d
  /\ quote_cache d' = quote_cache d /\ fx_rates d' = fx_rates d.

(** A market is one of those for which STOOQ stays in the chain. *)
Definition stooqServes (market : string) : bool :=
  setHas stooqMarkets (toUpperCase market).

(** ** Symbol validation *)

(** The call [validateSymbol] and [resolveSymbolName] make on a provider. *)
Definition searchRequest {W} (normalizedTicker exchange : string)
           (p : MarketDataProvider W) : ProviderCall :=
  CallSearchSymbol (name p) {| ssp_ticker := normalizedTicker; ssp_market := exchange |}.

(** [AllMiss search ps s s']: starting in [s], every provider of [ps] in
    turn either knows no such symbol ([null]) or throws a [ProviderError],
    ending in [s']. *)
Inductive AllMiss {W} (normalizedTicker exchange : string)
  : list (MarketDataProvider W) -> State W -> State W -> Prop :=
| AllMiss_nil : forall s, AllMiss normalizedTicker exchange [] s s
| AllMiss_null : forall p ps s s1 s2,
    invoke (searchRequest normalizedTicker exchange p)
           (searchSymbol p {| ssp_ticker := normalizedTicker; ssp_market := exchange |}) s
    = (Normal None, s1) ->
    AllMiss normalizedTicker exchange ps s1 s2 ->
    AllMiss normalizedTicker exchange (p :: ps) s s2
| AllMiss_error : forall p ps s s1 s2 e,
    invoke (searchRequest normalizedTicker exchange p)
           (searchSymbol p {| ssp_ticker := normalizedTicker; ssp_market := exchange |}) s
    = (Throw e, s1) ->
    instanceofProviderError e = true ->
    AllMiss normalizedTicker exchange ps s1 s2 ->
    AllMiss normalizedTicker exchange (p :: ps) s s2.

(** [lastProvider] after the loop has run over [ps]. *)
Definition lastProviderOf {W} (ps : list (MarketDataProvider W)) : string :=
  List.last (map (fun p => name p) ps) "UNKNOWN".

(** The validation lookup finds nothing usable: no row of the key, or the
    most recently verified one is older than the time to live. *)
Definition validationMisses {W} `{Runtime W} (ticker market : string) (s : State W) : Prop :=
  match selectSymbol ticker market (market_symbols (db s)) with
  | None => True
  | Some row => validationExpired (world s) (ms_last_verified_at row) = true
  end.

(** A provider that knows every symbol under the given name. *)
Definition knowing (n : string) (displayName : option string) : MarketDataProvider unit :=
  {| name := n;
     searchSymbol := fun params w =>
       (Normal (Some {| ssr_ticker := ssp_ticker params; ssr_market := ssp_market params;
                        ssr_name := displayName; ssr_currency := Some "USD";
                        ssr_exchange := Some (ssp_market params) |}), w);
     getQuote := fun _ => Doubles.unsupported "search only";
     getHistory_ := fun _ => Doubles.unsupported "search only";
     getExchangeRate := fun _ => Doubles.unsupported "search only" |}.

(** A provider whose search fails with an error that is not a
    [ProviderError], as [fetch] does when the network is down. *)
Definition broken (n : string) : MarketDataProvider unit :=
  {| name := n;
     searchSymbol := fun _ w => (Throw (ErrorObject OtherErrorClass "fetch failed"), w);
     getQuote := fun _ => Doubles.unsupported "down";
     getHistory_ := fun _ => Doubles.unsupported "down";
     getExchangeRate := fun _ => Doubles.unsupported "down" |}.

(** ** The market registry *)

(** [market.aliases ?? []] *)
Definition aliasesOf (d : MarketDefinition) : list string :=
  match aliases d with Some al => al | None => [] end.

(** ** The price history *)

(** The row [cacheHistoryRows] writes for a point of a provider's answer
    whose price is stored as [price]. *)
Definition historyRowOf (ticker market interval source now : string) (p : HistoryPoint)
           (price : float) : HistoryRow :=
  {| ph_ticker := ticker; ph_market := market; ph_interval := interval;
     ph_price := price; ph_currency := hp_currency p; ph_date := hp_date p;
     ph_source := source; ph_fetched_at := now |}.

(** No two rows of a table collide on its UNIQUE key. *)
Fixpoint uniqueKeys {A} (sameKey : A -> A -> bool) (table : list A) : Prop :=
  match table with
  | [] => True
  | row :: rest => (forall r, In r rest -> sameKey r row = false) /\ uniqueKeys sameKey rest
  end.

(** The order of [ORDER BY date] on the points returned. *)
Definition byPointDate (a b : HistoryPoint) : bool := String.leb (hp_date a) (hp_date b).

(** The store holds a row of the key dated [date]. *)
Definition hasRowDated (ticker market interval date : string) (table : list HistoryRow)
  : Prop :=
  exists r, In r table /\ historyKeyIs ticker market interval r = true /\ ph_date r = date.

(** ** The value of a portfolio on a date *)

(** The price of a holding that the dates seen so far have brought: the
    price of the last of them, on or after the buy date, for which the
    holding's price map has an entry. *)
Definition lastSeenPrice (priceMap : option PriceByDate) (buyDate : string)
           (seen : list string) : option float :=
  fold_left
    (fun known date =>
       if String.ltb date buyDate then known
       else match priceMap with
            | Some prices =>
                match mapGet String.eqb date prices with
                | Some price => Some price
                | None => known
                end
            | None => known
            end)
    seen None.

(** The unit price of a holding once the dates [seen] have been
    processed: the last price seen, or the buy price at the cached rate of
    the market's currency when no price has been seen yet. *)
Definition priceOn (historyMap : HistoryMap) (rateCache : RateCache) (seen : list string)
           (holding : HoldingRow) : float :=
  match lastSeenPrice (mapGet Z.eqb (h_id holding) historyMap) (h_buy_date holding) seen with
  | Some price => price
  | None =>
      PrimFloat.mul (h_buy_price holding)
                    (rateOr1 rateCache (marketCurrencyOf (h_market holding)))
  end.

(** The total of a date: the holdings bought by then, in list order, each
    at its unit price times its quantity. *)
Definition valueOn (hs : list HoldingRow) (historyMap : HistoryMap) (rateCache : RateCache)
           (seen : list string) (date : string) : float :=
  fold_left
    (fun total holding =>
       if String.ltb date (h_buy_date holding) then total
       else PrimFloat.add total
              (PrimFloat.mul (priceOn historyMap rateCache seen holding)
                             (h_quantity holding)))
    hs 0%float.

(** The series as a function of the dates alone. *)
Fixpoint valuedSeries (hs : list HoldingRow) (historyMap : HistoryMap)
         (rateCache : RateCache) (seen dates : list string) : list PerformancePoint :=
  match dates with
  | [] => []
  | date :: rest =>
      {| pp_date := date;
         pp_value := valueOn hs historyMap rateCache (seen ++ [date]) date |}
        :: valuedSeries hs historyMap rateCache (seen ++ [date]) rest
  end.

(** Two holdings of TSLA, the second bought later, and a history with a
    gap on 2024-01-03. *)
Definition teslaTwice : list HoldingRow :=
  [ Doubles.holding 1 "TSLA" "NASDAQ" "2024-01-01" 100%float 2%float;
    Doubles.holding 2 "TSLA" "NASDAQ" "2024-01-03" 110%float 1%float ].

Definition teslaPrices : HistoryMap :=
  [ (1%Z, [("2024-01-01", 90%float); ("2024-01-02", 100%float); ("2024-01-04", 120%float)]);
    (2%Z, [("2024-01-01", 90%float); ("2024-01-02", 100%float); ("2024-01-04", 120%float)]) ].

(** ** The holdings table *)

(** The holding that [deleteHolding id portfolioId] removes. *)
Definition isTarget (id portfolioId : Z) (h : HoldingRow) : Prop :=
  h_id h = id /\ h_portfolio_id h = portfolioId.

(** Two portfolios: holdings 1 and 2 in portfolio 1, holding 3 in
    portfolio 2. *)
Definition inPortfolio (portfolio : Z) (h : HoldingRow) : HoldingRow :=
  {| h_id := h_id h; h_portfolio_id := portfolio; h_ticker := h_ticker h;
     h_market := h_market h; h_buy_date := h_buy_date h; h_buy_price := h_buy_price h;
     h_quantity := h_quantity h; h_created_at := h_created_at h |}.

Definition twoPortfolios : State unit :=
  Doubles.initial
    (Doubles.withHoldings
       [ Doubles.holding 1 "TSLA" "NASDAQ" "2024-01-01" 100%float 2%float;
         Doubles.holding 2 "MSFT" "NASDAQ" "2024-01-02" 200%float 1%float;
         inPortfolio 2 (Doubles.holding 3 "VOD" "XLON" "2024-01-03" 70%float 5%float) ]
       emptyDb).

(** ** Symbol names *)

(** The markets for which [NAME_OVERRIDES] has entries. *)
Definition overrideMarkets : list string := map fst NAME_OVERRIDES.

(** The market code under which [getCachedSymbolName] looks a holding up. *)
Definition nameMarketOf (market : string) : string :=
  match getMarketDefinition market with
  | Some definition => toUpperCase (code definition)
  | None => toUpperCase market
  end.

(** [AllNameless ps s s']: starting in [s], every provider of [ps] in turn
    knows no such symbol, knows it without a name, or throws a
    [ProviderError], ending in [s']. *)
Inductive AllNameless {W} (normalizedTicker exchange : string)
  : list (MarketDataProvider W) -> State W -> State W -> Prop :=
| AllNameless_nil : forall s, AllNameless normalizedTicker exchange [] s s
| AllNameless_null : forall p ps s s1 s2,
    invoke (searchRequest normalizedTicker exchange p)
           (searchSymbol p {| ssp_ticker := normalizedTicker; ssp_market := exchange |}) s
    = (Normal None, s1) ->
    AllNameless normalizedTicker exchange ps s1 s2 ->
    AllNameless normalizedTicker exchange (p :: ps) s s2
| AllNameless_unnamed : forall p ps s s1 s2 result,
    invoke (searchRequest normalizedTicker exchange p)
           (searchSymbol p {| ssp_ticker := normalizedTicker; ssp_market := exchange |}) s
    = (Normal (Some result), s1) ->
    truthy (ssr_name result) = None ->
    AllNameless normalizedTicker exchange ps s1 s2 ->
    AllNameless normalizedTicker exchange (p :: ps) s s2
| AllNameless_error : forall p ps s s1 s2 e,
    invoke (searchRequest normalizedTicker exchange p)
           (searchSymbol p {| ssp_ticker := normalizedTicker; ssp_market := exchange |}) s
    = (Throw e, s1) ->
    instanceofProviderError e = true ->
    AllNameless normalizedTicker exchange ps s1 s2 ->
    AllNameless normalizedTicker exchange (p :: ps) s s2.

(** The name that [resolveSymbolName] finds in the validation cache. *)
Definition cachedNameOf {W} `{Runtime W} (ticker market : string) (s : State W)
  : option string :=
  match selectSymbol ticker market (market_symbols (db s)) with
  | None => None
  | Some row =>
      if validationExpired (world s) (ms_last_verified_at row) then None
      else truthy (ms_name row)
  end.

(** ** What a request asks of the providers *)

Definition isHistoryCall (c : ProviderCall) : Prop :=
  match c with CallGetHistory _ _ => True | _ => False end.

Definition isRateCall (c : ProviderCall) : Prop :=
  match c with CallGetExchangeRate _ _ => True | _ => False end.

(** From [s] to [s'] the providers were asked only for what [allowed]
    admits, and neither the holdings nor the symbol and quote caches were
    written. *)
Definition askedOnly {W} (allowed : ProviderCall -> Prop) (s s' : State W) : Prop :=
  (exists made, calls s' = calls s ++ made /\ Forall allowed made)
  /\ holdings (db s') = holdings (db s)
  /\ market_symbols (db s') = market_symbols (db s)
  /\ quote_cache (db s') = quote_cache (db s).

(** Exchange rates may be asked for, or the currency needs none because
    it is the base currency. *)
Definition rateAskable (allowed : ProviderCall -> Prop) (normalizedBase cur : string)
  : Prop :=
  (forall c, isRateCall c -> allowed c) \/ toUpperCase cur = normalizedBase.

(* ===================================================================== *)
(** * Properties *)
(* ===================================================================== *)

Unset Implicit Arguments.

Section FetchWithProvidersFacts.
Context {W S T : Type}.
Variable task : MarketDataProvider W -> Async S T.

Lemma fetch_from_exhausted :
  forall ps s e0 s' e,
    AllThrow task ps s e0 s' e ->
    fetchWithProviders_from task e0 ps s = (Throw (raisedAfter e), s').
Proof.
  induction 1 as [s e | p ps s s1 s2 e0 e1 e2 Hp _ IH].
  - destruct e as [[cls msg | v] |]; reflexivity.
  - simpl. rewrite Hp. exact IH.
Qed.

Lemma fetch_from_first_success :
  forall pre s e0 s1 e p post r s2,
    AllThrow task pre s e0 s1 e ->
    task p s1 = (Normal r, s2) ->
    fetchWithProviders_from task e0 (pre ++ p :: post) s = (Normal (p, r), s2).
Proof.
  intros pre s e0 s1 e p post r s2 Hpre Hp.
  induction Hpre as [s e | q ps s sa sb e0 e1 e2 Hq _ IH]; simpl.
  - rewrite Hp. reflexivity.
  - rewrite Hq. apply IH. exact Hp.
Qed.

Lemma AllThrow_spied :
  forall ps s e0 s' e log,
    AllThrow task ps s e0 s' e ->
    AllThrow (spied task) ps (s, log) e0 (s', log ++ ps) e.
Proof.
  intros ps s e0 s' e log H. revert log.
  induction H as [s e | p ps s s1 s2 e0 e1 e2 Hp _ IH]; intros log.
  - rewrite app_nil_r. constructor.
  - apply AllThrow_cons with (s1 := (s1, log ++ [p])) (e1 := e1).
    + unfold spied; simpl. rewrite Hp. reflexivity.
    + replace (log ++ p :: ps) with ((log ++ [p]) ++ ps)
        by (rewrite <- app_assoc; reflexivity).
      apply IH.
Qed.

(** Every run of the loop is one of the two shapes above. *)
Lemma fetch_from_cases :
  forall ps s e0,
    (exists s' e, AllThrow task ps s e0 s' e) \/
    (exists pre p post s1 e r s2,
        ps = pre ++ p :: post /\ AllThrow task pre s e0 s1 e /\
        task p s1 = (Normal r, s2)).
Proof.
  induction ps as [| p ps IH]; intros s e0.
  - left. exists s, e0. constructor.
  - destruct (task p s) as [[r | e1] s1] eqn:Hp.
    + right. exists [], p, ps, s, e0, r, s1. repeat split; auto. constructor.
    + destruct (IH s1 (Some e1)) as [(s' & e & H) | (pre & q & post & sa & e & r & sb & -> & Hpre & Hq)].
      * left. exists s', e. econstructor; eauto.
      * right. exists (p :: pre), q, post, sa, e, r, sb.
        repeat split; auto. econstructor; eauto.
Qed.
End FetchWithProvidersFacts.

(** ** The first-success policy of the chain *)

(** C1 (counterexample).  A chain of one provider whose task rejects with a
    value that is not an [Error] instance (here the string ["boom"]): every
    provider has failed and the last recorded error is ["boom"], yet the
    chain does not raise it; the [instanceof Error] test sends the call to
    the "No providers configured" error. *)
Lemma fetchWithProviders_non_error_rejection :
  let p := Doubles.failing "P1" in
  let task : MarketDataProvider unit -> Async unit nat :=
    fun _ s => (Throw (NonErrorValue "boom"), s) in
  AllThrow task [p] tt None tt (Some (NonErrorValue "boom"))
  /\ fetchWithProviders [p] task tt
     = (Throw (newProviderError "No providers configured"), tt)
  /\ fetchWithProviders [p] task tt <> (Throw (NonErrorValue "boom"), tt).
Proof.
  cbv zeta. split; [| split].
  - eapply AllThrow_cons; [reflexivity | constructor].
  - reflexivity.
  - discriminate.
Qed.

(** C1 (amended).  [fetchWithProviders] tries the providers strictly in list
    order: when the task throws on every provider of a prefix and succeeds
    on the next provider [p], the call returns [(p, result)] and the task
    has been invoked exactly on the prefix followed by [p], once each and
    on no later provider.  When the task throws on every provider, the
    task has been invoked once on each in order and the call raises the
    last thrown value if that is an [Error] instance, and otherwise a
    [ProviderError] "No providers configured"; it raises the same error
    for the empty list.  In particular, when provider 1 fails and
    provider 2 succeeds the returned provider is provider 2 and the
    invocations are provider 1, then provider 2. *)
Theorem fetchWithProviders_first_success :
  forall (W S T : Type) (task : MarketDataProvider W -> Async S T)
         (providers : list (MarketDataProvider W)) (s : S)
         (log : list (MarketDataProvider W)),
    (forall pre p post s1 e r s2,
        providers = pre ++ p :: post ->
        AllThrow task pre s None s1 e ->
        task p s1 = (Normal r, s2) ->
        fetchWithProviders providers (spied task) (s, log)
        = (Normal (p, r), (s2, log ++ pre ++ [p])))
    /\ (forall s1 e,
           AllThrow task providers s None s1 (Some e) ->
           instanceofError e = true ->
           fetchWithProviders providers (spied task) (s, log)
           = (Throw e, (s1, log ++ providers)))
    /\ (forall s1 e,
           AllThrow task providers s None s1 (Some e) ->
           instanceofError e = false ->
           fetchWithProviders providers (spied task) (s, log)
           = (Throw (newProviderError "No providers configured"), (s1, log ++ providers)))
    /\ (providers = [] ->
        fetchWithProviders providers task s
        = (Throw (newProviderError "No providers configured"), s))
    /\ (forall p1 p2 rest e1 s1 r s2,
           providers = p1 :: p2 :: rest ->
           task p1 s = (Throw e1, s1) ->
           task p2 s1 = (Normal r, s2) ->
           fetchWithProviders providers (spied task) (s, log)
           = (Normal (p2, r), (s2, log ++ [p1; p2]))).
Proof.
  intros W S T task providers s log.
  assert (Hfirst : forall pre p post s1 e r s2,
             providers = pre ++ p :: post ->
             AllThrow task pre s None s1 e ->
             task p s1 = (Normal r, s2) ->
             fetchWithProviders providers (spied task) (s, log)
             = (Normal (p, r), (s2, log ++ pre ++ [p]))).
  { intros pre p post s1 e r s2 -> Hpre Hp.
    unfold fetchWithProviders.
    pose proof (AllThrow_spied task pre s None s1 e log Hpre) as Hsp.
    assert (Hp' : spied task p (s1, log ++ pre)
                  = (Normal r, (s2, (log ++ pre) ++ [p])))
      by (unfold spied; simpl; rewrite Hp; reflexivity).
    rewrite (fetch_from_first_success (spied task) pre _ _ _ _ p post r _ Hsp Hp').
    rewrite <- app_assoc. reflexivity. }
  assert (Hall : forall s1 e,
             AllThrow task providers s None s1 e ->
             fetchWithProviders providers (spied task) (s, log)
             = (Throw (raisedAfter e), (s1, log ++ providers))).
  { intros s1 e Hex. unfold fetchWithProviders.
    apply fetch_from_exhausted, AllThrow_spied, Hex. }
  split; [exact Hfirst |].
  split; [| split; [| split]].
  - intros s1 e Hex He. rewrite (Hall _ _ Hex). simpl. rewrite He. reflexivity.
  - intros s1 e Hex He. rewrite (Hall _ _ Hex). simpl. rewrite He. reflexivity.
  - intros ->. reflexivity.
  - intros p1 p2 rest e1 s1 r s2 Hps H1 H2.
    apply (Hfirst [p1] p2 rest s1 (Some e1) r s2 Hps); [| exact H2].
    eapply AllThrow_cons; [exact H1 | constructor].
Qed.

Lemma fetchWithProviders_first_success_witness :
  let p1 := Doubles.failing "P1" in
  let p2 := Doubles.failing "P2" in
  fetchWithProviders [p1; p2] (spied firstDown) (tt, [])
  = (Normal (p2, 7), (tt, [p1; p2]))
  /\ fetchWithProviders [p1; p1] (spied firstDown) (tt, [])
     = (Throw (newProviderError "down"), (tt, [p1; p1])).
Proof.
  cbv zeta. split.
  - eapply (proj2 (proj2 (proj2 (proj2
              (fetchWithProviders_first_success unit unit nat firstDown
                 [Doubles.failing "P1"; Doubles.failing "P2"] tt []))))).
    + reflexivity.
    + reflexivity.
    + reflexivity.
  - eapply (proj1 (proj2
              (fetchWithProviders_first_success unit unit nat firstDown
                 [Doubles.failing "P1"; Doubles.failing "P1"] tt []))).
    + eapply AllThrow_cons; [reflexivity |].
      eapply AllThrow_cons; [reflexivity |].
      constructor.
    + reflexivity.
Defined.

(* ===================================================================== *)
(** * Facts about the text order and about row selection *)
(* ===================================================================== *)

Section TextOrder.
Lemma ascii_compare_refl (a : ascii) : Ascii.compare a a = Eq.
Proof. unfold Ascii.compare. apply N.compare_refl. Qed.

Lemma ascii_compare_lt_trans (a b c : ascii) :
  Ascii.compare a b = Lt -> Ascii.compare b c = Lt -> Ascii.compare a c = Lt.
Proof.
  unfold Ascii.compare. rewrite !N.compare_lt_iff. apply N.lt_trans.
Qed.

Lemma compare_refl (s : string) : String.compare s s = Eq.
Proof.
  induction s as [| a s IH]; simpl; [reflexivity |].
  rewrite ascii_compare_refl. exact IH.
Qed.

Lemma compare_lt_trans :
  forall a b c, String.compare a b = Lt -> String.compare b c = Lt ->
                String.compare a c = Lt.
Proof.
  induction a as [| x a IH]; intros [| y b] [| z c]; simpl; try discriminate; auto.
  destruct (Ascii.compare x y) eqn:Hxy; try discriminate.
  - apply Ascii.compare_eq_iff in Hxy. subst y.
    destruct (Ascii.compare x z); try discriminate; auto. apply IH.
  - intros _. destruct (Ascii.compare y z) eqn:Hyz; try discriminate.
    + apply Ascii.compare_eq_iff in Hyz. subst z. rewrite Hxy. reflexivity.
    + rewrite (ascii_compare_lt_trans _ _ _ Hxy Hyz). reflexivity.
Qed.

Lemma compare_gt_lt (a b : string) : String.compare a b = Gt <-> String.compare b a = Lt.
Proof.
  rewrite (String.compare_antisym a b).
  destruct (String.compare b a); simpl; split; congruence.
Qed.

Lemma leb_refl (a : string) : String.leb a a = true.
Proof. unfold String.leb. rewrite compare_refl. reflexivity. Qed.

Lemma ltb_irrefl (a : string) : String.ltb a a = false.
Proof. unfold String.ltb. rewrite compare_refl. reflexivity. Qed.

Lemma leb_false_ltb (a b : string) : String.leb a b = false <-> String.ltb b a = true.
Proof.
  unfold String.leb, String.ltb. rewrite (String.compare_antisym a b).
  destruct (String.compare b a); simpl; split; congruence.
Qed.

Lemma ltb_false_leb (a b : string) : String.ltb a b = false <-> String.leb b a = true.
Proof.
  unfold String.leb, String.ltb. rewrite (String.compare_antisym a b).
  destruct (String.compare b a); simpl; split; congruence.
Qed.

Lemma ltb_leb (a b : string) : String.ltb a b = true -> String.leb a b = true.
Proof.
  unfold String.leb, String.ltb. destruct (String.compare a b); congruence.
Qed.

Lemma ltb_trans (a b c : string) :
  String.ltb a b = true -> String.ltb b c = true -> String.ltb a c = true.
Proof.
  unfold String.ltb. intros Hab Hbc.
  destruct (String.compare a b) eqn:E1; try discriminate.
  destruct (String.compare b c) eqn:E2; try discriminate.
  rewrite (compare_lt_trans _ _ _ E1 E2). reflexivity.
Qed.

Lemma leb_ltb_or_eq (a b : string) :
  String.leb a b = true -> String.ltb a b = true \/ a = b.
Proof.
  unfold String.leb, String.ltb. destruct (String.compare a b) eqn:E; try discriminate.
  - right. apply String.compare_eq_iff. exact E.
  - left. reflexivity.
Qed.

Lemma leb_trans (a b c : string) :
  String.leb a b = true -> String.leb b c = true -> String.leb a c = true.
Proof.
  intros Hab Hbc.
  destruct (leb_ltb_or_eq _ _ Hab) as [Lab | ->]; [| exact Hbc].
  destruct (leb_ltb_or_eq _ _ Hbc) as [Lbc | <-]; [| exact Hab].
  apply ltb_leb. eapply ltb_trans; eauto.
Qed.

Lemma ltb_leb_trans (a b c : string) :
  String.ltb a b = true -> String.leb b c = true -> String.ltb a c = true.
Proof.
  intros Hab Hbc.
  destruct (leb_ltb_or_eq _ _ Hbc) as [Lbc | <-]; [| exact Hab].
  eapply ltb_trans; eauto.
Qed.

Lemma leb_ltb_trans (a b c : string) :
  String.leb a b = true -> String.ltb b c = true -> String.ltb a c = true.
Proof.
  intros Hab Hbc.
  destruct (leb_ltb_or_eq _ _ Hab) as [Lab | ->]; [| exact Hbc].
  eapply ltb_trans; eauto.
Qed.

Lemma leb_ltb_absurd (a b : string) :
  String.leb a b = true -> String.ltb b a = true -> False.
Proof.
  intros Hab Hba. apply leb_false_ltb in Hba. congruence.
Qed.
End TextOrder.

Section RowSelectionFacts.
Context {A : Type}.
Variable le : A -> A -> bool.
Hypothesis le_refl : forall a, le a a = true.
Hypothesis le_trans : forall a b c, le a b = true -> le b c = true -> le a c = true.
Hypothesis le_total : forall a b, le a b = true \/ le b a = true.

Lemma greatest_from_spec :
  forall rows best,
    let g := greatest_from le best rows in
    (g = best \/ In g rows) /\ le best g = true /\ (forall r, In r rows -> le r g = true).
Proof.
  induction rows as [| r rows IH]; intros best; simpl.
  - repeat split; auto; intros ? [].
  - destruct (le r best) eqn:E.
    + destruct (IH best) as (Hin & Hb & Hall). repeat split.
      * tauto.
      * exact Hb.
      * intros x [<- | Hx]; [eapply le_trans; eauto | auto].
    + destruct (IH r) as (Hin & Hb & Hall).
      assert (Hbr : le best r = true) by (destruct (le_total r best); congruence).
      repeat split.
      * destruct Hin as [-> | Hin]; auto.
      * eapply le_trans; eauto.
      * intros x [<- | Hx]; auto.
Qed.

(** [ORDER BY key DESC LIMIT 1] returns a row of the selection, and no
    row of the selection has a greater key. *)
Lemma greatest_Some :
  forall rows g, greatest le rows = Some g ->
                 In g rows /\ forall r, In r rows -> le r g = true.
Proof.
  intros [| r0 rows] g; simpl; [discriminate |].
  intros [= <-]. destruct (greatest_from_spec rows r0) as (Hin & Hb & Hall).
  split.
  - destruct Hin as [-> | Hin]; [left; reflexivity | right; exact Hin].
  - intros r [<- | Hr]; auto.
Qed.

Lemma greatest_None : forall rows, greatest le rows = None <-> rows = [].
Proof. intros [| r rows]; simpl; split; congruence. Qed.

Lemma greatest_exists :
  forall rows r, In r rows -> exists g, greatest le rows = Some g.
Proof. intros [| r0 rows] r; simpl; [intros [] | eauto]. Qed.

Lemma insertRow_In :
  forall x y l, In y (insertRow le x l) <-> y = x \/ In y l.
Proof.
  induction l as [| z l IH]; simpl.
  - intuition.
  - destruct (le x z); simpl; [intuition |]. rewrite IH. intuition.
Qed.

Lemma orderBy_In : forall l y, In y (orderBy le l) <-> In y l.
Proof.
  induction l as [| x l IH]; simpl; intros y; [tauto |].
  rewrite insertRow_In, IH. intuition.
Qed.

Lemma insertRow_Ascending :
  forall x l, Ascending le l -> Ascending le (insertRow le x l).
Proof.
  induction 1 as [| z l Hz Hl IH]; simpl.
  - constructor; [intros y [] | constructor].
  - destruct (le x z) eqn:E.
    + constructor.
      * intros y [<- | Hy]; auto. eapply le_trans; eauto.
      * constructor; auto.
    + constructor; auto.
      intros y Hy. apply insertRow_In in Hy as [-> | Hy]; auto.
      destruct (le_total x z); congruence.
Qed.

Lemma orderBy_Ascending : forall l, Ascending le (orderBy le l).
Proof.
  induction l as [| x l IH]; simpl; [constructor | apply insertRow_Ascending; exact IH].
Qed.

Lemma orderBy_length : forall l, length (orderBy le l) = length l.
Proof.
  assert (Hins : forall x l, length (insertRow le x l) = S (length l)).
  { induction l as [| z l IH]; simpl; auto. destruct (le x z); simpl; auto. }
  induction l as [| x l IH]; simpl; auto. rewrite Hins, IH. reflexivity.
Qed.

Lemma Ascending_head_least :
  forall x l y, Ascending le (x :: l) -> In y (x :: l) -> le x y = true.
Proof. intros x l y Hs [<- | Hy]; [apply le_refl | inversion Hs; auto]. Qed.

Lemma Ascending_last_greatest :
  forall l z, Ascending le l -> lastRow l = Some z ->
              forall y, In y l -> le y z = true.
Proof.
  unfold lastRow. induction l as [| x l IH]; intros z Hs Hlast y Hy; [destruct Hy |].
  destruct l as [| x' l'].
  - simpl in Hlast. injection Hlast as <-. destruct Hy as [<- | []]. apply le_refl.
  - change (last (map Some (x' :: l')) None = Some z) in Hlast.
    inversion Hs as [| ? ? Hx Hl]; subst.
    destruct Hy as [<- | Hy].
    + apply Hx. clear - Hlast.
      revert x' Hlast. induction l' as [| w l' IH']; intros x' Hlast.
      * simpl in Hlast. injection Hlast as <-. left; reflexivity.
      * right. apply IH'. exact Hlast.
    + apply IH; auto.
Qed.

Lemma lastRow_In : forall (l : list A) z, lastRow l = Some z -> In z l.
Proof.
  unfold lastRow. induction l as [| x l IH]; intros z Hlast; [discriminate |].
  destruct l as [| x' l'].
  - simpl in Hlast. injection Hlast as <-. left; reflexivity.
  - right. apply IH. exact Hlast.
Qed.

Lemma lastRow_nonempty : forall (x : A) l, exists z, lastRow (x :: l) = Some z.
Proof.
  unfold lastRow. intros x l. revert x.
  induction l as [| y l IH]; intros x; [exists x; reflexivity |].
  destruct (IH y) as [z Hz]. exists z. exact Hz.
Qed.
End RowSelectionFacts.

Section RowPositions.
Context {A : Type}.
Variable le : A -> A -> bool.
Hypothesis le_trans : forall a b c, le a b = true -> le b c = true -> le a c = true.
Hypothesis le_total : forall a b, le a b = true \/ le b a = true.

Lemma greatest_from_first :
  forall rows best g,
    greatest_from le best rows = g ->
    (g = best /\ forall r, In r rows -> le r best = true)
    \/ (exists before after,
           rows = before ++ g :: after
           /\ (forall r, In r before -> le g r = false)
           /\ le g best = false).
Proof.
  induction rows as [| r rows IH]; intros best g Hg; cbn [greatest_from] in Hg.
  - left. split; [congruence | intros r []].
  - destruct (le r best) eqn:Hr.
    + destruct (IH _ _ Hg) as [[-> Hall] | (before & after & -> & Hbefore & Hbest)].
      * left. split; [reflexivity |]. intros x [<- | Hx]; auto.
      * right. exists (r :: before), after. split; [reflexivity |]. split; [| exact Hbest].
        intros x [<- | Hx]; [| auto].
        destruct (le g r) eqn:Hgx; [| reflexivity].
        rewrite (le_trans _ _ _ Hgx Hr) in Hbest. discriminate Hbest.
    + assert (Hbr : le best r = true) by (destruct (le_total best r); congruence).
      destruct (IH _ _ Hg) as [[-> Hall] | (before & after & -> & Hbefore & Hbest)].
      * right. exists [], rows. split; [reflexivity |]. split; [intros x [] | exact Hr].
      * right. exists (r :: before), after. split; [reflexivity |]. split.
        -- intros x [<- | Hx]; auto.
        -- destruct (le g best) eqn:Hgb; [| reflexivity].
           rewrite (le_trans _ _ _ Hgb Hbr) in Hbest. discriminate Hbest.
Qed.

(** Of several rows with the greatest key [greatest] keeps the first: the
    rows before it have a smaller key. *)
Lemma greatest_first :
  forall rows g,
    greatest le rows = Some g ->
    exists before after,
      rows = before ++ g :: after /\ forall r, In r before -> le g r = false.
Proof.
  intros [| r0 rows] g; cbn [greatest]; [discriminate |]. intros [= Hg].
  destruct (greatest_from_first _ _ _ Hg) as [[-> _] | (before & after & -> & Hbefore & Hbest)].
  - exists [], rows. split; [reflexivity | intros r []].
  - exists (r0 :: before), after. split; [reflexivity |].
    intros x [<- | Hx]; auto.
Qed.

(** The leftmost of the greatest of three rows does not depend on how they
    are grouped. *)
Lemma keep_first_assoc (x y z : A) :
  (if le z (if le y x then x else y) then (if le y x then x else y) else z)
  = (if le (if le z y then y else z) x then x else (if le z y then y else z)).
Proof.
  destruct (le y x) eqn:Hyx; destruct (le z y) eqn:Hzy; destruct (le z x) eqn:Hzx;
    rewrite ?Hyx, ?Hzy, ?Hzx; try reflexivity.
  - rewrite (le_trans _ _ _ Hzy Hyx) in Hzx. discriminate Hzx.
  - assert (Hxy : le x y = true) by (destruct (le_total x y); congruence).
    rewrite (le_trans _ _ _ Hzx Hxy) in Hzy. discriminate Hzy.
Qed.

Lemma greatest_from_keep_first :
  forall rows x y,
    greatest_from le (if le y x then x else y) rows
    = (if le (greatest_from le y rows) x then x else greatest_from le y rows).
Proof.
  induction rows as [| z rows IH]; intros x y; cbn [greatest_from]; [reflexivity |].
  rewrite keep_first_assoc. apply IH.
Qed.

Lemma greatest_cons (x : A) (rows : list A) :
  greatest le (x :: rows)
  = match greatest le rows with
    | None => Some x
    | Some b => if le b x then Some x else Some b
    end.
Proof.
  destruct rows as [| y rows]; [reflexivity |].
  cbn [greatest greatest_from]. rewrite greatest_from_keep_first.
  destruct (le (greatest_from le y rows) x); reflexivity.
Qed.
End RowPositions.

Section RowPositionsLast.
Context {A : Type}.
Variable le : A -> A -> bool.
Hypothesis le_refl : forall a, le a a = true.
Hypothesis le_trans : forall a b c, le a b = true -> le b c = true -> le a c = true.
Hypothesis le_total : forall a b, le a b = true \/ le b a = true.

(** Walking the index backwards returns a row of the selection whose key
    is greatest, and of several such rows the last: the rows after it
    have a smaller key. *)
Lemma greatestLast_Some :
  forall rows g,
    greatestLast le rows = Some g ->
    In g rows
    /\ (forall r, In r rows -> le r g = true)
    /\ exists before after,
         rows = before ++ g :: after /\ forall r, In r after -> le g r = false.
Proof.
  unfold greatestLast. intros rows g Hg.
  destruct (greatest_Some le le_refl le_trans le_total _ _ Hg) as [Hin Hmax].
  split; [apply in_rev; exact Hin |].
  split; [intros r Hr; apply Hmax; apply in_rev in Hr; exact Hr |].
  destruct (greatest_first le le_trans le_total _ _ Hg) as (before & after & Heq & Hbefore).
  exists (rev after), (rev before). split.
  - rewrite <- (rev_involutive rows), Heq, rev_app_distr. cbn [rev].
    rewrite <- app_assoc. reflexivity.
  - intros r Hr. apply Hbefore. apply in_rev. exact Hr.
Qed.

Lemma greatestLast_None : forall rows, greatestLast le rows = None <-> rows = [].
Proof.
  unfold greatestLast. intros rows. rewrite greatest_None. split.
  - intros H. rewrite <- (rev_involutive rows), H. reflexivity.
  - intros ->. reflexivity.
Qed.

Lemma greatestLast_exists :
  forall rows r, In r rows -> exists g, greatestLast le rows = Some g.
Proof.
  unfold greatestLast. intros rows r Hr.
  apply greatest_exists with (r := r). apply in_rev in Hr. exact Hr.
Qed.
End RowPositionsLast.

Section ScanThenSort.
Context {A : Type}.
(** [le]: the key of [ORDER BY ... DESC LIMIT 1]; [scan]: the key of the
    index through which the rows are met. *)
Variables le scan : A -> A -> bool.
Hypothesis le_refl : forall a, le a a = true.
Hypothesis le_trans : forall a b c, le a b = true -> le b c = true -> le a c = true.
Hypothesis le_total : forall a b, le a b = true \/ le b a = true.
Hypothesis scan_refl : forall a, scan a a = true.
Hypothesis scan_trans : forall a b c, scan a b = true -> scan b c = true -> scan a c = true.
Hypothesis scan_total : forall a b, scan a b = true \/ scan b a = true.

Lemma greatest_insertRow (a : A) :
  forall l,
    Ascending scan l ->
    greatest le (insertRow scan a l)
    = match greatest le l with
      | None => Some a
      | Some b => if negb (le a b) || (le b a && scan a b) then Some a else Some b
      end.
Proof.
  induction 1 as [| y l Hy Hl IH]; [reflexivity |].
  cbn [insertRow]. destruct (scan a y) eqn:Hay.
  - rewrite (greatest_cons le le_trans le_total a (y :: l)).
    destruct (greatest le (y :: l)) as [b |] eqn:Hb; [| reflexivity].
    destruct (greatest_Some le le_refl le_trans le_total _ _ Hb) as [Hbin _].
    assert (Hab : scan a b = true).
    { destruct Hbin as [<- | Hbin]; [exact Hay |].
      exact (scan_trans _ _ _ Hay (Hy b Hbin)). }
    rewrite Hab, andb_true_r.
    destruct (le b a) eqn:Hba; [rewrite orb_true_r; reflexivity |].
    assert (Hab' : le a b = true) by (destruct (le_total a b); congruence).
    rewrite Hab'. reflexivity.
  - rewrite (greatest_cons le le_trans le_total y (insertRow scan a l)), IH.
    rewrite (greatest_cons le le_trans le_total y l).
    destruct (greatest le l) as [b' |] eqn:Hb'.
    + destruct (le b' y) eqn:Hby.
      * rewrite Hay, andb_false_r, orb_false_r.
        destruct (negb (le a b') || le b' a && scan a b') eqn:Hwin.
        -- destruct (le a y); reflexivity.
        -- rewrite Hby.
           apply orb_false_iff in Hwin as [Hab _]. apply negb_false_iff in Hab.
           rewrite (le_trans _ _ _ Hab Hby). reflexivity.
      * destruct (negb (le a b') || le b' a && scan a b') eqn:Hwin.
        -- assert (Hyb : le y b' = true) by (destruct (le_total y b'); congruence).
           destruct (le a y) eqn:Hle; [exfalso | reflexivity].
           apply orb_true_iff in Hwin as [Hwin | Hwin].
           ++ apply negb_true_iff in Hwin.
              rewrite (le_trans _ _ _ Hle Hyb) in Hwin. discriminate Hwin.
           ++ apply andb_true_iff in Hwin as [Hba _].
              rewrite (le_trans _ _ _ Hba Hle) in Hby. discriminate Hby.
        -- rewrite Hby. reflexivity.
    + rewrite Hay, andb_false_r, orb_false_r.
      destruct (le a y); reflexivity.
Qed.

(** What [ORDER BY key DESC LIMIT 1] returns when the rows are met through
    an index on another key: a row of the selection whose key is greatest;
    of several such rows one that the index lists first, that is one whose
    index key is least, and of those the one of least rowid. *)
Lemma greatest_orderBy_Some :
  forall rows g,
    greatest le (orderBy scan rows) = Some g ->
    In g rows
    /\ (forall r, In r rows -> le r g = true)
    /\ (forall r, In r rows -> le g r = true -> scan g r = true)
    /\ exists before after,
         rows = before ++ g :: after
         /\ forall r, In r before -> le g r = true -> scan r g = false.
Proof.
  induction rows as [| a rows IH]; intros g; [discriminate |].
  cbn [orderBy fold_right]. fold (orderBy scan rows).
  rewrite (greatest_insertRow a _ (orderBy_Ascending scan scan_trans scan_total rows)).
  destruct (greatest le (orderBy scan rows)) as [b |] eqn:Hb.
  - destruct (IH b eq_refl) as (Hbin & Hbmax & Hbscan & before & after & Heq & Hbefore).
    destruct (negb (le a b) || le b a && scan a b) eqn:Hwin; intros [= <-].
    + assert (Hba : le b a = true).
      { apply orb_true_iff in Hwin as [Hwin | Hwin].
        - apply negb_true_iff in Hwin. destruct (le_total a b); congruence.
        - apply andb_true_iff in Hwin as [Hba _]. exact Hba. }
      split; [left; reflexivity |].
      split; [intros r [<- | Hr]; [apply le_refl | exact (le_trans _ _ _ (Hbmax r Hr) Hba)] |].
      split.
      * intros r [<- | Hr] Har; [apply scan_refl |].
        assert (Hab : le a b = true) by exact (le_trans _ _ _ Har (Hbmax r Hr)).
        rewrite Hab, Hba in Hwin. cbn in Hwin.
        apply (scan_trans _ _ _ Hwin). apply Hbscan; [exact Hr |].
        exact (le_trans _ _ _ Hba Har).
      * exists [], rows. split; [reflexivity | intros r []].
    + apply orb_false_iff in Hwin as [Hab Hwin]. apply negb_false_iff in Hab.
      split; [right; exact Hbin |].
      split; [intros r [<- | Hr]; [exact Hab | exact (Hbmax r Hr)] |].
      split.
      * intros r [<- | Hr] Hbr; [| exact (Hbscan r Hr Hbr)].
        rewrite Hbr in Hwin. cbn in Hwin.
        destruct (scan_total b a); congruence.
      * exists (a :: before), after. split; [rewrite Heq; reflexivity |].
        intros r [<- | Hr] Hbr; [| exact (Hbefore r Hr Hbr)].
        rewrite Hbr in Hwin. exact Hwin.
  - intros [= <-].
    assert (Hnil : rows = []).
    { apply (greatest_None le) in Hb.
      destruct rows as [| r rows']; [reflexivity |].
      assert (Hr : In r (orderBy scan (r :: rows')))
        by (apply orderBy_In; left; reflexivity).
      rewrite Hb in Hr. destruct Hr. }
    subst rows.
    split; [left; reflexivity |].
    split; [intros r [<- | []]; apply le_refl |].
    split; [intros r [<- | []] _; apply scan_refl |].
    exists [], []. split; [reflexivity | intros r []].
Qed.

Lemma greatest_orderBy_None :
  forall rows, greatest le (orderBy scan rows) = None <-> rows = [].
Proof.
  intros rows. rewrite greatest_None. split; [| intros ->; reflexivity].
  intros Hnil. destruct rows as [| r rows]; [reflexivity |].
  assert (Hr : In r (orderBy scan (r :: rows))) by (apply orderBy_In; left; reflexivity).
  rewrite Hnil in Hr. destruct Hr.
Qed.

Lemma greatest_orderBy_exists :
  forall rows r, In r rows -> exists g, greatest le (orderBy scan rows) = Some g.
Proof.
  intros rows r Hr. apply greatest_exists with (r := r). apply orderBy_In. exact Hr.
Qed.
End ScanThenSort.

(** A position in a selection is a position in the table. *)
Lemma filter_split {A : Type} (f : A -> bool) (x : A) :
  forall (table before after : list A),
    filter f table = before ++ x :: after ->
    exists before0 after0,
      table = before0 ++ x :: after0
      /\ filter f before0 = before /\ filter f after0 = after /\ f x = true.
Proof.
  induction table as [| r table IH]; intros before after Heq.
  - destruct before; discriminate Heq.
  - cbn [filter] in Heq. destruct (f r) eqn:Hr.
    + destruct before as [| b before].
      * cbn in Heq. injection Heq as -> Hafter.
        exists [], table. cbn. rewrite Hr. auto.
      * cbn in Heq. injection Heq as -> Heq.
        destruct (IH _ _ Heq) as (b0 & a0 & -> & Hb & Ha & Hx).
        exists (b :: b0), a0. cbn [filter app]. rewrite Hr, Hb. auto.
    + destruct (IH _ _ Heq) as (b0 & a0 & -> & Hb & Ha & Hx).
      exists (r :: b0), a0. cbn [filter app]. rewrite Hr. auto.
Qed.

(* ===================================================================== *)
(** * Symbol validation: the market registry and ticker normalization *)
(* ===================================================================== *)

Lemma startsWith_spec (p s : string) :
  startsWith p s = true <-> exists tail, s = (p ++ tail)%string.
Proof.
  revert s. induction p as [| a p IH]; intros s; cbn [startsWith].
  - split; [intros _; exists s; reflexivity | reflexivity].
  - destruct s as [| b s].
    + split; [discriminate | intros [tail H]; discriminate H].
    + rewrite andb_true_iff, Ascii.eqb_eq, IH. split.
      * intros [-> [tail ->]]. exists tail. reflexivity.
      * intros [tail H]. cbn in H. injection H as -> ->. split; [reflexivity | eauto].
Qed.

Lemma upperAscii_high (c : ascii) : highByte (upperAscii c) = true -> upperAscii c = c.
Proof. destruct c as [[] [] [] [] [] [] [] []]; cbv; intros H; first [reflexivity | discriminate H]. Qed.

Lemma upperAscii_capital (c : ascii) : capital c = true -> upperAscii c = c.
Proof. destruct c as [[] [] [] [] [] [] [] []]; cbv; intros H; first [reflexivity | discriminate H]. Qed.

Lemma capital_not_high (c : ascii) : capital c = true -> highByte c = false.
Proof. destruct c as [[] [] [] [] [] [] [] []]; cbv; intros H; first [reflexivity | discriminate H]. Qed.

Lemma upperAscii_idempotent (c : ascii) : upperAscii (upperAscii c) = upperAscii c.
Proof. destruct c as [[] [] [] [] [] [] [] []]; reflexivity. Qed.

Lemma upperAscii_slash (c : ascii) :
  Ascii.eqb "/" (upperAscii c) = Ascii.eqb "/" c.
Proof. destruct c as [[] [] [] [] [] [] [] []]; reflexivity. Qed.

Lemma toUpperCase_from_drop (n : nat) (s : string) :
  toUpperCase_from n s = toUpperCase (dropBytes n s).
Proof.
  revert n. induction s as [| c s IH]; intros [| n]; try reflexivity.
  cbn [toUpperCase_from dropBytes]. apply IH.
Qed.

Lemma dropBytes_app (p tail : string) : dropBytes (String.length p) (p ++ tail)%string = tail.
Proof. induction p as [| a p IH]; [destruct tail; reflexivity | exact IH]. Qed.

Lemma table_wellFormed : forallb wellFormedEntry upperCasedToAscii = true.
Proof. reflexivity. Qed.

Lemma entry_wellFormed (p up : string) :
  In (p, up) upperCasedToAscii -> wellFormedEntry (p, up) = true.
Proof.
  intros Hin. exact (proj1 (forallb_forall _ _) table_wellFormed _ Hin).
Qed.

Lemma upperCasedAt_Some (s : string) (n : nat) (up : string) :
  upperCasedAt s = Some (n, up) ->
  exists p tail, In (p, up) upperCasedToAscii /\ n = String.length p /\ s = (p ++ tail)%string.
Proof.
  unfold upperCasedAt.
  destruct (find _ upperCasedToAscii) as [[p up'] |] eqn:Hfind; [| discriminate].
  cbn [option_map fst snd]. intros [= <- <-].
  apply find_some in Hfind as [Hin Hstart]. cbn [fst] in Hstart.
  apply startsWith_spec in Hstart as [tail ->].
  exists p, tail. auto.
Qed.

Lemma upperCasedAt_None (s p up tail : string) :
  upperCasedAt s = None -> In (p, up) upperCasedToAscii -> s = (p ++ tail)%string -> False.
Proof.
  unfold upperCasedAt.
  destruct (find _ upperCasedToAscii) as [entry |] eqn:Hfind; [discriminate |].
  intros _ Hin ->.
  pose proof (find_none _ _ Hfind _ Hin) as Hno. cbn [fst] in Hno.
  assert (Hyes : startsWith p (p ++ tail)%string = true) by (apply startsWith_spec; eauto).
  congruence.
Qed.

Lemma toUpperCase_cons (c : ascii) (rest : string) :
  toUpperCase (String c rest)
  = match upperCasedAt (String c rest) with
    | Some (bytes, upper) => (upper ++ toUpperCase_from (bytes - 1) rest)%string
    | None => String (upperAscii c) (toUpperCase rest)
    end.
Proof. reflexivity. Qed.

(** How [toUpperCase] proceeds on a string. *)
Lemma toUpperCase_cases (s : string) :
  s = ""
  \/ (exists c rest, s = String c rest /\ upperCasedAt s = None
                     /\ toUpperCase s = String (upperAscii c) (toUpperCase rest))
  \/ (exists p up tail, In (p, up) upperCasedToAscii /\ s = (p ++ tail)%string
                        /\ toUpperCase s = (up ++ toUpperCase tail)%string).
Proof.
  destruct s as [| c rest]; [left; reflexivity | right].
  rewrite toUpperCase_cons.
  destruct (upperCasedAt (String c rest)) as [[n up] |] eqn:Hat.
  - right. destruct (upperCasedAt_Some _ _ _ Hat) as (p & tail & Hin & -> & Heq).
    exists p, up, tail. split; [exact Hin |]. split; [exact Heq |].
    rewrite toUpperCase_from_drop. f_equal. f_equal.
    pose proof (entry_wellFormed _ _ Hin) as Hwf.
    destruct p as [| a p']; [discriminate Hwf |].
    cbn in Heq. injection Heq as -> ->.
    cbn [String.length]. rewrite Nat.sub_1_r. cbn [Nat.pred]. apply dropBytes_app.
  - left. exists c, rest. auto.
Qed.

Lemma string_length_app (a b : string) : String.length (a ++ b)%string = String.length a + String.length b.
Proof. induction a as [| c a IH]; cbn; [reflexivity | now rewrite IH]. Qed.

Lemma includesChar_app c (a b : string) :
  includesChar c (a ++ b)%string = includesChar c a || includesChar c b.
Proof.
  induction a as [| d a IH]; cbn [includesChar append]; [reflexivity |].
  destruct (Ascii.eqb c d); [reflexivity | exact IH].
Qed.

(** An induction over strings that may step over several bytes at once. *)
Lemma string_length_ind (P : string -> Prop) :
  (forall s, (forall t, String.length t < String.length s -> P t) -> P s) ->
  forall s, P s.
Proof.
  intros Hstep s.
  assert (H : forall n t, String.length t < n -> P t).
  { induction n as [| n IH]; intros t Hlt; [lia |].
    apply Hstep. intros u Hu. apply IH. lia. }
  exact (H (S (String.length s)) s (Nat.lt_succ_diag_r _)).
Qed.

Lemma entry_tail_shorter (p up tail : string) :
  In (p, up) upperCasedToAscii -> String.length tail < String.length (p ++ tail)%string.
Proof.
  intros Hin. pose proof (entry_wellFormed _ _ Hin) as Hwf.
  destruct p as [| a p']; [discriminate Hwf |].
  rewrite string_length_app. cbn [String.length]. lia.
Qed.

(** Upper-casing neither adds nor removes a pair separator. *)
Lemma includesChar_toUpperCase (t : string) :
  includesChar "/" (toUpperCase t) = includesChar "/" t.
Proof.
  induction t as [t IH] using string_length_ind.
  destruct (toUpperCase_cases t) as [-> | [(c & rest & -> & _ & ->) | (p & up & tail & Hin & -> & ->)]].
  - reflexivity.
  - cbn [includesChar]. rewrite upperAscii_slash, IH; [reflexivity | cbn; lia].
  - rewrite !includesChar_app, IH by (eapply entry_tail_shorter; eauto).
    pose proof (entry_wellFormed _ _ Hin) as Hwf. unfold wellFormedEntry in Hwf.
    destruct p as [| a [| b p']]; try discriminate Hwf.
    destruct up as [| u up']; try discriminate Hwf.
    cbn [fst snd] in Hwf.
    apply andb_true_iff in Hwf as [Hwf Hup]. apply andb_true_iff in Hwf as [_ Hp].
    apply negb_true_iff in Hp, Hup. rewrite Hp, Hup. reflexivity.
Qed.

Lemma toUpperCase_capitals (up t : string) :
  allChars capital up = true -> toUpperCase (up ++ t)%string = (up ++ toUpperCase t)%string.
Proof.
  induction up as [| a up IH]; [reflexivity |].
  cbn [allChars]. rewrite andb_true_iff. intros [Ha Hup].
  destruct (toUpperCase_cases (String a up ++ t)%string)
    as [H | [(c & rest & Heq & _ & ->) | (p & up' & tail & Hin & Heq & _)]].
  - discriminate H.
  - cbn in Heq. injection Heq as <- <-.
    rewrite (upperAscii_capital _ Ha), (IH Hup). reflexivity.
  - exfalso. pose proof (entry_wellFormed _ _ Hin) as Hwf. unfold wellFormedEntry in Hwf.
    destruct p as [| b [| b' p']]; try discriminate Hwf.
    destruct up' as [| u up'']; try discriminate Hwf.
    cbn in Heq. injection Heq as -> _.
    cbn [fst snd] in Hwf.
    rewrite !andb_true_iff in Hwf. destruct Hwf as [[[[[[Hb _] _] _] _] _] _].
    rewrite (capital_not_high _ Ha) in Hb. discriminate Hb.
Qed.

(** A byte outside ASCII at the head of an upper-cased string was at the
    head of the string. *)
Lemma toUpperCase_high_head (r : string) (d : ascii) (t : string) :
  toUpperCase r = String d t -> highByte d = true ->
  exists r', r = String d r' /\ t = toUpperCase r'.
Proof.
  intros Heq Hd.
  destruct (toUpperCase_cases r)
    as [-> | [(c & rest & -> & _ & Hu) | (p & up & tail & Hin & -> & Hu)]].
  - discriminate Heq.
  - rewrite Hu in Heq. injection Heq as <- <-.
    rewrite (upperAscii_high _ Hd). eauto.
  - exfalso. rewrite Hu in Heq.
    pose proof (entry_wellFormed _ _ Hin) as Hwf. unfold wellFormedEntry in Hwf.
    destruct p as [| b [| b' p']]; try discriminate Hwf.
    destruct up as [| u up']; try discriminate Hwf.
    cbn [fst snd allChars] in Hwf.
    cbn in Heq. injection Heq as -> _.
    rewrite !andb_true_iff in Hwf. destruct Hwf as [[[_ [Hu' _]] _] _].
    rewrite (capital_not_high _ Hu') in Hd. discriminate Hd.
Qed.

Lemma upperCasedAt_upper (c : ascii) (rest : string) :
  upperCasedAt (String c rest) = None ->
  upperCasedAt (String (upperAscii c) (toUpperCase rest)) = None.
Proof.
  intros Hnone.
  destruct (upperCasedAt (String (upperAscii c) (toUpperCase rest))) as [[n up] |] eqn:Hat;
    [exfalso | reflexivity].
  destruct (upperCasedAt_Some _ _ _ Hat) as (p & tail & Hin & _ & Heq).
  pose proof (entry_wellFormed _ _ Hin) as Hwf. unfold wellFormedEntry in Hwf.
  destruct p as [| a [| b p']]; try discriminate Hwf.
  destruct up as [| u up']; try discriminate Hwf.
  cbn [fst snd] in Hwf. rewrite !andb_true_iff in Hwf.
  destruct Hwf as [[[[[[Ha Hb] Hrest] Hlen] _] _] _].
  cbn in Heq. injection Heq as Hc Hrest_eq.
  rewrite <- Hc in Ha. apply upperAscii_high in Ha. rewrite Ha in Hc. subst a.
  destruct (toUpperCase_high_head _ _ _ Hrest_eq Hb) as (rest1 & -> & Hrest1).
  destruct p' as [| e p''].
  - exact (upperCasedAt_None _ _ _ rest1 Hnone Hin eq_refl).
  - destruct p'' as [| ? ?]; [| cbn in Hlen; discriminate Hlen].
    cbn [allChars] in Hrest. rewrite andb_true_iff in Hrest. destruct Hrest as [He _].
    cbn in Hrest1. symmetry in Hrest1.
    destruct (toUpperCase_high_head _ _ _ Hrest1 He) as (rest2 & -> & _).
    exact (upperCasedAt_None _ _ _ rest2 Hnone Hin eq_refl).
Qed.

Lemma toUpperCase_idempotent (s : string) : toUpperCase (toUpperCase s) = toUpperCase s.
Proof.
  induction s as [s IH] using string_length_ind.
  destruct (toUpperCase_cases s)
    as [-> | [(c & rest & -> & Hnone & ->) | (p & up & tail & Hin & -> & ->)]].
  - reflexivity.
  - destruct (toUpperCase_cases (String (upperAscii c) (toUpperCase rest)))
      as [H | [(c' & rest' & Heq & _ & ->) | (p & up & tail & Hin & Heq & _)]].
    + discriminate H.
    + injection Heq as <- <-. rewrite upperAscii_idempotent, IH; [reflexivity | cbn; lia].
    + exfalso. apply upperCasedAt_upper in Hnone.
      exact (upperCasedAt_None _ _ _ _ Hnone Hin Heq).
  - pose proof (entry_wellFormed _ _ Hin) as Hwf. unfold wellFormedEntry in Hwf.
    destruct p as [| a [| b p']]; try discriminate Hwf.
    destruct up as [| u up']; try discriminate Hwf.
    cbn [fst snd] in Hwf. rewrite !andb_true_iff in Hwf.
    destruct Hwf as [[[_ Hcap] _] _].
    rewrite toUpperCase_capitals by exact Hcap.
    rewrite IH; [reflexivity |].
    apply (entry_tail_shorter _ _ _ Hin).
Qed.

Lemma marketIndex_keys : map fst marketIndex = registryKeys.
Proof. reflexivity. Qed.

Lemma mapGet_None_iff {V : Type} (k : string) (m : JsMap (K := string) (V := V)) :
  mapGet String.eqb k m = None <-> ~ In k (map fst m).
Proof.
  induction m as [| [k' v] m IH]; simpl.
  - tauto.
  - destruct (String.eqb_spec k' k) as [-> | Hne].
    + split; [discriminate | intros Hn; exfalso; apply Hn; left; reflexivity].
    + rewrite IH. tauto.
Qed.

Lemma mapGet_Some_In {V : Type} (k : string) (m : JsMap (K := string) (V := V)) (v : V) :
  mapGet String.eqb k m = Some v -> In v (map snd m).
Proof.
  induction m as [| [k' v'] m IH]; simpl; [discriminate |].
  destruct (String.eqb k' k); [intros [= <-]; left; reflexivity | intros Hg; right; auto].
Qed.

Lemma getMarketDefinition_None_iff (market : string) :
  getMarketDefinition market = None <-> ~ In (toUpperCase market) registryKeys.
Proof.
  unfold getMarketDefinition. rewrite mapGet_None_iff, marketIndex_keys. tauto.
Qed.

(** Every definition the registry hands out is an entry of the table. *)
Lemma getMarketDefinition_supported (market : string) (d : MarketDefinition) :
  getMarketDefinition market = Some d -> In d SUPPORTED_MARKETS.
Proof.
  unfold getMarketDefinition. intros Hg. apply mapGet_Some_In in Hg.
  revert Hg. generalize d. apply Forall_forall.
  repeat (constructor; [simpl; tauto |]). constructor.
Qed.

(** C8.  For every market code that is not in the supported-market registry
    (neither a code nor an alias, compared in upper case), [validateSymbol]
    completes normally with [{valid: false, source: 'LOCAL', reason:
    'unsupported_market', supported_markets}] carrying the whole registry
    table; it throws nothing, and it leaves the database, the world and
    the trace of provider calls as they were, whatever the provider list:
    no provider is invoked. *)
Theorem validateSymbol_unsupported_market :
  forall (W : Type) (R : Runtime W) (ticker market : string)
         (providers : list (MarketDataProvider W)) (s : State W),
    ~ In (toUpperCase market) registryKeys ->
    validateSymbol ticker market providers s
    = (Normal {| valid := false; source := "LOCAL";
                 reason := Some "unsupported_market";
                 supported_markets := Some SUPPORTED_MARKETS;
                 symbol := None; normalized := None |}, s)
    /\ calls (snd (validateSymbol ticker market providers s)) = calls s.
Proof.
  intros W R ticker market providers s Hout.
  apply getMarketDefinition_None_iff in Hout.
  unfold validateSymbol. rewrite Hout. split; reflexivity.
Qed.

Lemma validateSymbol_unsupported_market_witness :
  validateSymbol "7203" "TSE" [Doubles.scripted "MOCK" 1 []] (Doubles.initial emptyDb)
  = (Normal {| valid := false; source := "LOCAL";
               reason := Some "unsupported_market";
               supported_markets := Some SUPPORTED_MARKETS;
               symbol := None; normalized := None |}, Doubles.initial emptyDb)
  /\ calls (snd (validateSymbol "7203" "TSE" [Doubles.scripted "MOCK" 1 []]
                                (Doubles.initial emptyDb))) = [].
Proof.
  apply (validateSymbol_unsupported_market unit Doubles.fixedRuntime "7203" "TSE"
           [Doubles.scripted "MOCK" 1 []] (Doubles.initial emptyDb)).
  simpl. intros H.
  repeat (destruct H as [H | H]; [discriminate H |]). exact H.
Defined.

(** The long s upper-cases to S, so this spelling of NYSE names a supported
    market, while a name that upper-cases to no key of the registry is
    refused. *)
Example getMarketDefinition_long_s :
  toUpperCase ("ny" ++ utf8 [197; 191] ++ "e")%string = "NYSE"
  /\ option_map code (getMarketDefinition ("ny" ++ utf8 [197; 191] ++ "e")%string)
     = Some "NYSE"
  /\ getMarketDefinition ("ny" ++ utf8 [195; 169] ++ "e")%string = None.
Proof. repeat split; reflexivity. Qed.


Lemma crypto_markets_declare_usdt :
  Forall (fun d => assetType d = crypto ->
                   code d = "BINANCE" /\ defaultQuote d = Some "USDT")
         SUPPORTED_MARKETS.
Proof.
  repeat (constructor; [simpl; first [discriminate | auto] |]). constructor.
Qed.

(** C9.  Ticker normalization.  On a market of the crypto asset class a
    ticker without ['/'] gets ['/'] and the market's default quote currency
    (['USD'] when the market declares none) appended after upper-casing; a
    ticker that contains a ['/'] is only upper-cased; on every other market
    the ticker is only upper-cased.  The one crypto market of the registry,
    BINANCE, declares USDT, so [BTC] on [BINANCE] becomes [BTC/USDT] and
    [BTC/ETH] stays [BTC/ETH]; [validateSymbol] reports that normalized
    pair. *)
Theorem normalizeTicker_crypto_pairs :
  (forall ticker market d,
      getMarketDefinition market = Some d ->
      assetType d = crypto ->
      includesChar "/" ticker = false ->
      normalizeTicker (toUpperCase ticker) market
      = (toUpperCase ticker ++ "/" ++ optOrElse (defaultQuote d) "USD")%string)
  /\ (forall ticker market d,
         getMarketDefinition market = Some d ->
         assetType d = crypto ->
         includesChar "/" ticker = true ->
         normalizeTicker (toUpperCase ticker) market = toUpperCase ticker)
  /\ (forall ticker market,
         (forall d, getMarketDefinition market = Some d -> assetType d = equity) ->
         normalizeTicker (toUpperCase ticker) market = toUpperCase ticker)
  /\ (forall d, In d SUPPORTED_MARKETS -> assetType d = crypto ->
                code d = "BINANCE" /\ defaultQuote d = Some "USDT")
  /\ normalizeTicker (toUpperCase "BTC") "BINANCE" = "BTC/USDT"
  /\ normalizeTicker (toUpperCase "BTC/ETH") "BINANCE" = "BTC/ETH"
  /\ normalizeTicker (toUpperCase "btc") "BINANCE" = "BTC/USDT"
  /\ normalizeTicker (toUpperCase "aapl") "NASDAQ" = "AAPL"
  /\ (forall (W : Type) (R : Runtime W) (s : State W),
         market_symbols (db s) = [] ->
         validateSymbol "BTC" "BINANCE" [] s
         = (Normal {| valid := false; source := "UNKNOWN"; reason := Some "not_found";
                      supported_markets := None; symbol := None;
                      normalized := Some ("BTC/USDT", "BINANCE") |}, s)).
Proof.
  split; [| split; [| split; [| split]]].
  - intros ticker market d Hd Hc Hno.
    unfold normalizeTicker. rewrite Hd, Hc, includesChar_toUpperCase, Hno. reflexivity.
  - intros ticker market d Hd Hc Hyes.
    unfold normalizeTicker. rewrite Hd, Hc, includesChar_toUpperCase, Hyes. reflexivity.
  - intros ticker market Heq.
    unfold normalizeTicker.
    destruct (getMarketDefinition market) as [d |] eqn:Hd; [| reflexivity].
    rewrite (Heq d eq_refl). reflexivity.
  - intros d Hin. exact (proj1 (Forall_forall _ _) crypto_markets_declare_usdt d Hin).
  - repeat split; try reflexivity.
    intros W R s Hempty.
    unfold validateSymbol, getCachedValidation, query, bind. simpl.
    rewrite Hempty. reflexivity.
Qed.

Lemma normalizeTicker_crypto_pairs_witness :
  normalizeTicker (toUpperCase "eth") "binance" = "ETH/USDT"
  /\ normalizeTicker (toUpperCase "eth/btc") "binance" = "ETH/BTC"
  /\ normalizeTicker (toUpperCase "vod") "LSE" = "VOD".
Proof.
  destruct normalizeTicker_crypto_pairs as (Hadd & Hkeep & Hplain & _).
  split; [| split].
  - exact (Hadd "eth" "binance" _ eq_refl eq_refl eq_refl).
  - exact (Hkeep "eth/btc" "binance" _ eq_refl eq_refl eq_refl).
  - apply (Hplain "vod" "LSE"). intros d [= <-]. reflexivity.
Defined.

(* ===================================================================== *)
(** * The quote cache *)
(* ===================================================================== *)

Section SortKeys.
Lemma byExpiresAt_refl a : byExpiresAt a a = true.
Proof. apply leb_refl. Qed.
Lemma byExpiresAt_trans a b c :
  byExpiresAt a b = true -> byExpiresAt b c = true -> byExpiresAt a c = true.
Proof. apply leb_trans. Qed.
Lemma byExpiresAt_total a b : byExpiresAt a b = true \/ byExpiresAt b a = true.
Proof. apply String.leb_total. Qed.

Lemma byDate_refl a : byDate a a = true.
Proof. apply leb_refl. Qed.
Lemma byDate_trans a b c : byDate a b = true -> byDate b c = true -> byDate a c = true.
Proof. apply leb_trans. Qed.
Lemma byDate_total a b : byDate a b = true \/ byDate b a = true.
Proof. apply String.leb_total. Qed.


(** [ORDER BY as_of, fetched_at] read as a relation. *)
Lemma byAsOfThenFetchedAt_iff a b :
  byAsOfThenFetchedAt a b = true <->
  String.ltb (qc_as_of a) (qc_as_of b) = true
  \/ (qc_as_of a = qc_as_of b /\ String.leb (qc_fetched_at a) (qc_fetched_at b) = true).
Proof.
  unfold byAsOfThenFetchedAt.
  rewrite orb_true_iff, andb_true_iff, String.eqb_eq. tauto.
Qed.

Lemma byAsOfThenFetchedAt_refl a : byAsOfThenFetchedAt a a = true.
Proof. apply byAsOfThenFetchedAt_iff. right. split; [reflexivity | apply leb_refl]. Qed.

Lemma byAsOfThenFetchedAt_trans a b c :
  byAsOfThenFetchedAt a b = true -> byAsOfThenFetchedAt b c = true ->
  byAsOfThenFetchedAt a c = true.
Proof.
  rewrite !byAsOfThenFetchedAt_iff.
  intros [Hab | [Eab Fab]] [Hbc | [Ebc Fbc]].
  - left. eapply ltb_trans; eauto.
  - left. rewrite <- Ebc. exact Hab.
  - left. rewrite Eab. exact Hbc.
  - right. split; [congruence | eapply leb_trans; eauto].
Qed.

Lemma byAsOfThenFetchedAt_total a b :
  byAsOfThenFetchedAt a b = true \/ byAsOfThenFetchedAt b a = true.
Proof.
  rewrite !byAsOfThenFetchedAt_iff.
  destruct (String.ltb (qc_as_of a) (qc_as_of b)) eqn:Hab; [tauto |].
  destruct (String.ltb (qc_as_of b) (qc_as_of a)) eqn:Hba; [tauto |].
  apply ltb_false_leb in Hab, Hba.
  pose proof (String.leb_antisym _ _ Hba Hab) as E.
  destruct (String.leb_total (qc_fetched_at a) (qc_fetched_at b)); [left | right];
    right; split; congruence.
Qed.
End SortKeys.

Section QuoteCacheFacts.
Context {W : Type} {R : Runtime W}.

(** Awaiting providers never touches the database. *)
Lemma AllThrow_invoke_db {A : Type}
      (task : MarketDataProvider W -> Async (State W) A) :
  (forall p s, db (snd (task p s)) = db s) ->
  forall ps s e0 s' e, AllThrow task ps s e0 s' e -> db s' = db s.
Proof.
  intros Htask ps s e0 s' e Hrun.
  induction Hrun as [s e | p ps s s1 s2 e0 e1 e2 Hp _ IH]; [reflexivity |].
  rewrite IH. specialize (Htask p s). rewrite Hp in Htask. exact Htask.
Qed.

Lemma invoke_db {A : Type} (c : ProviderCall) (m : Remote W A) (s : State W) :
  db (snd (invoke c m s)) = db s.
Proof. unfold invoke. destruct (m (world s)); reflexivity. Qed.

Lemma quoteTask_db ticker exchange (p : MarketDataProvider W) s :
  db (snd (quoteTask ticker exchange p s)) = db s.
Proof. apply invoke_db. Qed.

(** What [getLatestQuote] does once the fresh-cache lookup has missed and
    the whole chain has thrown. *)
Lemma getLatestQuote_exhausted :
  forall ticker market providers forceRefresh (s s' : State W) e,
    (forceRefresh = true \/
     selectCachedQuote ticker market (datetime_now (world s)) (quote_cache (db s)) = None) ->
    AllThrow (quoteTask ticker (resolveExchange market))
             (filterProvidersForMarket providers market) s None s' e ->
    getLatestQuote ticker market providers forceRefresh s
    = match selectStaleQuote ticker market (quote_cache (db s)) with
      | Some row =>
          (Normal {| lq_price := qc_price row; lq_currency := qc_currency row;
                     lq_as_of := qc_as_of row; lq_source := qc_source row;
                     lq_fetched_at := None; lq_expires_at := None;
                     lq_cached := true |}, s')
      | None =>
          match selectLatestHistory ticker market (price_history (db s)) with
          | Some h =>
              (Normal {| lq_price := ph_price h; lq_currency := ph_currency h;
                         lq_as_of := ph_date h;
                         lq_source := orElse (ph_source h) "HISTORY";
                         lq_fetched_at := None; lq_expires_at := None;
                         lq_cached := true |}, s')
          | None => (Throw (raisedAfter e), s')
          end
      end.
Proof.
  intros ticker market providers forceRefresh s s' e Hmiss Hrun.
  pose proof (AllThrow_invoke_db _ (quoteTask_db ticker (resolveExchange market))
                _ _ _ _ _ Hrun) as Hdb.
  pose proof (fetch_from_exhausted _ _ _ _ _ _ Hrun) as Hfetch.
  assert (Hfirst : (if forceRefresh then ret None else getCachedQuote ticker market) s
                   = (Normal None, s)).
  { destruct Hmiss as [-> | Hnone]; [reflexivity |].
    destruct forceRefresh; [reflexivity |].
    unfold getCachedQuote, query. rewrite Hnone. reflexivity. }
  unfold getLatestQuote, bind at 1. rewrite Hfirst.
  unfold tryCatch, bind at 1. unfold fetchWithProviders. rewrite Hfetch.
  unfold bind, getStaleQuote, getLatestHistoryPrice, getLatestHistoryPrice_db, query.
  cbn. rewrite ?Hdb.
  destruct (selectStaleQuote ticker market (quote_cache (db s))) as [row |];
    [reflexivity |].
  cbn. rewrite ?Hdb.
  destruct (selectLatestHistory ticker market (price_history (db s))) as [h |];
    reflexivity.
Qed.
End QuoteCacheFacts.

(** C3.  When the quote cache holds a row for [(ticker, market)] whose
    [expires_at] is later than now, [getLatestQuote] without [forceRefresh]
    returns a cached row with [cached = true] added: price, currency,
    as-of, source, fetch time and expiry are those of a row of the table
    for that key which has not expired and whose expiry is the latest, the
    one inserted last when several rows share that expiry (so it is the
    given row itself when that is the only fresh one).  The state comes
    back unchanged whatever the provider list is, so no provider of the
    chain is invoked. *)
Theorem getLatestQuote_fresh_cache_hit :
  forall (W : Type) (R : Runtime W) (ticker market : string)
         (providers : list (MarketDataProvider W)) (s : State W) (row : QuoteRow),
    In row (quote_cache (db s)) ->
    qc_ticker row = ticker ->
    qc_market row = market ->
    String.ltb (datetime_now (world s)) (qc_expires_at row) = true ->
    exists hit : QuoteRow,
      getLatestQuote ticker market providers false s
      = (Normal {| lq_price := qc_price hit; lq_currency := qc_currency hit;
                   lq_as_of := qc_as_of hit; lq_source := qc_source hit;
                   lq_fetched_at := Some (qc_fetched_at hit);
                   lq_expires_at := Some (qc_expires_at hit);
                   lq_cached := true |}, s)
      /\ In hit (quote_cache (db s))
      /\ qc_ticker hit = ticker /\ qc_market hit = market
      /\ String.ltb (datetime_now (world s)) (qc_expires_at hit) = true
      /\ (forall other, In other (quote_cache (db s)) ->
                        qc_ticker other = ticker -> qc_market other = market ->
                        String.leb (qc_expires_at other) (qc_expires_at hit) = true)
      /\ (exists before after,
             quote_cache (db s) = before ++ hit :: after
             /\ forall other, In other after ->
                              qc_ticker other = ticker -> qc_market other = market ->
                              String.ltb (qc_expires_at other) (qc_expires_at hit) = true)
      /\ ((forall other, In other (quote_cache (db s)) ->
                         qc_ticker other = ticker -> qc_market other = market ->
                         String.ltb (datetime_now (world s)) (qc_expires_at other) = true ->
                         other = row) -> hit = row)
      /\ calls (snd (getLatestQuote ticker market providers false s)) = calls s.
Proof.
  intros W R ticker market providers s row Hin Ht Hm Hfresh.
  set (fresh := fun r => quoteKeyIs ticker market r
                         && String.ltb (datetime_now (world s)) (qc_expires_at r)).
  assert (Hfresh_iff : forall r, fresh r = true <->
            (qc_ticker r = ticker /\ qc_market r = market)
            /\ String.ltb (datetime_now (world s)) (qc_expires_at r) = true).
  { intros r. unfold fresh, quoteKeyIs. rewrite !andb_true_iff, !String.eqb_eq. tauto. }
  assert (Hrow : In row (filter fresh (quote_cache (db s)))).
  { apply filter_In. split; [exact Hin |]. apply Hfresh_iff. auto. }
  destruct (greatestLast_exists byExpiresAt _ _ Hrow) as [hit Hhit].
  destruct (greatestLast_Some byExpiresAt byExpiresAt_refl byExpiresAt_trans
              byExpiresAt_total _ _ Hhit) as (Hhin & Hmax & before & after & Hsplit & Hafter).
  apply filter_In in Hhin as [Hhin Hhfresh].
  apply Hfresh_iff in Hhfresh as [[Hkt Hkm] Hhfresh].
  assert (Hall : forall other, In other (quote_cache (db s)) ->
                   qc_ticker other = ticker -> qc_market other = market ->
                   fresh other = false ->
                   String.ltb (qc_expires_at other) (qc_expires_at hit) = true).
  { intros other _ Hot Hom Hstale.
    destruct (String.ltb (datetime_now (world s)) (qc_expires_at other)) eqn:Hof.
    - assert (Hyes : fresh other = true) by (apply Hfresh_iff; auto). congruence.
    - apply ltb_false_leb in Hof. exact (leb_ltb_trans _ _ _ Hof Hhfresh). }
  assert (Hrun : getLatestQuote ticker market providers false s
                 = (Normal (quoteOfRow hit), s)).
  { unfold getLatestQuote, bind, getCachedQuote, query, selectCachedQuote.
    fold fresh. rewrite Hhit. reflexivity. }
  exists hit. rewrite Hrun.
  split; [reflexivity |].
  split; [exact Hhin |]. split; [exact Hkt |]. split; [exact Hkm |].
  split; [exact Hhfresh |].
  split; [| split; [| split; [| reflexivity]]].
  - intros other Hoin Hot Hom.
    destruct (fresh other) eqn:Hof.
    + apply Hmax. apply filter_In. auto.
    + apply ltb_leb. apply Hall; auto.
  - destruct (filter_split fresh hit _ _ _ Hsplit) as (before0 & after0 & Htable & _ & Hafter0 & _).
    exists before0, after0. split; [exact Htable |].
    intros other Hoin Hot Hom.
    destruct (fresh other) eqn:Hof.
    + assert (Hoa : In other after).
      { rewrite <- Hafter0. apply filter_In. auto. }
      specialize (Hafter other Hoa). unfold byExpiresAt in Hafter.
      apply leb_false_ltb. exact Hafter.
    + apply Hall; auto. rewrite Htable. apply in_or_app. right. right. exact Hoin.
  - intros Huniq. apply Huniq; assumption.
Qed.

Lemma getLatestQuote_fresh_cache_hit_witness :
  exists hit : QuoteRow,
    getLatestQuote "MSFT" "NASDAQ" [Doubles.failing "MOCK"] false
                   (Doubles.initial (withQuoteCache [freshQuote] emptyDb))
    = (Normal {| lq_price := qc_price hit; lq_currency := qc_currency hit;
                 lq_as_of := qc_as_of hit; lq_source := qc_source hit;
                 lq_fetched_at := Some (qc_fetched_at hit);
                 lq_expires_at := Some (qc_expires_at hit);
                 lq_cached := true |},
       Doubles.initial (withQuoteCache [freshQuote] emptyDb))
    /\ hit = freshQuote.
Proof.
  destruct (getLatestQuote_fresh_cache_hit unit Doubles.fixedRuntime "MSFT" "NASDAQ"
              [Doubles.failing "MOCK"]
              (Doubles.initial (withQuoteCache [freshQuote] emptyDb)) freshQuote
              (or_introl eq_refl) eq_refl eq_refl eq_refl)
    as (hit & Hrun & _ & _ & _ & _ & _ & _ & Huniq & _).
  exists hit. split; [exact Hrun |].
  apply Huniq. intros other [<- | []] _ _ _. reflexivity.
Defined.

(** C4.  When the fresh-cache lookup has missed (or was skipped by
    [forceRefresh]) and every provider of the market's chain has thrown,
    [getLatestQuote] returns the cached quote of the key that comes first
    by [as_of] and then [fetched_at], whatever its expiry, marked
    [cached = true] (of several rows equal in both, the one of earliest
    expiry, and of those the one inserted first); when the quote cache has
    no row for the key it returns the latest daily history row of the key
    as a quote marked [cached = true] (of several rows of that date the
    one inserted last), its source replaced by ['HISTORY'] when the stored
    source is empty; and only when there is neither does it throw, the
    error being the one the chain raised. *)
Theorem getLatestQuote_exhausted_chain_fallback :
  forall (W : Type) (R : Runtime W) (ticker market : string)
         (providers : list (MarketDataProvider W)) (forceRefresh : bool)
         (s s' : State W) (e : option JsThrown),
    (forceRefresh = true \/
     selectCachedQuote ticker market (datetime_now (world s)) (quote_cache (db s)) = None) ->
    AllThrow (quoteTask ticker (resolveExchange market))
             (filterProvidersForMarket providers market) s None s' e ->
    (forall row,
        selectStaleQuote ticker market (quote_cache (db s)) = Some row ->
        getLatestQuote ticker market providers forceRefresh s
        = (Normal {| lq_price := qc_price row; lq_currency := qc_currency row;
                     lq_as_of := qc_as_of row; lq_source := qc_source row;
                     lq_fetched_at := None; lq_expires_at := None;
                     lq_cached := true |}, s')
        /\ In row (quote_cache (db s))
        /\ qc_ticker row = ticker /\ qc_market row = market
        /\ (forall other, In other (quote_cache (db s)) ->
                          qc_ticker other = ticker -> qc_market other = market ->
                          String.ltb (qc_as_of other) (qc_as_of row) = true
                          \/ (qc_as_of other = qc_as_of row
                              /\ String.leb (qc_fetched_at other) (qc_fetched_at row) = true))
        /\ (forall other, In other (quote_cache (db s)) ->
                          qc_ticker other = ticker -> qc_market other = market ->
                          qc_as_of other = qc_as_of row ->
                          qc_fetched_at other = qc_fetched_at row ->
                          String.leb (qc_expires_at row) (qc_expires_at other) = true)
        /\ (exists before after,
               quote_cache (db s) = before ++ row :: after
               /\ forall other, In other before ->
                                qc_ticker other = ticker -> qc_market other = market ->
                                qc_as_of other = qc_as_of row ->
                                qc_fetched_at other = qc_fetched_at row ->
                                String.ltb (qc_expires_at row) (qc_expires_at other) = true))
    /\ (selectStaleQuote ticker market (quote_cache (db s)) = None <->
        (forall other, In other (quote_cache (db s)) ->
                       ~ (qc_ticker other = ticker /\ qc_market other = market)))
    /\ (forall h,
           selectStaleQuote ticker market (quote_cache (db s)) = None ->
           selectLatestHistory ticker market (price_history (db s)) = Some h ->
           getLatestQuote ticker market providers forceRefresh s
           = (Normal {| lq_price := ph_price h; lq_currency := ph_currency h;
                        lq_as_of := ph_date h;
                        lq_source := if ph_source h =? "" then "HISTORY" else ph_source h;
                        lq_fetched_at := None; lq_expires_at := None;
                        lq_cached := true |}, s')
           /\ In h (price_history (db s))
           /\ ph_ticker h = ticker /\ ph_market h = market /\ ph_interval h = "1d"
           /\ (forall other, In other (price_history (db s)) ->
                             ph_ticker other = ticker -> ph_market other = market ->
                             ph_interval other = "1d" ->
                             String.leb (ph_date other) (ph_date h) = true)
           /\ (exists before after,
                  price_history (db s) = before ++ h :: after
                  /\ forall other, In other after ->
                                   ph_ticker other = ticker -> ph_market other = market ->
                                   ph_interval other = "1d" ->
                                   String.ltb (ph_date other) (ph_date h) = true))
    /\ (selectLatestHistory ticker market (price_history (db s)) = None <->
        (forall other, In other (price_history (db s)) ->
                       ~ (ph_ticker other = ticker /\ ph_market other = market
                          /\ ph_interval other = "1d")))
    /\ (selectStaleQuote ticker market (quote_cache (db s)) = None ->
        selectLatestHistory ticker market (price_history (db s)) = None ->
        getLatestQuote ticker market providers forceRefresh s
        = (Throw (raisedAfter e), s')
        /\ fetchWithProviders (filterProvidersForMarket providers market)
                              (quoteTask ticker (resolveExchange market)) s
           = (Throw (raisedAfter e), s')).
Proof.
  intros W R ticker market providers forceRefresh s s' e Hmiss Hrun.
  pose proof (getLatestQuote_exhausted ticker market providers forceRefresh s s' e
                Hmiss Hrun) as Heq.
  assert (Hqkey : forall r, quoteKeyIs ticker market r = true
                            <-> qc_ticker r = ticker /\ qc_market r = market).
  { intros r. unfold quoteKeyIs. rewrite andb_true_iff, !String.eqb_eq. tauto. }
  assert (Hhkey : forall r, historyKeyIs ticker market "1d" r = true
                            <-> ph_ticker r = ticker /\ ph_market r = market
                                /\ ph_interval r = "1d").
  { intros r. unfold historyKeyIs. rewrite !andb_true_iff, !String.eqb_eq. tauto. }
  split; [| split; [| split; [| split]]].
  - intros row Hsel. rewrite Hsel in Heq. split; [exact Heq |].
    unfold selectStaleQuote in Hsel.
    destruct (greatest_orderBy_Some byAsOfThenFetchedAt byExpiresAt
                byAsOfThenFetchedAt_refl byAsOfThenFetchedAt_trans
                byAsOfThenFetchedAt_total byExpiresAt_refl byExpiresAt_trans
                byExpiresAt_total _ _ Hsel)
      as (Hin & Hmax & Hscan & before & after & Hsplit & Hbefore).
    apply filter_In in Hin as [Hin Hkey]. apply Hqkey in Hkey as [Hkt Hkm].
    assert (Hsame : forall other, qc_as_of other = qc_as_of row ->
                                  qc_fetched_at other = qc_fetched_at row ->
                                  byAsOfThenFetchedAt row other = true).
    { intros other Ha Hf. apply byAsOfThenFetchedAt_iff. right.
      split; [congruence |]. rewrite Hf. apply leb_refl. }
    split; [exact Hin |]. split; [exact Hkt |]. split; [exact Hkm |].
    split; [| split].
    + intros other Hoin Hot Hom. apply byAsOfThenFetchedAt_iff. apply Hmax.
      apply filter_In. split; [exact Hoin | apply Hqkey; auto].
    + intros other Hoin Hot Hom Ha Hf.
      apply (Hscan other); [| apply Hsame; assumption].
      apply filter_In. split; [exact Hoin | apply Hqkey; auto].
    + destruct (filter_split _ row _ _ _ Hsplit)
        as (before0 & after0 & Htable & Hbefore0 & _ & _).
      exists before0, after0. split; [exact Htable |].
      intros other Hoin Hot Hom Ha Hf.
      assert (Hob : In other before).
      { rewrite <- Hbefore0. apply filter_In. split; [exact Hoin | apply Hqkey; auto]. }
      specialize (Hbefore other Hob (Hsame other Ha Hf)).
      unfold byExpiresAt in Hbefore. apply leb_false_ltb. exact Hbefore.
  - unfold selectStaleQuote.
    rewrite (greatest_orderBy_None byAsOfThenFetchedAt byExpiresAt). split.
    + intros Hnil other Hoin Hkey.
      assert (Hf : In other (filter (quoteKeyIs ticker market) (quote_cache (db s)))).
      { apply filter_In. split; [exact Hoin | apply Hqkey; exact Hkey]. }
      rewrite Hnil in Hf. exact Hf.
    + intros Hnone.
      destruct (filter (quoteKeyIs ticker market) (quote_cache (db s))) as [| r l] eqn:Hf;
        [reflexivity | exfalso].
      assert (Hr : In r (filter (quoteKeyIs ticker market) (quote_cache (db s))))
        by (rewrite Hf; left; reflexivity).
      apply filter_In in Hr as [Hr Hkey]. apply Hqkey in Hkey. exact (Hnone r Hr Hkey).
  - intros h Hstale Hsel. rewrite Hstale, Hsel in Heq. split; [exact Heq |].
    unfold selectLatestHistory in Hsel.
    destruct (greatestLast_Some byDate byDate_refl byDate_trans byDate_total _ _ Hsel)
      as (Hin & Hmax & before & after & Hsplit & Hafter).
    apply filter_In in Hin as [Hin Hkey]. apply Hhkey in Hkey as (Hkt & Hkm & Hki).
    split; [exact Hin |]. split; [exact Hkt |]. split; [exact Hkm |]. split; [exact Hki |].
    split.
    + intros other Hoin Hot Hom Hoi. apply Hmax.
      apply filter_In. split; [exact Hoin | apply Hhkey; auto].
    + destruct (filter_split _ h _ _ _ Hsplit)
        as (before0 & after0 & Htable & _ & Hafter0 & _).
      exists before0, after0. split; [exact Htable |].
      intros other Hoin Hot Hom Hoi.
      assert (Hoa : In other after).
      { rewrite <- Hafter0. apply filter_In. split; [exact Hoin | apply Hhkey; auto]. }
      specialize (Hafter other Hoa). unfold byDate in Hafter.
      apply leb_false_ltb. exact Hafter.
  - unfold selectLatestHistory. rewrite greatestLast_None. split.
    + intros Hnil other Hoin Hkey.
      assert (Hf : In other (filter (historyKeyIs ticker market "1d") (price_history (db s)))).
      { apply filter_In. split; [exact Hoin | apply Hhkey; exact Hkey]. }
      rewrite Hnil in Hf. exact Hf.
    + intros Hnone.
      destruct (filter (historyKeyIs ticker market "1d") (price_history (db s)))
        as [| r l] eqn:Hf; [reflexivity | exfalso].
      assert (Hr : In r (filter (historyKeyIs ticker market "1d") (price_history (db s))))
        by (rewrite Hf; left; reflexivity).
      apply filter_In in Hr as [Hr Hkey]. apply Hhkey in Hkey. exact (Hnone r Hr Hkey).
  - intros Hstale Hhist. rewrite Hstale, Hhist in Heq. split; [exact Heq |].
    unfold fetchWithProviders. apply fetch_from_exhausted. exact Hrun.
Qed.

Lemma getLatestQuote_exhausted_chain_fallback_witness :
  getLatestQuote "MSFT" "NASDAQ" [Doubles.failing "MOCK"] false
                 (Doubles.initial (withQuoteCache [staleQuote] emptyDb))
  = (Normal {| lq_price := 95%float; lq_currency := Some "USD";
               lq_as_of := "2024-01-02"; lq_source := "MOCK";
               lq_fetched_at := None; lq_expires_at := None; lq_cached := true |},
     afterQuoteCall (withQuoteCache [staleQuote] emptyDb))
  /\ getLatestQuote "MSFT" "NASDAQ" [Doubles.failing "MOCK"] true
                    (Doubles.initial
                       (withPriceHistory
                          [Doubles.historyRow "MSFT" "NASDAQ" "2024-01-02" "" 90%float]
                          emptyDb))
     = (Normal {| lq_price := 90%float; lq_currency := Some "USD";
                  lq_as_of := "2024-01-02"; lq_source := "HISTORY";
                  lq_fetched_at := None; lq_expires_at := None; lq_cached := true |},
        afterQuoteCall
          (withPriceHistory
             [Doubles.historyRow "MSFT" "NASDAQ" "2024-01-02" "" 90%float] emptyDb))
  /\ getLatestQuote "MSFT" "NASDAQ" [Doubles.failing "MOCK"] true (Doubles.initial emptyDb)
     = (Throw (newProviderError "down"), afterQuoteCall emptyDb).
Proof.
  assert (Hrun : forall d,
             AllThrow (quoteTask "MSFT" (resolveExchange "NASDAQ"))
                      (filterProvidersForMarket [Doubles.failing "MOCK"] "NASDAQ")
                      (Doubles.initial d) None (afterQuoteCall d)
                      (Some (newProviderError "down"))).
  { intros d. eapply AllThrow_cons; [reflexivity | constructor]. }
  split; [| split].
  - destruct (getLatestQuote_exhausted_chain_fallback unit Doubles.fixedRuntime
                "MSFT" "NASDAQ" [Doubles.failing "MOCK"] false
                (Doubles.initial (withQuoteCache [staleQuote] emptyDb)) _ _
                (or_intror eq_refl) (Hrun (withQuoteCache [staleQuote] emptyDb)))
      as (Hstale & _).
    exact (proj1 (Hstale staleQuote eq_refl)).
  - destruct (getLatestQuote_exhausted_chain_fallback unit Doubles.fixedRuntime
                "MSFT" "NASDAQ" [Doubles.failing "MOCK"] true _ _ _
                (or_introl eq_refl)
                (Hrun (withPriceHistory
                         [Doubles.historyRow "MSFT" "NASDAQ" "2024-01-02" "" 90%float]
                         emptyDb)))
      as (_ & _ & Hhist & _).
    exact (proj1 (Hhist _ eq_refl eq_refl)).
  - destruct (getLatestQuote_exhausted_chain_fallback unit Doubles.fixedRuntime
                "MSFT" "NASDAQ" [Doubles.failing "MOCK"] true _ _ _
                (or_introl eq_refl) (Hrun emptyDb))
      as (_ & _ & _ & _ & Hnone).
    exact (proj1 (Hnone eq_refl eq_refl)).
Defined.

(** Rows that tie.  Of two history rows of the latest date the one inserted
    last is read; of two cached quotes with the same as-of and fetch time
    the one of earliest expiry is read, and of two fresh quotes with the
    same expiry the one inserted last. *)
Example selectLatestHistory_equal_dates :
  selectLatestHistory "TSLA" "NASDAQ"
    [Doubles.historyRow "TSLA" "NASDAQ" "2024-01-02" "A" 1%float;
     Doubles.historyRow "TSLA" "NASDAQ" "2024-01-02" "B" 2%float]
  = Some (Doubles.historyRow "TSLA" "NASDAQ" "2024-01-02" "B" 2%float).
Proof. reflexivity. Qed.

Example selectQuote_equal_keys :
  let early := {| qc_ticker := "MSFT"; qc_market := "NASDAQ"; qc_price := 1%float;
                  qc_currency := Some "USD"; qc_as_of := "2024-01-02"; qc_source := "A";
                  qc_fetched_at := "2024-06-01 11:59:30";
                  qc_expires_at := "2024-06-01 12:00:30" |} in
  let late := {| qc_ticker := "MSFT"; qc_market := "NASDAQ"; qc_price := 2%float;
                 qc_currency := Some "USD"; qc_as_of := "2024-01-02"; qc_source := "B";
                 qc_fetched_at := "2024-06-01 11:59:30";
                 qc_expires_at := "2024-06-01 12:00:40" |} in
  let twin := {| qc_ticker := "MSFT"; qc_market := "NASDAQ"; qc_price := 3%float;
                 qc_currency := Some "USD"; qc_as_of := "2024-01-02"; qc_source := "C";
                 qc_fetched_at := "2024-06-01 11:59:30";
                 qc_expires_at := "2024-06-01 12:00:40" |} in
  selectStaleQuote "MSFT" "NASDAQ" [late; early; twin] = Some early
  /\ selectCachedQuote "MSFT" "NASDAQ" "2024-06-01 12:00:00" [late; early; twin]
     = Some twin.
Proof. split; reflexivity. Qed.

(* ===================================================================== *)
(** * The history cache *)
(* ===================================================================== *)

Lemma lastRow_map {A B : Type} (f : A -> B) (l : list A) :
  lastRow (map f l) = option_map f (lastRow l).
Proof.
  unfold lastRow. induction l as [| x l IH]; [reflexivity |].
  destruct l as [| y l']; [reflexivity |].
  change (last (map Some (map f (y :: l'))) None
          = option_map f (last (map Some (y :: l')) None)).
  exact IH.
Qed.

Lemma getCachedHistory_db_spec :
  forall ticker market interval from to d,
    let inRange := rowsInRange ticker market interval from to (price_history d) in
    (covers from to inRange ->
     getCachedHistory_db ticker market interval from to d
     = Some (getHistoryRows_db ticker market interval from to d))
    /\ (~ covers from to inRange ->
        getCachedHistory_db ticker market interval from to d = None).
Proof.
  intros ticker market interval from to d inRange.
  unfold covers, getCachedHistory_db, getHistoryRows_db, selectHistoryRows.
  fold (rowsInRange ticker market interval from to (price_history d)). fold inRange.
  pose proof (orderBy_Ascending byDate byDate_trans byDate_total inRange) as Hasc.
  pose proof (orderBy_In byDate inRange) as Hin.
  destruct (orderBy byDate inRange) as [| first rest] eqn:Hsorted.
  - split; [| reflexivity].
    intros Hc. destruct Hc as [[r [Hr _]] _]. apply Hin in Hr. contradiction.
  - destruct (lastRow_nonempty first rest) as [final Hfinal].
    rewrite lastRow_map, Hfinal. cbn [map option_map pointOfRow hp_date].
    assert (Hleast : forall r, In r inRange -> String.leb (ph_date first) (ph_date r) = true).
    { intros r Hr. apply Hin in Hr.
      exact (Ascending_head_least byDate byDate_refl first rest r Hasc Hr). }
    assert (Hmost : forall r, In r inRange -> String.leb (ph_date r) (ph_date final) = true).
    { intros r Hr. apply Hin in Hr.
      exact (Ascending_last_greatest byDate byDate_refl _ final Hasc Hfinal r Hr). }
    assert (Hfirst_in : In first inRange) by (apply Hin; left; reflexivity).
    assert (Hfinal_in : In final inRange)
      by (apply Hin; eapply lastRow_In; exact Hfinal).
    destruct (String.leb (ph_date first) from) eqn:Hlo;
      destruct (String.leb to (ph_date final)) eqn:Hhi; cbn [andb]; split;
        try reflexivity; try (intros _; reflexivity).
    + intros Hno. exfalso. apply Hno. split; eauto.
    + intros [_ (r & Hr & Hle)]. pose proof (leb_trans _ _ _ Hle (Hmost r Hr)). congruence.
    + intros [(r & Hr & Hle) _]. pose proof (leb_trans _ _ _ (Hleast r Hr) Hle). congruence.
    + intros [(r & Hr & Hle) _]. pose proof (leb_trans _ _ _ (Hleast r Hr) Hle). congruence.
Qed.

Lemma covers_dec (from to : string) (rows : list HistoryRow) :
  covers from to rows \/ ~ covers from to rows.
Proof.
  unfold covers.
  assert (Hex : forall (f : HistoryRow -> bool),
             (exists r, In r rows /\ f r = true) \/ ~ (exists r, In r rows /\ f r = true)).
  { intros f. destruct (existsb f rows) eqn:E.
    - left. apply existsb_exists in E. exact E.
    - right. intros Hx. apply existsb_exists in Hx. congruence. }
  destruct (Hex (fun r => String.leb (ph_date r) from)) as [H1 | H1];
    destruct (Hex (fun r => String.leb to (ph_date r))) as [H2 | H2]; tauto.
Qed.

Lemma getCachedHistory_db_hit_iff :
  forall ticker market interval from to d,
    getCachedHistory_db ticker market interval from to d <> None <->
    covers from to (rowsInRange ticker market interval from to (price_history d)).
Proof.
  intros ticker market interval from to d.
  destruct (getCachedHistory_db_spec ticker market interval from to d) as [Hyes Hno].
  split.
  - intros Hhit.
    destruct (covers_dec from to
                (rowsInRange ticker market interval from to (price_history d)))
      as [Hc | Hc]; [exact Hc | exfalso; apply Hhit, Hno, Hc].
  - intros Hc. rewrite (Hyes Hc). discriminate.
Qed.

Section HistoryCacheFacts.
Context {W : Type} {R : Runtime W}.
Variables ticker exchange from to interval : string.

Lemma historyTask_step (p : MarketDataProvider W) (s s2 : State W) c :
  historyTask ticker exchange from to interval p s = (c, s2) ->
  db s2 = db s
  /\ calls s2
     = calls s ++ [CallGetHistory (name p)
                     {| hpar_ticker := ticker; hpar_market := exchange;
                        hpar_from := from; hpar_to := to; hpar_interval := interval |}].
Proof.
  unfold historyTask, invoke.
  destruct (getHistory_ p _ (world s)) as [c' w']. intros [= _ <-]. split; reflexivity.
Qed.

(** A run of failures asks every provider for the whole range and leaves
    the database alone. *)
Lemma AllThrow_historyTask :
  forall ps (s : State W) e0 s' e,
    AllThrow (historyTask ticker exchange from to interval) ps s e0 s' e ->
    db s' = db s
    /\ calls s'
       = calls s ++ map (fun q => CallGetHistory (name q)
                                   {| hpar_ticker := ticker; hpar_market := exchange;
                                      hpar_from := from; hpar_to := to;
                                      hpar_interval := interval |}) ps.
Proof.
  intros ps s e0 s' e Hrun.
  induction Hrun as [s e | p ps s s1 s2 e0 e1 e2 Hp _ [IHdb IHcalls]].
  - split; [reflexivity | simpl; rewrite app_nil_r; reflexivity].
  - destruct (historyTask_step p s s1 _ Hp) as [Hdb Hcalls].
    split; [congruence |].
    rewrite IHcalls, Hcalls, <- app_assoc. reflexivity.
Qed.
End HistoryCacheFacts.

Lemma sqlReal_None (x : float) : sqlReal x = None <-> PrimFloat.is_nan x = true.
Proof.
  unfold sqlReal. destruct (PrimFloat.is_nan x).
  - split; reflexivity.
  - destruct (PrimFloat.is_zero x); split; discriminate.
Qed.

(** The transaction is rolled back exactly when the answer holds a price
    that is not a number. *)
Lemma cacheHistoryRows_db_None :
  forall ticker market interval rows source now table,
    cacheHistoryRows_db ticker market interval rows source now table = None
    <-> exists point, In point rows /\ PrimFloat.is_nan (hp_price point) = true.
Proof.
  intros ticker market interval rows source now.
  induction rows as [| row rows IH]; intros table; cbn [cacheHistoryRows_db].
  - split; [discriminate | intros (point & [] & _)].
  - destruct (sqlReal (hp_price row)) as [price |] eqn:Hprice.
    + rewrite IH. split.
      * intros (point & Hin & Hnan). exists point. split; [right; exact Hin | exact Hnan].
      * intros (point & [<- | Hin] & Hnan); [| eauto].
        apply sqlReal_None in Hnan. congruence.
    + split; [| reflexivity]. intros _. exists row.
      split; [left; reflexivity | apply sqlReal_None; exact Hprice].
Qed.

(** C2 (amended).  [getHistory] without [forceRefresh] treats the cached rows
    inside the closed interval [from, to] as a hit exactly when they cover
    it (a row dated [from] or earlier and a row dated [to] or later); it
    then returns them with source ['CACHE'] and calls no provider.  Any
    other selection, in particular one whose rows stop before [to] or start
    after [from], is a miss for the whole range: the chain is asked for the
    whole interval [from, to], every provider tried receiving that same
    request.  After a provider has answered, its rows are written to the
    store and the rows returned are those the store then holds inside
    [from, to] when they cover the interval, and the provider's rows
    otherwise.  The call fails when every provider throws, and when the
    answer holds a price that is not a number: the write is then refused,
    nothing is stored and the database's error reaches the caller. *)
Theorem getHistory_coverage_all_or_nothing :
  forall (W : Type) (R : Runtime W) (ticker market from to interval : string)
         (providers : list (MarketDataProvider W)) (s : State W),
    let inRange := rowsInRange ticker market interval from to (price_history (db s)) in
    let chain := filterProvidersForMarket providers market in
    let task := historyTask ticker (resolveExchange market) from to interval in
    let request := fun q : MarketDataProvider W =>
      CallGetHistory (name q)
        {| hpar_ticker := ticker; hpar_market := resolveExchange market;
           hpar_from := from; hpar_to := to; hpar_interval := interval |} in
    (getCachedHistory_db ticker market interval from to (db s) <> None
     <-> covers from to inRange)
    /\ (covers from to inRange ->
        getHistory ticker market from to interval providers false s
        = (Normal {| hr_rows := getHistoryRows_db ticker market interval from to (db s);
                     hr_source := "CACHE" |}, s))
    /\ ((forall r, In r inRange -> String.ltb (ph_date r) to = true)
        \/ (forall r, In r inRange -> String.ltb from (ph_date r) = true) ->
        ~ covers from to inRange)
    /\ (~ covers from to inRange ->
        forall pre p post s1 e result s2,
          chain = pre ++ p :: post ->
          AllThrow task pre s None s1 e ->
          task p s1 = (Normal result, s2) ->
          let written :=
            cacheHistoryRows_db ticker market interval result (name p)
                                (datetime_now (world s2)) (price_history (db s)) in
          (forall table,
              written = Some table ->
              exists s3,
                getHistory ticker market from to interval providers false s
                = (Normal {| hr_rows :=
                               match getCachedHistory_db ticker market interval from to
                                                         (db s3) with
                               | Some rows => rows
                               | None => result
                               end;
                             hr_source := name p |}, s3)
                /\ calls s3 = calls s ++ map request (pre ++ [p])
                /\ price_history (db s3) = table)
          /\ (written = None ->
              getHistory ticker market from to interval providers false s
              = (Throw (notNullFailed "price_history.price"), s2)
              /\ db s2 = db s
              /\ calls s2 = calls s ++ map request (pre ++ [p]))
          /\ (written = None
              <-> exists point, In point result
                                /\ PrimFloat.is_nan (hp_price point) = true))
    /\ (~ covers from to inRange ->
        forall s1 e,
          AllThrow task chain s None s1 e ->
          getHistory ticker market from to interval providers false s
          = (Throw (raisedAfter e), s1)
          /\ calls s1 = calls s ++ map request chain).
Proof.
  intros W R ticker market from to interval providers s inRange chain task request.
  destruct (getCachedHistory_db_spec ticker market interval from to (db s)) as [Hyes Hno].
  fold inRange in Hyes, Hno.
  split; [apply getCachedHistory_db_hit_iff |].
  split; [| split; [| split]].
  - intros Hc. unfold getHistory, bind, getCachedHistory, query.
    rewrite (Hyes Hc). reflexivity.
  - intros [Hshort | Hlate] [(r1 & Hr1 & Hle1) (r2 & Hr2 & Hle2)].
    + exact (leb_ltb_absurd _ _ Hle2 (Hshort r2 Hr2)).
    + exact (leb_ltb_absurd _ _ Hle1 (Hlate r1 Hr1)).
  - intros Hmiss pre p post s1 e result s2 Hchain Hpre Hp written.
    destruct (AllThrow_historyTask ticker (resolveExchange market) from to interval
                pre s None s1 e Hpre) as [Hdb1 Hcalls1].
    destruct (historyTask_step ticker (resolveExchange market) from to interval
                p s1 s2 _ Hp) as [Hdb2 Hcalls2].
    pose proof (fetch_from_first_success task pre s None s1 e p post result s2 Hpre Hp)
      as Hfetch.
    assert (Hcalls : calls s2 = calls s ++ map request (pre ++ [p])).
    { rewrite Hcalls2, Hcalls1, map_app, <- app_assoc. reflexivity. }
    assert (Hstart : getHistory ticker market from to interval providers false s
                     = bind (cacheHistoryRows ticker market interval result (name p))
                            (fun _ =>
                               bind (getCachedHistory ticker market interval from to)
                                    (fun reread =>
                                       ret {| hr_rows := match reread with
                                                         | Some rows => rows
                                                         | None => result
                                                         end;
                                              hr_source := name p |})) s2).
    { unfold getHistory, bind at 1, getCachedHistory at 1, query.
      rewrite (Hno Hmiss). unfold bind at 1, fetchWithProviders.
      fold chain task. rewrite Hchain, Hfetch. reflexivity. }
    assert (Hwritten : cacheHistoryRows_db ticker market interval result (name p)
                         (datetime_now (world s2)) (price_history (db s2)) = written).
    { unfold written. rewrite Hdb2, Hdb1. reflexivity. }
    split; [| split].
    + intros table Htable.
      exists {| db := withPriceHistory table (db s2); world := world s2; calls := calls s2 |}.
      split; [| split; [exact Hcalls | reflexivity]].
      rewrite Hstart. unfold bind at 1, cacheHistoryRows, executeOrThrow.
      rewrite Hwritten, Htable. reflexivity.
    + intros Hnone. split; [| split; [congruence | exact Hcalls]].
      rewrite Hstart. unfold bind at 1, cacheHistoryRows, executeOrThrow.
      rewrite Hwritten, Hnone. reflexivity.
    + apply cacheHistoryRows_db_None.
  - intros Hmiss s1 e Hrun.
    destruct (AllThrow_historyTask ticker (resolveExchange market) from to interval
                chain s None s1 e Hrun) as [_ Hcalls].
    split; [| exact Hcalls].
    unfold getHistory, bind at 1, getCachedHistory at 1, query.
    rewrite (Hno Hmiss). unfold bind, fetchWithProviders. fold chain task.
    rewrite (fetch_from_exhausted task chain s None s1 e Hrun). reflexivity.
Qed.

(** C2 (counterexample).  The store covers [2024-01-01, 2024-01-10] and the
    request is for [2024-01-05, 2024-01-20]: the lookup misses and provider
    B is asked for the whole range, but the rows returned are not the
    fetched rows alone: they are the store's rows of the range after the
    write, the six cached rows of provider A followed by the two rows
    fetched from B. *)
Lemma getHistory_returns_cached_and_fetched_rows :
  getCachedHistory_db "TSLA" "NASDAQ" "1d" "2024-01-05" "2024-01-20" (db januaryStore) = None
  /\ fst (getHistory "TSLA" "NASDAQ" "2024-01-05" "2024-01-20" "1d" [providerB] false
                     januaryStore)
     = Normal {| hr_rows :=
                   [Doubles.point "2024-01-05" 5%float; Doubles.point "2024-01-06" 6%float;
                    Doubles.point "2024-01-07" 7%float; Doubles.point "2024-01-08" 8%float;
                    Doubles.point "2024-01-09" 9%float; Doubles.point "2024-01-10" 10%float;
                    Doubles.point "2024-01-15" 150%float;
                    Doubles.point "2024-01-20" 200%float];
                 hr_source := "B" |}
  /\ calls (snd (getHistory "TSLA" "NASDAQ" "2024-01-05" "2024-01-20" "1d" [providerB] false
                            januaryStore))
     = [CallGetHistory "B"
          {| hpar_ticker := "TSLA"; hpar_market := "NASDAQ";
             hpar_from := "2024-01-05"; hpar_to := "2024-01-20";
             hpar_interval := "1d" |}]
  /\ ~ In (Doubles.point "2024-01-05" 5%float)
          [Doubles.point "2024-01-15" 150%float; Doubles.point "2024-01-20" 200%float].
Proof.
  split; [reflexivity |]. split; [reflexivity |]. split; [reflexivity |].
  intros [H | [H | []]]; discriminate H.
Qed.

Lemma getHistory_coverage_all_or_nothing_witness :
  (exists rows,
      getHistory "TSLA" "NASDAQ" "2024-01-01" "2024-01-10" "1d" [providerB] false januaryStore
      = (Normal {| hr_rows := rows; hr_source := "CACHE" |}, januaryStore)
      /\ length rows = 10)
  /\ ~ covers "2024-01-05" "2024-01-20"
       (rowsInRange "TSLA" "NASDAQ" "1d" "2024-01-05" "2024-01-20"
                    (price_history (db januaryStore)))
  /\ (exists s3 rows,
         getHistory "TSLA" "NASDAQ" "2024-01-05" "2024-01-20" "1d" [providerB] false januaryStore
         = (Normal {| hr_rows := rows; hr_source := "B" |}, s3)
         /\ calls s3 = [CallGetHistory "B"
                          {| hpar_ticker := "TSLA"; hpar_market := "NASDAQ";
                             hpar_from := "2024-01-05"; hpar_to := "2024-01-20";
                             hpar_interval := "1d" |}])
  /\ getHistory "TSLA" "NASDAQ" "2024-01-05" "2024-01-20" "1d" [Doubles.failing "A"] false
                januaryStore
     = (Throw (newProviderError "down"),
        {| db := db januaryStore; world := tt;
           calls := [CallGetHistory "A"
                       {| hpar_ticker := "TSLA"; hpar_market := "NASDAQ";
                          hpar_from := "2024-01-05"; hpar_to := "2024-01-20";
                          hpar_interval := "1d" |}] |}).
Proof.
  pose proof (getHistory_coverage_all_or_nothing unit Doubles.fixedRuntime
                "TSLA" "NASDAQ" "2024-01-05" "2024-01-20" "1d" [providerB] januaryStore)
    as (_ & _ & Hpartial & Hrefetch & _).
  pose proof (getHistory_coverage_all_or_nothing unit Doubles.fixedRuntime
                "TSLA" "NASDAQ" "2024-01-05" "2024-01-20" "1d" [Doubles.failing "A"]
                januaryStore)
    as (_ & _ & _ & _ & Hdown).
  pose proof (getHistory_coverage_all_or_nothing unit Doubles.fixedRuntime
                "TSLA" "NASDAQ" "2024-01-01" "2024-01-10" "1d" [providerB] januaryStore)
    as (_ & Hhit & _).
  assert (Hmiss : ~ covers "2024-01-05" "2024-01-20"
                    (rowsInRange "TSLA" "NASDAQ" "1d" "2024-01-05" "2024-01-20"
                                 (price_history (db januaryStore)))).
  { apply Hpartial. left. intros r Hr. cbv in Hr.
    repeat (destruct Hr as [<- | Hr]; [reflexivity |]). destruct Hr. }
  split; [| split; [exact Hmiss | split]].
  - eexists. split; [apply Hhit | reflexivity].
    split.
    + exists (Doubles.historyRow "TSLA" "NASDAQ" "2024-01-01" "A" 1%float).
      split; [cbv; tauto | reflexivity].
    + exists (Doubles.historyRow "TSLA" "NASDAQ" "2024-01-10" "A" 10%float).
      split; [cbv; tauto | reflexivity].
  - assert (Hnil : AllThrow (historyTask "TSLA" (resolveExchange "NASDAQ")
                                         "2024-01-05" "2024-01-20" "1d")
                             [] januaryStore None januaryStore None) by constructor.
    destruct (Hrefetch Hmiss [] providerB [] januaryStore None _ _ eq_refl Hnil eq_refl)
      as (Hstored & _).
    destruct (Hstored _ eq_refl) as (s3 & Hrun & Hcalls & _).
    exists s3. eexists. split; [exact Hrun | exact Hcalls].
  - assert (Hrun : AllThrow (historyTask "TSLA" (resolveExchange "NASDAQ")
                                         "2024-01-05" "2024-01-20" "1d")
                     (filterProvidersForMarket [Doubles.failing "A"] "NASDAQ")
                     januaryStore None
                     {| db := db januaryStore; world := tt;
                        calls := [CallGetHistory "A"
                                    {| hpar_ticker := "TSLA"; hpar_market := "NASDAQ";
                                       hpar_from := "2024-01-05"; hpar_to := "2024-01-20";
                                       hpar_interval := "1d" |}] |}
                     (Some (newProviderError "down")))
      by (eapply AllThrow_cons; [reflexivity | constructor]).
    exact (proj1 (Hdown Hmiss _ _ Hrun)).
Defined.

(** A price that is not a number: the whole write is rolled back, the call
    throws the database's error and the table is as it was. *)
Example getHistory_price_not_a_number :
  let answer := [Doubles.point "2024-01-15" 150%float;
                 Doubles.point "2024-01-20" PrimFloat.nan] in
  let run := getHistory "TSLA" "NASDAQ" "2024-01-05" "2024-01-20" "1d"
                        [Doubles.scripted "B" 0%float answer] false januaryStore in
  fst run = Throw (notNullFailed "price_history.price")
  /\ db (snd run) = db januaryStore.
Proof. split; reflexivity. Qed.

(* ===================================================================== *)
(** * The symbol-validation cache *)
(* ===================================================================== *)

Section SymbolCacheFacts.
Lemma insertOrReplace_In {A : Type} (sameKey : A -> A -> bool) (row : A)
      (table : list A) (r : A) :
  In r (insertOrReplace sameKey row table) <->
  (In r table /\ sameKey r row = false) \/ r = row.
Proof.
  unfold insertOrReplace. rewrite in_app_iff, filter_In, negb_true_iff.
  simpl. intuition.
Qed.







End SymbolCacheFacts.




(* ===================================================================== *)
(** * Calendar dates: day numbers, ISO text and the date loop *)
(* ===================================================================== *)

Local Open Scope Z_scope.

(** ** The 400-year cycle, checked day by day *)

Lemma allFrom_spec (f : Z -> bool) :
  forall p base, allFrom p f base = true ->
                 forall z, base <= z < base + Zpos p -> f z = true.
Proof.
  induction p as [q IH | q IH |]; intros base Hall z Hz; simpl in Hall.
  - rewrite !andb_true_iff in Hall. destruct Hall as [[H0 H1] H2].
    destruct (Z.eq_dec z base) as [-> | Hne]; [exact H0 |].
    destruct (Z_lt_le_dec z (base + 1 + Zpos q)).
    + apply (IH (base + 1) H1). lia.
    + apply (IH (base + 1 + Zpos q) H2). lia.
  - rewrite andb_true_iff in Hall. destruct Hall as [H1 H2].
    destruct (Z_lt_le_dec z (base + Zpos q)).
    + apply (IH base H1). lia.
    + apply (IH (base + Zpos q) H2). lia.
  - assert (z = base) by lia. subst z. exact Hall.
Qed.

Lemma cycle_checked : allFrom 146097 cycleDayOk 0 = true.
Proof. vm_compute. reflexivity. Qed.

Lemma cycleDayOk_all (doe : Z) : 0 <= doe < 146097 -> cycleDayOk doe = true.
Proof. intros H. apply (allFrom_spec cycleDayOk 146097 0 cycle_checked). lia. Qed.

Lemma cycleDay_facts (doe : Z) :
  0 <= doe < 146097 ->
  forall yoe doy mp d, cycleDay doe = (yoe, doy, mp, d) ->
    let m := if mp <? 10 then mp + 3 else mp - 9 in
    let y := if m <=? 2 then yoe + 1 else yoe in
    0 <= yoe <= 399 /\ 0 <= doy /\ 0 <= mp <= 11
    /\ 1 <= d <= daysInMonth y m
    /\ (146037 <= doe -> yoe = 399 /\ m <= 2)
    /\ (doe < 146037 -> y <= 399).
Proof.
  intros Hdoe yoe doy mp d Hc m y.
  pose proof (cycleDayOk_all doe Hdoe) as Hok.
  unfold cycleDayOk in Hok. rewrite Hc in Hok. fold m in Hok. fold y in Hok.
  rewrite !andb_true_iff, !Z.leb_le in Hok.
  destruct Hok as [[[[[[[H1 H2] H3] H4] H5] H6] H7] H8].
  split; [split; assumption |]. split; [assumption |].
  split; [split; assumption |]. split; [split; assumption |]. split.
  - intros Hlate. apply Z.leb_le in Hlate. rewrite Hlate in H8.
    apply andb_true_iff in H8 as [Ha Hb].
    apply Z.eqb_eq in Ha. apply Z.leb_le in Hb. split; assumption.
  - intros Hearly. apply Z.leb_gt in Hearly. rewrite Hearly in H8.
    apply Z.leb_le in H8. exact H8.
Qed.

Lemma isLeapYear_period (y k : Z) : isLeapYear (y + k * 400) = isLeapYear y.
Proof.
  unfold isLeapYear.
  replace ((y + k * 400) mod 4) with (y mod 4)
    by (replace (y + k * 400) with (y + (k * 100) * 4) by ring;
        symmetry; apply Z_mod_plus_full).
  replace ((y + k * 400) mod 100) with (y mod 100)
    by (replace (y + k * 400) with (y + (k * 4) * 100) by ring;
        symmetry; apply Z_mod_plus_full).
  replace ((y + k * 400) mod 400) with (y mod 400)
    by (symmetry; apply Z_mod_plus_full).
  reflexivity.
Qed.

Lemma daysInMonth_period (y k m : Z) : daysInMonth (y + k * 400) m = daysInMonth y m.
Proof. unfold daysInMonth. rewrite isLeapYear_period. reflexivity. Qed.

(** [civil_from_days] is inverted by [days_from_civil], yields a legal
    calendar date, and yields a year of four digits on the days from
    0000-01-01 to 9999-12-31. *)
Lemma civil_from_days_spec (z : Z) :
  forall y m d, civil_from_days z = (y, m, d) ->
    days_from_civil y m d = z
    /\ 1 <= m <= 12 /\ 1 <= d <= daysInMonth y m
    /\ (inFourDigitYears z -> 0 <= y <= 9999).
Proof.
  intros y m d Hc. unfold civil_from_days in Hc. cbv zeta in Hc.
  set (z' := z + 719468) in *.
  set (era := z' / 146097) in *.
  set (doe := z' - era * 146097) in *.
  assert (Hdoe : 0 <= doe < 146097).
  { unfold doe, era. pose proof (Z.div_mod z' 146097 ltac:(lia)) as Hdm.
    pose proof (Z.mod_pos_bound z' 146097 ltac:(lia)). lia. }
  set (yoe := (doe - doe / 1460 + doe / 36524 - doe / 146096) / 365) in *.
  set (doy := doe - (365 * yoe + yoe / 4 - yoe / 100)) in *.
  set (mp := (5 * doy + 2) / 153) in *.
  set (d0 := doy - (153 * mp + 2) / 5 + 1) in *.
  pose proof (cycleDay_facts doe Hdoe yoe doy mp d0 eq_refl) as Hf.
  cbv zeta in Hf.
  set (m0 := if mp <? 10 then mp + 3 else mp - 9) in *.
  pose proof (f_equal (fun p => fst (fst p)) Hc) as Hy.
  pose proof (f_equal (fun p => snd (fst p)) Hc) as Hm.
  pose proof (f_equal (fun p => snd p) Hc) as Hd.
  cbv beta in Hy, Hm, Hd. cbn [fst snd] in Hy, Hm, Hd. clear Hc. subst m d.
  destruct Hf as (Hyoe_r & Hdoy_r & Hmp_r & Hd_r & Hlate & Hearly).
  assert (Hm0 : 1 <= m0 <= 12 /\ (if 2 <? m0 then m0 - 3 else m0 + 9) = mp).
  { unfold m0. destruct (Z.ltb_spec mp 10).
    - destruct (Z.ltb_spec 2 (mp + 3)); lia.
    - destruct (Z.ltb_spec 2 (mp - 9)); lia. }
  destruct Hm0 as [Hm0 Hmp'].
  assert (Hy' : y = (if m0 <=? 2 then yoe + 1 else yoe) + era * 400).
  { rewrite <- Hy. destruct (m0 <=? 2); ring. }
  split; [| split; [exact Hm0 | split]].
  - unfold days_from_civil. rewrite Hmp'.
    assert (Hy1 : (if m0 <=? 2 then y - 1 else y) = yoe + era * 400).
    { rewrite Hy'. destruct (m0 <=? 2); ring. }
    rewrite Hy1.
    assert (Hera : (yoe + era * 400) / 400 = era).
    { rewrite Z.div_add by lia. rewrite Z.div_small by lia. lia. }
    rewrite Hera.
    replace (yoe + era * 400 - era * 400) with yoe by ring.
    unfold d0, doy, doe, z'. lia.
  - rewrite Hy', daysInMonth_period. exact Hd_r.
  - intros [Hlo Hhi].
    assert (Hera : -1 <= era <= 24).
    { unfold era. split.
      - apply Z.div_le_lower_bound; unfold z'; lia.
      - apply Z.lt_succ_r. apply Z.div_lt_upper_bound; unfold z'; lia. }
    destruct (Z_lt_le_dec doe 146037) as [He | Hl].
    + specialize (Hearly He).
      assert (era <> -1) by (unfold doe, z' in *; lia).
      rewrite Hy'. destruct (m0 <=? 2); lia.
    + destruct (Hlate Hl) as [Hyoe399 Hm2].
      assert (era <> 24) by (unfold doe, z' in *; lia).
      rewrite Hy'. apply Z.leb_le in Hm2. rewrite Hm2. lia.
Qed.

(** Let [lia] reason about division and remainder by constants. *)
Ltac Zify.zify_post_hook ::= Z.to_euclidean_division_equations.

(** ** Decimal text *)

Lemma digitVal_digitChar (n : Z) : 0 <= n <= 9 -> digitVal (digitChar n) = Some n.
Proof.
  intros H. remember (Z.to_nat n) as k eqn:Hk.
  assert (Hn : n = Z.of_nat k) by lia.
  assert (Hlt : (k < 10)%nat) by lia.
  subst n. clear Hk H.
  do 10 (destruct k as [| k]; [reflexivity |]). lia.
Qed.

Lemma digits2_pad (n : Z) :
  0 <= n <= 99 -> digits2 (digitChar (n / 10)) (digitChar (n mod 10)) = Some n.
Proof.
  intros H. unfold digits2.
  rewrite !digitVal_digitChar by lia. f_equal. lia.
Qed.

Lemma digits4_pad (n : Z) :
  0 <= n <= 9999 ->
  digits4 (digitChar (n / 1000)) (digitChar (n mod 1000 / 100))
          (digitChar (n mod 1000 mod 100 / 10)) (digitChar (n mod 1000 mod 100 mod 10))
  = Some n.
Proof.
  intros H. unfold digits4, digits2.
  rewrite !digitVal_digitChar by lia. f_equal. lia.
Qed.

Lemma msPerDay_pos : 0 < msPerDay.
Proof. reflexivity. Qed.

Lemma Day_midnight (day : Z) : Day (day * msPerDay) = day.
Proof. unfold Day. apply Z.div_mul. discriminate. Qed.

Lemma TimeWithinDay_midnight (day : Z) : TimeWithinDay (day * msPerDay) = 0.
Proof. unfold TimeWithinDay. apply Z.mod_mul. discriminate. Qed.

(** The ISO date-only parser reads the text of a day of a four-digit year
    back as that day's UTC midnight. *)
Lemma parseIsoDateOnly_calendarDate (day : Z) :
  inFourDigitYears day -> parseIsoDateOnly (calendarDate day) = Some (day * msPerDay).
Proof.
  intros Hday. unfold calendarDate.
  destruct (civil_from_days day) as [[y m] d] eqn:Hcivil.
  destruct (civil_from_days_spec day y m d Hcivil) as (Hback & Hm & Hd & Hy).
  specialize (Hy Hday).
  assert (Hd31 : d <= 31).
  { unfold daysInMonth in Hd.
    destruct (m =? 2); [destruct (isLeapYear y); lia |].
    destruct ((m =? 4) || (m =? 6) || (m =? 9) || (m =? 11))%bool; lia. }
  unfold pad4, pad3, pad2, parseIsoDateOnly.
  cbn [append list_ascii_of_string].
  rewrite (digits4_pad y Hy).
  unfold parseMonthDay. cbn [Ascii.eqb Bool.eqb andb].
  rewrite (digits2_pad m) by lia. rewrite (digits2_pad d) by lia.
  unfold utcMidnight.
  replace ((1 <=? m) && (m <=? 12) && (1 <=? d) && (d <=? daysInMonth y m))%bool with true
    by (symmetry; rewrite !andb_true_iff, !Z.leb_le; lia).
  rewrite Hback. unfold TimeClip.
  replace (Z.abs (day * msPerDay) <=? 8640000000000000) with true; [reflexivity |].
  symmetry. apply Z.leb_le. unfold inFourDigitYears, msPerDay in *. lia.
Qed.

(** The first ten characters of the ISO text of a time value of a
    four-digit year are the text of its UTC day. *)
Lemma slice10_toISOString (t : Z) :
  inFourDigitYears (Day t) -> slice10 (toISOString t) = calendarDate (Day t).
Proof.
  intros Hday. unfold toISOString, calendarDate.
  destruct (civil_from_days (Day t)) as [[y m] d] eqn:Hcivil.
  destruct (civil_from_days_spec (Day t) y m d Hcivil) as (_ & _ & _ & Hy).
  specialize (Hy Hday).
  unfold isoYear.
  replace ((0 <=? y) && (y <=? 9999))%bool with true
    by (symmetry; rewrite andb_true_iff, !Z.leb_le; lia).
  unfold slice10, pad4, pad3, pad2.
  cbn [append substring]. reflexivity.
Qed.

Lemma days_from_civil_linear (y m d d' : Z) :
  days_from_civil y m d' = days_from_civil y m d + (d' - d).
Proof. unfold days_from_civil. cbv zeta. lia. Qed.

(** Setting the UTC date to the next day of the month moves the time
    value forward by one day. *)
Lemma setUTCDate_next (t : Z) :
  setUTCDate t (getUTCDate t + 1) = TimeClip (t + msPerDay).
Proof.
  unfold setUTCDate, getUTCDate, MakeDay.
  destruct (civil_from_days (Day t)) as [[y m] d] eqn:Hcivil.
  destruct (civil_from_days_spec (Day t) y m d Hcivil) as (Hback & _).
  rewrite (days_from_civil_linear y m d 1), Hback.
  f_equal. unfold Day, TimeWithinDay.
  pose proof (Z.div_mod t msPerDay ltac:(discriminate)). lia.
Qed.

(** ** The date loop *)

Section DateLoop.
Context {W : Type} {R : Runtime W}.

Lemma Date_parse_calendarDate (day : Z) :
  inFourDigitYears day -> Date_parse (calendarDate day) = Some (day * msPerDay).
Proof.
  intros Hday. unfold Date_parse.
  rewrite (parseIsoDateOnly_calendarDate day Hday). reflexivity.
Qed.

Lemma createDateRange_loop_finished (fuel : nat) (end_ : option Z) :
  createDateRange_loop fuel None end_ = Some [].
Proof. destruct fuel; reflexivity. Qed.

(** The loop always finishes within the fuel [createDateRange] gives it. *)
Lemma createDateRange_loop_terminates :
  forall fuel current end_,
    (createDateRange_fuel current end_ <= fuel)%nat ->
    createDateRange_loop fuel current end_ <> None.
Proof.
  induction fuel as [| fuel IH]; intros [c |] [e |] Hfuel;
    try (destruct fuel; simpl; discriminate); try (simpl; discriminate).
  - simpl. destruct (Z.leb_spec c e) as [Hle | Hgt]; [| discriminate].
    exfalso. unfold createDateRange_fuel, msPerDay in Hfuel. lia.
  - cbn [createDateRange_loop].
    destruct (Z.leb_spec c e) as [Hle | Hgt]; [| discriminate].
    rewrite setUTCDate_next. unfold TimeClip.
    destruct (Z.abs (c + msPerDay) <=? 8640000000000000).
    + specialize (IH (Some (c + msPerDay)) (Some e)).
      destruct (createDateRange_loop fuel (Some (c + msPerDay)) (Some e));
        [discriminate |].
      exfalso. apply IH; [| reflexivity].
      unfold createDateRange_fuel, msPerDay in *. lia.
    + rewrite createDateRange_loop_finished. discriminate.
Qed.

(** Between two midnights of four-digit years the loop yields the text
    of every day from the first to the last, in order. *)
Lemma createDateRange_loop_days :
  forall n fuel first last,
    n = daysInWindow first last -> (n <= fuel)%nat ->
    -719528 <= first -> last <= 2932896 ->
    createDateRange_loop fuel (Some (first * msPerDay)) (Some (last * msPerDay))
    = Some (map calendarDate (daysFrom first n)).
Proof.
  induction n as [| n IH]; intros fuel first last Hn Hfuel Hlo Hhi.
  - assert (Hlt : last < first) by (unfold daysInWindow in Hn; lia).
    destruct fuel; cbn [createDateRange_loop];
      (destruct (Z.leb_spec (first * msPerDay) (last * msPerDay));
       [unfold msPerDay in *; lia | reflexivity]).
  - assert (Hle : first <= last) by (unfold daysInWindow in Hn; lia).
    destruct fuel as [| fuel]; [lia |].
    cbn [createDateRange_loop].
    destruct (Z.leb_spec (first * msPerDay) (last * msPerDay));
      [| unfold msPerDay in *; lia].
    rewrite setUTCDate_next.
    replace (first * msPerDay + msPerDay) with ((first + 1) * msPerDay) by ring.
    unfold TimeClip.
    replace (Z.abs ((first + 1) * msPerDay) <=? 8640000000000000) with true
      by (symmetry; apply Z.leb_le; unfold msPerDay; lia).
    rewrite (IH fuel (first + 1) last) by (unfold daysInWindow in *; lia).
    rewrite slice10_toISOString, Day_midnight
      by (rewrite Day_midnight; unfold inFourDigitYears; lia).
    reflexivity.
Qed.

Lemma createDateRange_fuel_midnights (first last : Z) :
  createDateRange_fuel (Some (first * msPerDay)) (Some (last * msPerDay))
  = daysInWindow first last.
Proof.
  unfold createDateRange_fuel, daysInWindow.
  replace (last * msPerDay - first * msPerDay) with ((last - first) * msPerDay) by ring.
  rewrite Z.div_mul by discriminate. reflexivity.
Qed.

(** [createDateRange] between two calendar dates of four-digit years
    enumerates every day of the closed window, in order. *)
Lemma createDateRange_days (first last : Z) :
  inFourDigitYears first -> inFourDigitYears last ->
  createDateRange (calendarDate first) (calendarDate last)
  = map calendarDate (daysFrom first (daysInWindow first last)).
Proof.
  intros Hfirst Hlast. unfold createDateRange.
  rewrite (Date_parse_calendarDate first Hfirst), (Date_parse_calendarDate last Hlast).
  rewrite createDateRange_fuel_midnights.
  rewrite (createDateRange_loop_days (daysInWindow first last) _ first last eq_refl);
    [reflexivity | apply Nat.le_refl | apply Hfirst | apply Hlast].
Qed.

(** [createDateRange] never runs out of fuel: its result is the result
    of the loop. *)
Lemma createDateRange_total (from to : string) :
  createDateRange_loop (createDateRange_fuel (Date_parse from) (Date_parse to))
                       (Date_parse from) (Date_parse to)
  = Some (createDateRange from to).
Proof.
  unfold createDateRange.
  pose proof (createDateRange_loop_terminates
                (createDateRange_fuel (Date_parse from) (Date_parse to))
                (Date_parse from) (Date_parse to) (Nat.le_refl _)) as Hterm.
  destruct (createDateRange_loop _ (Date_parse from) (Date_parse to));
    [reflexivity | contradiction].
Qed.
End DateLoop.

Lemma daysFrom_length (day : Z) (n : nat) : length (daysFrom day n) = n.
Proof. revert day. induction n as [| n IH]; intros day; simpl; [| rewrite IH]; reflexivity. Qed.

Lemma daysFrom_nth (n : nat) :
  forall day k, (k < n)%nat -> nth k (daysFrom day n) 0 = day + Z.of_nat k.
Proof.
  induction n as [| n IH]; intros day k Hk; [lia |].
  destruct k as [| k]; simpl; [lia |].
  rewrite IH by lia. lia.
Qed.

Lemma buildSeries_dates hs historyMap rateCache :
  forall dates lastKnown,
    map pp_date (buildSeries hs historyMap rateCache lastKnown dates) = dates.
Proof.
  induction dates as [| date dates IH]; intros lastKnown; [reflexivity |].
  cbn [buildSeries].
  destruct (fold_left (addHoldingValue historyMap rateCache date) hs (0%float, lastKnown))
    as [total lastKnown'].
  cbn [map pp_date]. rewrite IH. reflexivity.
Qed.

(* ===================================================================== *)
(** * The performance series: window and dates *)
(* ===================================================================== *)

Lemma earliestBuyDate_least :
  forall hs init,
    let e := earliestBuyDate hs init in
    (e = init \/ In e (map h_buy_date hs))
    /\ String.leb e init = true
    /\ forall h, In h hs -> String.leb e (h_buy_date h) = true.
Proof.
  induction hs as [| h hs IH]; intros init; cbn [earliestBuyDate fold_left map].
  - repeat split; [left; reflexivity | apply leb_refl | intros h []].
  - fold (earliestBuyDate hs (if String.ltb (h_buy_date h) init then h_buy_date h else init)).
    destruct (String.ltb (h_buy_date h) init) eqn:Hlt.
    + destruct (IH (h_buy_date h)) as (Hin & Hle & Hall). repeat split.
      * right. destruct Hin as [-> | Hin]; [left; reflexivity | right; exact Hin].
      * eapply leb_trans; [exact Hle | apply ltb_leb; exact Hlt].
      * intros h' [<- | Hh']; [exact Hle | apply Hall; exact Hh'].
    + destruct (IH init) as (Hin & Hle & Hall). repeat split.
      * destruct Hin as [-> | Hin]; [left; reflexivity | right; right; exact Hin].
      * exact Hle.
      * intros h' [<- | Hh']; [| apply Hall; exact Hh'].
        eapply leb_trans; [exact Hle |]. apply ltb_false_leb. exact Hlt.
Qed.

Section PerformanceWindow.
Context {W : Type} {R : Runtime W}.
Variables (portfolioId : Z) (from to : option string)
          (providers : list (MarketDataProvider W)) (baseCurrency : string)
          (forceRefresh : bool).

(** A portfolio without holdings gets the caller's [from] and [to] back
    as they came in. *)
Lemma getPerformanceSeries_empty (s : State W) :
  listHoldings_db portfolioId (db s) = [] ->
  getPerformanceSeries portfolioId from to providers baseCurrency forceRefresh s
  = (Normal {| series := []; ps_from := from; ps_to := to |}, s).
Proof.
  intros Hhs. unfold getPerformanceSeries, bind, listHoldings, query.
  rewrite Hhs. reflexivity.
Qed.

(** What a normal completion on a portfolio with holdings looks like. *)
Lemma getPerformanceSeries_returns (s s' : State W) first rest result :
  listHoldings_db portfolioId (db s) = first :: rest ->
  getPerformanceSeries portfolioId from to providers baseCurrency forceRefresh s
  = (Normal result, s') ->
  exists t1 t2 historyMap rateCache,
    Date_parse (optOrElse from (earliestBuyDate (first :: rest) (h_buy_date first)))
    = Some t1
    /\ Date_parse (optOrElse to (todayIso (world s))) = Some t2
    /\ result
       = {| series :=
              buildSeries (first :: rest) historyMap rateCache []
                (createDateRange (slice10 (toISOString t1)) (slice10 (toISOString t2)));
            ps_from := Some (slice10 (toISOString t1));
            ps_to := Some (slice10 (toISOString t2)) |}.
Proof.
  intros Hhs Hrun.
  unfold getPerformanceSeries, bind at 1, listHoldings, query in Hrun.
  rewrite Hhs in Hrun. unfold bind at 1, normalizeDate in Hrun.
  destruct (Date_parse (optOrElse from (earliestBuyDate (first :: rest) (h_buy_date first))))
    as [t1 |] eqn:Ht1; [| discriminate Hrun].
  unfold ret at 1, bind at 1, gets in Hrun. unfold bind at 1 in Hrun.
  destruct (Date_parse (optOrElse to (todayIso (world s)))) as [t2 |] eqn:Ht2;
    [| discriminate Hrun].
  unfold ret at 1, bind at 1 in Hrun.
  destruct (resolveRates _ _ _ _ s) as [[rateCache | e] sa]; [| discriminate Hrun].
  unfold bind at 1 in Hrun.
  destruct (collectHistories _ _ _ _ _ _ _ _ sa) as [[[historyMap rateCache'] | e] sb];
    [| discriminate Hrun].
  unfold ret in Hrun. injection Hrun as <- _.
  exists t1, t2, historyMap, rateCache'. repeat split; reflexivity.
Qed.
End PerformanceWindow.

(** C6 (amended).  For every portfolio with at least one holding, when the
    resolved window bounds [from] and [to] that [getPerformanceSeries]
    returns are calendar dates of the years 0000 to 9999, the series holds
    exactly one point for every calendar date of the closed window
    [[from, to]]: its dates are the days from [from] to [to] in ascending
    order, one day apart, and its length is the number of days of the
    window (none when [to] is before [from]), whatever the holdings, the
    providers and the caches deliver. *)
Theorem getPerformanceSeries_one_point_per_day :
  forall (W : Type) (R : Runtime W) (portfolioId : Z) (from to : option string)
         (providers : list (MarketDataProvider W)) (baseCurrency : string)
         (forceRefresh : bool) (s s' : State W) (result : PerformanceSeries)
         (first last : Z),
    listHoldings_db portfolioId (db s) <> [] ->
    getPerformanceSeries portfolioId from to providers baseCurrency forceRefresh s
    = (Normal result, s') ->
    ps_from result = Some (calendarDate first) -> inFourDigitYears first ->
    ps_to result = Some (calendarDate last) -> inFourDigitYears last ->
    map pp_date (series result)
    = map calendarDate (daysFrom first (daysInWindow first last))
    /\ length (series result) = daysInWindow first last
    /\ (forall k, (k < daysInWindow first last)%nat ->
                  option_map pp_date (nth_error (series result) k)
                  = Some (calendarDate (first + Z.of_nat k))).
Proof.
  intros W R portfolioId from to providers baseCurrency forceRefresh s s' result
         first last Hhs Hrun Hfrom Hfirst Hto Hlast.
  destruct (listHoldings_db portfolioId (db s)) as [| h hs] eqn:Hlist; [congruence |].
  destruct (getPerformanceSeries_returns portfolioId from to providers baseCurrency
              forceRefresh s s' h hs result Hlist Hrun)
    as (t1 & t2 & historyMap & rateCache & _ & _ & ->).
  cbn [ps_from ps_to series] in *.
  injection Hfrom as Hfrom. injection Hto as Hto.
  rewrite Hfrom, Hto, createDateRange_days by assumption.
  assert (Hdates : map pp_date
                     (buildSeries (h :: hs) historyMap rateCache []
                        (map calendarDate (daysFrom first (daysInWindow first last))))
                   = map calendarDate (daysFrom first (daysInWindow first last)))
    by apply buildSeries_dates.
  split; [exact Hdates | split].
  - rewrite <- (length_map pp_date), Hdates, length_map. apply daysFrom_length.
  - intros k Hk.
    rewrite <- (nth_error_map pp_date), Hdates.
    rewrite (nth_error_map calendarDate).
    rewrite (nth_error_nth' _ 0%Z) by (rewrite daysFrom_length; exact Hk).
    cbn [option_map]. rewrite daysFrom_nth by exact Hk. reflexivity.
Qed.

(** 2024-01-01 is day 19723 of the epoch. *)
Lemma getPerformanceSeries_one_point_per_day_witness :
  map pp_date
      (series {| series := [ {| pp_date := "2024-01-01"; pp_value := 180%float |};
                             {| pp_date := "2024-01-02"; pp_value := 200%float |};
                             {| pp_date := "2024-01-03"; pp_value := 200%float |} ];
                 ps_from := Some "2024-01-01"; ps_to := Some "2024-01-03" |})
  = map calendarDate (daysFrom 19723 (daysInWindow 19723 19725))
  /\ getPerformanceSeries 1 (Some "2024-01-01") (Some "2024-01-03") [teslaFeed] "USD" false
                          teslaPortfolio
     = (Normal {| series := [ {| pp_date := "2024-01-01"; pp_value := 180%float |};
                              {| pp_date := "2024-01-02"; pp_value := 200%float |};
                              {| pp_date := "2024-01-03"; pp_value := 200%float |} ];
                  ps_from := Some "2024-01-01"; ps_to := Some "2024-01-03" |},
        snd (getPerformanceSeries 1 (Some "2024-01-01") (Some "2024-01-03") [teslaFeed]
                                  "USD" false teslaPortfolio)).
Proof.
  assert (Hrun : getPerformanceSeries 1 (Some "2024-01-01") (Some "2024-01-03") [teslaFeed]
                                      "USD" false teslaPortfolio
                 = (Normal {| series := [ {| pp_date := "2024-01-01"; pp_value := 180%float |};
                                          {| pp_date := "2024-01-02"; pp_value := 200%float |};
                                          {| pp_date := "2024-01-03"; pp_value := 200%float |} ];
                              ps_from := Some "2024-01-01"; ps_to := Some "2024-01-03" |},
                    snd (getPerformanceSeries 1 (Some "2024-01-01") (Some "2024-01-03")
                                              [teslaFeed] "USD" false teslaPortfolio)))
    by (vm_compute; reflexivity).
  split; [| exact Hrun].
  refine (proj1 (getPerformanceSeries_one_point_per_day unit Doubles.fixedRuntime
                   1 (Some "2024-01-01") (Some "2024-01-03") [teslaFeed] "USD" false
                   teslaPortfolio _ _ 19723 19725 _ Hrun _ _ _ _)).
  - discriminate.
  - reflexivity.
  - unfold inFourDigitYears; lia.
  - reflexivity.
  - unfold inFourDigitYears; lia.
Defined.

(** C6 (counterexample).  A window in the year 10000: the ISO text of such a
    date is [+010000-01-01T...], of which the first ten characters keep
    neither the day nor a four-digit year.  The resolved bounds are
    [+010000-01] and [+010000-02], and the series for January 1st to
    February 1st has thirty-two points of which the first thirty-one carry
    the same date: the dates are not one per calendar day and not
    ascending. *)
Lemma getPerformanceSeries_year_10000 :
  exists result,
    fst (getPerformanceSeries 1 (Some "+010000-01-01") (Some "+010000-02-01")
                              [Doubles.failing "MOCK"] "USD" false teslaPortfolio)
    = Normal result
    /\ ps_from result = Some "+010000-01"
    /\ ps_to result = Some "+010000-02"
    /\ map pp_date (series result) = repeat "+010000-01" 31 ++ ["+010000-02"]
    /\ ~ NoDup (map pp_date (series result)).
Proof.
  eexists. split; [vm_compute; reflexivity |].
  cbn [ps_from ps_to series].
  split; [reflexivity |]. split; [reflexivity |]. split; [reflexivity |].
  intros Hnodup. cbn [map pp_date] in Hnodup.
  inversion Hnodup as [| x l Hnotin _]; subst. apply Hnotin. left. reflexivity.
Qed.

(** C7 (amended).  For a portfolio with at least one holding, every result
    of [getPerformanceSeries] carries the resolved window: [from] is the
    caller's [from], or the earliest holding buy-date when [from] is
    omitted or empty, and [to] is the caller's [to], or today, each
    normalized to the first ten characters of its ISO-8601 UTC rendering,
    which is the calendar date [YYYY-MM-DD] of that instant's UTC day for
    the years 0000 to 9999.  For a portfolio with no holdings the result is
    the empty series together with the caller's [from] and [to] exactly as
    passed, not defaulted and not normalized. *)
Theorem getPerformanceSeries_resolved_window :
  forall (W : Type) (R : Runtime W) (portfolioId : Z) (from to : option string)
         (providers : list (MarketDataProvider W)) (baseCurrency : string)
         (forceRefresh : bool) (s : State W),
    (listHoldings_db portfolioId (db s) = [] ->
     getPerformanceSeries portfolioId from to providers baseCurrency forceRefresh s
     = (Normal {| series := []; ps_from := from; ps_to := to |}, s))
    /\ (forall result s',
           listHoldings_db portfolioId (db s) <> [] ->
           getPerformanceSeries portfolioId from to providers baseCurrency forceRefresh s
           = (Normal result, s') ->
           exists earliest today t1 t2,
             In earliest (map h_buy_date (listHoldings_db portfolioId (db s)))
             /\ (forall h, In h (listHoldings_db portfolioId (db s)) ->
                           String.leb earliest (h_buy_date h) = true)
             /\ today = slice10 (toISOString (Date_now (world s)))
             /\ Date_parse (optOrElse from earliest) = Some t1
             /\ Date_parse (optOrElse to today) = Some t2
             /\ ps_from result = Some (slice10 (toISOString t1))
             /\ ps_to result = Some (slice10 (toISOString t2))
             /\ (inFourDigitYears (Day t1) ->
                 ps_from result = Some (calendarDate (Day t1)))
             /\ (inFourDigitYears (Day t2) ->
                 ps_to result = Some (calendarDate (Day t2)))
             /\ (to = None -> inFourDigitYears (Day (Date_now (world s))) ->
                 ps_to result = Some (calendarDate (Day (Date_now (world s)))))).
Proof.
  intros W R portfolioId from to providers baseCurrency forceRefresh s.
  split; [apply getPerformanceSeries_empty |].
  intros result s' Hhs Hrun.
  destruct (listHoldings_db portfolioId (db s)) as [| h hs] eqn:Hlist; [congruence |].
  destruct (getPerformanceSeries_returns portfolioId from to providers baseCurrency
              forceRefresh s s' h hs result Hlist Hrun)
    as (t1 & t2 & historyMap & rateCache & Ht1 & Ht2 & ->).
  destruct (earliestBuyDate_least (h :: hs) (h_buy_date h)) as (Hin & _ & Hleast).
  exists (earliestBuyDate (h :: hs) (h_buy_date h)),
         (slice10 (toISOString (Date_now (world s)))), t1, t2.
  cbn [ps_from ps_to].
  split; [destruct Hin as [-> | Hin]; [left; reflexivity | exact Hin] |].
  split; [exact Hleast |]. split; [reflexivity |].
  split; [exact Ht1 |]. split; [exact Ht2 |].
  split; [reflexivity |]. split; [reflexivity |].
  split; [intros Hy; rewrite slice10_toISOString by exact Hy; reflexivity |].
  split; [intros Hy; rewrite slice10_toISOString by exact Hy; reflexivity |].
  intros -> Hnow. cbn [optOrElse] in Ht2. unfold todayIso in Ht2.
  rewrite slice10_toISOString in Ht2 by exact Hnow.
  rewrite Date_parse_calendarDate in Ht2 by exact Hnow.
  injection Ht2 as <-.
  rewrite slice10_toISOString by (rewrite Day_midnight; exact Hnow).
  rewrite Day_midnight. reflexivity.
Qed.

(** 2024-06-01, the day of the fixed clock, is day 19875 of the epoch. *)
Lemma getPerformanceSeries_resolved_window_witness :
  exists result s',
    getPerformanceSeries 1 None None [teslaFeed] "USD" false teslaPortfolio
    = (Normal result, s')
    /\ ps_from result = Some "2024-01-01"
    /\ ps_to result = Some (calendarDate 19875)
    /\ calendarDate 19875 = "2024-06-01".
Proof.
  destruct (getPerformanceSeries 1 None None [teslaFeed] "USD" false teslaPortfolio)
    as [c s'] eqn:Hrun.
  assert (Hc : exists result, c = Normal result /\ ps_from result = Some "2024-01-01").
  { pose proof (f_equal fst Hrun) as Hfst. cbn [fst] in Hfst. rewrite <- Hfst.
    eexists. split; [vm_compute; reflexivity | reflexivity]. }
  destruct Hc as (result & -> & Hfrom).
  destruct (proj2 (getPerformanceSeries_resolved_window unit Doubles.fixedRuntime
                     1 None None [teslaFeed] "USD" false teslaPortfolio)
              result s' ltac:(discriminate) Hrun)
    as (earliest & today & t1 & t2 & _ & _ & _ & _ & _ & _ & _ & _ & _ & Htoday).
  exists result, s'. split; [reflexivity |]. split; [exact Hfrom |].
  split; [| reflexivity].
  apply (Htoday eq_refl). cbv. split; discriminate.
Defined.

(** C7 (counterexample).  With no holdings the bounds come back as the
    caller passed them: [undefined] stays [undefined], and a [from] with a
    time of day or a [to] that is no date at all is returned verbatim. *)
Lemma getPerformanceSeries_empty_portfolio_window :
  getPerformanceSeries 1 None None [teslaFeed] "USD" false (Doubles.initial emptyDb)
  = (Normal {| series := []; ps_from := None; ps_to := None |}, Doubles.initial emptyDb)
  /\ getPerformanceSeries 1 (Some "2024-01-05T10:00:00Z") (Some "yesterday") [teslaFeed]
                          "USD" false (Doubles.initial emptyDb)
     = (Normal {| series := []; ps_from := Some "2024-01-05T10:00:00Z";
                  ps_to := Some "yesterday" |}, Doubles.initial emptyDb).
Proof. split; reflexivity. Qed.

(* ===================================================================== *)
(** * The performance series: failures of the history fetch *)
(* ===================================================================== *)

Section JsMapFacts.
Context {K V : Type}.
Variable keyEqb : K -> K -> bool.
Hypothesis keyEqb_spec : forall a b, reflect (a = b) (keyEqb a b).

Lemma mapGet_mapSet_gen (k k' : K) (v : V) (m : JsMap (K := K) (V := V)) :
  mapGet keyEqb k' (mapSet keyEqb k v m)
  = if keyEqb k k' then Some v else mapGet keyEqb k' m.
Proof.
  induction m as [| [k0 v0] m IH]; [reflexivity |].
  cbn [mapSet]. destruct (keyEqb_spec k0 k) as [-> | Hne]; cbn [mapGet].
  - destruct (keyEqb k k'); reflexivity.
  - rewrite IH. destruct (keyEqb_spec k0 k') as [-> | Hne'].
    + destruct (keyEqb_spec k k'); [congruence | reflexivity].
    + reflexivity.
Qed.
End JsMapFacts.

Lemma mapGet_mapSet (V : Type) (k k' : string) (v : V) (m : JsMap (K := string) (V := V)) :
  mapGet String.eqb k' (mapSet String.eqb k v m)
  = if String.eqb k k' then Some v else mapGet String.eqb k' m.
Proof. apply mapGet_mapSet_gen. apply String.eqb_spec. Qed.

Lemma mapGet_mapSet_Z (V : Type) (k k' : Z) (v : V) (m : JsMap (K := Z) (V := V)) :
  mapGet Z.eqb k' (mapSet Z.eqb k v m)
  = if Z.eqb k k' then Some v else mapGet Z.eqb k' m.
Proof. apply mapGet_mapSet_gen. apply Z.eqb_spec. Qed.

Lemma In_distinct (x : string) (xs : list string) : In x xs -> In x (distinct xs).
Proof.
  induction xs as [| y xs IH]; [intros [] |].
  intros Hin. cbn [distinct].
  destruct (String.eqb_spec x y) as [-> | Hne]; [left; reflexivity |].
  right. apply filter_In. split.
  - apply IH. destruct Hin as [-> | Hin]; [congruence | exact Hin].
  - apply negb_true_iff. apply String.eqb_neq. exact Hne.
Qed.

Section HistoryFailures.
Context {W : Type} {R : Runtime W}.
Variables (normalizedBase : string) (providers : list (MarketDataProvider W))
          (forceRefresh : bool).

Lemma resolveRate_known rateCache cur (s : State W) :
  rateKnown normalizedBase rateCache cur ->
  exists fxRate,
    resolveRate normalizedBase providers rateCache cur s = (Normal (fxRate, rateCache), s).
Proof.
  intros Hknown. unfold resolveRate.
  destruct (String.eqb_spec (toUpperCase cur) normalizedBase) as [Heq | Hne].
  - exists 1%float. reflexivity.
  - destruct Hknown as [Heq | Hhas]; [contradiction |].
    destruct (mapGet String.eqb (toUpperCase cur) rateCache) as [rate |];
      [| contradiction].
    exists rate. reflexivity.
Qed.

Lemma resolveRate_result rateCache cur (s s' : State W) fxRate rateCache' :
  resolveRate normalizedBase providers rateCache cur s = (Normal (fxRate, rateCache'), s') ->
  rateKnown normalizedBase rateCache' cur
  /\ forall c, rateKnown normalizedBase rateCache c -> rateKnown normalizedBase rateCache' c.
Proof.
  unfold resolveRate, rateKnown.
  destruct (String.eqb_spec (toUpperCase cur) normalizedBase) as [Heq | Hne].
  - intros [= _ <- _]. split; [left; exact Heq | auto].
  - destruct (mapGet String.eqb (toUpperCase cur) rateCache) as [rate |] eqn:Hget.
    + intros [= _ <- _]. split; [right; congruence | auto].
    + unfold bind.
      destruct (getFxRate (toUpperCase cur) normalizedBase providers s) as [[rate | e] sa];
        [| discriminate].
      intros [= _ <- _]. split.
      * right. rewrite mapGet_mapSet, String.eqb_refl. discriminate.
      * intros c [Hc | Hc]; [left; exact Hc | right].
        rewrite mapGet_mapSet. destruct (String.eqb _ _); [discriminate | exact Hc].
Qed.

Lemma resolveRates_result :
  forall currencies rateCache (s s' : State W) rateCache',
    resolveRates normalizedBase providers rateCache currencies s = (Normal rateCache', s') ->
    (forall c, In c currencies -> rateKnown normalizedBase rateCache' c)
    /\ forall c, rateKnown normalizedBase rateCache c -> rateKnown normalizedBase rateCache' c.
Proof.
  induction currencies as [| cur rest IH]; intros rateCache s s' rateCache' Hrun.
  - injection Hrun as <- _. split; [intros c [] | auto].
  - cbn [resolveRates] in Hrun. unfold bind in Hrun.
    destruct (resolveRate normalizedBase providers rateCache cur s)
      as [[[fxRate rc1] | e] s1] eqn:Hone; [| discriminate].
    cbn [snd] in Hrun.
    destruct (resolveRate_result _ _ _ _ _ _ Hone) as [Hcur Hkeep1].
    destruct (IH _ _ _ _ Hrun) as [Hrest Hkeep2].
    split.
    + intros c [<- | Hc]; [apply Hkeep2, Hcur | apply Hrest, Hc].
    + intros c Hc. apply Hkeep2, Hkeep1, Hc.
Qed.

(** The callback of one holding completes normally whenever the rate of
    its currency is at hand, even if the history fetch throws. *)
Lemma holdingHistory_total startDate endDate rateCache holding (s : State W) :
  rateKnown normalizedBase rateCache (marketCurrencyOf (h_market holding)) ->
  exists priceByDate s',
    holdingHistory normalizedBase providers forceRefresh startDate endDate
                   rateCache holding s
    = (Normal (priceByDate, rateCache), s').
Proof.
  intros Hknown. unfold holdingHistory, bind at 1.
  destruct (resolveRate_known rateCache _ s Hknown) as [fxRate ->].
  unfold tryCatch, bind.
  destruct (getHistory _ _ _ _ _ _ _ s) as [[res | e] s'];
    eexists; eexists; reflexivity.
Qed.

Lemma collectHistories_total startDate endDate rateCache :
  forall hs historyMap (s : State W),
    (forall h, In h hs ->
               rateKnown normalizedBase rateCache (marketCurrencyOf (h_market h))) ->
    exists historyMap' s',
      collectHistories normalizedBase providers forceRefresh startDate endDate
                       rateCache historyMap hs s
      = (Normal (historyMap', rateCache), s').
Proof.
  induction hs as [| h hs IH]; intros historyMap s Hknown.
  - eexists. eexists. reflexivity.
  - cbn [collectHistories]. unfold bind.
    destruct (holdingHistory_total startDate endDate rateCache h s
                (Hknown h (or_introl eq_refl))) as (priceByDate & s1 & ->).
    apply IH. intros h' Hh'. apply Hknown. right. exact Hh'.
Qed.

(** What the callback stores for a holding whose history fetch throws. *)
Lemma holdingHistory_fallback startDate endDate rateCache rateCache' holding fxRate e
      (s s1 s2 : State W) :
  resolveRate normalizedBase providers rateCache (marketCurrencyOf (h_market holding)) s
  = (Normal (fxRate, rateCache'), s1) ->
  getHistory (h_ticker holding) (h_market holding) startDate endDate "1d"
             providers forceRefresh s1
  = (Throw e, s2) ->
  holdingHistory normalizedBase providers forceRefresh startDate endDate
                 rateCache holding s
  = (Normal ([(fallbackDateOf holding startDate,
               PrimFloat.mul (h_buy_price holding) fxRate)], rateCache'), s2).
Proof.
  intros Hrate Hthrow. unfold holdingHistory, bind at 1. rewrite Hrate.
  unfold tryCatch, bind. rewrite Hthrow. reflexivity.
Qed.
End HistoryFailures.

(** [fallbackDateOf] is the later of the buy date and the start date. *)
Lemma fallbackDateOf_max (holding : HoldingRow) (startDate : string) :
  String.leb (h_buy_date holding) (fallbackDateOf holding startDate) = true
  /\ String.leb startDate (fallbackDateOf holding startDate) = true
  /\ (fallbackDateOf holding startDate = h_buy_date holding
      \/ fallbackDateOf holding startDate = startDate).
Proof.
  unfold fallbackDateOf.
  destruct (String.ltb startDate (h_buy_date holding)) eqn:Hlt.
  - repeat split; [apply leb_refl | apply ltb_leb; exact Hlt | left; reflexivity].
  - repeat split; [apply ltb_false_leb; exact Hlt | apply leb_refl | right; reflexivity].
Qed.

(** ** The flat buy-price line *)

Lemma supported_currencies_upper :
  Forall (fun d => toUpperCase (orElse (currency d) "USD") = orElse (currency d) "USD")
         SUPPORTED_MARKETS.
Proof. repeat (constructor; [reflexivity |]). constructor. Qed.

(** Every market currency is already in upper case. *)
Lemma marketCurrencyOf_upper (market : string) :
  toUpperCase (marketCurrencyOf market) = marketCurrencyOf market.
Proof.
  unfold marketCurrencyOf.
  destruct (getMarketDefinition market) as [d |] eqn:Hd; [| reflexivity].
  apply getMarketDefinition_supported in Hd.
  exact (proj1 (Forall_forall _ _) supported_currencies_upper d Hd).
Qed.

Section FlatLine.
Context {W : Type} {R : Runtime W}.
Variables (normalizedBase : string) (providers : list (MarketDataProvider W)).

(** The rate cache never holds the base currency, and the rate the final
    loop looks up is the rate [resolveRate] returned. *)
Lemma resolveRate_agrees rateCache cur (s s' : State W) fxRate rateCache' :
  toUpperCase cur = cur ->
  mapGet String.eqb normalizedBase rateCache = None ->
  resolveRate normalizedBase providers rateCache cur s = (Normal (fxRate, rateCache'), s') ->
  rateOr1 rateCache' cur = fxRate
  /\ mapGet String.eqb normalizedBase rateCache' = None.
Proof.
  intros Hupper Habsent. unfold resolveRate, rateOr1. rewrite Hupper.
  destruct (String.eqb_spec cur normalizedBase) as [-> | Hne].
  - intros [= <- <- _]. rewrite Habsent. split; reflexivity.
  - destruct (mapGet String.eqb cur rateCache) as [rate |] eqn:Hget.
    + intros [= <- <- _]. rewrite Hget. split; [reflexivity | exact Habsent].
    + unfold bind.
      destruct (getFxRate cur normalizedBase providers s) as [[rate | e] sa];
        [| discriminate].
      intros [= <- <- _]. rewrite !mapGet_mapSet, String.eqb_refl.
      split; [reflexivity |].
      destruct (String.eqb_spec cur normalizedBase); [contradiction | exact Habsent].
Qed.

Lemma resolveRates_base_absent :
  forall currencies rateCache (s s' : State W) rateCache',
    (forall c, In c currencies -> toUpperCase c = c) ->
    mapGet String.eqb normalizedBase rateCache = None ->
    resolveRates normalizedBase providers rateCache currencies s = (Normal rateCache', s') ->
    mapGet String.eqb normalizedBase rateCache' = None.
Proof.
  induction currencies as [| cur rest IH]; intros rateCache s s' rateCache' Hupper Habsent Hrun.
  - injection Hrun as <- _. exact Habsent.
  - cbn [resolveRates] in Hrun. unfold bind in Hrun.
    destruct (resolveRate normalizedBase providers rateCache cur s)
      as [[[fxRate rc1] | e] s1] eqn:Hone; [| discriminate].
    cbn [snd] in Hrun.
    destruct (resolveRate_agrees _ _ _ _ _ _ (Hupper cur (or_introl eq_refl)) Habsent Hone)
      as [_ Habsent1].
    apply (IH rc1 s1 s' rateCache'); auto.
    intros c Hc. apply Hupper. right. exact Hc.
Qed.
End FlatLine.

Section FlatLineSeries.
Variables (holding : HoldingRow) (startDate : string) (fxRate : float)
          (rateCache : RateCache).

Hypothesis rate_agrees : rateOr1 rateCache (marketCurrencyOf (h_market holding)) = fxRate.

(** Visiting the holding on a date: nothing before the buy date, the buy
    value times the quantity from then on. *)
Lemma addHoldingValue_fallback date total (lastKnown : LastKnown) :
  (mapGet Z.eqb (h_id holding) lastKnown = None
   \/ mapGet Z.eqb (h_id holding) lastKnown = Some (buyValueOf holding fxRate)) ->
  exists lastKnown',
    addHoldingValue (fallbackHistoryMap holding startDate fxRate) rateCache date (total, lastKnown) holding
    = (if String.ltb date (h_buy_date holding) then total
       else PrimFloat.add total (PrimFloat.mul (buyValueOf holding fxRate) (h_quantity holding)),
       lastKnown')
    /\ (mapGet Z.eqb (h_id holding) lastKnown' = None
        \/ mapGet Z.eqb (h_id holding) lastKnown' = Some (buyValueOf holding fxRate)).
Proof.
  intros Hlk. unfold addHoldingValue.
  destruct (String.ltb date (h_buy_date holding)); [exists lastKnown; auto |].
  unfold fallbackHistoryMap. cbn [mapSet mapGet]. rewrite Z.eqb_refl.
  unfold fallbackPriceMap, mapOfEntries. cbn [fold_left fst snd mapSet mapGet].
  fold (rateOr1 rateCache (marketCurrencyOf (h_market holding))). rewrite rate_agrees.
  fold (buyValueOf holding fxRate).
  destruct (String.eqb (fallbackDateOf holding startDate) date).
  - eexists. rewrite mapGet_mapSet_Z, Z.eqb_refl. split; [reflexivity |].
    right. rewrite mapGet_mapSet_Z, Z.eqb_refl. reflexivity.
  - exists lastKnown. split; [| exact Hlk].
    destruct Hlk as [-> | ->]; reflexivity.
Qed.

(** The series of a portfolio made of that one holding is flat. *)
Lemma buildSeries_flat :
  forall dates (lastKnown : LastKnown),
    (mapGet Z.eqb (h_id holding) lastKnown = None
     \/ mapGet Z.eqb (h_id holding) lastKnown = Some (buyValueOf holding fxRate)) ->
    forall p, In p (buildSeries [holding] (fallbackHistoryMap holding startDate fxRate) rateCache lastKnown dates) ->
              pp_value p
              = if String.ltb (pp_date p) (h_buy_date holding) then 0%float
                else PrimFloat.add 0 (PrimFloat.mul (buyValueOf holding fxRate) (h_quantity holding)).
Proof.
  induction dates as [| date dates IH]; intros lastKnown Hlk p Hp; [destruct Hp |].
  cbn [buildSeries fold_left] in Hp.
  destruct (addHoldingValue_fallback date 0%float lastKnown Hlk) as (lk' & Hstep & Hlk').
  rewrite Hstep in Hp. destruct Hp as [<- | Hp].
  - reflexivity.
  - exact (IH lk' Hlk' p Hp).
Qed.
End FlatLineSeries.

(** C5 (amended).  For every portfolio with at least one holding whose date
    window resolves (both bounds parse as dates) and for which the FX rate
    of every holding currency resolves, [getPerformanceSeries] completes
    normally whatever the history providers and the history cache do: a
    holding whose history fetch throws is given the single synthetic point
    priced at its buy price times its FX rate and dated
    [max(buy_date, from)], and a portfolio made of one such holding is
    valued at that buy price times the quantity on every date from the buy
    date on, a flat buy-price line. *)
Theorem getPerformanceSeries_absorbs_history_failures :
  forall (W : Type) (R : Runtime W) (portfolioId : Z) (from to : option string)
         (providers : list (MarketDataProvider W)) (baseCurrency : string)
         (forceRefresh : bool) (s s1 : State W) (first : HoldingRow)
         (rest : list HoldingRow) (t1 t2 : Z) (rateCache : RateCache),
    let hs := first :: rest in
    let startDate := slice10 (toISOString t1) in
    let endDate := slice10 (toISOString t2) in
    let normalizedBase := toUpperCase baseCurrency in
    listHoldings_db portfolioId (db s) = hs ->
    Date_parse (optOrElse from (earliestBuyDate hs (h_buy_date first))) = Some t1 ->
    Date_parse (optOrElse to (todayIso (world s))) = Some t2 ->
    resolveRates normalizedBase providers []
                 (distinct (map (fun h => marketCurrencyOf (h_market h)) hs)) s
    = (Normal rateCache, s1) ->
    (exists result s',
        getPerformanceSeries portfolioId from to providers baseCurrency forceRefresh s
        = (Normal result, s'))
    /\ (forall holding sa e sb,
           In holding hs ->
           getHistory (h_ticker holding) (h_market holding) startDate endDate "1d"
                      providers forceRefresh sa
           = (Throw e, sb) ->
           exists fxRate,
             resolveRate normalizedBase providers rateCache
                         (marketCurrencyOf (h_market holding)) sa
             = (Normal (fxRate, rateCache), sa)
             /\ holdingHistory normalizedBase providers forceRefresh startDate endDate
                               rateCache holding sa
                = (Normal ([(fallbackDateOf holding startDate,
                             PrimFloat.mul (h_buy_price holding) fxRate)], rateCache), sb)
             /\ String.leb (h_buy_date holding) (fallbackDateOf holding startDate) = true
             /\ String.leb startDate (fallbackDateOf holding startDate) = true
             /\ (fallbackDateOf holding startDate = h_buy_date holding
                 \/ fallbackDateOf holding startDate = startDate))
    /\ (rest = [] ->
        forall e s2,
          getHistory (h_ticker first) (h_market first) startDate endDate "1d"
                     providers forceRefresh s1
          = (Throw e, s2) ->
          exists result fxRate,
            getPerformanceSeries portfolioId from to providers baseCurrency forceRefresh s
            = (Normal result, s2)
            /\ resolveRate normalizedBase providers rateCache
                           (marketCurrencyOf (h_market first)) s1
               = (Normal (fxRate, rateCache), s1)
            /\ forall p, In p (series result) ->
                         pp_value p
                         = if String.ltb (pp_date p) (h_buy_date first) then 0%float
                           else PrimFloat.add 0
                                  (PrimFloat.mul
                                     (PrimFloat.mul (h_buy_price first) fxRate)
                                     (h_quantity first))).
Proof.
  intros W R portfolioId from to providers baseCurrency forceRefresh s s1 first rest
         t1 t2 rateCache hs startDate endDate normalizedBase Hhs Ht1 Ht2 Hrates.
  destruct (resolveRates_result normalizedBase providers _ _ _ _ _ Hrates) as [Hknown _].
  assert (Hall : forall h, In h hs ->
                   rateKnown normalizedBase rateCache (marketCurrencyOf (h_market h))).
  { intros h Hh. apply Hknown. apply In_distinct.
    apply (in_map (fun h => marketCurrencyOf (h_market h))). exact Hh. }
  assert (Hprefix : forall k : HistoryMap * RateCache -> Async (State W) PerformanceSeries,
             getPerformanceSeries portfolioId from to providers baseCurrency forceRefresh s
             = bind (collectHistories normalizedBase providers forceRefresh startDate endDate
                                      rateCache [] hs)
                    (fun hm =>
                       let (historyMap, rateCache') := hm in
                       ret {| series := buildSeries hs historyMap rateCache' []
                                          (createDateRange startDate endDate);
                              ps_from := Some startDate; ps_to := Some endDate |}) s1).
  { intros _. unfold hs, startDate, endDate, normalizedBase in *.
    unfold getPerformanceSeries, bind at 1, listHoldings, query.
    rewrite Hhs. unfold bind at 1, normalizeDate. rewrite Ht1.
    unfold ret at 1, bind at 1, gets. unfold bind at 1. rewrite Ht2.
    unfold ret at 1, bind at 1. rewrite Hrates. reflexivity. }
  specialize (Hprefix (fun _ => ret {| series := []; ps_from := None; ps_to := None |})).
  split; [| split].
  - rewrite Hprefix. unfold bind.
    destruct (collectHistories_total normalizedBase providers forceRefresh startDate endDate
                rateCache hs [] s1 Hall) as (historyMap & s' & ->).
    eexists. eexists. reflexivity.
  - intros holding sa e sb Hin Hthrow.
    destruct (resolveRate_known normalizedBase providers rateCache _ sa (Hall holding Hin))
      as [fxRate Hrate].
    exists fxRate. split; [exact Hrate |].
    split; [exact (holdingHistory_fallback normalizedBase providers forceRefresh
                     startDate endDate rateCache rateCache holding fxRate e sa sa sb
                     Hrate Hthrow) |].
    apply fallbackDateOf_max.
  - intros -> e s2 Hthrow.
    destruct (resolveRate_known normalizedBase providers rateCache _ s1
                (Hall first (or_introl eq_refl))) as [fxRate Hrate].
    pose proof (holdingHistory_fallback normalizedBase providers forceRefresh
                  startDate endDate rateCache rateCache first fxRate e s1 s1 s2
                  Hrate Hthrow) as Hfallback.
    assert (Habsent : mapGet String.eqb normalizedBase rateCache = None).
    { apply (resolveRates_base_absent normalizedBase providers
               (distinct (map (fun h => marketCurrencyOf (h_market h)) hs))
               [] s s1 rateCache);
        [| reflexivity | exact Hrates].
      intros c Hc. unfold hs in Hc. cbn [map distinct filter] in Hc.
      destruct Hc as [<- | []]. apply marketCurrencyOf_upper. }
    destruct (resolveRate_agrees normalizedBase providers rateCache _ s1 s1 fxRate rateCache
                (marketCurrencyOf_upper (h_market first)) Habsent Hrate) as [Hagree _].
    eexists. exists fxRate. split; [| split; [exact Hrate |]].
    + rewrite Hprefix. unfold bind. subst hs. cbn [collectHistories]. unfold bind.
      rewrite Hfallback. cbn [collectHistories]. unfold ret. reflexivity.
    + cbn [series]. intros p Hp.
      exact (buildSeries_flat first startDate fxRate rateCache Hagree _ []
               (or_introl eq_refl) p Hp).
Qed.

(** C5 (counterexample).  One holding on the London market, valued in USD:
    its currency is GBP, no provider of the chain serves FX rates, the
    currency-only endpoint is down and no rate is cached.  The FX
    resolution runs before any history is fetched and outside every
    [try]: the request fails with the provider error. *)
Lemma getPerformanceSeries_fx_failure :
  length (listHoldings_db 1 (db vodafonePortfolio)) = 1%nat
  /\ fst (getPerformanceSeries 1 (Some "2024-01-01") (Some "2024-01-02") [teslaFeed]
                               "USD" false vodafonePortfolio)
     = Throw (newProviderError "FX rate fetch failed").
Proof. split; vm_compute; reflexivity. Qed.

Lemma getPerformanceSeries_absorbs_history_failures_witness :
  exists result s2,
    getPerformanceSeries 1 (Some "2024-01-01") (Some "2024-01-03") [Doubles.failing "MOCK"]
                         "USD" false teslaPortfolio
    = (Normal result, s2)
    /\ forall p, In p (series result) ->
                 pp_value p
                 = if String.ltb (pp_date p) "2024-01-01" then 0%float else 200%float.
Proof.
  destruct (getPerformanceSeries_absorbs_history_failures unit Doubles.fixedRuntime
              1 (Some "2024-01-01") (Some "2024-01-03") [Doubles.failing "MOCK"] "USD" false
              teslaPortfolio teslaPortfolio tesla [] 1704067200000 1704240000000 []
              eq_refl eq_refl eq_refl eq_refl)
    as (_ & _ & Hflat).
  destruct (Hflat eq_refl (newProviderError "down")
              (snd (getHistory "TSLA" "NASDAQ" "2024-01-01" "2024-01-03" "1d"
                               [Doubles.failing "MOCK"] false teslaPortfolio))
              eq_refl)
    as (result & fxRate & Hrun & Hrate & Hvalues).
  injection Hrate as <-.
  exists result. eexists. split; [exact Hrun |]. exact Hvalues.
Defined.
(* ===================================================================== *)
(** * Provider calls along a chain *)
(* ===================================================================== *)

Section ChainTraces.
Context {W A : Type}.
Variable request : MarketDataProvider W -> ProviderCall.
Variable method : MarketDataProvider W -> Remote W A.

Lemma invoke_step (c : ProviderCall) (m : Remote W A) (s s2 : State W) r :
  invoke c m s = (r, s2) -> db s2 = db s /\ calls s2 = calls s ++ [c].
Proof.
  unfold invoke. destruct (m (world s)) as [r' w']. intros E.
  injection E as _ <-. split; reflexivity.
Qed.

Lemma AllThrow_invoke_trace :
  forall ps (s : State W) e0 s' e,
    AllThrow (fun p => invoke (request p) (method p)) ps s e0 s' e ->
    db s' = db s /\ calls s' = calls s ++ map request ps.
Proof.
  intros ps s e0 s' e Hrun.
  induction Hrun as [s e | p ps s s1 s2 e0 e1 e2 Hp _ [IHdb IHcalls]].
  - split; [reflexivity | cbn; now rewrite app_nil_r].
  - apply invoke_step in Hp as [Hdb Hcalls].
    split; [congruence |].
    rewrite IHcalls, Hcalls. cbn. now rewrite <- app_assoc.
Qed.
End ChainTraces.

(** A chain that has thrown at least once has recorded an error. *)
Lemma AllThrow_records {W S T : Type} (task : MarketDataProvider W -> Async S T) :
  forall ps s e0 s' e,
    AllThrow task ps s e0 s' e ->
    ps <> [] \/ (exists first, e0 = Some first) ->
    exists last, e = Some last.
Proof.
  intros ps s e0 s' e Hrun.
  induction Hrun as [s e | p ps s s1 s2 e0 e1 e2 _ _ IH]; intros Hsome.
  - destruct Hsome as [Hne | Hsome]; [now contradiction Hne | exact Hsome].
  - apply IH. right. eauto.
Qed.

(* ===================================================================== *)
(** * The FX service *)
(* ===================================================================== *)

Section FxSortKeys.
Lemma byFxExpiresAt_refl a : byFxExpiresAt a a = true.
Proof. apply leb_refl. Qed.
Lemma byFxExpiresAt_trans a b c :
  byFxExpiresAt a b = true -> byFxExpiresAt b c = true -> byFxExpiresAt a c = true.
Proof. apply leb_trans. Qed.
Lemma byFxExpiresAt_total a b : byFxExpiresAt a b = true \/ byFxExpiresAt b a = true.
Proof. apply String.leb_total. Qed.
Lemma byFxFetchedAt_refl a : byFxFetchedAt a a = true.
Proof. apply leb_refl. Qed.
Lemma byFxFetchedAt_trans a b c :
  byFxFetchedAt a b = true -> byFxFetchedAt b c = true -> byFxFetchedAt a c = true.
Proof. apply leb_trans. Qed.
Lemma byFxFetchedAt_total a b : byFxFetchedAt a b = true \/ byFxFetchedAt b a = true.
Proof. apply String.leb_total. Qed.
End FxSortKeys.

Section FxFacts.
Context {W : Type} {R : Runtime W}.
Variables (base quote : string) (providers : list (MarketDataProvider W)).

Lemma fxKeyIs_iff (r : FxRow) :
  fxKeyIs base quote r = true <-> fx_base r = base /\ fx_quote r = quote.
Proof. unfold fxKeyIs. rewrite andb_true_iff, !String.eqb_eq. tauto. Qed.

Lemma freshFxRows_In (now : string) (table : list FxRow) (r : FxRow) :
  In r (freshFxRows base quote now table)
  <-> In r table /\ (fx_base r = base /\ fx_quote r = quote)
      /\ String.ltb now (fx_expires_at r) = true.
Proof.
  unfold freshFxRows. rewrite filter_In, andb_true_iff, fxKeyIs_iff. tauto.
Qed.

Lemma selectCachedFx_None (now : string) (table : list FxRow) :
  selectCachedFx base quote now table = None <-> fxExpired base quote now table.
Proof.
  unfold selectCachedFx, fxExpired. rewrite greatestLast_None. split.
  - intros Hnil row Hin Hb Hq.
    destruct (String.ltb now (fx_expires_at row)) eqn:Hfresh.
    + assert (Hr : In row (freshFxRows base quote now table))
        by (apply freshFxRows_In; auto).
      rewrite Hnil in Hr. destruct Hr.
    + apply ltb_false_leb. exact Hfresh.
  - intros Hexpired.
    destruct (freshFxRows base quote now table) as [| r l] eqn:Hf; [reflexivity |].
    assert (Hr : In r (freshFxRows base quote now table)) by (rewrite Hf; left; reflexivity).
    apply freshFxRows_In in Hr as (Hin & [Hb Hq] & Hfresh).
    exfalso. exact (leb_ltb_absurd _ _ (Hexpired r Hin Hb Hq) Hfresh).
Qed.

Lemma getFxRate_same_currency (s : State W) :
  base = quote -> getFxRate base quote providers s = (Normal 1%float, s).
Proof. intros ->. unfold getFxRate. rewrite String.eqb_refl. reflexivity. Qed.

Lemma getFxRate_fresh (s : State W) (row : FxRow) :
  base <> quote ->
  selectCachedFx base quote (datetime_now (world s)) (fx_rates (db s)) = Some row ->
  getFxRate base quote providers s = (Normal (fx_rate row), s).
Proof.
  intros Hne Hhit. apply String.eqb_neq in Hne.
  unfold getFxRate. rewrite Hne.
  unfold bind, getCachedFxRate, query.
  unfold selectCachedFx, freshFxRows in Hhit. rewrite Hhit.
  reflexivity.
Qed.

Lemma fxTask_trace :
  forall ps (s : State W) e0 s' e,
    AllThrow (fxTask base quote) ps s e0 s' e ->
    db s' = db s /\ calls s' = calls s ++ map (fxRequest base quote) ps.
Proof.
  intros ps s e0 s' e Hrun.
  exact (AllThrow_invoke_trace (fxRequest base quote)
           (fun p => getExchangeRate p {| erp_base := base; erp_quote := quote |})
           ps s e0 s' e Hrun).
Qed.

(** The [catch] block of [getFxRate] in state [s2], the database being
    that of [s]. *)
Lemma getFxRate_exhausted (s s' : State W) e :
  base <> quote ->
  selectCachedFx base quote (datetime_now (world s)) (fx_rates (db s)) = None ->
  AllThrow (fxTask base quote) (fxChain providers) s None s' e ->
  getFxRate base quote providers s
  = match selectStaleFx base quote (fx_rates (db s)) with
    | Some row => (Normal (fx_rate row), s')
    | None => (Throw (raisedAfter e), s')
    end.
Proof.
  intros Hne Hmiss Hrun. apply String.eqb_neq in Hne.
  destruct (fxTask_trace _ _ _ _ _ Hrun) as [Hdb _].
  pose proof (fetch_from_exhausted _ _ _ _ _ _ Hrun) as Hfetch.
  unfold getFxRate. rewrite Hne.
  unfold bind at 1. unfold getCachedFxRate, query.
  unfold selectCachedFx, freshFxRows in Hmiss. rewrite Hmiss.
  unfold tryCatch, bind at 1. unfold fetchWithProviders.
  unfold fxChain in Hfetch. rewrite Hfetch.
  unfold bind, getStaleFxRate, query. rewrite Hdb.
  fold (selectStaleFx base quote (fx_rates (db s))).
  destruct (selectStaleFx base quote (fx_rates (db s))); reflexivity.
Qed.

(** What [getFxRate] does once a provider has answered: the rate is
    stored and returned, or the write is refused and the [catch] block
    answers. *)
Lemma getFxRate_fetched (s s1 s2 : State W) pre p post e result :
  base <> quote ->
  selectCachedFx base quote (datetime_now (world s)) (fx_rates (db s)) = None ->
  fxChain providers = pre ++ p :: post ->
  AllThrow (fxTask base quote) pre s None s1 e ->
  fxTask base quote p s1 = (Normal result, s2) ->
  let refused := fun error : JsThrown =>
    match selectStaleFx base quote (fx_rates (db s)) with
    | Some row => (Normal (fx_rate row), s2)
    | None => (Throw error, s2)
    end in
  getFxRate base quote providers s
  = match sqlReal (err_rate result) with
    | None => refused (notNullFailed "fx_rates.rate")
    | Some stored =>
        match datetime_now_modified (world s2) ("+" ++ fxTtlSeconds ++ " seconds") with
        | None => refused (notNullFailed "fx_rates.expires_at")
        | Some expires =>
            (Normal (err_rate result),
             {| db := withFxRates
                        (insertOrReplace sameFxKey
                           (fxRowOf base quote p stored (datetime_now (world s2)) expires)
                           (fx_rates (db s)))
                        (db s);
                world := world s2; calls := calls s2 |})
        end
    end
  /\ db s2 = db s
  /\ calls s2 = calls s ++ map (fxRequest base quote) (pre ++ [p]).
Proof.
  intros Hne Hmiss Hchain Hpre Hp refused. apply String.eqb_neq in Hne.
  destruct (fxTask_trace _ _ _ _ _ Hpre) as [Hdb1 Hcalls1].
  pose proof Hp as Hstep. unfold fxTask in Hstep.
  apply invoke_step in Hstep as [Hdb2 Hcalls2].
  pose proof (fetch_from_first_success _ _ _ _ _ _ _ post _ _ Hpre Hp) as Hfetch.
  assert (Hdb : db s2 = db s) by congruence.
  split; [| split; [exact Hdb |]].
  - unfold getFxRate. rewrite Hne.
    unfold bind at 1. unfold getCachedFxRate, query.
    unfold selectCachedFx, freshFxRows in Hmiss. rewrite Hmiss.
    unfold tryCatch, bind at 1. unfold fetchWithProviders.
    unfold fxChain in Hchain. rewrite Hchain, Hfetch.
    unfold bind at 1, cacheFxRate, executeOrThrow.
    unfold refused, selectStaleFx.
    destruct (sqlReal (err_rate result)) as [stored |].
    + destruct (datetime_now_modified (world s2) _) as [expires |].
      * unfold ret, fxRowOf. rewrite Hdb. reflexivity.
      * unfold bind, getStaleFxRate, query. rewrite Hdb.
        destruct (greatest byFxFetchedAt _); reflexivity.
    + unfold bind, getStaleFxRate, query. rewrite Hdb.
      destruct (greatest byFxFetchedAt _); reflexivity.
  - rewrite Hcalls2, Hcalls1, map_app, <- app_assoc. reflexivity.
Qed.
End FxFacts.


(** X1.  [getFxRate] needs no provider when the two currency codes are the same
    string (the rate is 1) or when a rate of the pair has not expired: it
    then returns the stored rate of latest expiry and leaves the state,
    trace of provider calls included, as it was. *)
Theorem getFxRate_answers_without_provider :
  forall (W : Type) (R : Runtime W) (base quote : string)
         (providers : list (MarketDataProvider W)) (s : State W),
    (base = quote -> getFxRate base quote providers s = (Normal 1%float, s))
    /\ (forall row,
           base <> quote ->
           In row (fx_rates (db s)) -> fx_base row = base -> fx_quote row = quote ->
           String.ltb (datetime_now (world s)) (fx_expires_at row) = true ->
           exists hit,
             getFxRate base quote providers s = (Normal (fx_rate hit), s)
             /\ In hit (fx_rates (db s))
             /\ fx_base hit = base /\ fx_quote hit = quote
             /\ String.ltb (datetime_now (world s)) (fx_expires_at hit) = true
             /\ String.leb (fx_expires_at row) (fx_expires_at hit) = true).
Proof.
  intros W R base quote providers s. split.
  - apply getFxRate_same_currency.
  - intros row Hne Hin Hb Hq Hfresh.
    assert (Hrow : In row (freshFxRows base quote (datetime_now (world s))
                                       (fx_rates (db s)))).
    { apply freshFxRows_In. auto. }
    destruct (greatestLast_exists byFxExpiresAt _ _ Hrow) as [hit Hhit].
    destruct (greatestLast_Some byFxExpiresAt byFxExpiresAt_refl byFxExpiresAt_trans
                byFxExpiresAt_total _ _ Hhit) as (Hhin & Hmax & _).
    apply freshFxRows_In in Hhin as (Hhin & [Hkb Hkq] & Hhfresh).
    exists hit. split; [apply getFxRate_fresh; assumption |].
    split; [exact Hhin |]. split; [exact Hkb |]. split; [exact Hkq |].
    split; [exact Hhfresh | exact (Hmax row Hrow)].
Qed.

Lemma getFxRate_answers_without_provider_witness :
  getFxRate "USD" "USD" [Doubles.failing "MOCK"] (withFx []) = (Normal 1%float, withFx [])
  /\ exists hit,
       getFxRate "GBP" "USD" [Doubles.failing "MOCK"]
                 (withFx [poundRate "FRANKFURTER" 1.25%float "2024-06-01 12:00:30"])
       = (Normal (fx_rate hit), withFx [poundRate "FRANKFURTER" 1.25%float "2024-06-01 12:00:30"])
       /\ fx_rate hit = 1.25%float.
Proof.
  destruct (getFxRate_answers_without_provider unit Doubles.fixedRuntime "USD" "USD"
              [Doubles.failing "MOCK"] (withFx [])) as [Hsame _].
  split; [exact (Hsame eq_refl) |].
  destruct (getFxRate_answers_without_provider unit Doubles.fixedRuntime "GBP" "USD"
              [Doubles.failing "MOCK"]
              (withFx [poundRate "FRANKFURTER" 1.25%float "2024-06-01 12:00:30"]))
    as [_ Hfresh].
  destruct (Hfresh (poundRate "FRANKFURTER" 1.25%float "2024-06-01 12:00:30")
              ltac:(discriminate) (or_introl eq_refl) eq_refl eq_refl eq_refl)
    as (hit & Hrun & [<- | []] & _).
  eexists. split; [exact Hrun | reflexivity].
Defined.

(** X2.  The providers [getFxRate] asks are a prefix of its chain, in order and
    once each: the given providers without STOOQ, then the currency-only
    endpoint.  No provider named STOOQ is ever asked for a rate.  The call
    stops before the end of the chain only when a provider has answered:
    it then returns a rate, unless storing the answer is refused (a rate
    that is not a number, or no expiry) and no rate of the pair is stored,
    in which case the database's error is thrown and the database is as it
    was.  Only the [fx_rates] table can change. *)
Theorem getFxRate_asks_chain_in_order :
  forall (W : Type) (R : Runtime W) (base quote : string)
         (providers : list (MarketDataProvider W)) (s s' : State W)
         (r : Completion float),
    getFxRate base quote providers s = (r, s') ->
    exists asked rest,
      fxChain providers = asked ++ rest
      /\ calls s' = calls s ++ map (fxRequest base quote) asked
      /\ Forall (fun p => name p <> "STOOQ") asked
      /\ (rest <> [] ->
          (exists rate, r = Normal rate)
          \/ ((r = Throw (notNullFailed "fx_rates.rate")
               \/ r = Throw (notNullFailed "fx_rates.expires_at"))
              /\ db s' = db s))
      /\ sameOutsideFx (db s) (db s').
Proof.
  intros W R base quote providers s s' r Hrun.
  assert (Hnames : Forall (fun p => name p <> "STOOQ") (fxChain providers)).
  { unfold fxChain. apply Forall_app. split.
    - apply Forall_forall. intros p Hp. apply filter_In in Hp as [_ Hp].
      apply negb_true_iff in Hp. apply String.eqb_neq in Hp. exact Hp.
    - constructor; [discriminate | constructor]. }
  assert (Hquiet : forall rate, (r, s') = (Normal rate, s) ->
            exists asked rest,
              fxChain providers = asked ++ rest
              /\ calls s' = calls s ++ map (fxRequest base quote) asked
              /\ Forall (fun p => name p <> "STOOQ") asked
              /\ (rest <> [] ->
                  (exists rate, r = Normal rate)
                  \/ ((r = Throw (notNullFailed "fx_rates.rate")
                       \/ r = Throw (notNullFailed "fx_rates.expires_at"))
                      /\ db s' = db s))
              /\ sameOutsideFx (db s) (db s')).
  { intros rate E. injection E as -> ->.
    exists [], (fxChain providers). cbn. rewrite app_nil_r.
    split; [reflexivity |]. split; [reflexivity |]. split; [constructor |].
    split; [eauto |]. repeat split. }
  destruct (String.eqb_spec base quote) as [Heq | Hne].
  { rewrite (getFxRate_same_currency base quote providers s Heq) in Hrun.
    eapply Hquiet. symmetry. exact Hrun. }
  destruct (selectCachedFx base quote (datetime_now (world s)) (fx_rates (db s)))
    as [row |] eqn:Hcache.
  { rewrite (getFxRate_fresh base quote providers s row Hne Hcache) in Hrun.
    eapply Hquiet. symmetry. exact Hrun. }
  destruct (fetch_from_cases (fxTask base quote) (fxChain providers) s None)
    as [(s1 & e & Hall) | (pre & p & post & s1 & e & result & s2 & Hchain & Hpre & Hp)].
  - rewrite (getFxRate_exhausted base quote providers s s1 e Hne Hcache Hall) in Hrun.
    destruct (fxTask_trace _ _ _ _ _ _ _ Hall) as [Hdb Hcalls].
    assert (Hs : s' = s1).
    { destruct (selectStaleFx _ _ _); injection Hrun as _ <-; reflexivity. }
    subst s'. exists (fxChain providers), []. rewrite app_nil_r.
    split; [reflexivity |]. split; [exact Hcalls |]. split; [exact Hnames |].
    split; [intros Hrest; now contradiction Hrest |].
    rewrite Hdb. repeat split.
  - destruct (getFxRate_fetched base quote providers s s1 s2 pre p post e result
                Hne Hcache Hchain Hpre Hp) as (Hfetched & Hdb & Hcalls).
    cbv zeta in Hfetched. rewrite Hfetched in Hrun. clear Hfetched.
    assert (Hnamed : Forall (fun q => name q <> "STOOQ") (pre ++ [p])).
    { rewrite Hchain in Hnames. apply Forall_app in Hnames as [Hpre' Hrest].
      apply Forall_app. split; [exact Hpre' |].
      constructor; [exact (Forall_inv Hrest) | constructor]. }
    exists (pre ++ [p]), post. rewrite <- app_assoc. cbn [app].
    split; [exact Hchain |].
    destruct (sqlReal (err_rate result)) as [stored |].
    + destruct (datetime_now_modified (world s2) _) as [expires |].
      * injection Hrun as <- <-. split; [exact Hcalls |]. split; [exact Hnamed |].
        split; [eauto |]. repeat split.
      * destruct (selectStaleFx base quote (fx_rates (db s))) as [stale |];
          injection Hrun as <- <-; (split; [exact Hcalls |]); (split; [exact Hnamed |]);
          rewrite Hdb; (split; [| repeat split]); intros _; [left; eauto | right; auto].
    + destruct (selectStaleFx base quote (fx_rates (db s))) as [stale |];
        injection Hrun as <- <-; (split; [exact Hcalls |]); (split; [exact Hnamed |]);
        rewrite Hdb; (split; [| repeat split]); intros _; [left; eauto | right; auto].
Qed.

Lemma getFxRate_asks_chain_in_order_witness :
  exists asked rest,
    fxChain [Doubles.failing "STOOQ"; Doubles.failing "A"; fxFeed "B" 1.25%float;
             Doubles.failing "C"] = asked ++ rest
    /\ map (fun p => name p) asked = ["A"; "B"]
    /\ map (fun p => name p) rest = ["C"; "FRANKFURTER"].
Proof.
  destruct (getFxRate_asks_chain_in_order unit Doubles.fixedRuntime "GBP" "USD"
              [Doubles.failing "STOOQ"; Doubles.failing "A"; fxFeed "B" 1.25%float;
               Doubles.failing "C"] (withFx []) _ _ eq_refl)
    as (asked & rest & Hchain & Hcalls & _).
  exists asked, rest. split; [exact Hchain |].
  cbn in Hchain, Hcalls.
  destruct asked as [| a1 [| a2 [| a3 asked]]]; try discriminate Hcalls.
  injection Hchain as <- <- <-. split; reflexivity.
Defined.


(** X3.  When no rate of the pair is fresh and every provider of the chain has
    thrown, [getFxRate] falls back on the stored rate of the pair that was
    fetched last, whatever its expiry; only when the table holds no rate of
    the pair at all does the error of the chain reach the caller. *)
Theorem getFxRate_stale_fallback :
  forall (W : Type) (R : Runtime W) (base quote : string)
         (providers : list (MarketDataProvider W)) (s s' : State W)
         (e : option JsThrown),
    base <> quote ->
    (forall row, In row (fx_rates (db s)) -> fx_base row = base -> fx_quote row = quote ->
                 String.leb (fx_expires_at row) (datetime_now (world s)) = true) ->
    AllThrow (fxTask base quote) (fxChain providers) s None s' e ->
    (forall row,
        In row (fx_rates (db s)) -> fx_base row = base -> fx_quote row = quote ->
        exists stale,
          getFxRate base quote providers s = (Normal (fx_rate stale), s')
          /\ In stale (fx_rates (db s))
          /\ fx_base stale = base /\ fx_quote stale = quote
          /\ (forall other, In other (fx_rates (db s)) ->
                            fx_base other = base -> fx_quote other = quote ->
                            String.leb (fx_fetched_at other) (fx_fetched_at stale) = true))
    /\ ((forall row, In row (fx_rates (db s)) ->
                     ~ (fx_base row = base /\ fx_quote row = quote)) ->
        getFxRate base quote providers s = (Throw (raisedAfter e), s')
        /\ exists last, e = Some last)
    /\ db s' = db s.
Proof.
  intros W R base quote providers s s' e Hne Hexpired Hall.
  assert (Hmiss : selectCachedFx base quote (datetime_now (world s)) (fx_rates (db s))
                  = None) by (apply selectCachedFx_None; exact Hexpired).
  pose proof (getFxRate_exhausted base quote providers s s' e Hne Hmiss Hall) as Hrun.
  unfold selectStaleFx in Hrun.
  split; [| split].
  - intros row Hin Hb Hq.
    assert (Hrow : In row (filter (fxKeyIs base quote) (fx_rates (db s)))).
    { apply filter_In. split; [exact Hin | apply fxKeyIs_iff; auto]. }
    destruct (greatest_orderBy_exists byFxFetchedAt byFxExpiresAt _ _ Hrow)
      as [stale Hstale].
    rewrite Hstale in Hrun.
    destruct (greatest_orderBy_Some byFxFetchedAt byFxExpiresAt
                byFxFetchedAt_refl byFxFetchedAt_trans byFxFetchedAt_total
                byFxExpiresAt_refl byFxExpiresAt_trans byFxExpiresAt_total _ _ Hstale)
      as (Hsin & Hmax & _).
    apply filter_In in Hsin as [Hsin Hkey]. apply fxKeyIs_iff in Hkey as [Hsb Hsq].
    exists stale. split; [exact Hrun |]. split; [exact Hsin |].
    split; [exact Hsb |]. split; [exact Hsq |].
    intros other Hoin Hob Hoq. apply Hmax. apply filter_In.
    split; [exact Hoin | apply fxKeyIs_iff; auto].
  - intros Hnone.
    assert (Hempty : filter (fxKeyIs base quote) (fx_rates (db s)) = []).
    { destruct (filter _ (fx_rates (db s))) as [| r l] eqn:Hf; [reflexivity |].
      assert (Hr : In r (r :: l)) by now left.
      rewrite <- Hf in Hr. apply filter_In in Hr as [Hin Hkey].
      apply fxKeyIs_iff in Hkey. exfalso. exact (Hnone r Hin Hkey). }
    rewrite Hempty in Hrun. split; [exact Hrun |].
    apply (AllThrow_records _ _ _ _ _ _ Hall). left.
    unfold fxChain. destruct (filter _ providers); discriminate.
  - exact (proj1 (fxTask_trace _ _ _ _ _ _ _ Hall)).
Qed.

Lemma getFxRate_stale_fallback_witness :
  getFxRate "GBP" "USD" [Doubles.failing "MOCK"]
            (withFx [poundRate "MOCK" 1.25%float "2024-06-01 11:30:00"])
  = (Normal 1.25%float,
     {| db := withFxRates [poundRate "MOCK" 1.25%float "2024-06-01 11:30:00"] emptyDb;
        world := tt;
        calls := [fxRequest "GBP" "USD" (Doubles.failing "MOCK");
                  CallGetExchangeRate "FRANKFURTER"
                    {| erp_base := "GBP"; erp_quote := "USD" |}] |}).
Proof.
  assert (Hall : AllThrow (fxTask "GBP" "USD") (fxChain [Doubles.failing "MOCK"])
                   (withFx [poundRate "MOCK" 1.25%float "2024-06-01 11:30:00"]) None
                   {| db := withFxRates [poundRate "MOCK" 1.25%float "2024-06-01 11:30:00"]
                                        emptyDb;
                      world := tt;
                      calls := [fxRequest "GBP" "USD" (Doubles.failing "MOCK");
                                CallGetExchangeRate "FRANKFURTER"
                                  {| erp_base := "GBP"; erp_quote := "USD" |}] |}
                   (Some (newProviderError "FX rate fetch failed"))).
  { eapply AllThrow_cons; [reflexivity |].
    eapply AllThrow_cons; [reflexivity | constructor]. }
  destruct (getFxRate_stale_fallback unit Doubles.fixedRuntime "GBP" "USD"
              [Doubles.failing "MOCK"]
              (withFx [poundRate "MOCK" 1.25%float "2024-06-01 11:30:00"]) _ _
              ltac:(discriminate)
              ltac:(intros row [<- | []] _ _; reflexivity) Hall) as [Hstale _].
  destruct (Hstale (poundRate "MOCK" 1.25%float "2024-06-01 11:30:00")
              (or_introl eq_refl) eq_refl eq_refl) as (stale & Hrun & [<- | []] & _).
  exact Hrun.
Defined.


(** ** A fetched value is served from the cache afterwards *)

Lemma filter_none {A : Type} (f : A -> bool) (l : list A) :
  (forall r, In r l -> f r = false) -> filter f l = [].
Proof.
  induction l as [| x l IH]; intros Hf; [reflexivity |].
  cbn. rewrite (Hf x (or_introl eq_refl)). apply IH.
  intros r Hr. apply Hf. now right.
Qed.

Lemma filter_insertOrReplace_only {A : Type} (sameKey : A -> A -> bool) (f : A -> bool)
      (row : A) (table : list A) :
  f row = true -> (forall r, In r table -> f r = false) ->
  filter f (insertOrReplace sameKey row table) = [row].
Proof.
  intros Hrow Hold. unfold insertOrReplace. rewrite filter_app.
  rewrite (filter_none f (filter _ table)).
  - cbn. rewrite Hrow. reflexivity.
  - intros r Hr. apply filter_In in Hr as [Hr _]. exact (Hold r Hr).
Qed.

Lemma sqlReal_Some (x y : float) :
  sqlReal x = Some y ->
  PrimFloat.is_nan x = false
  /\ ((PrimFloat.is_zero x = true /\ y = 0%float)
      \/ (PrimFloat.is_zero x = false /\ y = x)).
Proof.
  unfold sqlReal. destruct (PrimFloat.is_nan x); [discriminate |].
  destruct (PrimFloat.is_zero x); intros [= <-]; auto.
Qed.

(** X4.  After a lookup that missed and a fetch that succeeded, [getFxRate]
    stores the fetched rate under the answering provider's name whenever
    the rate is a number and the expiry is defined, and returns it; as
    long as the clock has not gone back and has not reached the stored
    expiry, a later call for the pair returns the stored rate (the fetched
    one, [-0] being kept as [0]) from the table, whatever providers it is
    given and without calling any.  When the write is refused nothing is
    stored, and the call answers the rate of the pair that was fetched
    last, or throws the database's error when there is none. *)
Theorem getFxRate_fetched_rate_is_cached :
  forall (W : Type) (R : Runtime W) (base quote : string)
         (providers : list (MarketDataProvider W)) (s s1 s2 : State W)
         (pre post : list (MarketDataProvider W)) (p : MarketDataProvider W)
         (e : option JsThrown) (result : ExchangeRateResult),
    base <> quote ->
    fxExpired base quote (datetime_now (world s)) (fx_rates (db s)) ->
    fxChain providers = pre ++ p :: post ->
    AllThrow (fxTask base quote) pre s None s1 e ->
    fxTask base quote p s1 = (Normal result, s2) ->
    let expiry := datetime_now_modified (world s2) ("+" ++ fxTtlSeconds ++ " seconds") in
    (forall stored expires,
        sqlReal (err_rate result) = Some stored ->
        expiry = Some expires ->
        exists s3,
          getFxRate base quote providers s = (Normal (err_rate result), s3)
          /\ In {| fx_base := base; fx_quote := quote; fx_rate := stored;
                   fx_source := name p; fx_fetched_at := datetime_now (world s2);
                   fx_expires_at := expires |}
                (fx_rates (db s3))
          /\ forall (later : State W) (others : list (MarketDataProvider W)),
               db later = db s3 ->
               String.leb (datetime_now (world s)) (datetime_now (world later)) = true ->
               String.ltb (datetime_now (world later)) expires = true ->
               getFxRate base quote others later = (Normal stored, later))
    /\ (sqlReal (err_rate result) = None \/ expiry = None ->
        exists s3,
          db s3 = db s
          /\ (forall stale,
                 selectStaleFx base quote (fx_rates (db s)) = Some stale ->
                 getFxRate base quote providers s = (Normal (fx_rate stale), s3))
          /\ (selectStaleFx base quote (fx_rates (db s)) = None ->
              getFxRate base quote providers s
              = (Throw (notNullFailed "fx_rates.rate"), s3)
              \/ getFxRate base quote providers s
                 = (Throw (notNullFailed "fx_rates.expires_at"), s3)))
    /\ (sqlReal (err_rate result) = None <-> PrimFloat.is_nan (err_rate result) = true)
    /\ (forall stored,
           sqlReal (err_rate result) = Some stored ->
           (PrimFloat.is_zero (err_rate result) = true /\ stored = 0%float)
           \/ (PrimFloat.is_zero (err_rate result) = false /\ stored = err_rate result)).
Proof.
  intros W R base quote providers s s1 s2 pre post p e result
         Hne Hexpired Hchain Hpre Hp expiry.
  assert (Hmiss : selectCachedFx base quote (datetime_now (world s)) (fx_rates (db s))
                  = None) by (apply selectCachedFx_None; exact Hexpired).
  destruct (getFxRate_fetched base quote providers s s1 s2 pre p post e result
              Hne Hmiss Hchain Hpre Hp) as (Hrun & Hdb & _).
  cbv zeta in Hrun. fold expiry in Hrun.
  split; [| split; [| split]].
  - intros stored expires Hstored Hexpires. rewrite Hstored, Hexpires in Hrun.
    eexists. split; [exact Hrun |]. cbn [db fx_rates withFxRates].
    set (row := fxRowOf base quote p stored (datetime_now (world s2)) expires).
    split; [apply insertOrReplace_In; right; reflexivity |].
    intros later others Hlater Hclock Hfresh.
    apply (getFxRate_fresh base quote others later row Hne).
    rewrite Hlater. cbn [db fx_rates withFxRates]. unfold selectCachedFx, freshFxRows.
    rewrite filter_insertOrReplace_only; [reflexivity | |].
    + unfold fxKeyIs. cbn. rewrite !String.eqb_refl. exact Hfresh.
    + intros r Hr. destruct (fxKeyIs base quote r) eqn:Hkey; [| reflexivity].
      apply fxKeyIs_iff in Hkey as [Hb Hq]. cbn [andb].
      apply ltb_false_leb. exact (leb_trans _ _ _ (Hexpired r Hr Hb Hq) Hclock).
  - intros Hrefused. exists s2. split; [exact Hdb |].
    assert (Hcatch : getFxRate base quote providers s
                     = match selectStaleFx base quote (fx_rates (db s)) with
                       | Some row => (Normal (fx_rate row), s2)
                       | None =>
                           (Throw (match sqlReal (err_rate result) with
                                   | None => notNullFailed "fx_rates.rate"
                                   | Some _ => notNullFailed "fx_rates.expires_at"
                                   end), s2)
                       end).
    { rewrite Hrun.
      destruct (sqlReal (err_rate result)) as [stored |].
      - destruct Hrefused as [Hnone | Hnone]; [discriminate Hnone |].
        rewrite Hnone. reflexivity.
      - reflexivity. }
    split.
    + intros stale Hstale. rewrite Hcatch, Hstale. reflexivity.
    + intros Hnone. rewrite Hcatch, Hnone.
      destruct (sqlReal (err_rate result)); [right | left]; reflexivity.
  - apply sqlReal_None.
  - intros stored Hstored. exact (proj2 (sqlReal_Some _ _ Hstored)).
Qed.

Lemma getFxRate_fetched_rate_is_cached_witness :
  exists s3,
    getFxRate "GBP" "USD" [Doubles.failing "A"; fxFeed "B" 1.25%float] (withFx [])
    = (Normal 1.25%float, s3)
    /\ fx_rates (db s3)
       = [ {| fx_base := "GBP"; fx_quote := "USD"; fx_rate := 1.25%float;
              fx_source := "B"; fx_fetched_at := "2024-06-01 12:00:00";
              fx_expires_at := "2024-06-01 12:01:00" |} ]
    /\ getFxRate "GBP" "USD" [] s3 = (Normal 1.25%float, s3).
Proof.
  destruct (getFxRate_fetched_rate_is_cached unit Doubles.fixedRuntime "GBP" "USD"
              [Doubles.failing "A"; fxFeed "B" 1.25%float] (withFx [])
              {| db := withFxRates [] emptyDb; world := tt;
                 calls := [fxRequest "GBP" "USD" (Doubles.failing "A")] |}
              {| db := withFxRates [] emptyDb; world := tt;
                 calls := [fxRequest "GBP" "USD" (Doubles.failing "A");
                           fxRequest "GBP" "USD" (fxFeed "B" 1.25%float)] |}
              [Doubles.failing "A"] [FrankfurterProvider] (fxFeed "B" 1.25%float)
              (Some (newProviderError "down")) {| err_rate := 1.25%float |}
              ltac:(discriminate) ltac:(intros row [])  eq_refl
              ltac:(eapply AllThrow_cons; [reflexivity | constructor]) eq_refl)
    as (Hstored & _).
  destruct (Hstored 1.25%float "2024-06-01 12:01:00" eq_refl eq_refl)
    as (s3 & Hrun & _ & Hlater).
  exists s3. split; [exact Hrun |].
  injection Hrun as <-. split; [reflexivity |].
  apply Hlater; reflexivity.
Defined.
(* ===================================================================== *)
(** * Quotes: fetching, caching and the chain that is asked *)
(* ===================================================================== *)

Section QuoteFetchFacts.
Context {W : Type} {R : Runtime W}.
Variables (ticker market : string) (providers : list (MarketDataProvider W)).

Lemma quoteTask_trace :
  forall ps (s : State W) e0 s' e,
    AllThrow (quoteTask ticker (resolveExchange market)) ps s e0 s' e ->
    db s' = db s /\ calls s' = calls s ++ map (quoteRequest ticker market) ps.
Proof.
  intros ps s e0 s' e Hrun.
  exact (AllThrow_invoke_trace (quoteRequest ticker market)
           (fun p => getQuote p {| ssp_ticker := ticker;
                                   ssp_market := resolveExchange market |})
           ps s e0 s' e Hrun).
Qed.

Lemma quoteKeyIs_iff (r : QuoteRow) :
  quoteKeyIs ticker market r = true <-> qc_ticker r = ticker /\ qc_market r = market.
Proof. unfold quoteKeyIs. rewrite andb_true_iff, !String.eqb_eq. tauto. Qed.

Lemma selectCachedQuote_None (now : string) (table : list QuoteRow) :
  selectCachedQuote ticker market now table = None
  <-> quotesExpired ticker market now table.
Proof.
  unfold selectCachedQuote, quotesExpired. rewrite greatestLast_None. split.
  - intros Hnil row Hin Ht Hm.
    destruct (String.ltb now (qc_expires_at row)) eqn:Hfresh.
    + assert (Hr : In row (filter (fun r => quoteKeyIs ticker market r
                                            && String.ltb now (qc_expires_at r)) table)).
      { apply filter_In. split; [exact Hin |].
        rewrite Hfresh, andb_true_r. apply quoteKeyIs_iff. auto. }
      rewrite Hnil in Hr. destruct Hr.
    + apply ltb_false_leb. exact Hfresh.
  - intros Hexpired.
    destruct (filter _ table) as [| r l] eqn:Hf; [reflexivity |].
    assert (Hr : In r (r :: l)) by (left; reflexivity).
    rewrite <- Hf in Hr. apply filter_In in Hr as [Hin Hr].
    apply andb_true_iff in Hr as [Hkey Hfresh]. apply quoteKeyIs_iff in Hkey as [Ht Hm].
    exfalso. exact (leb_ltb_absurd _ _ (Hexpired r Hin Ht Hm) Hfresh).
Qed.

Lemma getLatestQuote_cached (s : State W) (row : QuoteRow) :
  selectCachedQuote ticker market (datetime_now (world s)) (quote_cache (db s)) = Some row ->
  getLatestQuote ticker market providers false s = (Normal (quoteOfRow row), s).
Proof.
  intros Hhit. unfold getLatestQuote, bind, getCachedQuote, query.
  rewrite Hhit. reflexivity.
Qed.

(** What [getLatestQuote] does once a provider has answered: the quote is
    stored and returned, or the write is refused and the [catch] block
    answers. *)
Lemma getLatestQuote_fetched (forceRefresh : bool) (s s1 s2 : State W)
      pre p post e result :
  (forceRefresh = true \/
   selectCachedQuote ticker market (datetime_now (world s)) (quote_cache (db s)) = None) ->
  filterProvidersForMarket providers market = pre ++ p :: post ->
  AllThrow (quoteTask ticker (resolveExchange market)) pre s None s1 e ->
  quoteTask ticker (resolveExchange market) p s1 = (Normal result, s2) ->
  let refused := fun error : JsThrown =>
    match selectStaleQuote ticker market (quote_cache (db s)) with
    | Some row =>
        (Normal {| lq_price := qc_price row; lq_currency := qc_currency row;
                   lq_as_of := qc_as_of row; lq_source := qc_source row;
                   lq_fetched_at := None; lq_expires_at := None;
                   lq_cached := true |}, s2)
    | None =>
        match selectLatestHistory ticker market (price_history (db s)) with
        | Some h =>
            (Normal {| lq_price := ph_price h; lq_currency := ph_currency h;
                       lq_as_of := ph_date h;
                       lq_source := orElse (ph_source h) "HISTORY";
                       lq_fetched_at := None; lq_expires_at := None;
                       lq_cached := true |}, s2)
        | None => (Throw error, s2)
        end
    end in
  getLatestQuote ticker market providers forceRefresh s
  = match sqlReal (qr_price result) with
    | None => refused (notNullFailed "quote_cache.price")
    | Some stored =>
        match datetime_now_modified (world s2) ("+" ++ quoteTtlSeconds ++ " seconds") with
        | None => refused (notNullFailed "quote_cache.expires_at")
        | Some expires =>
            (Normal {| lq_price := qr_price result; lq_currency := qr_currency result;
                       lq_as_of := qr_asOf result; lq_source := name p;
                       lq_fetched_at := None; lq_expires_at := None;
                       lq_cached := false |},
             {| db := withQuoteCache
                        (insertOrReplace sameQuoteKey
                           (quoteRowOf ticker market p result stored
                                       (datetime_now (world s2)) expires)
                           (quote_cache (db s)))
                        (db s);
                world := world s2; calls := calls s2 |})
        end
    end
  /\ db s2 = db s
  /\ calls s2 = calls s ++ map (quoteRequest ticker market) (pre ++ [p]).
Proof.
  intros Hmiss Hchain Hpre Hp refused.
  destruct (quoteTask_trace _ _ _ _ _ Hpre) as [Hdb1 Hcalls1].
  pose proof Hp as Hstep. unfold quoteTask in Hstep.
  apply invoke_step in Hstep as [Hdb2 Hcalls2].
  pose proof (fetch_from_first_success _ _ _ _ _ _ _ post _ _ Hpre Hp) as Hfetch.
  assert (Hdb : db s2 = db s) by congruence.
  assert (Hfirst : (if forceRefresh then ret None else getCachedQuote ticker market) s
                   = (Normal None, s)).
  { destruct Hmiss as [-> | Hnone]; [reflexivity |].
    destruct forceRefresh; [reflexivity |].
    unfold getCachedQuote, query. rewrite Hnone. reflexivity. }
  assert (Hcatch : forall error,
             bind (getStaleQuote ticker market)
                  (fun stale =>
                     match stale with
                     | Some row =>
                         ret {| lq_price := qc_price row; lq_currency := qc_currency row;
                                lq_as_of := qc_as_of row; lq_source := qc_source row;
                                lq_fetched_at := None; lq_expires_at := None;
                                lq_cached := true |}
                     | None =>
                         bind (getLatestHistoryPrice ticker market)
                              (fun history =>
                                 match history with
                                 | Some h =>
                                     ret {| lq_price := lhp_price h;
                                            lq_currency := lhp_currency h;
                                            lq_as_of := lhp_as_of h;
                                            lq_source := orElse (lhp_source h) "HISTORY";
                                            lq_fetched_at := None; lq_expires_at := None;
                                            lq_cached := true |}
                                 | None => throw error
                                 end)
                     end) s2
             = refused error).
  { intros error. unfold refused, bind, getStaleQuote, getLatestHistoryPrice,
      getLatestHistoryPrice_db, query. rewrite Hdb.
    destruct (selectStaleQuote ticker market (quote_cache (db s))); [reflexivity |].
    cbn. rewrite Hdb.
    destruct (selectLatestHistory ticker market (price_history (db s))); reflexivity. }
  split; [| split; [exact Hdb |]].
  - unfold getLatestQuote, bind at 1. rewrite Hfirst.
    unfold tryCatch, bind at 1. unfold fetchWithProviders.
    rewrite Hchain, Hfetch.
    unfold bind at 1, cacheQuote, executeOrThrow.
    destruct (sqlReal (qr_price result)) as [stored |].
    + destruct (datetime_now_modified (world s2) _) as [expires |].
      * unfold ret, quoteRowOf. rewrite Hdb. reflexivity.
      * apply Hcatch.
    + apply Hcatch.
  - rewrite Hcalls2, Hcalls1, map_app, <- app_assoc. reflexivity.
Qed.
End QuoteFetchFacts.

(** X5.  The first request for a quote that is not cached returns the answer of
    the first provider that succeeds, marked [cached = false]; when the
    price is a number and the expiry is defined the quote is stored, and as
    long as the clock has not gone back and has not reached the stored
    expiry the next request returns the stored price (the fetched one,
    [-0] being kept as [0]) with the same as-of and source, marked
    [cached = true], read from the table without calling any provider.
    When the write is refused nothing is stored and the call answers like
    an exhausted chain: the stale quote, else the latest history row, else
    the database's error.  (The chain is the one the language defines when
    at most one provider is named STOOQ.) *)
Theorem getLatestQuote_fetched_quote_is_cached :
  forall (W : Type) (R : Runtime W) (ticker market : string)
         (providers : list (MarketDataProvider W)) (s s1 s2 : State W)
         (pre post : list (MarketDataProvider W)) (p : MarketDataProvider W)
         (e : option JsThrown) (result : QuoteResult),
    stooqOnce providers ->
    quotesExpired ticker market (datetime_now (world s)) (quote_cache (db s)) ->
    filterProvidersForMarket providers market = pre ++ p :: post ->
    AllThrow (quoteTask ticker (resolveExchange market)) pre s None s1 e ->
    quoteTask ticker (resolveExchange market) p s1 = (Normal result, s2) ->
    let expiry :=
      datetime_now_modified (world s2) ("+" ++ quoteTtlSeconds ++ " seconds") in
    (forall stored expires,
        sqlReal (qr_price result) = Some stored ->
        expiry = Some expires ->
        exists s3,
          getLatestQuote ticker market providers false s
          = (Normal {| lq_price := qr_price result; lq_currency := qr_currency result;
                       lq_as_of := qr_asOf result; lq_source := name p;
                       lq_fetched_at := None; lq_expires_at := None;
                       lq_cached := false |}, s3)
          /\ In {| qc_ticker := ticker; qc_market := market; qc_price := stored;
                   qc_currency := qr_currency result; qc_as_of := qr_asOf result;
                   qc_source := name p; qc_fetched_at := datetime_now (world s2);
                   qc_expires_at := expires |}
                (quote_cache (db s3))
          /\ forall (later : State W) (others : list (MarketDataProvider W)),
               db later = db s3 ->
               String.leb (datetime_now (world s)) (datetime_now (world later)) = true ->
               String.ltb (datetime_now (world later)) expires = true ->
               getLatestQuote ticker market others false later
               = (Normal {| lq_price := stored; lq_currency := qr_currency result;
                            lq_as_of := qr_asOf result; lq_source := name p;
                            lq_fetched_at := Some (datetime_now (world s2));
                            lq_expires_at := Some expires;
                            lq_cached := true |}, later))
    /\ (sqlReal (qr_price result) = None \/ expiry = None ->
        exists s3 refusal,
          db s3 = db s
          /\ (refusal = notNullFailed "quote_cache.price"
              \/ refusal = notNullFailed "quote_cache.expires_at")
          /\ getLatestQuote ticker market providers false s
             = match selectStaleQuote ticker market (quote_cache (db s)) with
               | Some row =>
                   (Normal {| lq_price := qc_price row; lq_currency := qc_currency row;
                              lq_as_of := qc_as_of row; lq_source := qc_source row;
                              lq_fetched_at := None; lq_expires_at := None;
                              lq_cached := true |}, s3)
               | None =>
                   match selectLatestHistory ticker market (price_history (db s)) with
                   | Some h =>
                       (Normal {| lq_price := ph_price h; lq_currency := ph_currency h;
                                  lq_as_of := ph_date h;
                                  lq_source :=
                                    if (ph_source h =? "")%string then "HISTORY" else ph_source h;
                                  lq_fetched_at := None; lq_expires_at := None;
                                  lq_cached := true |}, s3)
                   | None => (Throw refusal, s3)
                   end
               end)
    /\ (sqlReal (qr_price result) = None <-> PrimFloat.is_nan (qr_price result) = true)
    /\ (forall stored,
           sqlReal (qr_price result) = Some stored ->
           (PrimFloat.is_zero (qr_price result) = true /\ stored = 0%float)
           \/ (PrimFloat.is_zero (qr_price result) = false /\ stored = qr_price result)).
Proof.
  intros W R ticker market providers s s1 s2 pre post p e result
         _ Hexpired Hchain Hpre Hp expiry.
  assert (Hmiss : selectCachedQuote ticker market (datetime_now (world s))
                                    (quote_cache (db s)) = None)
    by (apply selectCachedQuote_None; exact Hexpired).
  destruct (getLatestQuote_fetched ticker market providers false s s1 s2 pre p post e
              result (or_intror Hmiss) Hchain Hpre Hp) as (Hrun & Hdb & _).
  cbv zeta in Hrun. fold expiry in Hrun.
  split; [| split; [| split]].
  - intros stored expires Hstored Hexpires. rewrite Hstored, Hexpires in Hrun.
    eexists. split; [exact Hrun |]. cbn [db quote_cache withQuoteCache].
    set (row := quoteRowOf ticker market p result stored (datetime_now (world s2)) expires).
    split; [apply insertOrReplace_In; right; reflexivity |].
    intros later others Hlater Hclock Hfresh.
    change (getLatestQuote ticker market others false later
            = (Normal (quoteOfRow row), later)).
    apply getLatestQuote_cached.
    rewrite Hlater. cbn [db quote_cache withQuoteCache]. unfold selectCachedQuote.
    rewrite filter_insertOrReplace_only; [reflexivity | |].
    + unfold quoteKeyIs. cbn. rewrite !String.eqb_refl. exact Hfresh.
    + intros r Hr. destruct (quoteKeyIs ticker market r) eqn:Hkey; [| reflexivity].
      apply quoteKeyIs_iff in Hkey as [Ht Hm]. cbn [andb].
      apply ltb_false_leb. exact (leb_trans _ _ _ (Hexpired r Hr Ht Hm) Hclock).
  - intros Hrefused. exists s2.
    exists (match sqlReal (qr_price result) with
            | None => notNullFailed "quote_cache.price"
            | Some _ => notNullFailed "quote_cache.expires_at"
            end).
    split; [exact Hdb |]. split.
    + destruct (sqlReal (qr_price result)); [right | left]; reflexivity.
    + rewrite Hrun. unfold orElse.
      destruct (sqlReal (qr_price result)) as [stored |].
      * destruct Hrefused as [Hnone | Hnone]; [discriminate Hnone |].
        rewrite Hnone. reflexivity.
      * reflexivity.
  - apply sqlReal_None.
  - intros stored Hstored. exact (proj2 (sqlReal_Some _ _ Hstored)).
Qed.

Lemma getLatestQuote_fetched_quote_is_cached_witness :
  getLatestQuote "MSFT" "NASDAQ" [mockFeed] false (Doubles.initial emptyDb)
  = (Normal {| lq_price := 100%float; lq_currency := Some "USD";
               lq_as_of := "2024-01-02"; lq_source := "MOCK";
               lq_fetched_at := None; lq_expires_at := None; lq_cached := false |},
     afterFirstQuote)
  /\ getLatestQuote "MSFT" "NASDAQ" [mockFeed] false afterFirstQuote
     = (Normal {| lq_price := 100%float; lq_currency := Some "USD";
                  lq_as_of := "2024-01-02"; lq_source := "MOCK";
                  lq_fetched_at := Some "2024-06-01 12:00:00";
                  lq_expires_at := Some "2024-06-01 12:01:00"; lq_cached := true |},
        afterFirstQuote).
Proof.
  destruct (getLatestQuote_fetched_quote_is_cached unit Doubles.fixedRuntime
              "MSFT" "NASDAQ" [mockFeed] (Doubles.initial emptyDb)
              (Doubles.initial emptyDb)
              {| db := emptyDb; world := tt;
                 calls := [CallGetQuote "MOCK"
                             {| ssp_ticker := "MSFT"; ssp_market := "NASDAQ" |}] |}
              [] [] mockFeed None
              {| qr_price := 100%float; qr_currency := Some "USD"; qr_asOf := "2024-01-02" |}
              ltac:(cbv; lia) ltac:(intros row []) eq_refl ltac:(constructor) eq_refl)
    as (Hstored & _).
  destruct (Hstored 100%float "2024-06-01 12:01:00" eq_refl eq_refl)
    as (s3 & Hrun & _ & Hlater).
  assert (Hs3 : s3 = afterFirstQuote).
  { cbv in Hrun. injection Hrun as <-. reflexivity. }
  subst s3. split; [exact Hrun |].
  apply (Hlater afterFirstQuote [mockFeed]); reflexivity.
Defined.


(** A quote whose price is not a number is refused by the table: with
    nothing to fall back on the call throws the database's error and
    stores nothing; with a history row it answers from the history. *)
Example getLatestQuote_price_not_a_number :
  getLatestQuote "MSFT" "NASDAQ" [Doubles.scripted "MOCK" PrimFloat.nan []] false
                 (Doubles.initial emptyDb)
  = (Throw (notNullFailed "quote_cache.price"), afterQuoteCall emptyDb)
  /\ fst (getLatestQuote "TSLA" "NASDAQ" [Doubles.scripted "MOCK" PrimFloat.nan []] false
                         januaryStore)
     = Normal {| lq_price := 10%float; lq_currency := Some "USD";
                 lq_as_of := "2024-01-10"; lq_source := "A";
                 lq_fetched_at := None; lq_expires_at := None; lq_cached := true |}.
Proof. split; reflexivity. Qed.


Section ChainFacts.
Context {W : Type}.

Lemma filterProvidersForMarket_incl (providers : list (MarketDataProvider W)) market :
  incl (filterProvidersForMarket providers market) providers.
Proof.
  intros p Hp. unfold filterProvidersForMarket, stooqFirst in Hp.
  destruct (setHas preferStooq (toUpperCase market)).
  - apply in_app_or in Hp as [Hp | Hp];
      apply filter_In in Hp as [Hp _]; apply filter_In in Hp as [Hp _]; exact Hp.
  - apply filter_In in Hp as [Hp _]; exact Hp.
Qed.

Lemma filterProvidersForMarket_no_stooq (providers : list (MarketDataProvider W)) market :
  stooqServes market = false ->
  Forall (fun p => name p <> "STOOQ") (filterProvidersForMarket providers market).
Proof.
  intros Hno. apply Forall_forall. intros p Hp Hname.
  assert (Hkept : In p (filter (fun provider : MarketDataProvider W =>
                                  if (name provider =? STOOQ)%string
                                  then setHas stooqMarkets (toUpperCase market)
                                  else true) providers)).
  { unfold filterProvidersForMarket, stooqFirst in Hp.
    destruct (setHas preferStooq (toUpperCase market)).
    - apply in_app_or in Hp as [Hp | Hp]; apply filter_In in Hp as [Hp _]; exact Hp.
    - exact Hp. }
  apply filter_In in Hkept as [_ Hkept].
  unfold STOOQ in Hkept. rewrite Hname, String.eqb_refl in Hkept.
  unfold stooqServes in Hno. congruence.
Qed.
End ChainFacts.

(** X6.  The providers [getLatestQuote] asks are a prefix of the market's chain,
    in order and once each, each of them one of the given providers; a
    fresh cached quote means none is asked.  On a market outside STOOQ's
    list no provider named STOOQ is asked.  The call stops before the end
    of the chain only when a provider has answered: it then returns a
    quote, unless storing the answer is refused (a price that is not a
    number, or no expiry) and neither a cached quote nor a history row
    exists, in which case the database's error is thrown and the database
    is as it was.  The only table the call can change is [quote_cache]. *)
Theorem getLatestQuote_asks_chain_in_order :
  forall (W : Type) (R : Runtime W) (ticker market : string)
         (providers : list (MarketDataProvider W)) (forceRefresh : bool)
         (s s' : State W) (r : Completion LatestQuote),
    getLatestQuote ticker market providers forceRefresh s = (r, s') ->
    exists asked rest,
      filterProvidersForMarket providers market = asked ++ rest
      /\ calls s' = calls s ++ map (quoteRequest ticker market) asked
      /\ incl asked providers
      /\ (stooqServes market = false -> Forall (fun p => name p <> "STOOQ") asked)
      /\ (rest <> [] ->
          (exists quote, r = Normal quote)
          \/ ((r = Throw (notNullFailed "quote_cache.price")
               \/ r = Throw (notNullFailed "quote_cache.expires_at"))
              /\ db s' = db s))
      /\ sameOutsideQuotes (db s) (db s').
Proof.
  intros W R ticker market providers forceRefresh s s' r Hrun.
  set (chain := filterProvidersForMarket providers market) in *.
  assert (Hincl : incl chain providers) by apply filterProvidersForMarket_incl.
  pose proof (filterProvidersForMarket_no_stooq providers market) as Hnames.
  fold chain in Hnames.
  destruct (if forceRefresh then None
            else selectCachedQuote ticker market (datetime_now (world s))
                                   (quote_cache (db s))) as [row |] eqn:Hcache.
  { destruct forceRefresh; [discriminate |].
    rewrite (getLatestQuote_cached ticker market providers s row Hcache) in Hrun.
    injection Hrun as <- <-. exists [], chain. cbn. rewrite app_nil_r.
    split; [reflexivity |]. split; [reflexivity |].
    split; [intros p [] |]. split; [constructor |].
    split; [eauto |]. repeat split. }
  assert (Hmiss : forceRefresh = true \/
                  selectCachedQuote ticker market (datetime_now (world s))
                                    (quote_cache (db s)) = None).
  { destruct forceRefresh; [now left | now right]. }
  destruct (fetch_from_cases (quoteTask ticker (resolveExchange market)) chain s None)
    as [(s1 & e & Hall) | (pre & p & post & s1 & e & result & s2 & Hchain & Hpre & Hp)].
  - rewrite (getLatestQuote_exhausted ticker market providers forceRefresh s s1 e
               Hmiss Hall) in Hrun.
    destruct (quoteTask_trace ticker market _ _ _ _ _ Hall) as [Hdb Hcalls].
    assert (Hs : s' = s1).
    { destruct (selectStaleQuote _ _ _); [injection Hrun as _ <-; reflexivity |].
      destruct (selectLatestHistory _ _ _); injection Hrun as _ <-; reflexivity. }
    subst s'. exists chain, []. rewrite app_nil_r.
    split; [reflexivity |]. split; [exact Hcalls |]. split; [exact Hincl |].
    split; [exact Hnames |].
    split; [intros Hrest; now contradiction Hrest |].
    rewrite Hdb. repeat split.
  - destruct (getLatestQuote_fetched ticker market providers forceRefresh s s1 s2
                pre p post e result Hmiss Hchain Hpre Hp) as (Hfetched & Hdb & Hcalls).
    cbv zeta in Hfetched. rewrite Hfetched in Hrun. clear Hfetched.
    assert (Hsub : incl (pre ++ [p]) chain).
    { rewrite Hchain. intros q Hq. apply in_app_or in Hq as [Hq | [<- | []]];
        apply in_or_app; [now left | right; now left]. }
    assert (Hgiven : incl (pre ++ [p]) providers)
      by (intros q Hq; apply Hincl, Hsub, Hq).
    assert (Hnamed : stooqServes market = false ->
                     Forall (fun q => name q <> "STOOQ") (pre ++ [p])).
    { intros Hno. apply Forall_forall. intros q Hq.
      exact (proj1 (Forall_forall _ _) (Hnames Hno) q (Hsub q Hq)). }
    assert (Hcatch : forall error,
               (error = notNullFailed "quote_cache.price"
                \/ error = notNullFailed "quote_cache.expires_at") ->
               match selectStaleQuote ticker market (quote_cache (db s)) with
               | Some row =>
                   (Normal {| lq_price := qc_price row; lq_currency := qc_currency row;
                              lq_as_of := qc_as_of row; lq_source := qc_source row;
                              lq_fetched_at := None; lq_expires_at := None;
                              lq_cached := true |}, s2)
               | None =>
                   match selectLatestHistory ticker market (price_history (db s)) with
                   | Some h =>
                       (Normal {| lq_price := ph_price h; lq_currency := ph_currency h;
                                  lq_as_of := ph_date h;
                                  lq_source := orElse (ph_source h) "HISTORY";
                                  lq_fetched_at := None; lq_expires_at := None;
                                  lq_cached := true |}, s2)
                   | None => (Throw error, s2)
                   end
               end = (r, s') ->
               s' = s2
               /\ ((exists quote, r = Normal quote)
                   \/ ((r = Throw (notNullFailed "quote_cache.price")
                        \/ r = Throw (notNullFailed "quote_cache.expires_at"))
                       /\ db s' = db s))).
    { intros error Herror Hout.
      destruct (selectStaleQuote ticker market (quote_cache (db s)));
        [injection Hout as <- <-; split; [reflexivity | left; eauto] |].
      destruct (selectLatestHistory ticker market (price_history (db s)));
        injection Hout as <- <-; (split; [reflexivity |]); [left; eauto | right].
      split; [| exact Hdb]. destruct Herror as [-> | ->]; auto. }
    exists (pre ++ [p]), post. rewrite <- app_assoc. cbn [app].
    split; [exact Hchain |].
    destruct (sqlReal (qr_price result)) as [stored |].
    + destruct (datetime_now_modified (world s2) _) as [expires |].
      * injection Hrun as <- <-. split; [exact Hcalls |]. split; [exact Hgiven |].
        split; [exact Hnamed |]. split; [eauto |]. repeat split.
      * destruct (Hcatch _ (or_intror eq_refl) Hrun) as [-> Hout].
        split; [exact Hcalls |]. split; [exact Hgiven |]. split; [exact Hnamed |].
        split; [intros _; exact Hout |]. rewrite Hdb. repeat split.
    + destruct (Hcatch _ (or_introl eq_refl) Hrun) as [-> Hout].
      split; [exact Hcalls |]. split; [exact Hgiven |]. split; [exact Hnamed |].
      split; [intros _; exact Hout |]. rewrite Hdb. repeat split.
Qed.

Lemma getLatestQuote_asks_chain_in_order_witness :
  exists asked rest,
    filterProvidersForMarket [Doubles.failing "STOOQ"; Doubles.failing "A"; mockFeed]
                             "BINANCE" = asked ++ rest
    /\ map (fun p => name p) asked = ["A"; "MOCK"] /\ rest = [].
Proof.
  destruct (getLatestQuote_asks_chain_in_order unit Doubles.fixedRuntime "BTC/USDT"
              "BINANCE" [Doubles.failing "STOOQ"; Doubles.failing "A"; mockFeed] false
              (Doubles.initial emptyDb) _ _ eq_refl)
    as (asked & rest & Hchain & Hcalls & _).
  exists asked, rest. split; [exact Hchain |].
  cbn in Hchain, Hcalls.
  destruct asked as [| a1 [| a2 [| a3 asked]]]; try discriminate Hcalls.
  injection Hchain as <- <- <-. split; reflexivity.
Defined.

(* ===================================================================== *)
(** * Symbol validation: the provider loop *)
(* ===================================================================== *)

Lemma last_cons {A : Type} :
  forall (l : list A) (x d : A), List.last (x :: l) d = List.last l x.
Proof.
  induction l as [| y l IH]; intros x d; [reflexivity |].
  change (List.last (x :: y :: l) d) with (List.last (y :: l) d).
  now rewrite (IH y d), (IH y x).
Qed.

Section ValidationLoop.
Context {W : Type} {R : Runtime W}.
Variables (normalizedTicker normalizedMarket exchange : string).

Lemma AllMiss_trace :
  forall ps (s s' : State W),
    AllMiss normalizedTicker exchange ps s s' ->
    db s' = db s
    /\ calls s' = calls s ++ map (searchRequest normalizedTicker exchange) ps.
Proof.
  intros ps s s' Hrun.
  induction Hrun as [s | p ps s s1 s2 Hp _ [IHdb IHcalls]
                     | p ps s s1 s2 e Hp _ _ [IHdb IHcalls]].
  - split; [reflexivity | cbn; now rewrite app_nil_r].
  - apply invoke_step in Hp as [Hdb Hcalls]. split; [congruence |].
    rewrite IHcalls, Hcalls. cbn. now rewrite <- app_assoc.
  - apply invoke_step in Hp as [Hdb Hcalls]. split; [congruence |].
    rewrite IHcalls, Hcalls. cbn. now rewrite <- app_assoc.
Qed.

Lemma validateSymbol_from_app :
  forall pre (s s1 : State W) lastProvider rest,
    AllMiss normalizedTicker exchange pre s s1 ->
    validateSymbol_from normalizedTicker normalizedMarket exchange lastProvider
                        (pre ++ rest) s
    = validateSymbol_from normalizedTicker normalizedMarket exchange
                          (List.last (map (fun p => name p) pre) lastProvider) rest s1.
Proof.
  intros pre s s1 lastProvider rest Hrun. revert lastProvider.
  induction Hrun as [s | p ps s s1 s2 Hp _ IH | p ps s s1 s2 e Hp He _ IH];
    intros lastProvider.
  - reflexivity.
  - cbn [app validateSymbol_from]. unfold searchRequest in Hp. rewrite Hp.
    rewrite IH. cbn [map]. now rewrite last_cons.
  - cbn [app validateSymbol_from]. unfold searchRequest in Hp. rewrite Hp, He.
    rewrite IH. cbn [map]. now rewrite last_cons.
Qed.
End ValidationLoop.

Section ValidateFacts.
Context {W : Type} {R : Runtime W}.

Lemma validateSymbol_uncached ticker market providers (s : State W) d :
  getMarketDefinition market = Some d ->
  validationMisses (normalizeTicker (toUpperCase ticker) (toUpperCase (code d)))
                   (toUpperCase (code d)) s ->
  validateSymbol ticker market providers s
  = validateSymbol_from (normalizeTicker (toUpperCase ticker) (toUpperCase (code d)))
                        (toUpperCase (code d)) (providerExchange d) "UNKNOWN"
                        (orderProvidersForMarket providers (toUpperCase (code d))) s.
Proof.
  intros Hd Hmiss. unfold validateSymbol. rewrite Hd.
  unfold bind, getCachedValidation, query. unfold validationMisses in Hmiss.
  destruct (selectSymbol _ _ _) as [row |]; [rewrite Hmiss |]; reflexivity.
Qed.
End ValidateFacts.

(** X7.  When the market is supported, the validation cache has nothing usable
    and every provider in turn either knows no such symbol or throws a
    [ProviderError], [validateSymbol] completes with
    [{valid: false, reason: 'not_found'}], naming as source the last
    provider asked (['UNKNOWN'] when there is none) and reporting the
    normalized ticker and market; every provider has been asked once, in
    order, and nothing has been written to the database. *)
Theorem validateSymbol_not_found :
  forall (W : Type) (R : Runtime W) (ticker market : string)
         (providers : list (MarketDataProvider W)) (s s' : State W)
         (d : MarketDefinition),
    getMarketDefinition market = Some d ->
    let normalizedMarket := toUpperCase (code d) in
    let normalizedTicker := normalizeTicker (toUpperCase ticker) normalizedMarket in
    let chain := orderProvidersForMarket providers normalizedMarket in
    validationMisses normalizedTicker normalizedMarket s ->
    AllMiss normalizedTicker (providerExchange d) chain s s' ->
    validateSymbol ticker market providers s
    = (Normal {| valid := false; source := lastProviderOf chain;
                 reason := Some "not_found"; supported_markets := None;
                 symbol := None;
                 normalized := Some (normalizedTicker, normalizedMarket) |}, s')
    /\ db s' = db s
    /\ calls s' = calls s ++ map (searchRequest normalizedTicker (providerExchange d)) chain.
Proof.
  intros W R ticker market providers s s' d Hd normalizedMarket normalizedTicker chain
         Hmiss Hrun.
  destruct (AllMiss_trace _ _ _ _ _ Hrun) as [Hdb Hcalls].
  split; [| split; assumption].
  rewrite (validateSymbol_uncached ticker market providers s d Hd Hmiss).
  fold normalizedMarket normalizedTicker chain.
  rewrite <- (app_nil_r chain) at 1.
  rewrite (validateSymbol_from_app _ normalizedMarket _ _ _ _ "UNKNOWN" [] Hrun).
  reflexivity.
Qed.

Lemma validateSymbol_not_found_witness :
  validateSymbol "fake" "nasdaq" [Doubles.failing "TWELVE_DATA"; mockFeed]
                 (Doubles.initial emptyDb)
  = (Normal {| valid := false; source := "MOCK"; reason := Some "not_found";
               supported_markets := None; symbol := None;
               normalized := Some ("FAKE", "NASDAQ") |},
     {| db := emptyDb; world := tt;
        calls := [CallSearchSymbol "TWELVE_DATA"
                    {| ssp_ticker := "FAKE"; ssp_market := "NASDAQ" |};
                  CallSearchSymbol "MOCK"
                    {| ssp_ticker := "FAKE"; ssp_market := "NASDAQ" |}] |}).
Proof.
  refine (proj1 (validateSymbol_not_found unit Doubles.fixedRuntime "fake" "nasdaq"
                   [Doubles.failing "TWELVE_DATA"; mockFeed] (Doubles.initial emptyDb) _
                   (equityMarket "NASDAQ" "NASDAQ (US)" US "USD" None) eq_refl I _)).
  eapply AllMiss_error; [reflexivity | reflexivity |].
  eapply AllMiss_null; [reflexivity |]. constructor.
Defined.


Section ValidationOutcomes.
Context {W : Type} {R : Runtime W}.
Variables (ticker market : string) (providers : list (MarketDataProvider W)).
Variable d : MarketDefinition.
Hypothesis supported : getMarketDefinition market = Some d.

Lemma validateSymbol_reaches (s s1 : State W) pre rest :
  validationMisses (normalizeTicker (toUpperCase ticker) (toUpperCase (code d)))
                   (toUpperCase (code d)) s ->
  orderProvidersForMarket providers (toUpperCase (code d)) = pre ++ rest ->
  AllMiss (normalizeTicker (toUpperCase ticker) (toUpperCase (code d)))
          (providerExchange d) pre s s1 ->
  validateSymbol ticker market providers s
  = validateSymbol_from (normalizeTicker (toUpperCase ticker) (toUpperCase (code d)))
                        (toUpperCase (code d)) (providerExchange d)
                        (List.last (map (fun p => name p) pre) "UNKNOWN") rest s1.
Proof.
  intros Hmiss Hchain Hpre.
  rewrite (validateSymbol_uncached ticker market providers s d supported Hmiss), Hchain.
  apply validateSymbol_from_app. exact Hpre.
Qed.
End ValidationOutcomes.

(** X8.  An error of a provider's search that is not a [ProviderError] ends the
    validation at once: [validateSymbol] throws that very error, the
    providers after the failing one are not asked, and nothing is written
    to the database. *)
Theorem validateSymbol_other_errors_propagate :
  forall (W : Type) (R : Runtime W) (ticker market : string)
         (providers : list (MarketDataProvider W)) (s s1 s2 : State W)
         (d : MarketDefinition) (pre post : list (MarketDataProvider W))
         (p : MarketDataProvider W) (e : JsThrown),
    getMarketDefinition market = Some d ->
    let normalizedMarket := toUpperCase (code d) in
    let normalizedTicker := normalizeTicker (toUpperCase ticker) normalizedMarket in
    validationMisses normalizedTicker normalizedMarket s ->
    orderProvidersForMarket providers normalizedMarket = pre ++ p :: post ->
    AllMiss normalizedTicker (providerExchange d) pre s s1 ->
    invoke (searchRequest normalizedTicker (providerExchange d) p)
           (searchSymbol p {| ssp_ticker := normalizedTicker;
                              ssp_market := providerExchange d |}) s1
    = (Throw e, s2) ->
    instanceofProviderError e = false ->
    validateSymbol ticker market providers s = (Throw e, s2)
    /\ db s2 = db s
    /\ calls s2
       = calls s ++ map (searchRequest normalizedTicker (providerExchange d)) (pre ++ [p]).
Proof.
  intros W R ticker market providers s s1 s2 d pre post p e Hd
         normalizedMarket normalizedTicker Hmiss Hchain Hpre Hp He.
  destruct (AllMiss_trace _ _ _ _ _ Hpre) as [Hdb1 Hcalls1].
  pose proof Hp as Hstep. apply invoke_step in Hstep as [Hdb2 Hcalls2].
  split; [| split].
  - rewrite (validateSymbol_reaches ticker market providers d Hd s s1 pre (p :: post)
               Hmiss Hchain Hpre).
    cbn [validateSymbol_from]. unfold searchRequest in Hp.
    fold normalizedMarket normalizedTicker. rewrite Hp, He. reflexivity.
  - congruence.
  - rewrite Hcalls2, Hcalls1, map_app, <- app_assoc. reflexivity.
Qed.

Lemma validateSymbol_other_errors_propagate_witness :
  validateSymbol "AAPL" "NASDAQ" [Doubles.failing "A"; broken "B"; knowing "C" None]
                 (Doubles.initial emptyDb)
  = (Throw (ErrorObject OtherErrorClass "fetch failed"),
     {| db := emptyDb; world := tt;
        calls := [CallSearchSymbol "A" {| ssp_ticker := "AAPL"; ssp_market := "NASDAQ" |};
                  CallSearchSymbol "B" {| ssp_ticker := "AAPL"; ssp_market := "NASDAQ" |}] |}).
Proof.
  refine (proj1 (validateSymbol_other_errors_propagate unit Doubles.fixedRuntime
                   "AAPL" "NASDAQ" [Doubles.failing "A"; broken "B"; knowing "C" None]
                   (Doubles.initial emptyDb)
                   {| db := emptyDb; world := tt;
                      calls := [CallSearchSymbol "A"
                                  {| ssp_ticker := "AAPL"; ssp_market := "NASDAQ" |}] |}
                   _ (equityMarket "NASDAQ" "NASDAQ (US)" US "USD" None)
                   [Doubles.failing "A"] [knowing "C" None] (broken "B") _
                   eq_refl I eq_refl _ eq_refl eq_refl)).
  eapply AllMiss_error; [reflexivity | reflexivity | constructor].
Defined.

(** X9.  When a provider knows the symbol, [validateSymbol] answers
    [{valid: true}] with that provider as source and the symbol's ticker
    upper-cased, after the providers before it have been asked once each,
    and it stores the symbol in the validation cache.  If the cache held no
    row of the key before and the provider's ticker is the normalized
    ticker, a later validation of the same input is answered from the
    cache, with source ['CACHE'] and the stored row, without calling any
    provider, as long as the row has not outlived its time to live. *)
Theorem validateSymbol_found_then_cached :
  forall (W : Type) (R : Runtime W) (ticker market : string)
         (providers : list (MarketDataProvider W)) (s s1 s2 : State W)
         (d : MarketDefinition) (pre post : list (MarketDataProvider W))
         (p : MarketDataProvider W) (result : SymbolSearchResult),
    getMarketDefinition market = Some d ->
    let normalizedMarket := toUpperCase (code d) in
    let normalizedTicker := normalizeTicker (toUpperCase ticker) normalizedMarket in
    validationMisses normalizedTicker normalizedMarket s ->
    orderProvidersForMarket providers normalizedMarket = pre ++ p :: post ->
    AllMiss normalizedTicker (providerExchange d) pre s s1 ->
    invoke (searchRequest normalizedTicker (providerExchange d) p)
           (searchSymbol p {| ssp_ticker := normalizedTicker;
                              ssp_market := providerExchange d |}) s1
    = (Normal (Some result), s2) ->
    exists s3,
      validateSymbol ticker market providers s
      = (Normal {| valid := true; source := name p; reason := None;
                   supported_markets := None;
                   symbol := Some {| si_ticker := toUpperCase (ssr_ticker result);
                                     si_market := normalizedMarket;
                                     si_name := ssr_name result;
                                     si_currency := ssr_currency result;
                                     si_exchange := ssr_exchange result;
                                     si_provider := None;
                                     si_last_verified_at := None |};
                   normalized := Some (normalizedTicker, normalizedMarket) |}, s3)
      /\ market_symbols (db s3)
         = cacheValidation_db (toUpperCase (ssr_ticker result)) normalizedMarket
             (ssr_name result) (ssr_currency result) (ssr_exchange result) (name p)
             (datetime_now (world s2)) (market_symbols (db s))
      /\ calls s3
         = calls s ++ map (searchRequest normalizedTicker (providerExchange d)) (pre ++ [p])
      /\ forall (later : State W) (others : list (MarketDataProvider W)),
           (forall r, In r (market_symbols (db s)) ->
                      symbolKeyIs normalizedTicker normalizedMarket r = false) ->
           toUpperCase (ssr_ticker result) = normalizedTicker ->
           db later = db s3 ->
           validationExpired (world later) (datetime_now (world s2)) = false ->
           validateSymbol ticker market others later
           = (Normal {| valid := true; source := "CACHE"; reason := None;
                        supported_markets := None;
                        symbol := Some {| si_ticker := normalizedTicker;
                                          si_market := normalizedMarket;
                                          si_name := ssr_name result;
                                          si_currency := ssr_currency result;
                                          si_exchange := ssr_exchange result;
                                          si_provider := Some (name p);
                                          si_last_verified_at :=
                                            Some (datetime_now (world s2)) |};
                        normalized := None |}, later).
Proof.
  intros W R ticker market providers s s1 s2 d pre post p result Hd
         normalizedMarket normalizedTicker Hmiss Hchain Hpre Hp.
  destruct (AllMiss_trace _ _ _ _ _ Hpre) as [Hdb1 Hcalls1].
  pose proof Hp as Hstep. apply invoke_step in Hstep as [Hdb2 Hcalls2].
  assert (Hdb : db s2 = db s) by congruence.
  eexists. split; [| split; [| split]].
  - rewrite (validateSymbol_reaches ticker market providers d Hd s s1 pre (p :: post)
               Hmiss Hchain Hpre).
    cbn [validateSymbol_from]. unfold searchRequest in Hp.
    fold normalizedMarket normalizedTicker. rewrite Hp.
    unfold bind, cacheValidation, execute, ret. reflexivity.
  - cbn. rewrite Hdb. reflexivity.
  - cbn. rewrite Hcalls2, Hcalls1, map_app, <- app_assoc. reflexivity.
  - intros later others Hfirst Hsame Hlater Hlive.
    unfold validateSymbol. rewrite Hd.
    fold normalizedMarket normalizedTicker.
    unfold bind, getCachedValidation, query. rewrite Hlater. cbn [db market_symbols withMarketSymbols].
    rewrite Hdb, Hsame. unfold cacheValidation_db, selectSymbol.
    rewrite (filter_none _ _ Hfirst). cbn [greatest nameToStore].
    rewrite filter_insertOrReplace_only.
    + cbn [greatest greatest_from ms_last_verified_at]. rewrite Hlive. reflexivity.
    + unfold symbolKeyIs. cbn. now rewrite !String.eqb_refl.
    + exact Hfirst.
Qed.

Lemma validateSymbol_found_then_cached_witness :
  exists s3,
    validateSymbol "aapl" "nasdaq" [Doubles.failing "A"; knowing "B" (Some "Apple Inc")]
                   (Doubles.initial emptyDb)
    = (Normal {| valid := true; source := "B"; reason := None; supported_markets := None;
                 symbol := Some {| si_ticker := "AAPL"; si_market := "NASDAQ";
                                   si_name := Some "Apple Inc"; si_currency := Some "USD";
                                   si_exchange := Some "NASDAQ"; si_provider := None;
                                   si_last_verified_at := None |};
                 normalized := Some ("AAPL", "NASDAQ") |}, s3)
    /\ validateSymbol "aapl" "nasdaq" [] s3
       = (Normal {| valid := true; source := "CACHE"; reason := None;
                    supported_markets := None;
                    symbol := Some {| si_ticker := "AAPL"; si_market := "NASDAQ";
                                      si_name := Some "Apple Inc";
                                      si_currency := Some "USD";
                                      si_exchange := Some "NASDAQ";
                                      si_provider := Some "B";
                                      si_last_verified_at := Some "2024-06-01 12:00:00" |};
                    normalized := None |}, s3).
Proof.
  destruct (validateSymbol_found_then_cached unit Doubles.fixedRuntime "aapl" "nasdaq"
              [Doubles.failing "A"; knowing "B" (Some "Apple Inc")]
              (Doubles.initial emptyDb)
              {| db := emptyDb; world := tt;
                 calls := [CallSearchSymbol "A"
                             {| ssp_ticker := "AAPL"; ssp_market := "NASDAQ" |}] |}
              {| db := emptyDb; world := tt;
                 calls := [CallSearchSymbol "A"
                             {| ssp_ticker := "AAPL"; ssp_market := "NASDAQ" |};
                           CallSearchSymbol "B"
                             {| ssp_ticker := "AAPL"; ssp_market := "NASDAQ" |}] |}
              (equityMarket "NASDAQ" "NASDAQ (US)" US "USD" None)
              [Doubles.failing "A"] [] (knowing "B" (Some "Apple Inc"))
              {| ssr_ticker := "AAPL"; ssr_market := "NASDAQ"; ssr_name := Some "Apple Inc";
                 ssr_currency := Some "USD"; ssr_exchange := Some "NASDAQ" |}
              eq_refl I eq_refl
              ltac:(eapply AllMiss_error; [reflexivity | reflexivity | constructor])
              eq_refl)
    as (s3 & Hrun & _ & _ & Hlater).
  exists s3. split; [exact Hrun |].
  apply Hlater; try reflexivity. intros r [].
Defined.

(* ===================================================================== *)
(** * Market codes and tickers: normalization *)
(* ===================================================================== *)

Lemma getMarketDefinition_upper (market : string) :
  getMarketDefinition (toUpperCase market) = getMarketDefinition market.
Proof. unfold getMarketDefinition. now rewrite toUpperCase_idempotent. Qed.

Lemma mapGet_Some_entry {V : Type} (k : string) (m : JsMap (K := string) (V := V)) (v : V) :
  mapGet String.eqb k m = Some v -> In (k, v) m.
Proof.
  induction m as [| [k' v'] m IH]; [discriminate |].
  cbn. destruct (String.eqb_spec k' k) as [-> | Hne].
  - intros E. injection E as ->. now left.
  - intros E. right. exact (IH E).
Qed.

Lemma registry_entries_resolve :
  Forall (fun d => getMarketDefinition (code d) = Some d
                   /\ Forall (fun a => getMarketDefinition a = Some d) (aliasesOf d))
         SUPPORTED_MARKETS.
Proof. repeat constructor. Qed.

Lemma marketIndex_entries :
  Forall (fun kd => In (snd kd) SUPPORTED_MARKETS
                    /\ (fst kd = toUpperCase (code (snd kd))
                        \/ In (fst kd) (map toUpperCase (aliasesOf (snd kd))))
                    /\ getMarketDefinition (toUpperCase (code (snd kd))) = Some (snd kd))
         marketIndex.
Proof.
  unfold marketIndex. cbv [indexMarkets SUPPORTED_MARKETS fold_left].
  repeat (constructor; [cbn; split; [tauto | split; [tauto | reflexivity]] |]).
  constructor.
Qed.

(** X10.  Market codes are looked up without regard to case and through their
    aliases: every market of the registry is found under its code and under
    each of its aliases (LSE is the London market, GPW the Warsaw one), a
    lookup never finds a market under any other name, and the upper-cased
    code that validation reports as the normalized market denotes the same
    market again. *)
Theorem getMarketDefinition_resolves_codes_and_aliases :
  (forall market, getMarketDefinition (toUpperCase market) = getMarketDefinition market)
  /\ (forall d, In d SUPPORTED_MARKETS ->
                getMarketDefinition (code d) = Some d
                /\ forall a, In a (aliasesOf d) -> getMarketDefinition a = Some d)
  /\ (forall market d,
         getMarketDefinition market = Some d ->
         In d SUPPORTED_MARKETS
         /\ (toUpperCase market = toUpperCase (code d)
             \/ In (toUpperCase market) (map toUpperCase (aliasesOf d)))
         /\ getMarketDefinition (toUpperCase (code d)) = Some d)
  /\ getMarketDefinition "lse" = getMarketDefinition "XLON"
  /\ getMarketDefinition "gpw" = getMarketDefinition "XWAR".
Proof.
  split; [| split; [| split; [| split; reflexivity]]].
  - exact getMarketDefinition_upper.
  - intros d Hd.
    destruct (proj1 (Forall_forall _ _) registry_entries_resolve d Hd) as [Hcode Hal].
    split; [exact Hcode |]. intros a Ha. exact (proj1 (Forall_forall _ _) Hal a Ha).
  - intros market d Hfound. unfold getMarketDefinition in Hfound.
    apply mapGet_Some_entry in Hfound.
    exact (proj1 (Forall_forall _ _) marketIndex_entries _ Hfound).
Qed.

Lemma getMarketDefinition_resolves_codes_and_aliases_witness :
  getMarketDefinition "Lse" = getMarketDefinition "LSE"
  /\ (exists d, getMarketDefinition "gpw" = Some d /\ code d = "XWAR"
                /\ getMarketDefinition (toUpperCase (code d)) = Some d).
Proof.
  destruct getMarketDefinition_resolves_codes_and_aliases as (Hcase & _ & Hfound & _).
  split; [exact (Hcase "Lse") |].
  eexists. split; [reflexivity |]. split; [reflexivity |].
  exact (proj2 (proj2 (Hfound "gpw" _ eq_refl))).
Defined.

(** X11.  Ticker normalization is idempotent, on every market and for every
    ticker: normalizing a normalized ticker changes nothing.  On a crypto
    market the normalized ticker always contains the pair separator, and a
    ticker is changed only there and only by appending to it. *)
Theorem normalizeTicker_idempotent :
  forall ticker market,
    normalizeTicker (normalizeTicker ticker market) market = normalizeTicker ticker market
    /\ (forall d, getMarketDefinition market = Some d -> assetType d = crypto ->
                  includesChar "/" (normalizeTicker ticker market) = true)
    /\ (normalizeTicker ticker market <> ticker ->
        exists d quote,
          getMarketDefinition market = Some d /\ assetType d = crypto
          /\ includesChar "/" ticker = false
          /\ normalizeTicker ticker market = (ticker ++ "/" ++ quote)%string).
Proof.
  intros ticker market. unfold normalizeTicker.
  destruct (getMarketDefinition market) as [d |].
  2: { split; [reflexivity |]. split; [discriminate |]. intros Hch. now contradiction Hch. }
  destruct (assetType d) eqn:Hasset; cbn [isCrypto andb].
  { split; [reflexivity |]. split; [intros d' E; injection E as <-; congruence |].
    intros Hch. now contradiction Hch. }
  destruct (includesChar "/" ticker) eqn:Hslash; cbn [negb].
  { rewrite Hslash. cbn [negb]. split; [reflexivity |]. split; [reflexivity |].
    intros Hch. now contradiction Hch. }
  rewrite !includesChar_app. cbn [includesChar Ascii.eqb Bool.eqb]. rewrite orb_true_r.
  cbn [negb orb]. split; [reflexivity |]. split; [reflexivity |].
  intros _. exists d, (optOrElse (defaultQuote d) "USD"). repeat split; assumption.
Qed.

Lemma normalizeTicker_idempotent_witness :
  normalizeTicker (normalizeTicker "BTC" "BINANCE") "BINANCE" = "BTC/USDT"
  /\ includesChar "/" (normalizeTicker "BTC" "BINANCE") = true.
Proof.
  destruct (normalizeTicker_idempotent "BTC" "BINANCE") as (Hidem & Hslash & _).
  split; [exact Hidem |].
  exact (Hslash _ eq_refl eq_refl).
Defined.

(* ===================================================================== *)
(** * The provider chain of the running server *)
(* ===================================================================== *)

Section UniqueByName.
Context {W : Type}.

Lemma setHas_In (xs : list string) (x : string) : setHas xs x = true <-> In x xs.
Proof.
  unfold setHas. rewrite existsb_exists. split.
  - intros (y & Hy & E). apply String.eqb_eq in E. now subst.
  - intros Hx. exists x. split; [exact Hx | apply String.eqb_refl].
Qed.

Lemma uniqueByName_names (ps : list (MarketDataProvider W)) :
  forall seen n,
    In n (map (fun p => name p) (uniqueByName seen ps))
    <-> In n (map (fun p => name p) ps) /\ ~ In n seen.
Proof.
  induction ps as [| p ps IH]; intros seen n; cbn [uniqueByName map].
  - cbn. tauto.
  - destruct (setHas seen (name p)) eqn:Hseen.
    + apply setHas_In in Hseen. rewrite IH. cbn [In]. split.
      * intros [Hn Hs]. split; [now right | exact Hs].
      * intros [[<- | Hn] Hs]; [contradiction | now split].
    + assert (Hnot : ~ In (name p) seen).
      { intros Hin. apply setHas_In in Hin. congruence. }
      cbn [map In]. rewrite IH. cbn [In]. split.
      * intros [<- | [Hn Hs]]; [split; [now left | exact Hnot] |].
        split; [now right | tauto].
      * intros [[<- | Hn] Hs]; [now left |].
        destruct (String.eqb_spec (name p) n) as [-> | Hne]; [now left |].
        right. split; [exact Hn |]. intros [E | Hin]; [exact (Hne E) | exact (Hs Hin)].
Qed.

Lemma uniqueByName_NoDup (ps : list (MarketDataProvider W)) :
  forall seen, NoDup (map (fun p => name p) (uniqueByName seen ps)).
Proof.
  induction ps as [| p ps IH]; intros seen; cbn [uniqueByName map]; [constructor |].
  destruct (setHas seen (name p)); [apply IH |].
  cbn [map]. constructor; [| apply IH].
  intros Hin. apply uniqueByName_names in Hin as [_ Hnot]. apply Hnot. now left.
Qed.
End UniqueByName.

(** X12.  The chain the server builds from its environment.  The loop that
    removes duplicates keeps exactly one provider of every name that
    occurs, so the chain has no two providers of the same name.  The chain
    is never empty and always ends with the Stooq provider; it starts with
    the Twelve Data provider exactly when [PROVIDER] is unset, empty or
    TWELVE_DATA in any case and an API key is set, and consists of the
    Stooq provider alone otherwise. *)
Theorem createProviderChain_shape :
  forall (W : Type) (newTwelveDataProvider : string -> MarketDataProvider W)
         (newStooqProvider : MarketDataProvider W) (env : ProviderEnv),
    (forall apiKey, name (newTwelveDataProvider apiKey) = "TWELVE_DATA") ->
    name newStooqProvider = "STOOQ" ->
    let chain := createProviderChain newTwelveDataProvider newStooqProvider env in
    (forall (ps : list (MarketDataProvider W)),
        NoDup (map (fun p => name p) (uniqueByName [] ps))
        /\ forall n, In n (map (fun p => name p) (uniqueByName [] ps))
                     <-> In n (map (fun p => name p) ps))
    /\ NoDup (map (fun p => name p) chain)
    /\ (exists front, chain = front ++ [newStooqProvider])
    /\ chain
       = match truthy (TWELVE_DATA_API_KEY env) with
         | Some apiKey =>
             if (toUpperCase (optOrElse (PROVIDER env) "TWELVE_DATA") =? "TWELVE_DATA")%string
             then [newTwelveDataProvider apiKey; newStooqProvider]
             else [newStooqProvider]
         | None => [newStooqProvider]
         end.
Proof.
  intros W newTD newStooq env HTD HStooq chain.
  split; [| split; [apply uniqueByName_NoDup |]].
  { intros ps. split; [apply uniqueByName_NoDup |].
    intros n. rewrite uniqueByName_names. cbn. tauto. }
  assert (Hshape : chain
       = match truthy (TWELVE_DATA_API_KEY env) with
         | Some apiKey =>
             if (toUpperCase (optOrElse (PROVIDER env) "TWELVE_DATA") =? "TWELVE_DATA")%string
             then [newTD apiKey; newStooq]
             else [newStooq]
         | None => [newStooq]
         end).
  { unfold chain, createProviderChain.
    destruct (String.eqb_spec (toUpperCase (optOrElse (PROVIDER env) "TWELVE_DATA"))
                              "TWELVE_DATA") as [-> | Hne].
    - cbn [String.eqb Ascii.eqb Bool.eqb andb app].
      destruct (truthy (TWELVE_DATA_API_KEY env)) as [apiKey |];
        cbn [app uniqueByName setHas existsb]; rewrite ?HTD, ?HStooq; reflexivity.
    - destruct (truthy (TWELVE_DATA_API_KEY env)) as [apiKey |];
        (destruct (toUpperCase (optOrElse (PROVIDER env) "TWELVE_DATA") =? "STOOQ")%string;
         cbn [app uniqueByName setHas existsb];
         rewrite ?HStooq; cbn; rewrite ?HStooq; reflexivity). }
  split; [| exact Hshape].
  rewrite Hshape.
  destruct (truthy (TWELVE_DATA_API_KEY env)) as [apiKey |];
    [destruct (_ =? _)%string; [exists [newTD apiKey] | exists []] | exists []]; reflexivity.
Qed.

Lemma createProviderChain_shape_witness :
  map (fun p => name p)
      (createProviderChain (fun _ => Doubles.failing "TWELVE_DATA") (Doubles.failing "STOOQ")
         {| PROVIDER := None; TWELVE_DATA_API_KEY := Some "key" |})
  = ["TWELVE_DATA"; "STOOQ"]
  /\ map (fun p => name p)
         (createProviderChain (fun _ => Doubles.failing "TWELVE_DATA")
            (Doubles.failing "STOOQ")
            {| PROVIDER := Some "stooq"; TWELVE_DATA_API_KEY := Some "key" |})
     = ["STOOQ"].
Proof.
  split.
  - destruct (createProviderChain_shape unit (fun _ => Doubles.failing "TWELVE_DATA")
                (Doubles.failing "STOOQ")
                {| PROVIDER := None; TWELVE_DATA_API_KEY := Some "key" |}
                (fun _ => eq_refl) eq_refl) as (_ & _ & _ & Hshape).
    rewrite Hshape. reflexivity.
  - destruct (createProviderChain_shape unit (fun _ => Doubles.failing "TWELVE_DATA")
                (Doubles.failing "STOOQ")
                {| PROVIDER := Some "stooq"; TWELVE_DATA_API_KEY := Some "key" |}
                (fun _ => eq_refl) eq_refl) as (_ & _ & _ & Hshape).
    rewrite Hshape. reflexivity.
Defined.

(** X13.  Every market for which the services keep STOOQ in the chain is one the
    Stooq provider accepts once the market is resolved to its provider
    exchange, and the currency Stooq reports for it is the currency of the
    market in the registry.  Conversely, for every market of the registry
    that is outside STOOQ's list the Stooq provider has no configuration,
    so dropping it from the chain loses nothing. *)
Theorem stooq_chain_agrees_with_provider :
  (forall market,
      stooqServes market = true ->
      exists config,
        resolveMarketConfig (Some (resolveExchange market)) = Some config
        /\ stooqCurrency config = marketCurrencyOf market)
  /\ (forall d, In d SUPPORTED_MARKETS ->
                stooqServes (code d) = false ->
                resolveMarketConfig (Some (resolveExchange (code d))) = None)
  /\ resolveMarketConfig None = None
  /\ resolveMarketConfig (Some "") = None.
Proof.
  split; [| split; [| split; reflexivity]].
  - intros market Hserved.
    unfold stooqServes, setHas, stooqMarkets in Hserved. cbn [existsb] in Hserved.
    unfold resolveExchange, marketCurrencyOf, getMarketDefinition.
    repeat (apply orb_true_iff in Hserved as [Hserved | Hserved];
            [apply String.eqb_eq in Hserved; rewrite Hserved;
             eexists; split; reflexivity |]).
    discriminate Hserved.
  - intros d Hd Hno.
    repeat (destruct Hd as [<- | Hd]; [first [discriminate Hno | reflexivity] |]).
    destruct Hd.
Qed.

Lemma stooq_chain_agrees_with_provider_witness :
  exists config,
    resolveMarketConfig (Some (resolveExchange "gpw")) = Some config
    /\ stooqCurrency config = "PLN" /\ useSuffix config = false.
Proof.
  destruct stooq_chain_agrees_with_provider as (Hserved & _).
  destruct (Hserved "gpw" eq_refl) as (config & Hconfig & Hcur).
  exists config. split; [exact Hconfig |]. split; [exact Hcur |].
  cbv in Hconfig. injection Hconfig as <-. reflexivity.
Defined.


(** X14.  A server that runs without a Twelve Data API key has the Stooq
    provider alone, so a market outside STOOQ's list (a crypto pair on
    BINANCE, a Paris or Milan equity) is left with an empty chain: when
    neither the quote cache nor the price history holds anything for the
    symbol, [getLatestQuote] fails with 'No providers configured' without
    calling anything and without changing the state. *)
Theorem getLatestQuote_without_api_key :
  forall (W : Type) (R : Runtime W)
         (newTwelveDataProvider : string -> MarketDataProvider W)
         (newStooqProvider : MarketDataProvider W) (env : ProviderEnv)
         (ticker market : string) (forceRefresh : bool) (s : State W),
    name newStooqProvider = "STOOQ" ->
    truthy (TWELVE_DATA_API_KEY env) = None ->
    stooqServes market = false ->
    (forall row, In row (quote_cache (db s)) ->
                 ~ (qc_ticker row = ticker /\ qc_market row = market)) ->
    (forall row, In row (price_history (db s)) ->
                 ~ (ph_ticker row = ticker /\ ph_market row = market
                    /\ ph_interval row = "1d")) ->
    let chain := createProviderChain newTwelveDataProvider newStooqProvider env in
    filterProvidersForMarket chain market = []
    /\ getLatestQuote ticker market chain forceRefresh s
       = (Throw (newProviderError "No providers configured"), s).
Proof.
  intros W R newTD newStooq env ticker market forceRefresh s HStooq Hkey Hno
         Hquotes Hhistory chain.
  assert (Hchain : chain = [newStooq]).
  { unfold chain, createProviderChain. rewrite Hkey.
    destruct (_ =? "TWELVE_DATA")%string; destruct (_ =? "STOOQ")%string;
      cbn [app uniqueByName setHas existsb]; rewrite ?HStooq; cbn; rewrite ?HStooq;
      reflexivity. }
  assert (Hempty : filterProvidersForMarket chain market = []).
  { pose proof (filterProvidersForMarket_no_stooq chain market Hno) as Hnames.
    pose proof (filterProvidersForMarket_incl chain market) as Hincl.
    destruct (filterProvidersForMarket chain market) as [| p ps]; [reflexivity |].
    exfalso. apply (Forall_inv Hnames).
    specialize (Hincl p (or_introl eq_refl)). rewrite Hchain in Hincl.
    destruct Hincl as [<- | []]. exact HStooq. }
  split; [exact Hempty |].
  assert (Hfresh : selectCachedQuote ticker market (datetime_now (world s))
                                     (quote_cache (db s)) = None).
  { unfold selectCachedQuote. rewrite filter_none; [reflexivity |].
    intros r Hr. destruct (quoteKeyIs ticker market r) eqn:Hk; [| reflexivity].
    exfalso. apply (Hquotes r Hr). unfold quoteKeyIs in Hk.
    apply andb_true_iff in Hk as [Ht Hm]. now apply String.eqb_eq in Ht, Hm. }
  assert (Hstale : selectStaleQuote ticker market (quote_cache (db s)) = None).
  { unfold selectStaleQuote. rewrite filter_none; [reflexivity |].
    intros r Hr. destruct (quoteKeyIs ticker market r) eqn:Hk; [| reflexivity].
    exfalso. apply (Hquotes r Hr). unfold quoteKeyIs in Hk.
    apply andb_true_iff in Hk as [Ht Hm]. now apply String.eqb_eq in Ht, Hm. }
  assert (Hhist : selectLatestHistory ticker market (price_history (db s)) = None).
  { unfold selectLatestHistory. rewrite filter_none; [reflexivity |].
    intros r Hr. destruct (historyKeyIs ticker market "1d" r) eqn:Hk; [| reflexivity].
    exfalso. apply (Hhistory r Hr). unfold historyKeyIs in Hk.
    apply andb_true_iff in Hk as [Hk Hi]. apply andb_true_iff in Hk as [Ht Hm].
    now apply String.eqb_eq in Ht, Hm, Hi. }
  rewrite (getLatestQuote_exhausted ticker market chain forceRefresh s s None).
  - rewrite Hstale, Hhist. reflexivity.
  - now right.
  - rewrite Hempty. constructor.
Qed.

Lemma getLatestQuote_without_api_key_witness :
  getLatestQuote "BTC/USDT" "BINANCE"
                 (createProviderChain (fun _ => Doubles.failing "TWELVE_DATA")
                    (Doubles.scripted "STOOQ" 1%float [])
                    {| PROVIDER := None; TWELVE_DATA_API_KEY := None |})
                 false (Doubles.initial emptyDb)
  = (Throw (newProviderError "No providers configured"), Doubles.initial emptyDb).
Proof.
  refine (proj2 (getLatestQuote_without_api_key unit Doubles.fixedRuntime
                   (fun _ => Doubles.failing "TWELVE_DATA")
                   (Doubles.scripted "STOOQ" 1%float [])
                   {| PROVIDER := None; TWELVE_DATA_API_KEY := None |}
                   "BTC/USDT" "BINANCE" false (Doubles.initial emptyDb)
                   eq_refl eq_refl eq_refl _ _)); intros row [].
Defined.

(* ===================================================================== *)
(** * The price history: what a cache hit takes, and what a write does *)
(* ===================================================================== *)

Lemma leb_antisym (a b : string) : String.leb a b = true -> String.leb b a = true -> a = b.
Proof.
  intros Hab Hba. destruct (leb_ltb_or_eq a b Hab) as [Hlt | ->]; [| reflexivity].
  exfalso. exact (leb_ltb_absurd _ _ Hba Hlt).
Qed.

Lemma Ascending_map {A B : Type} (f : A -> B) (le : A -> A -> bool) (le' : B -> B -> bool) :
  (forall a b, le a b = true -> le' (f a) (f b) = true) ->
  forall l, Ascending le l -> Ascending le' (map f l).
Proof.
  intros Hle l Hl. induction Hl as [| x l Hx _ IH]; cbn; constructor; [| exact IH].
  intros y Hy. apply in_map_iff in Hy as (a & <- & Ha). apply Hle, Hx, Ha.
Qed.

Lemma rowsInRange_In ticker market interval from to table r :
  In r (rowsInRange ticker market interval from to table) <->
  In r table /\ historyKeyIs ticker market interval r = true
  /\ String.leb from (ph_date r) = true /\ String.leb (ph_date r) to = true.
Proof.
  unfold rowsInRange, between. rewrite filter_In, !andb_true_iff. tauto.
Qed.

(** X15.  A lookup in the history cache is a hit exactly when [from] is not
    after [to] and the store holds, for the ticker, market and interval, a
    row dated exactly [from] and a row dated exactly [to]: since only rows
    inside the range are read, covering the range means having its two end
    dates.  The rows of a hit are the rows of the store inside the range,
    in ascending order of date. *)
Theorem getCachedHistory_hit_has_both_ends :
  forall (ticker market interval from to : string) (d : Db),
    (getCachedHistory_db ticker market interval from to d <> None
     <-> String.leb from to = true
         /\ hasRowDated ticker market interval from (price_history d)
         /\ hasRowDated ticker market interval to (price_history d))
    /\ (forall rows,
           getCachedHistory_db ticker market interval from to d = Some rows ->
           rows = getHistoryRows_db ticker market interval from to d
           /\ Ascending byPointDate rows
           /\ (forall p, In p rows ->
                         String.leb from (hp_date p) = true
                         /\ String.leb (hp_date p) to = true
                         /\ exists r, In r (price_history d)
                                      /\ historyKeyIs ticker market interval r = true
                                      /\ p = pointOfRow r)).
Proof.
  intros ticker market interval from to d. split.
  - rewrite getCachedHistory_db_hit_iff. unfold covers, hasRowDated. split.
    + intros [(r1 & Hr1 & Hle1) (r2 & Hr2 & Hle2)].
      apply rowsInRange_In in Hr1 as (Hin1 & Hk1 & Hfrom1 & Hto1).
      apply rowsInRange_In in Hr2 as (Hin2 & Hk2 & Hfrom2 & Hto2).
      pose proof (leb_antisym _ _ Hle1 Hfrom1) as E1.
      pose proof (leb_antisym _ _ Hto2 Hle2) as E2.
      split; [rewrite <- E1; exact Hto1 |].
      split; [exists r1 | exists r2]; auto.
    + intros (Hft & (r1 & Hin1 & Hk1 & E1) & (r2 & Hin2 & Hk2 & E2)).
      split; [exists r1 | exists r2].
      * split; [apply rowsInRange_In; rewrite E1; repeat split; auto using leb_refl |].
        rewrite E1. apply leb_refl.
      * split; [apply rowsInRange_In; rewrite E2; repeat split; auto using leb_refl |].
        rewrite E2. apply leb_refl.
  - intros rows Hhit.
    assert (Hrows : rows = getHistoryRows_db ticker market interval from to d).
    { destruct (getCachedHistory_db_spec ticker market interval from to d) as [Hyes Hno].
      destruct (covers_dec from to
                  (rowsInRange ticker market interval from to (price_history d)))
        as [Hc | Hc].
      - rewrite (Hyes Hc) in Hhit. now injection Hhit as <-.
      - rewrite (Hno Hc) in Hhit. discriminate Hhit. }
    split; [exact Hrows |]. subst rows. unfold getHistoryRows_db, selectHistoryRows.
    split.
    + apply (Ascending_map pointOfRow byDate); [intros a b Hab; exact Hab |].
      apply orderBy_Ascending; [exact byDate_trans | exact byDate_total].
    + intros p Hp. apply in_map_iff in Hp as (r & <- & Hr).
      apply orderBy_In in Hr. apply filter_In in Hr as [Hin Hr].
      apply andb_true_iff in Hr as [Hk Hb]. unfold between in Hb.
      apply andb_true_iff in Hb as [Hfrom Hto].
      split; [exact Hfrom |]. split; [exact Hto |]. exists r. auto.
Qed.

Lemma getCachedHistory_hit_has_both_ends_witness :
  getCachedHistory_db "TSLA" "NASDAQ" "1d" "2024-01-03" "2024-01-08" (db januaryStore)
  <> None
  /\ getCachedHistory_db "TSLA" "NASDAQ" "1d" "2023-12-31" "2024-01-08" (db januaryStore)
     = None.
Proof.
  destruct (getCachedHistory_hit_has_both_ends "TSLA" "NASDAQ" "1d" "2024-01-03"
              "2024-01-08" (db januaryStore)) as [[_ Hhit] _].
  split; [| reflexivity].
  apply Hhit. split; [reflexivity |]. split.
  - exists (Doubles.historyRow "TSLA" "NASDAQ" "2024-01-03" "A" 3%float).
    split; [cbn; tauto | split; reflexivity].
  - exists (Doubles.historyRow "TSLA" "NASDAQ" "2024-01-08" "A" 8%float).
    split; [cbn; tauto | split; reflexivity].
Defined.


Section UniqueKeys.
Context {A : Type}.
Variable sameKey : A -> A -> bool.
Hypothesis sameKey_sym : forall a b, sameKey a b = sameKey b a.

Lemma uniqueKeys_app (l1 l2 : list A) :
  uniqueKeys sameKey (l1 ++ l2) <->
  uniqueKeys sameKey l1 /\ uniqueKeys sameKey l2
  /\ forall x y, In x l1 -> In y l2 -> sameKey y x = false.
Proof.
  induction l1 as [| a l1 IH]; cbn [app uniqueKeys].
  - split; [intros H; repeat split; [exact H | intros x y []] | tauto].
  - rewrite IH. split.
    + intros (Ha & H1 & H2 & H12). repeat split; try assumption.
      * intros r Hr. apply Ha, in_or_app. now left.
      * intros x y [<- | Hx] Hy; [apply Ha, in_or_app; now right | now apply H12].
    + intros ((Ha & H1) & H2 & H12). repeat split; try assumption.
      * intros r Hr. apply in_app_or in Hr as [Hr | Hr]; [now apply Ha |].
        apply H12; [now left | exact Hr].
      * intros x y Hx Hy. apply H12; [now right | exact Hy].
Qed.

Lemma uniqueKeys_filter (f : A -> bool) (l : list A) :
  uniqueKeys sameKey l -> uniqueKeys sameKey (filter f l).
Proof.
  induction l as [| a l IH]; [trivial |]. cbn [uniqueKeys filter].
  intros [Ha Hl]. destruct (f a); [| now apply IH].
  cbn [uniqueKeys]. split; [| now apply IH].
  intros r Hr. apply filter_In in Hr as [Hr _]. now apply Ha.
Qed.

Lemma insertOrReplace_uniqueKeys (row : A) (table : list A) :
  uniqueKeys sameKey table -> uniqueKeys sameKey (insertOrReplace sameKey row table).
Proof.
  intros Hu. unfold insertOrReplace. apply uniqueKeys_app.
  split; [now apply uniqueKeys_filter |]. split; [cbn; split; [intros r [] | exact I] |].
  intros x y Hx [<- | []]. apply filter_In in Hx as [_ Hx].
  apply negb_true_iff in Hx. now rewrite sameKey_sym.
Qed.
End UniqueKeys.

Lemma sameHistoryKey_sym (a b : HistoryRow) : sameHistoryKey a b = sameHistoryKey b a.
Proof.
  unfold sameHistoryKey.
  now rewrite (String.eqb_sym (ph_ticker a)), (String.eqb_sym (ph_market a)),
    (String.eqb_sym (ph_source a)), (String.eqb_sym (ph_interval a)),
    (String.eqb_sym (ph_date a)).
Qed.

Lemma sameHistoryKey_written ticker market interval source now (a b : HistoryPoint)
      (pa pb : float) :
  sameHistoryKey (historyRowOf ticker market interval source now a pa)
                 (historyRowOf ticker market interval source now b pb)
  = (hp_date a =? hp_date b)%string.
Proof. unfold sameHistoryKey. cbn. now rewrite !String.eqb_refl. Qed.

Lemma sqlReal_stored (x y : float) :
  sqlReal x = Some y -> y = if PrimFloat.is_zero x then 0%float else x.
Proof.
  intros Hy. destruct (sqlReal_Some _ _ Hy) as [_ [[-> ->] | [-> ->]]]; reflexivity.
Qed.

(** X16.  Writing a provider's answer to the price history is refused as a
    whole exactly when one of its prices is not a number.  Otherwise it is
    an upsert on the key (ticker, market, source, interval, date), the
    price being stored as it is except that [-0] is stored as [0]: it
    keeps the table free of two rows with the same key, it adds nothing but
    rows of the answer, it leaves alone every row that collides with no
    point of the answer (in particular the rows of other symbols,
    intervals and sources), and for every date of the answer the table
    afterwards holds a row of the answer with that date. *)
Theorem cacheHistoryRows_upserts :
  forall (ticker market interval source now : string) (rows : list HistoryPoint)
         (table : list HistoryRow),
    (cacheHistoryRows_db ticker market interval rows source now table = None
     <-> exists point, In point rows /\ PrimFloat.is_nan (hp_price point) = true)
    /\ forall table',
        cacheHistoryRows_db ticker market interval rows source now table = Some table' ->
        let written := fun p : HistoryPoint =>
          {| ph_ticker := ticker; ph_market := market; ph_interval := interval;
             ph_price := if PrimFloat.is_zero (hp_price p) then 0%float else hp_price p;
             ph_currency := hp_currency p; ph_date := hp_date p;
             ph_source := source; ph_fetched_at := now |} in
        (uniqueKeys sameHistoryKey table -> uniqueKeys sameHistoryKey table')
        /\ (forall r, In r table' -> In r table \/ exists p, In p rows /\ r = written p)
        /\ (forall r, In r table ->
                      (forall p, In p rows -> sameHistoryKey r (written p) = false) ->
                      In r table')
        /\ (forall p, In p rows ->
                      exists q, In q rows /\ hp_date q = hp_date p
                                /\ In (written q) table').
Proof.
  intros ticker market interval source now rows table.
  split; [apply cacheHistoryRows_db_None |]. revert table.
  induction rows as [| p0 rows IH]; intros table table' Hwritten written.
  - cbn in Hwritten. injection Hwritten as <-. repeat split; auto. intros p [].
  - cbn [cacheHistoryRows_db] in Hwritten.
    destruct (sqlReal (hp_price p0)) as [price |] eqn:Hprice; [| discriminate Hwritten].
    apply sqlReal_stored in Hprice. subst price.
    change (cacheHistoryRows_db ticker market interval rows source now
              (insertOrReplace sameHistoryKey (written p0) table) = Some table')
      in Hwritten.
    specialize (IH _ _ Hwritten). cbn zeta in IH. fold written in IH.
    destruct IH as (IHu & IHnew & IHkeep & IHdates).
    split; [| split; [| split]].
    + intros Hu. apply IHu.
      apply insertOrReplace_uniqueKeys; [exact sameHistoryKey_sym | exact Hu].
    + intros r Hr. destruct (IHnew r Hr) as [Hin | (p & Hp & ->)].
      * apply insertOrReplace_In in Hin as [[Hin _] | ->]; [now left |].
        right. exists p0. split; [now left | reflexivity].
      * right. exists p. split; [now right | reflexivity].
    + intros r Hr Hfree. apply IHkeep.
      * apply insertOrReplace_In. left. split; [exact Hr |]. apply Hfree. now left.
      * intros p Hp. apply Hfree. now right.
    + intros p [<- | Hp].
      * destruct (existsb (fun q => (hp_date p0 =? hp_date q)%string) rows) eqn:Hlater.
        -- apply existsb_exists in Hlater as (q' & Hq' & E). apply String.eqb_eq in E.
           destruct (IHdates q' Hq') as (q & Hq & Hdate & Hin).
           exists q. split; [now right |]. split; [congruence | exact Hin].
        -- exists p0. split; [now left |]. split; [reflexivity |].
           apply IHkeep; [apply insertOrReplace_In; now right |].
           intros q Hq.
           change (written p0) with
             (historyRowOf ticker market interval source now p0
                (if PrimFloat.is_zero (hp_price p0) then 0%float else hp_price p0)).
           change (written q) with
             (historyRowOf ticker market interval source now q
                (if PrimFloat.is_zero (hp_price q) then 0%float else hp_price q)).
           rewrite sameHistoryKey_written.
           destruct (hp_date p0 =? hp_date q)%string eqn:E; [| reflexivity].
           assert (Hex : existsb (fun q => (hp_date p0 =? hp_date q)%string) rows = true).
           { apply existsb_exists. exists q. now split. }
           congruence.
      * destruct (IHdates p Hp) as (q & Hq & Hdate & Hin).
        exists q. split; [now right |]. split; assumption.
Qed.

Lemma cacheHistoryRows_upserts_witness :
  exists table',
    cacheHistoryRows_db "TSLA" "NASDAQ" "1d"
      [Doubles.point "2024-01-10" 11%float; Doubles.point "2024-01-11" 12%float]
      "A" "2024-06-01 12:00:00" januaryRows = Some table'
    /\ uniqueKeys sameHistoryKey table'
    /\ In (Doubles.historyRow "TSLA" "NASDAQ" "2024-01-09" "A" 9%float) table'.
Proof.
  eexists. split; [reflexivity |].
  destruct (cacheHistoryRows_upserts "TSLA" "NASDAQ" "1d" "A" "2024-06-01 12:00:00"
              [Doubles.point "2024-01-10" 11%float; Doubles.point "2024-01-11" 12%float]
              januaryRows) as (_ & Hstored).
  destruct (Hstored _ eq_refl) as (Hunique & _ & Hkeep & _).
  split.
  - apply Hunique. cbn. repeat split; intros r Hr;
      repeat (destruct Hr as [<- | Hr]; [reflexivity |]); destruct Hr.
  - apply Hkeep; [cbn; tauto |].
    intros p [<- | [<- | []]]; reflexivity.
Defined.
(* ===================================================================== *)
(** * Dates: normalization and the date range *)
(* ===================================================================== *)

Section DateEdges.
Context {W : Type} {R : Runtime W}.

(** More iterations than the loop needs change nothing. *)
Lemma createDateRange_loop_more_fuel :
  forall fuel current end_ dates,
    createDateRange_loop fuel current end_ = Some dates ->
    forall fuel', (fuel <= fuel')%nat -> createDateRange_loop fuel' current end_ = Some dates.
Proof.
  induction fuel as [| fuel IH]; intros [c |] [e |] dates Hrun fuel' Hle;
    try (destruct fuel'; cbn in *; exact Hrun).
  - cbn in Hrun. destruct fuel'; cbn; destruct (c <=? e); congruence.
  - cbn [createDateRange_loop] in Hrun.
    destruct fuel' as [| fuel']; [lia |]. cbn [createDateRange_loop].
    destruct (c <=? e); [| exact Hrun].
    destruct (createDateRange_loop fuel (setUTCDate c (getUTCDate c + 1)) (Some e))
      as [rest |] eqn:Hrest; [| discriminate].
    rewrite (IH _ _ _ Hrest fuel') by lia. exact Hrun.
Qed.
End DateEdges.

(** X17.  [createDateRange] always returns: its loop ends within the number of
    days between the two dates, and running it longer changes nothing.  It
    returns no date at all when either bound is not a date or when [from]
    is after [to]; otherwise the first date it returns is the UTC day of
    [from].  For one calendar date as both bounds it returns that date
    alone. *)
Theorem createDateRange_edges :
  forall (W : Type) (R : Runtime W) (from to : string),
    (forall fuel,
        (createDateRange_fuel (Date_parse from) (Date_parse to) <= fuel)%nat ->
        createDateRange_loop fuel (Date_parse from) (Date_parse to)
        = Some (createDateRange from to))
    /\ (Date_parse from = None \/ Date_parse to = None -> createDateRange from to = [])
    /\ (forall t1 t2, Date_parse from = Some t1 -> Date_parse to = Some t2 ->
                      t2 < t1 -> createDateRange from to = [])
    /\ (forall t1 t2, Date_parse from = Some t1 -> Date_parse to = Some t2 ->
                      t1 <= t2 ->
                      exists rest,
                        createDateRange from to = slice10 (toISOString t1) :: rest)
    /\ (forall day, inFourDigitYears day ->
                    createDateRange (calendarDate day) (calendarDate day)
                    = [calendarDate day]).
Proof.
  intros W R from to.
  pose proof (createDateRange_total from to) as Htotal.
  split; [| split; [| split; [| split]]].
  - intros fuel Hfuel. exact (createDateRange_loop_more_fuel _ _ _ _ Htotal fuel Hfuel).
  - intros [Hnone | Hnone]; unfold createDateRange; rewrite Hnone.
    + now rewrite createDateRange_loop_finished.
    + destruct (Date_parse from); cbn; [| reflexivity].
      destruct (createDateRange_fuel _ _); reflexivity.
  - intros t1 t2 H1 H2 Hlt. unfold createDateRange. rewrite H1, H2.
    destruct (createDateRange_fuel (Some t1) (Some t2)); cbn;
      (destruct (Z.leb_spec t1 t2); [lia | reflexivity]).
  - intros t1 t2 H1 H2 Hle. rewrite H1, H2 in Htotal.
    destruct (createDateRange_fuel (Some t1) (Some t2)) as [| fuel] eqn:Hfuel.
    + exfalso. unfold createDateRange_fuel in Hfuel.
      pose proof (Z.div_pos (t2 - t1) msPerDay ltac:(lia) ltac:(reflexivity)). lia.
    + cbn [createDateRange_loop] in Htotal.
      destruct (Z.leb_spec t1 t2); [| lia].
      destruct (createDateRange_loop fuel _ _) as [rest |]; [| discriminate].
      injection Htotal as <-. now exists rest.
  - intros day Hday. rewrite (createDateRange_days day day Hday Hday).
    unfold daysInWindow. replace (day - day + 1) with 1 by lia. reflexivity.
Qed.

Lemma createDateRange_edges_witness :
  createDateRange "no date" "2024-03-01" = []
  /\ createDateRange "2024-03-02" "2024-03-01" = []
  /\ createDateRange (calendarDate 19782) (calendarDate 19782) = ["2024-02-29"].
Proof.
  destruct (createDateRange_edges unit Doubles.fixedRuntime "no date" "2024-03-01")
    as (_ & Hinvalid & _).
  destruct (createDateRange_edges unit Doubles.fixedRuntime "2024-03-02" "2024-03-01")
    as (_ & _ & Hreversed & _ & Hsame).
  split; [apply Hinvalid; left; reflexivity |].
  split; [apply (Hreversed _ _ eq_refl eq_refl); reflexivity |].
  apply Hsame. unfold inFourDigitYears. lia.
Defined.

(** X18.  [normalizeDate] throws a [RangeError] exactly for the strings that are
    not dates and returns otherwise, never touching the state.  It cuts a
    date down to the calendar date of its UTC day; on the calendar dates
    themselves it is the identity, and normalizing its own result changes
    nothing (all this for the years 0000 to 9999). *)
Theorem normalizeDate_round_trip :
  forall (W : Type) (R : Runtime W) (S : Type) (date : string) (s : S),
    (Date_parse date = None <->
     normalizeDate date s = (Throw (ErrorObject RangeErrorClass "Invalid time value"), s))
    /\ (forall t, Date_parse date = Some t ->
                  normalizeDate date s = (Normal (slice10 (toISOString t)), s)
                  /\ (inFourDigitYears (Day t) ->
                      normalizeDate date s = (Normal (calendarDate (Day t)), s)
                      /\ normalizeDate (calendarDate (Day t)) s
                         = (Normal (calendarDate (Day t)), s)))
    /\ (forall day, inFourDigitYears day ->
                    normalizeDate (calendarDate day) s = (Normal (calendarDate day), s)).
Proof.
  intros W R S date s.
  assert (Hfix : forall day, inFourDigitYears day ->
                   normalizeDate (calendarDate day) s = (Normal (calendarDate day), s)).
  { intros day Hday. unfold normalizeDate.
    rewrite (Date_parse_calendarDate day Hday).
    rewrite slice10_toISOString by (rewrite Day_midnight; exact Hday).
    now rewrite Day_midnight. }
  split; [| split; [| exact Hfix]].
  - unfold normalizeDate. destruct (Date_parse date); split;
      (discriminate || reflexivity).
  - intros t Ht. unfold normalizeDate at 1 2. rewrite Ht.
    split; [reflexivity |]. intros Hday.
    rewrite (slice10_toISOString t Hday). split; [reflexivity | exact (Hfix _ Hday)].
Qed.

Lemma normalizeDate_round_trip_witness :
  normalizeDate "2024-02-29" tt = (Normal "2024-02-29", tt)
  /\ normalizeDate "2024-02" tt = (Normal "2024-02-01", tt)
  /\ normalizeDate "no date" tt
     = (Throw (ErrorObject RangeErrorClass "Invalid time value"), tt).
Proof.
  destruct (normalizeDate_round_trip unit Doubles.fixedRuntime unit "2024-02" tt)
    as (_ & Hcut & Hfix).
  destruct (normalizeDate_round_trip unit Doubles.fixedRuntime unit "no date" tt)
    as (Hinvalid & _).
  split; [apply (Hfix 19782); unfold inFourDigitYears; lia |].
  split; [exact (proj1 (Hcut _ eq_refl)) |].
  apply Hinvalid. reflexivity.
Defined.

(* ===================================================================== *)
(** * The value of the portfolio, date by date *)
(* ===================================================================== *)

Section SeriesValues.
Variables (hs : list HoldingRow) (historyMap : HistoryMap) (rateCache : RateCache).

Lemma lastSeenPrice_next priceMap buyDate seen date :
  lastSeenPrice priceMap buyDate (seen ++ [date])
  = if String.ltb date buyDate then lastSeenPrice priceMap buyDate seen
    else match priceMap with
         | Some prices =>
             match mapGet String.eqb date prices with
             | Some price => Some price
             | None => lastSeenPrice priceMap buyDate seen
             end
         | None => lastSeenPrice priceMap buyDate seen
         end.
Proof. unfold lastSeenPrice. rewrite fold_left_app. reflexivity. Qed.

(** One date of the loop over the holdings that are still to be visited. *)
Lemma addHoldingValue_fold (seen : list string) (date : string) :
  forall (todo : list HoldingRow) (total : float) (lastKnown : LastKnown),
    NoDup (map h_id todo) ->
    (forall h, In h todo ->
               mapGet Z.eqb (h_id h) lastKnown
               = lastSeenPrice (mapGet Z.eqb (h_id h) historyMap) (h_buy_date h) seen) ->
    exists lastKnown',
      fold_left (addHoldingValue historyMap rateCache date) todo (total, lastKnown)
      = (fold_left
           (fun total holding =>
              if String.ltb date (h_buy_date holding) then total
              else PrimFloat.add total
                     (PrimFloat.mul (priceOn historyMap rateCache (seen ++ [date]) holding)
                                    (h_quantity holding)))
           todo total,
         lastKnown')
      /\ (forall h, In h todo ->
                    mapGet Z.eqb (h_id h) lastKnown'
                    = lastSeenPrice (mapGet Z.eqb (h_id h) historyMap) (h_buy_date h)
                                    (seen ++ [date]))
      /\ (forall id, ~ In id (map h_id todo) ->
                     mapGet Z.eqb id lastKnown' = mapGet Z.eqb id lastKnown).
Proof.
  induction todo as [| h todo IH]; intros total lastKnown Hnodup Hinv.
  - exists lastKnown. cbn. repeat split; auto. intros h [].
  - cbn [map] in Hnodup. apply NoDup_cons_iff in Hnodup as [Hfresh Hnodup].
    cbn [fold_left].
    assert (Hhead : exists lastKnown1,
              addHoldingValue historyMap rateCache date (total, lastKnown) h
              = (if String.ltb date (h_buy_date h) then total
                 else PrimFloat.add total
                        (PrimFloat.mul (priceOn historyMap rateCache (seen ++ [date]) h)
                                       (h_quantity h)),
                 lastKnown1)
              /\ mapGet Z.eqb (h_id h) lastKnown1
                 = lastSeenPrice (mapGet Z.eqb (h_id h) historyMap) (h_buy_date h)
                                 (seen ++ [date])
              /\ forall id, id <> h_id h ->
                            mapGet Z.eqb id lastKnown1 = mapGet Z.eqb id lastKnown).
    { unfold addHoldingValue, priceOn. rewrite lastSeenPrice_next.
      pose proof (Hinv h (or_introl eq_refl)) as Hh.
      destruct (String.ltb date (h_buy_date h)).
      { exists lastKnown. repeat split; auto. }
      destruct (mapGet Z.eqb (h_id h) historyMap) as [prices |].
      - destruct (mapGet String.eqb date prices) as [price |].
        + eexists. split; [| split].
          * rewrite mapGet_mapSet_Z, Z.eqb_refl. reflexivity.
          * rewrite mapGet_mapSet_Z, Z.eqb_refl. reflexivity.
          * intros id Hid. rewrite mapGet_mapSet_Z.
            destruct (Z.eqb_spec (h_id h) id); [congruence | reflexivity].
        + exists lastKnown. rewrite Hh. repeat split; auto.
      - exists lastKnown. rewrite Hh. repeat split; auto. }
    destruct Hhead as (lastKnown1 & Hstep & Hset & Hother).
    rewrite Hstep.
    destruct (IH (if String.ltb date (h_buy_date h) then total
                  else PrimFloat.add total
                         (PrimFloat.mul (priceOn historyMap rateCache (seen ++ [date]) h)
                                        (h_quantity h)))
                 lastKnown1 Hnodup) as (lastKnown' & Hfold & Hinv' & Hrest).
    { intros h' Hh'. rewrite Hother; [apply Hinv; now right |].
      intros E. apply Hfresh. rewrite <- E. apply in_map. exact Hh'. }
    exists lastKnown'. split; [exact Hfold |]. split.
    + intros h' [<- | Hh']; [| now apply Hinv'].
      rewrite (Hrest _ Hfresh). exact Hset.
    + intros id Hid. cbn [map In] in Hid.
      rewrite Hrest by tauto. apply Hother. intros E. apply Hid. now left.
Qed.

Lemma buildSeries_valued :
  NoDup (map h_id hs) ->
  forall (dates seen : list string) (lastKnown : LastKnown),
    (forall h, In h hs ->
               mapGet Z.eqb (h_id h) lastKnown
               = lastSeenPrice (mapGet Z.eqb (h_id h) historyMap) (h_buy_date h) seen) ->
    buildSeries hs historyMap rateCache lastKnown dates
    = valuedSeries hs historyMap rateCache seen dates.
Proof.
  intros Hnodup. induction dates as [| date dates IH]; intros seen lastKnown Hinv;
    [reflexivity |].
  cbn [buildSeries valuedSeries].
  destruct (addHoldingValue_fold seen date hs 0%float lastKnown Hnodup Hinv)
    as (lastKnown' & Hfold & Hinv' & _).
  rewrite Hfold. unfold valueOn. f_equal. apply IH. exact Hinv'.
Qed.

Lemma addHoldingValue_not_bought (date : string) :
  forall (todo : list HoldingRow) (total : float) (lastKnown : LastKnown),
    (forall h, In h todo -> String.ltb date (h_buy_date h) = true) ->
    fold_left (addHoldingValue historyMap rateCache date) todo (total, lastKnown)
    = (total, lastKnown).
Proof.
  induction todo as [| h todo IH]; intros total lastKnown Hearly; [reflexivity |].
  cbn [fold_left]. unfold addHoldingValue at 2.
  rewrite (Hearly h (or_introl eq_refl)). apply IH.
  intros h' Hh'. apply Hearly. now right.
Qed.

Lemma buildSeries_before_first_buy :
  forall (dates : list string) (lastKnown : LastKnown) (p : PerformancePoint),
    In p (buildSeries hs historyMap rateCache lastKnown dates) ->
    (forall h, In h hs -> String.ltb (pp_date p) (h_buy_date h) = true) ->
    pp_value p = 0%float.
Proof.
  induction dates as [| date dates IH]; intros lastKnown p Hp Hearly; [destruct Hp |].
  cbn [buildSeries] in Hp.
  destruct (fold_left (addHoldingValue historyMap rateCache date) hs (0%float, lastKnown))
    as [total lastKnown'] eqn:Hfold.
  destruct Hp as [<- | Hp]; [| exact (IH lastKnown' p Hp Hearly)].
  cbn in Hearly |- *.
  rewrite (addHoldingValue_not_bought date hs _ _ Hearly) in Hfold.
  now injection Hfold as <- _.
Qed.
End SeriesValues.

(** X19.  The loop that builds the series values every date from the price maps
    alone: when no two holdings share an id, the point of a date is the
    sum, over the holdings bought on or before that date and in list
    order, of quantity times the holding's price on the latest date so far
    (on or after its buy date) for which its price map has an entry, a gap
    in the history being filled with the last price before it, and of
    quantity times the buy price at the cached rate while no price has
    been seen. *)
Theorem buildSeries_carries_last_price_forward :
  forall (hs : list HoldingRow) (historyMap : HistoryMap) (rateCache : RateCache)
         (dates : list string),
    NoDup (map h_id hs) ->
    buildSeries hs historyMap rateCache [] dates
    = valuedSeries hs historyMap rateCache [] dates.
Proof.
  intros hs historyMap rateCache dates Hnodup.
  apply buildSeries_valued; [exact Hnodup |]. intros h _. reflexivity.
Qed.

Lemma buildSeries_carries_last_price_forward_witness :
  buildSeries teslaTwice teslaPrices [] []
              ["2024-01-01"; "2024-01-02"; "2024-01-03"; "2024-01-04"]
  = [ {| pp_date := "2024-01-01"; pp_value := 180%float |};
      {| pp_date := "2024-01-02"; pp_value := 200%float |};
      {| pp_date := "2024-01-03"; pp_value := 310%float |};
      {| pp_date := "2024-01-04"; pp_value := 360%float |} ].
Proof.
  rewrite (buildSeries_carries_last_price_forward teslaTwice teslaPrices [] _).
  - reflexivity.
  - repeat constructor; cbn; intuition discriminate.
Defined.


(** X20.  A date of the window that lies before the buy date of every holding of
    the portfolio is valued at exactly zero in the series
    [getPerformanceSeries] returns, whatever the providers returned and
    whatever the caches hold: nothing is valued before it was bought. *)
Theorem getPerformanceSeries_zero_before_first_buy :
  forall (W : Type) (R : Runtime W) (portfolioId : Z) (from to : option string)
         (providers : list (MarketDataProvider W)) (baseCurrency : string)
         (forceRefresh : bool) (s s' : State W) (result : PerformanceSeries)
         (p : PerformancePoint),
    getPerformanceSeries portfolioId from to providers baseCurrency forceRefresh s
    = (Normal result, s') ->
    In p (series result) ->
    (forall h, In h (listHoldings_db portfolioId (db s)) ->
               String.ltb (pp_date p) (h_buy_date h) = true) ->
    pp_value p = 0%float.
Proof.
  intros W R portfolioId from to providers baseCurrency forceRefresh s s' result p
         Hrun Hp Hearly.
  destruct (listHoldings_db portfolioId (db s)) as [| first rest] eqn:Hhs.
  - rewrite (getPerformanceSeries_empty portfolioId from to providers baseCurrency
               forceRefresh s Hhs) in Hrun.
    injection Hrun as <- _. destruct Hp.
  - destruct (getPerformanceSeries_returns portfolioId from to providers baseCurrency
                forceRefresh s s' first rest result Hhs Hrun)
      as (t1 & t2 & historyMap & rateCache & _ & _ & ->).
    cbn [series] in Hp.
    exact (buildSeries_before_first_buy _ _ _ _ _ p Hp Hearly).
Qed.

Lemma getPerformanceSeries_zero_before_first_buy_witness :
  getPerformanceSeries 1 (Some "2023-12-30") (Some "2024-01-01") [teslaFeed] "USD" false
                       teslaPortfolio
  = (Normal {| series := [ {| pp_date := "2023-12-30"; pp_value := 0%float |};
                           {| pp_date := "2023-12-31"; pp_value := 0%float |};
                           {| pp_date := "2024-01-01"; pp_value := 180%float |} ];
               ps_from := Some "2023-12-30"; ps_to := Some "2024-01-01" |},
     snd (getPerformanceSeries 1 (Some "2023-12-30") (Some "2024-01-01") [teslaFeed]
                               "USD" false teslaPortfolio))
  /\ forall p,
       In p [ {| pp_date := "2023-12-30"; pp_value := 0%float |};
              {| pp_date := "2023-12-31"; pp_value := 0%float |};
              {| pp_date := "2024-01-01"; pp_value := 180%float |} ] ->
       String.ltb (pp_date p) "2024-01-01" = true -> pp_value p = 0%float.
Proof.
  assert (Hrun : getPerformanceSeries 1 (Some "2023-12-30") (Some "2024-01-01")
                                      [teslaFeed] "USD" false teslaPortfolio
                 = (Normal {| series :=
                                [ {| pp_date := "2023-12-30"; pp_value := 0%float |};
                                  {| pp_date := "2023-12-31"; pp_value := 0%float |};
                                  {| pp_date := "2024-01-01"; pp_value := 180%float |} ];
                              ps_from := Some "2023-12-30";
                              ps_to := Some "2024-01-01" |},
                    snd (getPerformanceSeries 1 (Some "2023-12-30") (Some "2024-01-01")
                                              [teslaFeed] "USD" false teslaPortfolio))).
  { vm_compute. reflexivity. }
  split; [exact Hrun |]. intros p Hp Hearly.
  refine (getPerformanceSeries_zero_before_first_buy unit Doubles.fixedRuntime 1
            (Some "2023-12-30") (Some "2024-01-01") [teslaFeed] "USD" false
            teslaPortfolio _ _ p Hrun Hp _).
  intros h [<- | []]. exact Hearly.
Defined.

(* ===================================================================== *)
(** * The holdings table *)
(* ===================================================================== *)

Lemma filter_all {A : Type} (f : A -> bool) (l : list A) :
  (forall r, In r l -> f r = true) -> filter f l = l.
Proof.
  induction l as [| x l IH]; intros Hf; [reflexivity |].
  cbn. rewrite (Hf x (or_introl eq_refl)). f_equal. apply IH.
  intros r Hr. apply Hf. now right.
Qed.

Lemma filter_twice {A : Type} (f g : A -> bool) (l : list A) :
  (forall r, In r l -> f r = true -> g r = true) ->
  filter f (filter g l) = filter f l.
Proof.
  induction l as [| x l IH]; intros Hfg; [reflexivity |].
  cbn. destruct (g x) eqn:Hg; cbn.
  - destruct (f x); [f_equal |]; apply IH; intros r Hr; apply Hfg; now right.
  - destruct (f x) eqn:Hf.
    + rewrite (Hfg x (or_introl eq_refl) Hf) in Hg. discriminate Hg.
    + apply IH. intros r Hr. apply Hfg. now right.
Qed.

(** X21.  [deleteHolding] removes the holding with the given id from the given
    portfolio and nothing else: it answers [true] exactly when such a
    holding existed; afterwards the portfolio lists the same holdings
    without it, every other portfolio lists exactly what it listed before
    (a holding cannot be deleted through another portfolio's id), and when
    the answer is [false] the database has not changed.  No provider is
    called. *)
Theorem deleteHolding_removes_only_its_target :
  forall (W : Type) (R : Runtime W) (id portfolioId : Z) (s : State W),
    exists (deleted : bool) (s' : State W),
      deleteHolding id portfolioId s = (Normal deleted, s')
      /\ (deleted = true <-> exists h, In h (holdings (db s)) /\ isTarget id portfolioId h)
      /\ (forall pid h,
             In h (listHoldings_db pid (db s'))
             <-> In h (listHoldings_db pid (db s)) /\ ~ isTarget id portfolioId h)
      /\ (forall pid, pid <> portfolioId ->
                      listHoldings_db pid (db s') = listHoldings_db pid (db s))
      /\ (deleted = false -> db s' = db s)
      /\ calls s' = calls s /\ world s' = world s
      /\ market_symbols (db s') = market_symbols (db s)
      /\ quote_cache (db s') = quote_cache (db s)
      /\ price_history (db s') = price_history (db s)
      /\ fx_rates (db s') = fx_rates (db s).
Proof.
  intros W R id portfolioId s.
  set (doomed := fun h : HoldingRow => (h_id h =? id) && (h_portfolio_id h =? portfolioId)).
  assert (Hdoomed : forall h, doomed h = true <-> isTarget id portfolioId h).
  { intros h. unfold doomed, isTarget. now rewrite andb_true_iff, !Z.eqb_eq. }
  eexists. eexists. split; [reflexivity |].
  cbn [db holdings withHoldingRows calls world market_symbols quote_cache
          price_history fx_rates].
  fold doomed.
  split; [| split; [| split; [| split; [| repeat split]]]].
  - rewrite Nat.ltb_lt. split.
    + intros Hpos. destruct (filter doomed (holdings (db s))) as [| h l] eqn:Hf;
        [cbn in Hpos; lia |].
      assert (Hh : In h (filter doomed (holdings (db s)))) by (rewrite Hf; now left).
      apply filter_In in Hh as [Hin Hd]. exists h. split; [exact Hin | now apply Hdoomed].
    + intros (h & Hin & Ht).
      assert (Hh : In h (filter doomed (holdings (db s)))).
      { apply filter_In. split; [exact Hin | now apply Hdoomed]. }
      destruct (filter doomed (holdings (db s))); [destruct Hh | cbn; lia].
  - intros pid h. unfold listHoldings_db. cbn [holdings withHoldingRows].
    rewrite !orderBy_In, !filter_In, negb_true_iff.
    rewrite <- Hdoomed. fold (doomed h). destruct (doomed h); intuition congruence.
  - intros pid Hpid. unfold listHoldings_db. cbn [holdings withHoldingRows].
    f_equal. apply filter_twice. intros h _ Hh. apply Z.eqb_eq in Hh.
    apply negb_true_iff. destruct (doomed h) eqn:Hd; [| exact Hd].
    apply Hdoomed in Hd as [_ Hp]. congruence.
  - intros Hnone. apply Nat.ltb_ge in Hnone.
    assert (Hempty : filter doomed (holdings (db s)) = []).
    { destruct (filter doomed (holdings (db s))); [reflexivity | cbn in Hnone; lia]. }
    rewrite filter_all.
    + destruct (db s); reflexivity.
    + intros h Hh. apply negb_true_iff. destruct (doomed h) eqn:Hd; [| exact Hd].
      assert (Hin : In h (filter doomed (holdings (db s)))) by (apply filter_In; now split).
      rewrite Hempty in Hin. destruct Hin.
Qed.

Lemma deleteHolding_removes_only_its_target_witness :
  fst (deleteHolding 3 1 twoPortfolios) = Normal false
  /\ fst (deleteHolding 3 2 twoPortfolios) = Normal true
  /\ map h_id (listHoldings_db 1 (db (snd (deleteHolding 3 2 twoPortfolios)))) = [1; 2]
  /\ listHoldings_db 2 (db (snd (deleteHolding 3 2 twoPortfolios))) = [].
Proof.
  destruct (deleteHolding_removes_only_its_target unit Doubles.fixedRuntime 3 2
              twoPortfolios) as (deleted & s' & Hrun & _ & _ & Hother & _).
  split; [reflexivity |]. split; [reflexivity |].
  rewrite Hrun. cbn [snd]. split.
  - rewrite (Hother 1); [reflexivity | lia].
  - injection Hrun as _ <-. reflexivity.
Defined.

(* ===================================================================== *)
(** * Symbol names: the override table and the name of a holding *)
(* ===================================================================== *)

Lemma truthy_nonempty (value : option string) (n : string) :
  truthy value = Some n -> value = Some n /\ n <> "".
Proof.
  destruct value as [v |]; [| discriminate]. cbn.
  destruct (String.eqb_spec v ""); [discriminate |].
  intros E. injection E as <-. now split.
Qed.

Lemma override_markets_are_codes :
  Forall (fun market => exists d, getMarketDefinition market = Some d /\ code d = market)
         overrideMarkets.
Proof. repeat constructor; eexists; split; reflexivity. Qed.

(** X22.  The override table is read without regard to the case of the market
    and of the ticker; it never yields an empty name; it has names only
    for markets that are codes of the registry (XWAR, XETR and XLON), so a
    market outside these has no override. *)
Theorem getNameOverride_lookup :
  forall market ticker,
    getNameOverride (toUpperCase market) (toUpperCase ticker) = getNameOverride market ticker
    /\ (forall n, getNameOverride market ticker = Some n ->
                  n <> ""
                  /\ In (toUpperCase market) overrideMarkets
                  /\ exists d, getMarketDefinition market = Some d
                               /\ code d = toUpperCase market)
    /\ (~ In (toUpperCase market) ["XWAR"; "XETR"; "XLON"] ->
        getNameOverride market ticker = None).
Proof.
  intros market ticker.
  assert (Hmarkets : forall n, getNameOverride market ticker = Some n ->
                               In (toUpperCase market) overrideMarkets).
  { unfold getNameOverride. intros n Hn.
    destruct (mapGet String.eqb (toUpperCase market) NAME_OVERRIDES) as [m |] eqn:Hm;
      [| discriminate].
    apply mapGet_Some_entry in Hm. unfold overrideMarkets.
    change (toUpperCase market) with (fst (toUpperCase market, m)). now apply in_map. }
  split; [| split].
  - unfold getNameOverride. now rewrite !toUpperCase_idempotent.
  - intros n Hn. pose proof (Hmarkets n Hn) as Hin.
    split; [| split; [exact Hin |]].
    + unfold getNameOverride in Hn. destruct (mapGet _ _ NAME_OVERRIDES); [| discriminate].
      exact (proj2 (truthy_nonempty _ _ Hn)).
    + destruct (proj1 (Forall_forall _ _) override_markets_are_codes _ Hin)
        as (d & Hd & Hcode).
      exists d. split; [now rewrite <- getMarketDefinition_upper | exact Hcode].
  - intros Hnot. destruct (getNameOverride market ticker) as [n |]; [| reflexivity].
    exfalso. apply Hnot. exact (Hmarkets n eq_refl).
Qed.

Lemma getNameOverride_lookup_witness :
  getNameOverride "xwar" "cdr" = Some "CD Projekt S.A."
  /\ getNameOverride "NASDAQ" "CDR" = None.
Proof.
  destruct (getNameOverride_lookup "xwar" "cdr") as (Hcase & _).
  destruct (getNameOverride_lookup "NASDAQ" "CDR") as (_ & _ & Hnone).
  split; [rewrite <- Hcase; reflexivity |].
  apply Hnone. cbn. intuition discriminate.
Defined.

Section GreatestLast.
Context {A : Type}.
Variable le : A -> A -> bool.

Lemma greatest_from_last (x : A) :
  forall l best,
    le x best = false -> (forall r, In r l -> le x r = false) ->
    greatest_from le best (l ++ [x]) = x.
Proof.
  induction l as [| r l IH]; intros best Hbest Hl.
  - cbn. now rewrite Hbest.
  - cbn [app greatest_from]. apply IH.
    + destruct (le r best); [exact Hbest | apply Hl; now left].
    + intros r' Hr'. apply Hl. now right.
Qed.

Lemma greatest_last (x : A) (l : list A) :
  (forall r, In r l -> le x r = false) -> greatest le (l ++ [x]) = Some x.
Proof.
  intros Hl. destruct l as [| r l]; [reflexivity |].
  cbn [app greatest]. f_equal. apply greatest_from_last.
  - apply Hl. now left.
  - intros r' Hr'. apply Hl. now right.
Qed.
End GreatestLast.

(** X23.  [getCachedSymbolName] calls no provider and touches nothing but the
    symbol table.  It never answers an empty name, and answering no name
    leaves the state as it was.  When every row of the table was verified
    before the present reading of the clock, the answer is repeatable: the
    same lookup on the resulting state gives the same answer and writes
    nothing, because an override that was just stored is then the most
    recently verified row of the symbol. *)
Theorem getCachedSymbolName_is_repeatable :
  forall (W : Type) (R : Runtime W) (ticker market : string) (s : State W),
    exists (answer : option string) (s' : State W),
      getCachedSymbolName ticker market s = (Normal answer, s')
      /\ calls s' = calls s /\ world s' = world s
      /\ holdings (db s') = holdings (db s) /\ quote_cache (db s') = quote_cache (db s)
      /\ price_history (db s') = price_history (db s) /\ fx_rates (db s') = fx_rates (db s)
      /\ (answer = None -> s' = s)
      /\ (forall n, answer = Some n -> n <> "")
      /\ (verifiedBefore (datetime_now (world s)) (market_symbols (db s)) ->
          getCachedSymbolName ticker market s' = (Normal answer, s')).
Proof.
  intros W R ticker market s.
  unfold getCachedSymbolName, bind, query.
  set (nm := match getMarketDefinition market with
             | Some definition => toUpperCase (code definition)
             | None => toUpperCase market
             end).
  destruct (truthy (match selectSymbol (toUpperCase ticker) nm (market_symbols (db s)) with
                    | Some r => ms_name r
                    | None => None
                    end)) as [cachedName |] eqn:Hcached.
  { exists (Some cachedName), s. unfold ret. repeat split; try discriminate.
    - intros n E. injection E as <-. exact (proj2 (truthy_nonempty _ _ Hcached)).
    - intros _. rewrite Hcached. reflexivity. }
  destruct (getNameOverride nm (toUpperCase ticker)) as [overrideName |] eqn:Hoverride.
  2: { exists None, s. unfold ret. repeat split; try discriminate.
       intros _. rewrite Hcached. reflexivity. }
  eexists. eexists. unfold execute, ret. split; [reflexivity |].
  cbn [db calls world holdings quote_cache price_history fx_rates market_symbols
          withMarketSymbols].
  repeat split; try discriminate.
  - intros n E. injection E as <-. unfold getNameOverride in Hoverride.
    destruct (mapGet _ _ NAME_OVERRIDES); [| discriminate].
    exact (proj2 (truthy_nonempty _ _ Hoverride)).
  - intros Hbefore.
    set (row := overrideRow (toUpperCase ticker) nm overrideName
                            (getMarketDefinition market) (datetime_now (world s))).
    assert (Hselect : selectSymbol (toUpperCase ticker) nm
                        (insertOrReplace sameSymbolKey row (market_symbols (db s)))
                      = Some row).
    { unfold selectSymbol, insertOrReplace. rewrite filter_app.
      cbn [filter]. unfold symbolKeyIs at 2. cbn [row overrideRow ms_ticker ms_market].
      rewrite !String.eqb_refl. cbn [andb].
      apply greatest_last. intros r Hr.
      apply filter_In in Hr as [Hr _]. apply filter_In in Hr as [Hr _].
      unfold byLastVerifiedAt. cbn [row overrideRow ms_last_verified_at].
      apply leb_false_ltb. exact (Hbefore r Hr). }
    rewrite Hselect. cbn [row overrideRow ms_name].
    assert (Hname : truthy (Some overrideName) = Some overrideName).
    { unfold getNameOverride in Hoverride.
      destruct (mapGet _ _ NAME_OVERRIDES); [| discriminate].
      destruct (truthy_nonempty _ _ Hoverride) as [_ Hne].
      cbn. now destruct (String.eqb_spec overrideName ""). }
    rewrite Hname. reflexivity.
Qed.

Lemma getCachedSymbolName_is_repeatable_witness :
  exists s',
    getCachedSymbolName "cdr" "gpw" (Doubles.initial emptyDb)
    = (Normal (Some "CD Projekt S.A."), s')
    /\ market_symbols (db s')
       = [ {| ms_ticker := "CDR"; ms_market := "XWAR"; ms_name := Some "CD Projekt S.A.";
              ms_currency := Some "PLN"; ms_exchange := Some "XWAR";
              ms_provider := "OVERRIDE"; ms_last_verified_at := "2024-06-01 12:00:00" |} ]
    /\ getCachedSymbolName "cdr" "gpw" s' = (Normal (Some "CD Projekt S.A."), s').
Proof.
  destruct (getCachedSymbolName_is_repeatable unit Doubles.fixedRuntime "cdr" "gpw"
              (Doubles.initial emptyDb))
    as (answer & s' & Hrun & _ & _ & _ & _ & _ & _ & _ & _ & Hagain).
  assert (Hfirst : getCachedSymbolName "cdr" "gpw" (Doubles.initial emptyDb)
                   = (Normal (Some "CD Projekt S.A."),
                      snd (getCachedSymbolName "cdr" "gpw" (Doubles.initial emptyDb))))
    by reflexivity.
  rewrite Hfirst in Hrun. injection Hrun as <- <-.
  eexists. split; [exact Hfirst |]. split; [reflexivity |].
  apply Hagain. intros r [].
Defined.


Section NameLoop.
Context {W : Type} {R : Runtime W}.
Variables (normalizedTicker normalizedMarket exchange : string).

Lemma AllNameless_trace :
  forall ps (s s' : State W),
    AllNameless normalizedTicker exchange ps s s' ->
    db s' = db s
    /\ calls s' = calls s ++ map (searchRequest normalizedTicker exchange) ps.
Proof.
  intros ps s s' Hrun.
  induction Hrun as [s | p ps s s1 s2 Hp _ [IHdb IHcalls]
                     | p ps s s1 s2 result Hp _ _ [IHdb IHcalls]
                     | p ps s s1 s2 e Hp _ _ [IHdb IHcalls]];
    [split; [reflexivity | cbn; now rewrite app_nil_r] | | |];
    (apply invoke_step in Hp as [Hdb Hcalls]; split; [congruence |];
     rewrite IHcalls, Hcalls; cbn; now rewrite <- app_assoc).
Qed.

Lemma resolveSymbolName_from_app :
  forall pre (s s1 : State W) rest,
    AllNameless normalizedTicker exchange pre s s1 ->
    resolveSymbolName_from normalizedTicker normalizedMarket exchange (pre ++ rest) s
    = resolveSymbolName_from normalizedTicker normalizedMarket exchange rest s1.
Proof.
  intros pre s s1 rest Hrun.
  induction Hrun as [s | p ps s s1 s2 Hp _ IH
                     | p ps s s1 s2 result Hp Hname _ IH
                     | p ps s s1 s2 e Hp He _ IH];
    [reflexivity | | |];
    cbn [app resolveSymbolName_from]; unfold searchRequest in Hp; rewrite Hp.
  - exact IH.
  - rewrite Hname. exact IH.
  - rewrite He. exact IH.
Qed.
End NameLoop.

Section NameOrder.
Context {W : Type}.

Lemma orderProvidersForNames_In (ps : list (MarketDataProvider W)) (p : MarketDataProvider W) :
  In p (orderProvidersForNames ps) <-> In p ps.
Proof.
  unfold orderProvidersForNames. rewrite !in_app_iff, !filter_In.
  destruct (isTwelveData p), (isStooq p); cbn; intuition discriminate.
Qed.
End NameOrder.

(** X24.  [resolveSymbolName] asks the providers in the order Twelve Data first,
    STOOQ last, each of the given providers once at most.  It answers no
    name without asking anyone when the market is not supported, and the
    cached name when the validation cache has a live row with a name.
    Otherwise, when every provider knows no such symbol, knows it without a
    name or throws a [ProviderError], it answers no name and writes
    nothing: a result without a name is never cached.  When a provider
    knows a name, that name is the answer, it is not empty, and the symbol
    is stored in the validation cache under that provider. *)
Theorem resolveSymbolName_caches_only_names :
  forall (W : Type) (R : Runtime W) (ticker market : string)
         (providers : list (MarketDataProvider W)) (s : State W),
    (forall p, In p (orderProvidersForNames providers) <-> In p providers)
    /\ (getMarketDefinition market = None ->
        resolveSymbolName ticker market providers s = (Normal None, s))
    /\ (forall d,
           getMarketDefinition market = Some d ->
           let normalizedMarket := toUpperCase (code d) in
           let normalizedTicker := normalizeTicker (toUpperCase ticker) normalizedMarket in
           let chain := orderProvidersForNames providers in
           (forall n, cachedNameOf normalizedTicker normalizedMarket s = Some n ->
                      resolveSymbolName ticker market providers s = (Normal (Some n), s))
           /\ (cachedNameOf normalizedTicker normalizedMarket s = None ->
               (forall s',
                   AllNameless normalizedTicker (providerExchange d) chain s s' ->
                   resolveSymbolName ticker market providers s = (Normal None, s')
                   /\ db s' = db s
                   /\ calls s'
                      = calls s
                        ++ map (searchRequest normalizedTicker (providerExchange d)) chain)
               /\ (forall pre p post s1 s2 result n,
                      chain = pre ++ p :: post ->
                      AllNameless normalizedTicker (providerExchange d) pre s s1 ->
                      invoke (searchRequest normalizedTicker (providerExchange d) p)
                             (searchSymbol p {| ssp_ticker := normalizedTicker;
                                                ssp_market := providerExchange d |}) s1
                      = (Normal (Some result), s2) ->
                      truthy (ssr_name result) = Some n ->
                      exists s3,
                        resolveSymbolName ticker market providers s = (Normal (Some n), s3)
                        /\ n <> "" /\ ssr_name result = Some n
                        /\ market_symbols (db s3)
                           = cacheValidation_db (toUpperCase (ssr_ticker result))
                               normalizedMarket (ssr_name result) (ssr_currency result)
                               (ssr_exchange result) (name p) (datetime_now (world s2))
                               (market_symbols (db s))
                        /\ calls s3
                           = calls s
                             ++ map (searchRequest normalizedTicker (providerExchange d))
                                    (pre ++ [p])))).
Proof.
  intros W R ticker market providers s.
  split; [apply orderProvidersForNames_In |]. split.
  { intros Hnone. unfold resolveSymbolName. rewrite Hnone. reflexivity. }
  intros d Hd normalizedMarket normalizedTicker chain.
  assert (Hstart : resolveSymbolName ticker market providers s
            = match cachedNameOf normalizedTicker normalizedMarket s with
              | Some n => (Normal (Some n), s)
              | None =>
                  resolveSymbolName_from normalizedTicker normalizedMarket
                                         (providerExchange d) chain s
              end).
  { unfold resolveSymbolName. rewrite Hd. fold normalizedMarket normalizedTicker chain.
    unfold bind, getCachedValidation, query, cachedNameOf.
    destruct (selectSymbol normalizedTicker normalizedMarket (market_symbols (db s)))
      as [row |]; [| reflexivity].
    destruct (validationExpired (world s) (ms_last_verified_at row)); [reflexivity |].
    destruct (truthy (ms_name row)); reflexivity. }
  split.
  { intros n Hn. rewrite Hstart, Hn. reflexivity. }
  intros Hmiss. rewrite Hstart, Hmiss. split.
  - intros s' Hrun. destruct (AllNameless_trace _ _ _ _ _ Hrun) as [Hdb Hcalls].
    split; [| split; assumption].
    rewrite <- (app_nil_r chain).
    rewrite (resolveSymbolName_from_app _ normalizedMarket _ _ _ _ [] Hrun). reflexivity.
  - intros pre p post s1 s2 result n Hchain Hpre Hp Hname.
    destruct (AllNameless_trace _ _ _ _ _ Hpre) as [Hdb1 Hcalls1].
    pose proof Hp as Hstep. apply invoke_step in Hstep as [Hdb2 Hcalls2].
    destruct (truthy_nonempty _ _ Hname) as [Hsome Hne].
    eexists. split; [| split; [exact Hne | split; [exact Hsome | split]]].
    + rewrite Hchain, (resolveSymbolName_from_app _ normalizedMarket _ _ _ _ _ Hpre).
      cbn [resolveSymbolName_from]. unfold searchRequest in Hp. rewrite Hp, Hname.
      unfold bind, cacheValidation, execute, ret. reflexivity.
    + cbn. rewrite Hdb2, Hdb1. reflexivity.
    + cbn. rewrite Hcalls2, Hcalls1, map_app, <- app_assoc. reflexivity.
Qed.

Lemma resolveSymbolName_caches_only_names_witness :
  resolveSymbolName "aapl" "nasdaq"
                    [Doubles.failing "STOOQ"; knowing "MOCK" None; knowing "TWELVE_DATA" (Some "")]
                    (Doubles.initial emptyDb)
  = (Normal None,
     {| db := emptyDb; world := tt;
        calls := [CallSearchSymbol "TWELVE_DATA"
                    {| ssp_ticker := "AAPL"; ssp_market := "NASDAQ" |};
                  CallSearchSymbol "MOCK"
                    {| ssp_ticker := "AAPL"; ssp_market := "NASDAQ" |};
                  CallSearchSymbol "STOOQ"
                    {| ssp_ticker := "AAPL"; ssp_market := "NASDAQ" |}] |}).
Proof.
  destruct (resolveSymbolName_caches_only_names unit Doubles.fixedRuntime "aapl" "nasdaq"
              [Doubles.failing "STOOQ"; knowing "MOCK" None;
               knowing "TWELVE_DATA" (Some "")]
              (Doubles.initial emptyDb)) as (_ & _ & Hsupported).
  destruct (Hsupported _ eq_refl) as (_ & Hmiss).
  destruct (Hmiss eq_refl) as (Hnameless & _).
  refine (proj1 (Hnameless _ _)).
  eapply AllNameless_unnamed; [reflexivity | reflexivity |].
  eapply AllNameless_unnamed; [reflexivity | reflexivity |].
  eapply AllNameless_error; [reflexivity | reflexivity | constructor].
Defined.


(** X25.  The order in which the providers are asked depends on the market
    alone.  For quotes and history, when at most one provider is named
    STOOQ: on a market STOOQ is preferred for (XWAR, GPW, XLON, XETR) the
    STOOQ provider comes first and the others follow in their given
    order; on the other markets of STOOQ's list the given order is kept; on
    every other market STOOQ is removed and the others keep their order.
    Symbol validation uses the same order without ever removing a
    provider.  Every preferred market is on STOOQ's list. *)
Theorem provider_order_per_market :
  forall (W : Type) (providers : list (MarketDataProvider W)) (market : string),
    stooqOnce providers ->
    let stooqs := filter isStooq providers in
    let others := filter (fun p => negb (isStooq p)) providers in
    filterProvidersForMarket providers market
    = (if setHas preferStooq (toUpperCase market) then stooqs ++ others
       else if stooqServes market then providers else others)
    /\ orderProvidersForMarket providers market
       = (if setHas preferStooq (toUpperCase market) then stooqs ++ others else providers)
    /\ (setHas preferStooq (toUpperCase market) = true -> stooqServes market = true).
Proof.
  intros W providers market _ stooqs others.
  assert (Hsub : setHas preferStooq (toUpperCase market) = true ->
                 stooqServes market = true).
  { unfold stooqServes, setHas, preferStooq, stooqMarkets. cbn [existsb].
    intros Hp.
    repeat (apply orb_true_iff in Hp as [Hp | Hp];
            [apply String.eqb_eq in Hp; rewrite Hp; reflexivity |]).
    discriminate Hp. }
  split; [| split; [| exact Hsub]].
  - unfold filterProvidersForMarket. fold (stooqServes market).
    destruct (stooqServes market) eqn:Hserved.
    + rewrite (filter_all _ providers).
      * destruct (setHas preferStooq (toUpperCase market)); reflexivity.
      * intros p _. now destruct (name p =? STOOQ)%string.
    + assert (Hfiltered : filter (fun provider : MarketDataProvider W =>
                                    if (name provider =? STOOQ)%string then false else true)
                                 providers = others).
      { apply filter_ext. intros p. unfold isStooq.
        now destruct (name p =? STOOQ)%string. }
      rewrite Hfiltered.
      destruct (setHas preferStooq (toUpperCase market)) eqn:Hprefer; [| reflexivity].
      discriminate (Hsub eq_refl).
  - unfold orderProvidersForMarket.
    destruct (setHas preferStooq (toUpperCase market)); reflexivity.
Qed.

Lemma provider_order_per_market_witness :
  map (fun p => name p)
      (filterProvidersForMarket [Doubles.failing "A"; Doubles.failing "STOOQ";
                                 Doubles.failing "B"] "xlon")
  = ["STOOQ"; "A"; "B"]
  /\ stooqServes "xlon" = true.
Proof.
  destruct (provider_order_per_market unit
              [Doubles.failing "A"; Doubles.failing "STOOQ"; Doubles.failing "B"] "xlon"
              ltac:(cbv; lia))
    as (Hfilter & _ & Hsub).
  split; [rewrite Hfilter; reflexivity | exact (Hsub eq_refl)].
Defined.

(* ===================================================================== *)
(** * What the performance series asks of the providers *)
(* ===================================================================== *)

Lemma distinct_In (x : string) (xs : list string) : In x (distinct xs) -> In x xs.
Proof.
  induction xs as [| y xs IH]; [trivial |]. cbn [distinct].
  intros [<- | Hx]; [now left |]. apply filter_In in Hx as [Hx _]. right. now apply IH.
Qed.

Section AskedOnly.
Context {W : Type} {R : Runtime W}.
Variable allowed : ProviderCall -> Prop.

Lemma askedOnly_refl (s : State W) : askedOnly allowed s s.
Proof.
  split; [exists []; split; [now rewrite app_nil_r | constructor] |]. repeat split.
Qed.

Lemma askedOnly_trans (s1 s2 s3 : State W) :
  askedOnly allowed s1 s2 -> askedOnly allowed s2 s3 -> askedOnly allowed s1 s3.
Proof.
  intros [(m1 & Hc1 & Hm1) (Hh1 & Hs1 & Hq1)] [(m2 & Hc2 & Hm2) (Hh2 & Hs2 & Hq2)].
  split; [| repeat split; congruence].
  exists (m1 ++ m2). split; [rewrite Hc2, Hc1; now rewrite app_assoc |].
  apply Forall_app. now split.
Qed.

Lemma askedOnly_chain (request : MarketDataProvider W -> ProviderCall)
      (asked : list (MarketDataProvider W)) (s s' : State W) :
  (forall p, allowed (request p)) ->
  calls s' = calls s ++ map request asked ->
  holdings (db s') = holdings (db s) ->
  market_symbols (db s') = market_symbols (db s) ->
  quote_cache (db s') = quote_cache (db s) ->
  askedOnly allowed s s'.
Proof.
  intros Hall Hcalls Hh Hs Hq. split; [| repeat split; assumption].
  exists (map request asked). split; [exact Hcalls |].
  apply Forall_forall. intros c Hc. apply in_map_iff in Hc as (p & <- & _). apply Hall.
Qed.

Lemma getFxRate_askedOnly base quote providers (s s' : State W) r :
  (forall c, isRateCall c -> allowed c) ->
  getFxRate base quote providers s = (r, s') ->
  askedOnly allowed s s'.
Proof.
  intros Hrate Hrun.
  assert (Hreq : forall p : MarketDataProvider W, allowed (fxRequest base quote p))
    by (intros p; apply Hrate; exact I).
  destruct (String.eqb_spec base quote) as [Heq | Hne].
  { rewrite (getFxRate_same_currency base quote providers s Heq) in Hrun.
    injection Hrun as _ <-. apply askedOnly_refl. }
  destruct (selectCachedFx base quote (datetime_now (world s)) (fx_rates (db s)))
    as [row |] eqn:Hcache.
  { rewrite (getFxRate_fresh base quote providers s row Hne Hcache) in Hrun.
    injection Hrun as _ <-. apply askedOnly_refl. }
  destruct (fetch_from_cases (fxTask base quote) (fxChain providers) s None)
    as [(s1 & e & Hall) | (pre & p & post & s1 & e & result & s2 & Hchain & Hpre & Hp)].
  - rewrite (getFxRate_exhausted base quote providers s s1 e Hne Hcache Hall) in Hrun.
    destruct (fxTask_trace _ _ _ _ _ _ _ Hall) as [Hdb Hcalls].
    assert (Hs : s' = s1).
    { destruct (selectStaleFx base quote _); injection Hrun as _ <-; reflexivity. }
    subst s'. apply (askedOnly_chain _ _ _ _ Hreq Hcalls); now rewrite Hdb.
  - destruct (getFxRate_fetched base quote providers s s1 s2 pre p post e result
                Hne Hcache Hchain Hpre Hp) as (Hfetched & Hdb & Hcalls).
    cbv zeta in Hfetched. rewrite Hfetched in Hrun.
    assert (Hs : s' = s2
                 \/ exists d, s' = {| db := withFxRates d (db s); world := world s2;
                                      calls := calls s2 |}).
    { destruct (sqlReal (err_rate result));
        [destruct (datetime_now_modified (world s2) _) |];
        try (injection Hrun as _ <-; right; eauto);
        destruct (selectStaleFx base quote _); injection Hrun as _ <-; now left. }
    destruct Hs as [-> | (d & ->)];
      apply (askedOnly_chain (fxRequest base quote) (pre ++ [p]));
      try exact Hreq; try exact Hcalls; try reflexivity; now rewrite Hdb.
Qed.

Lemma getHistory_askedOnly ticker market from to interval providers forceRefresh
      (s s' : State W) r :
  (forall c, isHistoryCall c -> allowed c) ->
  getHistory ticker market from to interval providers forceRefresh s = (r, s') ->
  askedOnly allowed s s'.
Proof.
  intros Hhist Hrun.
  assert (Hreq : forall p : MarketDataProvider W,
             allowed (historyRequest ticker market from to interval p))
    by (intros p; apply Hhist; exact I).
  unfold getHistory, bind at 1 in Hrun.
  destruct ((if forceRefresh then ret None
             else getCachedHistory ticker market interval from to) s)
    as [cached s0] eqn:Hcached.
  assert (Hs0 : s0 = s /\ exists c, cached = Normal c).
  { destruct forceRefresh; [injection Hcached as <- <-; eauto |].
    unfold getCachedHistory, query in Hcached. injection Hcached as <- <-. eauto. }
  destruct Hs0 as [-> (c & ->)].
  destruct c as [rows |].
  { injection Hrun as _ <-. apply askedOnly_refl. }
  unfold bind at 1, fetchWithProviders in Hrun.
  destruct (fetch_from_cases (historyTask ticker (resolveExchange market) from to interval)
              (filterProvidersForMarket providers market) s None)
    as [(s1 & e & Hall) | (pre & p & post & s1 & e & result & s2 & Hchain & Hpre & Hp)].
  - rewrite (fetch_from_exhausted _ _ _ _ _ _ Hall) in Hrun. injection Hrun as _ <-.
    destruct (AllThrow_historyTask ticker (resolveExchange market) from to interval
                _ _ _ _ _ Hall) as [Hdb Hcalls].
    apply (askedOnly_chain (historyRequest ticker market from to interval)
             (filterProvidersForMarket providers market)); try exact Hreq; try exact Hcalls;
      now rewrite Hdb.
  - destruct (AllThrow_historyTask ticker (resolveExchange market) from to interval
                _ _ _ _ _ Hpre) as [Hdb1 Hcalls1].
    destruct (historyTask_step ticker (resolveExchange market) from to interval
                p s1 s2 _ Hp) as [Hdb2 Hcalls2].
    rewrite Hchain, (fetch_from_first_success _ _ _ _ _ _ _ post _ _ Hpre Hp) in Hrun.
    assert (Hcalls : calls s2 = calls s
                                ++ map (historyRequest ticker market from to interval)
                                       (pre ++ [p]))
      by (rewrite Hcalls2, Hcalls1, map_app, <- app_assoc; reflexivity).
    unfold bind, cacheHistoryRows, executeOrThrow, getCachedHistory, query, ret in Hrun.
    destruct (cacheHistoryRows_db ticker market interval result (name p)
                                  (datetime_now (world s2)) (price_history (db s2)));
      injection Hrun as _ <-;
      apply (askedOnly_chain (historyRequest ticker market from to interval) (pre ++ [p]));
      cbn [db calls holdings market_symbols quote_cache withPriceHistory];
      try exact Hreq; try exact Hcalls; now rewrite Hdb2, Hdb1.
Qed.
End AskedOnly.


Section SeriesCalls.
Context {W : Type} {R : Runtime W}.
Variable allowed : ProviderCall -> Prop.
Variables (normalizedBase : string) (providers : list (MarketDataProvider W)).
Hypothesis history_allowed : forall c, isHistoryCall c -> allowed c.

Lemma resolveRate_askedOnly rateCache cur (s s' : State W) r :
  rateAskable allowed normalizedBase cur ->
  resolveRate normalizedBase providers rateCache cur s = (r, s') ->
  askedOnly allowed s s'.
Proof.
  intros Hask Hrun. unfold resolveRate in Hrun.
  destruct (String.eqb_spec (toUpperCase cur) normalizedBase) as [Heq | Hne].
  { injection Hrun as _ <-. apply askedOnly_refl. }
  destruct (mapGet String.eqb (toUpperCase cur) rateCache).
  { injection Hrun as _ <-. apply askedOnly_refl. }
  destruct Hask as [Hrate | Hbase]; [| contradiction].
  unfold bind in Hrun.
  destruct (getFxRate (toUpperCase cur) normalizedBase providers s) as [c s1] eqn:Hfx.
  pose proof (getFxRate_askedOnly allowed _ _ _ _ _ _ Hrate Hfx) as Hstep.
  destruct c; injection Hrun as _ <-; exact Hstep.
Qed.

Lemma resolveRates_askedOnly :
  forall currencies rateCache (s s' : State W) r,
    (forall cur, In cur currencies -> rateAskable allowed normalizedBase cur) ->
    resolveRates normalizedBase providers rateCache currencies s = (r, s') ->
    askedOnly allowed s s'.
Proof.
  induction currencies as [| cur currencies IH]; intros rateCache s s' r Hask Hrun.
  - injection Hrun as _ <-. apply askedOnly_refl.
  - cbn [resolveRates] in Hrun. unfold bind in Hrun.
    destruct (resolveRate normalizedBase providers rateCache cur s) as [c s1] eqn:Hone.
    pose proof (resolveRate_askedOnly _ _ _ _ _ (Hask cur (or_introl eq_refl)) Hone)
      as Hstep.
    destruct c as [[rate rateCache1] | e].
    + eapply askedOnly_trans; [exact Hstep |].
      eapply IH; [| exact Hrun]. intros c Hc. apply Hask. now right.
    + injection Hrun as _ <-. exact Hstep.
Qed.

Lemma holdingHistory_askedOnly forceRefresh startDate endDate rateCache holding
      (s s' : State W) r :
  rateAskable allowed normalizedBase (marketCurrencyOf (h_market holding)) ->
  holdingHistory normalizedBase providers forceRefresh startDate endDate rateCache holding s
  = (r, s') ->
  askedOnly allowed s s'.
Proof.
  intros Hask Hrun. unfold holdingHistory, bind at 1 in Hrun.
  destruct (resolveRate normalizedBase providers rateCache
              (marketCurrencyOf (h_market holding)) s) as [c s1] eqn:Hone.
  pose proof (resolveRate_askedOnly _ _ _ _ _ Hask Hone) as Hstep.
  destruct c as [[rate rateCache1] | e]; [| injection Hrun as _ <-; exact Hstep].
  unfold tryCatch, bind in Hrun.
  destruct (getHistory (h_ticker holding) (h_market holding) startDate endDate "1d"
                       providers forceRefresh s1) as [c s2] eqn:Hhist.
  pose proof (getHistory_askedOnly allowed _ _ _ _ _ _ _ _ _ _ history_allowed Hhist)
    as Hstep2.
  eapply askedOnly_trans; [exact Hstep |].
  destruct c; injection Hrun as _ <-; exact Hstep2.
Qed.

Lemma collectHistories_askedOnly forceRefresh startDate endDate :
  forall hs rateCache historyMap (s s' : State W) r,
    (forall h, In h hs -> rateAskable allowed normalizedBase (marketCurrencyOf (h_market h))) ->
    collectHistories normalizedBase providers forceRefresh startDate endDate rateCache
                     historyMap hs s = (r, s') ->
    askedOnly allowed s s'.
Proof.
  induction hs as [| h hs IH]; intros rateCache historyMap s s' r Hask Hrun.
  - injection Hrun as _ <-. apply askedOnly_refl.
  - cbn [collectHistories] in Hrun. unfold bind in Hrun.
    destruct (holdingHistory normalizedBase providers forceRefresh startDate endDate
                             rateCache h s) as [c s1] eqn:Hone.
    pose proof (holdingHistory_askedOnly _ _ _ _ _ _ _ _ (Hask h (or_introl eq_refl)) Hone)
      as Hstep.
    destruct c as [[priceByDate rateCache1] | e].
    + eapply askedOnly_trans; [exact Hstep |].
      eapply IH; [| exact Hrun]. intros h' Hh'. apply Hask. now right.
    + injection Hrun as _ <-. exact Hstep.
Qed.
End SeriesCalls.

Section SeriesCallsTop.
Context {W : Type} {R : Runtime W}.

Lemma normalizeDate_state (date : string) (s s' : State W) r :
  normalizeDate date s = (r, s') -> s' = s.
Proof.
  unfold normalizeDate. destruct (Date_parse date); intros E; now injection E as _ <-.
Qed.

Lemma getPerformanceSeries_askedOnly (allowed : ProviderCall -> Prop)
      portfolioId from to providers baseCurrency forceRefresh (s s' : State W) r :
  (forall c, isHistoryCall c -> allowed c) ->
  (forall h, In h (listHoldings_db portfolioId (db s)) ->
             rateAskable allowed (toUpperCase baseCurrency) (marketCurrencyOf (h_market h))) ->
  getPerformanceSeries portfolioId from to providers baseCurrency forceRefresh s = (r, s') ->
  askedOnly allowed s s'.
Proof.
  intros Hhist Hask Hrun.
  unfold getPerformanceSeries, bind at 1, listHoldings, query in Hrun.
  destruct (listHoldings_db portfolioId (db s)) as [| first rest] eqn:Hhs.
  { injection Hrun as _ <-. apply askedOnly_refl. }
  unfold bind at 1 in Hrun.
  destruct (normalizeDate _ s) as [c1 s1] eqn:H1 in Hrun.
  apply normalizeDate_state in H1 as ->.
  destruct c1 as [startDate | e]; [| injection Hrun as _ <-; apply askedOnly_refl].
  unfold bind at 1, gets in Hrun. unfold bind at 1 in Hrun.
  destruct (normalizeDate _ s) as [c2 s2] eqn:H2 in Hrun.
  apply normalizeDate_state in H2 as ->.
  destruct c2 as [endDate | e]; [| injection Hrun as _ <-; apply askedOnly_refl].
  unfold bind at 1 in Hrun.
  destruct (resolveRates _ _ _ _ s) as [c3 s3] eqn:H3 in Hrun.
  assert (Hstep3 : askedOnly allowed s s3).
  { eapply resolveRates_askedOnly; [| exact H3].
    intros cur Hcur. apply distinct_In in Hcur.
    apply in_map_iff in Hcur as (h & <- & Hh). now apply Hask. }
  destruct c3 as [rateCache | e]; [| injection Hrun as _ <-; exact Hstep3].
  unfold bind at 1 in Hrun.
  destruct (collectHistories _ _ _ _ _ _ _ _ s3) as [c4 s4] eqn:H4 in Hrun.
  assert (Hstep4 : askedOnly allowed s3 s4).
  { eapply collectHistories_askedOnly; [exact Hhist | | exact H4]. exact Hask. }
  eapply askedOnly_trans; [exact Hstep3 |].
  destruct c4 as [[historyMap rateCache'] | e]; injection Hrun as _ <-; exact Hstep4.
Qed.
End SeriesCallsTop.

(** X26.  Whatever its outcome, [getPerformanceSeries] asks the providers for
    price history and exchange rates only, never for a quote or a symbol
    search, and it writes neither the holdings nor the symbol and quote
    caches.  When the currency of every holding's market is the base
    currency it asks for no exchange rate either. *)
Theorem getPerformanceSeries_asks_history_and_rates_only :
  forall (W : Type) (R : Runtime W) (portfolioId : Z) (from to : option string)
         (providers : list (MarketDataProvider W)) (baseCurrency : string)
         (forceRefresh : bool) (s s' : State W) (r : Completion PerformanceSeries),
    getPerformanceSeries portfolioId from to providers baseCurrency forceRefresh s
    = (r, s') ->
    askedOnly (fun c => isHistoryCall c \/ isRateCall c) s s'
    /\ ((forall h, In h (listHoldings_db portfolioId (db s)) ->
                   marketCurrencyOf (h_market h) = toUpperCase baseCurrency) ->
        askedOnly isHistoryCall s s').
Proof.
  intros W R portfolioId from to providers baseCurrency forceRefresh s s' r Hrun. split.
  - eapply getPerformanceSeries_askedOnly; [| | exact Hrun].
    + intros c Hc. now left.
    + intros h _. left. intros c Hc. now right.
  - intros Hbase. eapply getPerformanceSeries_askedOnly; [| | exact Hrun].
    + intros c Hc. exact Hc.
    + intros h Hh. right. rewrite marketCurrencyOf_upper. now apply Hbase.
Qed.

Lemma getPerformanceSeries_asks_history_and_rates_only_witness :
  askedOnly isHistoryCall teslaPortfolio
            (snd (getPerformanceSeries 1 (Some "2024-01-01") (Some "2024-01-02")
                                       [teslaFeed] "usd" false teslaPortfolio))
  /\ calls (snd (getPerformanceSeries 1 (Some "2024-01-01") (Some "2024-01-02")
                                      [teslaFeed] "usd" false teslaPortfolio))
     = [CallGetHistory "MOCK"
          {| hpar_ticker := "TSLA"; hpar_market := "NASDAQ"; hpar_from := "2024-01-01";
             hpar_to := "2024-01-02"; hpar_interval := "1d" |}].
Proof.
  split; [| vm_compute; reflexivity].
  refine (proj2 (getPerformanceSeries_asks_history_and_rates_only unit Doubles.fixedRuntime
                   1 (Some "2024-01-01") (Some "2024-01-02") [teslaFeed] "usd" false
                   teslaPortfolio _ _ _) _).
  - apply surjective_pairing.
  - intros h [<- | []]. reflexivity.
Defined.

